(** * SmartTaskPlanner: the plan synthesis and scheduling pipeline

    A shallow embedding of [backend/llm_service.py]: response repair,
    task validation and effort estimation, long-task splitting, calendar
    scheduling and the timeframe compliance checks, followed by the
    properties of the pipeline that the specification states.

    Conventions of the embedding.
    - A Python value is a [pyval]; a task is a [dict] from field names to
      values, as in the source, and every function that can raise returns
      a [result].
    - Python floats are modelled by exact rationals ([Q]): rounding error,
      infinities and NaN are outside the model, and so is the
      [OverflowError] of a number that leaves the range of a float.
      [round(x, 1)] is round-half-even on the exact value.
    - A [datetime] is the number of microseconds since 0001-01-01T00:00
      (a Monday); the text that [isoformat] writes into a task is kept as
      [PTime t], the instant that [fromisoformat] reads back from it.
      The calendar ends with 9999-12-31: the working calendar raises
      [OverflowError] where it steps to a day after it.
    - The recursion limit of the interpreter is outside the model: the
      decoder of JSON reads values of any nesting.
    - Text is ASCII: [lower] and the whitespace class are the ASCII ones. *)

From Stdlib Require Import ZArith QArith Qround Qabs String Ascii List Lia.
From Stdlib Require Import DecimalString DecimalPos Lqa Sorted Permutation.
From stdpp Require Import base option gmap strings list fin_maps.

Local Open Scope string_scope.
Local Open Scope Z_scope.

(** ** Python values *)

#[warnings="-register-all"]
Inductive pyval : Type :=
| PNone
| PBool (b : bool)
| PInt (n : Z)
| PFloat (x : Q)
| PStr (s : string)
| PList (l : list pyval)
| PDict (d : list (string * pyval))
| PTime (t : Z).

Abbreviation dict := (gmap string pyval).

Inductive violation : Type := too_much_work | too_little_work.

Inductive exn : Type :=
| TypeError
| ValueError
| KeyError
| AttributeError
| IndexError
| ZeroDivisionError
| OverflowError
| OutOfRounds
| LLMGenerationError (kind : violation) (total available : Q).

Inductive result (A : Type) : Type :=
| Ok (a : A)
| Raise (e : exn).
Arguments Ok {A} a.
Arguments Raise {A} e.

#[export] Instance result_ret : MRet result := fun A a => Ok a.
#[export] Instance result_bind : MBind result := fun A B f m =>
  match m with
  | Ok a => f a
  | Raise e => Raise e
  end.

#[export] Instance result_fmap : FMap result := fun A B f m =>
  match m with
  | Ok a => Ok (f a)
  | Raise e => Raise e
  end.

Definition is_ok {A} (r : result A) : bool :=
  match r with Ok _ => true | Raise _ => false end.

(** The value of a result, [d] when it is an exception. *)
Definition ok_or {A} (d : A) (r : result A) : A :=
  match r with Ok a => a | Raise _ => d end.

(** ** Text *)

Definition string_of_Z (n : Z) : string := NilZero.string_of_int (Z.to_int n).

Definition lower_ascii (c : ascii) : ascii :=
  let n := nat_of_ascii c in
  if ((65 <=? n) && (n <=? 90))%nat then ascii_of_nat (n + 32) else c.

Fixpoint lower (s : string) : string :=
  match s with
  | EmptyString => EmptyString
  | String c s' => String (lower_ascii c) (lower s')
  end.

Fixpoint starts_with (p s : string) : bool :=
  match p, s with
  | EmptyString, _ => true
  | String a p', String b s' => if Ascii.eqb a b then starts_with p' s' else false
  | String _ _, EmptyString => false
  end.

(** [needle in hay] on strings. *)
Fixpoint contains (needle hay : string) : bool :=
  starts_with needle hay ||
  match hay with
  | EmptyString => false
  | String _ hay' => contains needle hay'
  end.

(** [any(word in text for word in words)] *)
Definition any_in (words : list string) (text : string) : bool :=
  existsb (fun w => contains w text) words.

Definition is_space (c : ascii) : bool :=
  let n := nat_of_ascii c in
  ((n =? 32) || ((9 <=? n) && (n <=? 13)) || ((28 <=? n) && (n <=? 31)))%nat.

Definition is_digit (c : ascii) : bool :=
  let n := nat_of_ascii c in ((48 <=? n) && (n <=? 57))%nat.

Definition digit_val (c : ascii) : Z := Z.of_nat (nat_of_ascii c) - 48.

Fixpoint chars (s : string) : list ascii :=
  match s with
  | EmptyString => []
  | String c s' => c :: chars s'
  end.

Fixpoint text (l : list ascii) : string :=
  match l with
  | [] => EmptyString
  | c :: l' => String c (text l')
  end.

(** ** Numbers *)

Definition Qltb (x y : Q) : bool := negb (Qle_bool y x).

Definition Qmaxb (x y : Q) : Q := if Qltb x y then y else x.
Definition Qminb (x y : Q) : Q := if Qltb y x then y else x.

(** [round(q)]: to the nearest integer, ties to the even one. *)
Definition round_half_even (q : Q) : Z :=
  let f := Qfloor q in
  let r := (q - inject_Z f)%Q in
  if Qltb r (1 # 2) then f
  else if Qltb (1 # 2) r then f + 1
  else if Z.even f then f else f + 1.

(** [round(q, 1)] *)
Definition round1 (q : Q) : Q := Qred (Qmake (round_half_even (q * 10)) 10).

(** ** Dates and times

    A [datetime] value is a count of microseconds from 0001-01-01T00:00:00,
    which is a Monday, so [weekday] is the day count modulo 7. *)

Definition us_per_hour : Z := 3600000000.
Definition us_per_day : Z := 24 * us_per_hour.

Definition day_of (t : Z) : Z := t / us_per_day.
Definition time_of_day (t : Z) : Z := t mod us_per_day.

(** [dt.weekday()]: Monday is 0, Saturday 5, Sunday 6. *)
Definition weekday (t : Z) : Z := day_of t mod 7.

(** [dt.replace(hour=9, minute=0, second=0, microsecond=0)] *)
Definition replace_9am (t : Z) : Z := day_of t * us_per_day + 9 * us_per_hour.

(** [timedelta(hours=h)], rounded to the microsecond as [timedelta] does. *)
Definition timedelta_hours (h : Q) : Z := round_half_even (h * inject_Z us_per_hour).

(** Days from 0001-01-01 to the civil date [y]-[m]-[d]. *)
Definition days_from_civil (y m d : Z) : Z :=
  let y' := if m <=? 2 then y - 1 else y in
  let era := y' / 400 in
  let yoe := y' - era * 400 in
  let mp := if m <=? 2 then m + 9 else m - 3 in
  let doy := (153 * mp + 2) / 5 + d - 1 in
  let doe := yoe * 365 + yoe / 4 - yoe / 100 + doy in
  era * 146097 + doe - 306.

Definition civil_from_days (n : Z) : Z * Z * Z :=
  let z := n + 306 in
  let era := z / 146097 in
  let doe := z - era * 146097 in
  let yoe := (doe - doe / 1460 + doe / 36524 - doe / 146096) / 365 in
  let doy := doe - (365 * yoe + yoe / 4 - yoe / 100) in
  let mp := (5 * doy + 2) / 153 in
  let d := doy - (153 * mp + 2) / 5 + 1 in
  let m := if mp <? 10 then mp + 3 else mp - 9 in
  let y := yoe + era * 400 + (if m <=? 2 then 1 else 0) in
  (y, m, d).

(** [datetime(y, m, d, hh, mm)] *)
Definition datetime (y m d hh mm : Z) : Z :=
  days_from_civil y m d * us_per_day + hh * us_per_hour + mm * 60000000.

Definition pad (width : nat) (n : Z) : string :=
  let s := string_of_Z n in
  text (repeat "0"%char (width - String.length s)) +:+ s.

(** [dt.isoformat()] *)
Definition isoformat (t : Z) : string :=
  let '(y, m, d) := civil_from_days (day_of t) in
  let r := time_of_day t in
  let us := r mod 1000000 in
  let secs := r / 1000000 in
  pad 4 y +:+ "-" +:+ pad 2 m +:+ "-" +:+ pad 2 d +:+ "T" +:+
  pad 2 (secs / 3600) +:+ ":" +:+ pad 2 (secs / 60 mod 60) +:+ ":" +:+ pad 2 (secs mod 60) +:+
  (if us =? 0 then "" else "." +:+ pad 6 us).

(** ** Python operations on values *)

(** A float value; the rational is stored in lowest terms, so that equal
    floats are equal values. *)
Definition pfloat (x : Q) : pyval := PFloat (Qred x).

(** [bool(v)] *)
Definition truthy (v : pyval) : bool :=
  match v with
  | PNone => false
  | PBool b => b
  | PInt n => negb (n =? 0)
  | PFloat x => negb (Qeq_bool x 0)
  | PStr s => negb (String.eqb s "")
  | PList l => match l with [] => false | _ => true end
  | PDict d => match d with [] => false | _ => true end
  | PTime _ => true
  end.

(** [isinstance(v, str)], with the text. *)
Definition as_str (v : pyval) : option string :=
  match v with
  | PStr s => Some s
  | PTime t => Some (isoformat t)
  | _ => None
  end.

(** [isinstance(v, int)], with the number; [bool] is a subclass of [int]. *)
Definition as_int (v : pyval) : option Z :=
  match v with
  | PInt n => Some n
  | PBool b => Some (if b then 1 else 0)
  | _ => None
  end.

(** [v in words] for a list of string literals. *)
Definition in_strs (v : pyval) (words : list string) : bool :=
  match as_str v with
  | Some s => existsb (String.eqb s) words
  | None => false
  end.

(** [task[k]] *)
Definition getitem (task : dict) (k : string) : result pyval :=
  match task !! k with
  | Some v => Ok v
  | None => Raise KeyError
  end.

(** [v <= 0]; for NaN, which is outside the model, the comparison of the
    code is false. *)
Definition le_zero (v : pyval) : result bool :=
  match v with
  | PBool b => Ok (negb b)
  | PInt n => Ok (n <=? 0)
  | PFloat x => Ok (Qle_bool x 0)
  | _ => Raise TypeError
  end.

(** [round(v, 1)]: an [int] stays an [int]. *)
Definition py_round1 (v : pyval) : result pyval :=
  match v with
  | PBool b => Ok (PInt (if b then 1 else 0))
  | PInt n => Ok (PInt n)
  | PFloat x => Ok (pfloat (round1 x))
  | _ => Raise TypeError
  end.

(** [for x in v]: the elements a [for] loop sees. *)
Definition py_iter (v : pyval) : result (list pyval) :=
  match v with
  | PList l => Ok l
  | PDict d => Ok (map (fun kv => PStr (fst kv)) d)
  | PStr s => Ok (map (fun c => PStr (String c EmptyString)) (chars s))
  | PTime t => Ok (map (fun c => PStr (String c EmptyString)) (chars (isoformat t)))
  | _ => Raise TypeError
  end.

(** [v.lower()] *)
Definition py_lower (v : pyval) : result string :=
  match as_str v with
  | Some s => Ok (lower s)
  | None => Raise AttributeError
  end.

(** *** Reading decimal numbers: [float(s)] and [int(s)] *)

Fixpoint span (p : ascii -> bool) (l : list ascii) : list ascii * list ascii :=
  match l with
  | [] => ([], [])
  | c :: l' => if p c then let '(a, b) := span p l' in (c :: a, b) else ([], l)
  end.

Definition lstrip (l : list ascii) : list ascii := snd (span is_space l).
Definition strip (l : list ascii) : list ascii := rev (lstrip (rev (lstrip l))).

Definition digits_val (l : list ascii) : Z :=
  fold_left (fun acc c => acc * 10 + digit_val c) l 0.

Definition read_sign (l : list ascii) : Z * list ascii :=
  match l with
  | "-"%char :: r => (-1, r)
  | "+"%char :: r => (1, r)
  | _ => (1, l)
  end.

Definition read_exponent (l : list ascii) : option Z :=
  match l with
  | [] => Some 0
  | c :: r =>
      if (Ascii.eqb c "e" || Ascii.eqb c "E")%bool then
        let '(sg, r1) := read_sign r in
        let '(ds, r2) := span is_digit r1 in
        match ds, r2 with
        | _ :: _, [] => Some (sg * digits_val ds)
        | _, _ => None
        end
      else None
  end.

(** [float(s)] for decimal text: optional sign, digits with an optional
    fraction, optional exponent.  [None] stands for [ValueError]. *)
Definition py_float_of_str (s : string) : option Q :=
  let '(sg, r) := read_sign (strip (chars s)) in
  let '(ip, r1) := span is_digit r in
  let '(fp, r2) := match r1 with
                   | "."%char :: r' => span is_digit r'
                   | _ => ([], r1)
                   end in
  match (ip ++ fp)%list with
  | [] => None
  | ds =>
      e ← read_exponent r2;
      Some (inject_Z (sg * digits_val ds) * Qpower (10 # 1) (e - Z.of_nat (length fp)))%Q
  end.

(** [int(s)] for decimal text: optional sign and digits. *)
Definition py_int_of_str (s : string) : option Z :=
  let '(sg, r) := read_sign (strip (chars s)) in
  let '(ds, r1) := span is_digit r in
  match ds, r1 with
  | _ :: _, [] => Some (sg * digits_val ds)
  | _, _ => None
  end.

(** [float(v)] *)
Definition py_float (v : pyval) : result Q :=
  match v with
  | PBool b => Ok (if b then 1 else 0)%Q
  | PInt n => Ok (inject_Z n)
  | PFloat x => Ok x
  | PStr _ | PTime _ =>
      match as_str v ≫= py_float_of_str with
      | Some x => Ok x
      | None => Raise ValueError
      end
  | _ => Raise TypeError
  end.

(** The number behind a numeric value, for arithmetic such as [sum]. *)
Definition as_number (v : pyval) : result Q :=
  match v with
  | PBool b => Ok (if b then 1 else 0)%Q
  | PInt n => Ok (inject_Z n)
  | PFloat x => Ok x
  | _ => Raise TypeError
  end.

(** *** Formatting: what an f-string writes for a value *)

Fixpoint frac_digits (fuel : nat) (num den : Z) : string :=
  match fuel with
  | O => ""
  | S fuel' =>
      if num =? 0 then ""
      else string_of_Z (num * 10 / den) +:+ frac_digits fuel' (num * 10 mod den) den
  end.

(** The decimal text of a float; exact where the expansion ends within 17
    digits, cut there otherwise. *)
Definition float_repr (x : Q) : string :=
  let n := Z.abs (Qnum x) in
  let d := Z.pos (Qden x) in
  let fr := frac_digits 17 (n mod d) d in
  (if Qnum x <? 0 then "-" else "") +:+ string_of_Z (n / d) +:+ "." +:+
  (if String.eqb fr "" then "0" else fr).

Definition join (sep : string) (l : list string) : string :=
  match l with
  | [] => ""
  | s :: l' => fold_left (fun acc t => acc +:+ sep +:+ t) l' s
  end.

Fixpoint py_repr (v : pyval) : string :=
  match v with
  | PNone => "None"
  | PBool b => if b then "True" else "False"
  | PInt n => string_of_Z n
  | PFloat x => float_repr x
  | PStr s => "'" +:+ s +:+ "'"
  | PList l => "[" +:+ join ", " (map py_repr l) +:+ "]"
  | PDict d => "{" +:+ join ", " (map (fun kv => "'" +:+ fst kv +:+ "': " +:+ py_repr (snd kv)) d) +:+ "}"
  | PTime t => "'" +:+ isoformat t +:+ "'"
  end.

(** [str(v)], the text [f"{v}"] inserts. *)
Definition py_str (v : pyval) : string :=
  match as_str v with
  | Some s => s
  | None => py_repr v
  end.

(** ** Keyword classifiers *)

Definition detect_task_type (title description : string) : string :=
  let combined := lower (title +:+ " " +:+ description) in
  if any_in ["research"; "analyze"; "study"; "investigate"; "explore"; "survey"; "market research"] combined
  then "research"
  else if any_in ["design"; "architecture"; "plan"; "wireframe"; "mockup"; "prototype"; "blueprint"] combined
  then "design"
  else if any_in ["implement"; "build"; "create"; "develop"; "code"; "program"; "construct"] combined
  then "implementation"
  else if any_in ["test"; "testing"; "qa"; "quality"; "debug"; "verify"; "validate"] combined
  then "testing"
  else if any_in ["deploy"; "deployment"; "release"; "publish"; "launch"; "production"; "host"] combined
  then "deployment"
  else if any_in ["document"; "documentation"; "write"; "manual"; "guide"; "tutorial"; "readme"] combined
  then "documentation"
  else "implementation".

Definition detect_complexity_level (title description : string) : string :=
  let combined := lower (title +:+ " " +:+ description) in
  if any_in ["ai"; "machine learning"; "blockchain"; "distributed"; "microservices"; "scalable";
             "enterprise"; "security audit"] combined
  then "expert"
  else if any_in ["api"; "integration"; "database"; "authentication"; "payment"; "third-party";
                  "framework"; "architecture"; "system"] combined
  then "complex"
  else if any_in ["setup"; "configure"; "install"; "basic"; "simple"; "update"; "fix"; "bug"; "small"] combined
  then "simple"
  else "moderate".

Definition priorities : list string := ["high"; "medium"; "low"].
Definition complexity_levels : list string := ["simple"; "moderate"; "complex"; "expert"].
Definition task_types : list string :=
  ["research"; "design"; "implementation"; "testing"; "deployment"; "documentation"].

(** ** Validation: [validate_and_fix_tasks] *)

(** ["k" not in task or not task["k"]] *)
Definition missing_or_falsy (task : dict) (k : string) : bool :=
  match task !! k with
  | None => true
  | Some v => negb (truthy v)
  end.

(** ["k" not in task or task["k"] not in words] *)
Definition missing_or_not_in (task : dict) (k : string) (words : list string) : bool :=
  match task !! k with
  | None => true
  | Some v => negb (in_strs v words)
  end.

(** [isinstance(dep, int) and 0 <= dep < i] *)
Definition valid_dep (i : nat) (dep : pyval) : bool :=
  match as_int dep with
  | Some n => (0 <=? n) && (n <? Z.of_nat i)
  | None => false
  end.

(** Fix 1: the title. *)
Definition fix_title (i : nat) (task : dict) : dict :=
  if missing_or_falsy task "title"
  then <["title" := PStr ("Task " +:+ string_of_Z (Z.of_nat i + 1))]> task
  else task.

(** Fix 2: the description. *)
Definition fix_description (task : dict) : dict :=
  if missing_or_falsy task "description"
  then <["description" := PStr "No description provided"]> task
  else task.

(** Fixes 3, 4 and 4b: the hours. *)
Definition fix_hours (task : dict) : result dict :=
  bad ← match task !! "estimated_hours" with
        | None => Ok true
        | Some v => le_zero v
        end;
  let task := if bad : bool then <["estimated_hours" := pfloat 4]> task else task in
  h ← getitem task "estimated_hours";
  let task := match as_str h with
              | Some s => <["estimated_hours" := pfloat (default 4%Q (py_float_of_str s))]> task
              | None => task
              end in
  h ← getitem task "estimated_hours";
  r ← py_round1 h;
  Ok (<["estimated_hours" := r]> task).

(** Fix 5: the priority. *)
Definition fix_priority (task : dict) : dict :=
  if missing_or_not_in task "priority" priorities
  then <["priority" := PStr "medium"]> task
  else task.

(** Fix 6: the complexity level. *)
Definition fix_complexity_level (task : dict) : result dict :=
  if missing_or_not_in task "complexity_level" complexity_levels then
    title ← getitem task "title";
    description ← getitem task "description";
    Ok (<["complexity_level" :=
            PStr (detect_complexity_level (py_str title) (py_str description))]> task)
  else Ok task.

(** Fix 7: the task type. *)
Definition fix_task_type (task : dict) : result dict :=
  if missing_or_not_in task "task_type" task_types then
    title ← getitem task "title";
    description ← getitem task "description";
    Ok (<["task_type" := PStr (detect_task_type (py_str title) (py_str description))]> task)
  else Ok task.

(** Fix 8: the dependencies. *)
Definition fix_dependencies (i : nat) (task : dict) : result dict :=
  match task !! "dependencies" with
  | None => Ok (<["dependencies" := PList []]> task)
  | Some deps =>
      ds ← py_iter deps;
      Ok (<["dependencies" := PList (List.filter (valid_dep i) ds)]> task)
  end.

(** The body of the loop over [enumerate(tasks)]. *)
Definition fix_task (i : nat) (task : dict) : result dict :=
  task ← fix_hours (fix_description (fix_title i task));
  task ← fix_complexity_level (fix_priority task);
  task ← fix_task_type task;
  fix_dependencies i task.

Fixpoint fix_tasks_from (i : nat) (tasks : list dict) : result (list dict) :=
  match tasks with
  | [] => Ok []
  | task :: rest =>
      t ← fix_task i task;
      ts ← fix_tasks_from (S i) rest;
      Ok (t :: ts)
  end.

(** [task["priority"] == p] *)
Definition has_priority (p : string) (task : dict) : bool :=
  match task !! "priority" with
  | Some v => in_strs v [p]
  | None => false
  end.

(** [[i for i, task in enumerate(tasks) if task["priority"] == p]] *)
Definition indices_with_priority (p : string) (tasks : list dict) : list nat :=
  map fst (List.filter (fun it => has_priority p (snd it)) (imap pair tasks)).

Definition set_priority (p : string) (i : nat) (tasks : list dict) : list dict :=
  alter (<["priority" := PStr p]>) i tasks.

(** [l[-2:]] *)
Definition last_two {A} (l : list A) : list A := drop (length l - 2) l.

Definition polish_keywords : list string :=
  ["test"; "document"; "polish"; "optimize"; "cleanup"].

(** The loop over [medium_tasks[-2:]]. *)
Fixpoint demote_to_low (idxs : list nat) (tasks : list dict) : result (list dict) :=
  match idxs with
  | [] => Ok tasks
  | i :: rest =>
      match tasks !! i with
      | None => Raise IndexError
      | Some task =>
          title ← getitem task "title";
          t ← py_lower title;
          demote_to_low rest
            (if any_in polish_keywords t then set_priority "low" i tasks else tasks)
      end
  end.

(** [(count / total) * 100] *)
Definition percentage (count total : nat) : Q :=
  (inject_Z (Z.of_nat count) / inject_Z (Z.of_nat total) * 100)%Q.

(** The plan-level pass over the priorities. *)
Definition fix_priority_distribution (fixed_tasks : list dict) : result (list dict) :=
  let total_tasks := length fixed_tasks in
  if (0 <? total_tasks)%nat then
    let high_percentage :=
      percentage (length (indices_with_priority "high" fixed_tasks)) total_tasks in
    let low_percentage :=
      percentage (length (indices_with_priority "low" fixed_tasks)) total_tasks in
    let fixed_tasks :=
      if Qltb 40 high_percentage
      then foldl (fun ts i => set_priority "medium" i ts) fixed_tasks
                 (drop 3 (indices_with_priority "high" fixed_tasks))
      else fixed_tasks in
    if Qltb low_percentage 10
    then demote_to_low (last_two (indices_with_priority "medium" fixed_tasks)) fixed_tasks
    else Ok fixed_tasks
  else Ok fixed_tasks.

Definition validate_and_fix_tasks (tasks : list dict) : result (list dict) :=
  fixed_tasks ← fix_tasks_from 0 tasks;
  fix_priority_distribution fixed_tasks.

(** The record of the specification's scenario: no priority, hours "-3". *)
Definition scenario_task : dict :=
  {[ "title" := PStr "Set up database"; "description" := PStr "Create the schema";
     "estimated_hours" := PStr "-3" ]}.

(** ** Splitting long tasks: [split_long_tasks] *)

(** [task.get(k, default)] *)
Definition get_default (task : dict) (k : string) (d : pyval) : pyval :=
  default d (task !! k).

(** [v or d] *)
Definition py_or (v d : pyval) : pyval := if truthy v then v else d.

(** [[last_part[d] for d in deps if isinstance(d, int) and d in last_part]] *)
Definition remap_deps (last_part : gmap Z Z) (deps : list pyval) : list pyval :=
  omap (fun d => n ← as_int d; PInt <$> last_part !! n) deps.

(** [task.get("dependencies") or []], as the loop iterates it. *)
Definition deps_or_empty (task : dict) : result (list pyval) :=
  py_iter (py_or (get_default task "dependencies" PNone) (PList [])).

(** The parts of a task of [hours] hours: full chunks, then the remainder. *)
Definition split_parts (hours chunk_hours : Q) : list Q :=
  let full_chunks := Qfloor (hours / chunk_hours) in
  let remainder := (hours - inject_Z full_chunks * chunk_hours)%Q in
  let parts := (repeat chunk_hours (Z.to_nat full_chunks) ++
                (if Qltb 0 remainder then [remainder] else []))%list in
  match parts with
  | [] => [hours]
  | _ => parts
  end.

Definition part_title (base_title : pyval) (part_idx total_parts : nat) : string :=
  py_str base_title +:+ " (Part " +:+ string_of_Z (Z.of_nat part_idx) +:+ " of " +:+
  string_of_Z (Z.of_nat total_parts) +:+ ")".

(** The task written for part [part_idx] of [total_parts]. *)
Definition part_task (task : dict) (total_parts : nat) (first_part_deps : list pyval)
    (part_idx : nat) (prev_index_for_chain : Z) (part_hours : Q) : dict :=
  let part_task := <["title" := PStr (part_title (get_default task "title" (PStr "Task"))
                                                 part_idx total_parts)]> task in
  let part_task := <["estimated_hours" := pfloat (round1 (Qmaxb 1 part_hours))]> part_task in
  <["dependencies" := if (part_idx =? 1)%nat then PList first_part_deps
                      else PList [PInt prev_index_for_chain]]> part_task.

(** The loop over [enumerate(parts, start=1)]. *)
Fixpoint append_parts (task : dict) (total_parts : nat) (first_part_deps : list pyval)
    (part_idx : nat) (prev_index_for_chain : Z) (parts : list Q)
    (new_tasks : list dict) : list dict :=
  match parts with
  | [] => new_tasks
  | part_hours :: rest =>
      let new_tasks :=
        (new_tasks ++ [part_task task total_parts first_part_deps part_idx
                                 prev_index_for_chain part_hours])%list in
      append_parts task total_parts first_part_deps (S part_idx)
        (Z.of_nat (length new_tasks) - 1) rest new_tasks
  end.

(** One iteration of the loop over [enumerate(tasks)]; the state is
    [new_tasks] and [original_last_part_index]. *)
Definition split_task (threshold_hours chunk_hours : Q) (original_idx : nat) (task : dict)
    (st : list dict * gmap Z Z) : result (list dict * gmap Z Z) :=
  let '(new_tasks, last_part) := st in
  hours ← py_float (py_or (get_default task "estimated_hours" (PInt 0)) (PInt 0));
  let hours := Qmaxb 1 hours in
  if Qle_bool hours threshold_hours then
    deps ← deps_or_empty task;
    let new_task := <["dependencies" := PList (remap_deps last_part deps)]> task in
    let new_task := <["estimated_hours" := pfloat (round1 hours)]> new_task in
    let new_tasks := (new_tasks ++ [new_task])%list in
    Ok (new_tasks, <[Z.of_nat original_idx := Z.of_nat (length new_tasks) - 1]> last_part)
  else if Qeq_bool chunk_hours 0 then Raise ZeroDivisionError
  else
    let parts := split_parts hours chunk_hours in
    deps ← deps_or_empty task;
    let new_tasks := append_parts task (length parts) (remap_deps last_part deps) 1 (-1)
                                  parts new_tasks in
    Ok (new_tasks, <[Z.of_nat original_idx := Z.of_nat (length new_tasks) - 1]> last_part).

Fixpoint split_loop (threshold_hours chunk_hours : Q) (original_idx : nat) (tasks : list dict)
    (st : list dict * gmap Z Z) : result (list dict * gmap Z Z) :=
  match tasks with
  | [] => Ok st
  | task :: rest =>
      st' ← split_task threshold_hours chunk_hours original_idx task st;
      split_loop threshold_hours chunk_hours (S original_idx) rest st'
  end.

(** [for i, t in enumerate(new_tasks): t["id"] = i] *)
Definition assign_ids (new_tasks : list dict) : list dict :=
  imap (fun i t => <["id" := PInt (Z.of_nat i)]> t) new_tasks.

Definition split_long_tasks (tasks : list dict) (threshold_hours chunk_hours : Q)
    : result (list dict) :=
  match tasks with
  | [] => Ok []
  | _ =>
      st ← split_loop threshold_hours chunk_hours 0 tasks ([], ∅);
      Ok (assign_ids (fst st))
  end.

(** The call of the pipeline: threshold 24 hours, chunks of 8 hours. *)
Definition split_for_plan (tasks : list dict) : result (list dict) :=
  split_long_tasks tasks 24 8.

Definition hours_of (task : dict) : option pyval := task !! "estimated_hours".
Definition deps_of (task : dict) : option pyval := task !! "dependencies".


(** ** Effort re-estimation: [apply_practical_time_adjustments] *)

(** [table.get(key, d)] for a table keyed by string literals; a list or a
    dict is not hashable. *)
Definition table_get (table : list (string * Q)) (key : pyval) (d : Q) : result Q :=
  match key with
  | PList _ | PDict _ => Raise TypeError
  | _ =>
      Ok (default d (as_str key ≫= fun s =>
            snd <$> List.find (fun kv => String.eqb (fst kv) s) table))
  end.

Definition get_task_type_overhead (task_type : pyval) (combined_text : string) : result Q :=
  base_overhead ← table_get [("research", 5 # 10); ("design", 1); ("implementation", 2);
                             ("testing", 5 # 10); ("deployment", 1); ("documentation", 2 # 10)]%Q
                            task_type 1;
  let base_overhead := if any_in ["api"; "integration"; "database"] combined_text
                       then (base_overhead + 1)%Q else base_overhead in
  let base_overhead := if any_in ["deploy"; "production"; "release"] combined_text
                       then (base_overhead + (15 # 10))%Q else base_overhead in
  let base_overhead := if any_in ["implement"; "build"; "create"] combined_text
                       then (base_overhead + (5 # 10))%Q else base_overhead in
  Ok base_overhead.

Definition get_technical_stack_familiarity_multiplier (technical_stack : pyval) : result Q :=
  if negb (truthy technical_stack) then Ok 1%Q
  else
    stack_lower ← py_lower technical_stack;
    let has_familiar :=
      any_in ["javascript"; "python"; "react"; "node"; "html"; "css"; "sql"; "git"] stack_lower in
    let has_learning :=
      any_in ["rust"; "go"; "kubernetes"; "docker"; "microservices"; "ai"; "machine learning";
              "blockchain"] stack_lower in
    Ok (if has_learning && negb has_familiar then 13 # 10
        else if has_learning && has_familiar then 11 # 10
        else if has_familiar then 95 # 100
        else 1)%Q.

Definition increments : list Q :=
  [5 # 10; 1; 15 # 10; 2; 25 # 10; 3; 4; 6; 8; 12; 16; 24]%Q.

(** [min(l, key=lambda x: abs(x - hours))]: the first of the closest. *)
Definition closest_to (hours : Q) (l : list Q) (first : Q) : Q :=
  fold_left (fun best x => if Qltb (Qabs (x - hours)) (Qabs (best - hours)) then x else best)
            l first.

Definition round_to_practical_increment (hours : Q) : Q :=
  let closest := closest_to hours (tail increments) (5 # 10) in
  if Qltb (Qabs (hours - closest)) (25 # 100) then closest
  else (inject_Z (round_half_even (hours * 2)) / 2)%Q.

(** [constraints.get(k, d) if constraints else d] *)
Definition constraint (constraints : option dict) (k : string) (d : pyval) : pyval :=
  match constraints with
  | Some c => if decide (c = ∅) then d else get_default c k d
  | None => d
  end.

(** The body of the loop over the tasks. *)
Definition adjust_task (exp_multiplier stack_familiarity_multiplier coordination_overhead : Q)
    (team_size_above_1 : bool) (task : dict) : result dict :=
  title ← py_lower (get_default task "title" (PStr ""));
  description ← py_lower (get_default task "description" (PStr ""));
  let combined_text := title +:+ " " +:+ description in
  let task := if missing_or_falsy task "task_type"
              then <["task_type" := PStr (detect_task_type title description)]> task
              else task in
  let task := if missing_or_falsy task "complexity_level"
              then <["complexity_level" := PStr (detect_complexity_level title description)]> task
              else task in
  let original_hours := get_default task "estimated_hours" (pfloat 4) in
  let task := <["base_hours" := original_hours]> task in
  complexity_level ← getitem task "complexity_level";
  complexity_mult ← table_get [("simple", 1); ("moderate", 15 # 10); ("complex", 25 # 10);
                               ("expert", 4)]%Q complexity_level (15 # 10);
  original ← as_number original_hours;
  let adjusted_hours := (original * complexity_mult)%Q in
  let adjusted_hours := (adjusted_hours * exp_multiplier)%Q in
  let adjusted_hours := (adjusted_hours * stack_familiarity_multiplier)%Q in
  task_type ← getitem task "task_type";
  task_type_overhead ← get_task_type_overhead task_type combined_text;
  let adjusted_hours := (adjusted_hours + task_type_overhead)%Q in
  let overhead_factors :=
    [("complexity_multiplier", pfloat complexity_mult);
     ("experience_multiplier", pfloat exp_multiplier);
     ("technical_stack_multiplier", pfloat stack_familiarity_multiplier);
     ("task_type_overhead", pfloat task_type_overhead)] in
  let has_deps := truthy (get_default task "dependencies" PNone) in
  let dep_overhead := (adjusted_hours * (15 # 100))%Q in
  let overhead_factors :=
    if has_deps then (overhead_factors ++ [("dependency_overhead", pfloat dep_overhead)])%list
    else overhead_factors in
  let adjusted_hours := if has_deps then (adjusted_hours + dep_overhead)%Q else adjusted_hours in
  let coord_overhead := (adjusted_hours * coordination_overhead)%Q in
  let overhead_factors :=
    if team_size_above_1
    then (overhead_factors ++ [("coordination_overhead", pfloat coord_overhead)])%list
    else overhead_factors in
  let adjusted_hours :=
    if team_size_above_1 then (adjusted_hours + coord_overhead)%Q else adjusted_hours in
  let adjusted_hours := round_to_practical_increment adjusted_hours in
  let task := <["estimated_hours" := pfloat adjusted_hours]> task in
  Ok (<["overhead_factors" := PDict overhead_factors]> task).

Fixpoint adjust_tasks (f : dict -> result dict) (tasks : list dict) : result (list dict) :=
  match tasks with
  | [] => Ok []
  | task :: rest =>
      t ← f task;
      ts ← adjust_tasks f rest;
      Ok (t :: ts)
  end.

Definition apply_practical_time_adjustments (tasks : list dict) (constraints : option dict)
    : result (list dict) :=
  match tasks with
  | [] => Ok tasks
  | _ =>
      experience_level ← py_lower (constraint constraints "experience_level" (PStr "intermediate"));
      let exp_multiplier :=
        default 1%Q (snd <$> List.find (fun kv => String.eqb (fst kv) experience_level)
                               [("beginner", 15 # 10); ("intermediate", 1); ("advanced", 8 # 10)]%Q) in
      let team_size := constraint constraints "team_size" (PInt 1) in
      size ← as_number team_size;
      let coordination_overhead := ((5 # 100) * Qmaxb 0 (size - 1))%Q in
      stack_familiarity_multiplier ←
        get_technical_stack_familiarity_multiplier (constraint constraints "technical_stack" (PStr ""));
      adjust_tasks (adjust_task exp_multiplier stack_familiarity_multiplier coordination_overhead
                                (Qltb 1 size)) tasks
  end.

(** ** The working calendar: [calculate_task_end_with_working_hours] *)

(** The [while d.weekday() >= 5] loop: a Saturday needs two rounds. *)
Fixpoint skip_weekend (rounds : nat) (d : Z) : Z :=
  match rounds with
  | O => d
  | S rounds' =>
      if 5 <=? weekday d then skip_weekend rounds' (replace_9am (d + us_per_day)) else d
  end.

Definition to_next_workday_morning (dt : Z) : Z := skip_weekend 2 (replace_9am dt).

(** The [while remaining_hours > 0] loop; [None] when [fuel] rounds do not
    finish it. *)
Fixpoint work_loop (fuel : nat) (remaining_hours : Q) (current_time : Z) : option Z :=
  if Qltb 0 remaining_hours then
    match fuel with
    | O => None
    | S fuel' =>
        if 5 <=? weekday current_time then
          work_loop fuel' remaining_hours (to_next_workday_morning (current_time + us_per_day))
        else
          let work_today := Qminb remaining_hours 8 in
          let current_time := current_time + timedelta_hours work_today in
          let remaining_hours := (remaining_hours - work_today)%Q in
          let current_time :=
            if Qltb 0 remaining_hours
            then to_next_workday_morning (current_time + us_per_day)
            else current_time in
          work_loop fuel' remaining_hours current_time
    end
  else Some current_time.

(** Rounds that finish the loop: one for each working day begun. *)
Definition work_rounds (hours : Q) : nat := Z.to_nat (Qceiling (hours / 8)).

(** [OutOfRounds] marks a loop that [work_rounds] rounds would not finish;
    [task_end_total] below shows that it is never raised. *)
Definition task_end (start_time : Z) (hours : Q) : option Z :=
  work_loop (work_rounds hours) hours (to_next_workday_morning start_time).

(** The last day of the calendar of [datetime]: 9999-12-31, a Friday. *)
Definition last_day : Z := days_from_civil 9999 12 31.

(** [calculate_task_end_with_working_hours(start_time, hours)].  The
    instants of the loop never go back to an earlier day, the additions
    of hours stay on their day, and no weekend follows the last day of
    the calendar: so an addition of [timedelta(days=1)] raises
    [OverflowError] exactly when the loop must go on after 9999-12-31,
    that is, when the end is on a later day than the start and after the
    last day. *)
Definition calculate_task_end_with_working_hours (start_time : Z) (hours : pyval) : result Z :=
  h ← py_float hours;
  match task_end start_time h with
  | Some t =>
      if (last_day <? day_of t) && (day_of start_time <? day_of t) then Raise OverflowError
      else Ok t
  | None => Raise OutOfRounds
  end.

(** ** Scheduling: [calculate_deadlines] *)

(** [l[v]] for a list, with Python's negative indices. *)
Definition list_getitem {A} (l : list A) (v : pyval) : result A :=
  match as_int v with
  | None => Raise TypeError
  | Some n =>
      let n' := if n <? 0 then n + Z.of_nat (length l) else n in
      if n' <? 0 then Raise IndexError
      else match l !! Z.to_nat n' with
           | Some x => Ok x
           | None => Raise IndexError
           end
  end.

(** [dep < i] *)
Definition lt_index (dep : pyval) (i : nat) : result bool :=
  x ← as_number dep;
  Ok (Qltb x (inject_Z (Z.of_nat i))).

(** [[task_end_times[dep] for dep in deps if dep < i]] *)
Fixpoint dep_end_times (task_end_times : list Z) (i : nat) (deps : list pyval)
    : result (list Z) :=
  match deps with
  | [] => Ok []
  | dep :: rest =>
      keep ← lt_index dep i;
      if keep : bool then
        t ← list_getitem task_end_times dep;
        ts ← dep_end_times task_end_times i rest;
        Ok (t :: ts)
      else dep_end_times task_end_times i rest
  end.

(** [max(l)] of a non-empty list of instants. *)
Definition max_time (t : Z) (l : list Z) : Z := fold_left Z.max l t.

(** Start of task [i] in the first pass. *)
Definition first_pass_start (current_date : Z) (task_end_times : list Z)
    (last_end_time : option Z) (i : nat) (task : dict) : result Z :=
  if truthy (get_default task "dependencies" PNone) then
    deps ← getitem task "dependencies" ≫= py_iter;
    ends ← dep_end_times task_end_times i deps;
    match ends with
    | t :: ts =>
        let dep_gate := max_time t ts in
        Ok (match last_end_time with
            | Some l => Z.max dep_gate l
            | None => dep_gate
            end)
    | [] => Ok current_date
    end
  else Ok (default current_date last_end_time).

(** Start of task [i] in the recomputation passes. *)
Definition recompute_start (current_date : Z) (task_end_times : list Z)
    (i : nat) (task : dict) : result Z :=
  if truthy (get_default task "dependencies" PNone) &&
     match task_end_times with [] => false | _ => true end
  then
    deps ← getitem task "dependencies" ≫= py_iter;
    ends ← dep_end_times task_end_times i deps;
    match ends with
    | t :: ts =>
        let dep_gate := max_time t ts in
        Ok (match last task_end_times with
            | Some l => Z.max dep_gate l
            | None => dep_gate
            end)
    | [] => Ok current_date
    end
  else Ok (default current_date (last task_end_times)).

(** The first loop over [enumerate(tasks)]; [done] holds the tasks already
    written, in order. *)
Fixpoint first_pass (current_date : Z) (task_end_times : list Z) (last_end_time : option Z)
    (i : nat) (tasks done : list dict) : result (list dict) :=
  match tasks with
  | [] => Ok done
  | task :: rest =>
      task_start ← first_pass_start current_date task_end_times last_end_time i task;
      task_end ← getitem task "estimated_hours" ≫= calculate_task_end_with_working_hours task_start;
      let task := <["id" := PInt (Z.of_nat i)]> task in
      let task := <["deadline" := PTime task_end]> task in
      let task := <["start_time" := PTime task_start]> task in
      first_pass current_date (task_end_times ++ [task_end])%list (Some task_end) (S i) rest
                 (done ++ [task])%list
  end.

(** The loop of the two recomputation blocks. *)
Fixpoint recompute_pass (current_date : Z) (task_end_times : list Z)
    (i : nat) (tasks done : list dict) : result (list dict) :=
  match tasks with
  | [] => Ok done
  | task :: rest =>
      task_start ← recompute_start current_date task_end_times i task;
      task_end ← getitem task "estimated_hours" ≫= calculate_task_end_with_working_hours task_start;
      let task := <["start_time" := PTime task_start]> task in
      let task := <["deadline" := PTime task_end]> task in
      recompute_pass current_date (task_end_times ++ [task_end])%list (S i) rest
                     (done ++ [task])%list
  end.

(** [datetime.fromisoformat(v)] of a text written by [isoformat]. *)
Definition fromisoformat (v : pyval) : result Z :=
  match v with
  | PTime t => Ok t
  | PStr _ => Raise ValueError
  | _ => Raise TypeError
  end.

(** ** Timeframes: [parse_timeframe_to_days] *)

(** [s.split()[0]]: the first run of non-blank characters. *)
Definition first_token (l : list ascii) : option string :=
  match span (fun c => negb (is_space c)) (lstrip l) with
  | ([], _) => None
  | (tok, _) => Some (text tok)
  end.

(** [int(timeframe.split()[0])]; [None] stands for the [ValueError] or
    [IndexError] that the source catches. *)
Definition leading_int (timeframe : string) : option Z :=
  first_token (chars timeframe) ≫= py_int_of_str.

(** [re.findall(r'\d+', s)[0]]: the first run of digits. *)
Fixpoint first_number (l : list ascii) : option Z :=
  match l with
  | [] => None
  | c :: l' =>
      if is_digit c then Some (digits_val (fst (span is_digit l)))
      else first_number l'
  end.

Definition parse_timeframe_to_days (timeframe : option string) : Z :=
  match timeframe with
  | None => 7
  | Some tf =>
      if String.eqb tf "" then 7
      else
        let timeframe := text (strip (chars (lower tf))) in
        if contains "year" timeframe then
          match leading_int timeframe with Some years => years * 365 | None => 365 end
        else if contains "month" timeframe then
          match leading_int timeframe with Some months => months * 30 | None => 30 end
        else if contains "week" timeframe then
          match leading_int timeframe with Some weeks => weeks * 7 | None => 7 end
        else if contains "day" timeframe then
          match leading_int timeframe with Some days => days | None => 7 end
        else
          match first_number (chars timeframe) with
          | Some num =>
              if num <=? 31 then num
              else if num <=? 52 then num * 7
              else num
          | None => 7
          end
  end.

(** [sum(task.get("estimated_hours", 0) for task in tasks)] *)
Fixpoint sum_hours (tasks : list dict) : result Q :=
  match tasks with
  | [] => Ok 0%Q
  | task :: rest =>
      h ← as_number (get_default task "estimated_hours" (PInt 0));
      s ← sum_hours rest;
      Ok (h + s)%Q
  end.

(** [timeframe and tasks] as a condition. *)
Definition given (timeframe : option string) : bool :=
  match timeframe with
  | Some tf => negb (String.eqb tf "")
  | None => false
  end.

(** The hours of a task after priority-aware scaling: [shrink] adds the
    bias against tasks above 8 hours, expansion the one for tasks below 4. *)
Definition scaled_hours (shrink : bool) (scale_factor : Q) (task : dict) : result pyval :=
  original ← getitem task "estimated_hours" ≫= as_number;
  let priority := get_default task "priority" PNone in
  let task_scale :=
    if in_strs priority ["high"] then (scale_factor * (11 # 10))%Q
    else if in_strs priority ["low"] then (scale_factor * (9 # 10))%Q
    else scale_factor in
  let task_scale :=
    if shrink then (if Qltb 8 original then task_scale * (95 # 100) else task_scale)%Q
    else (if Qltb original 4 then task_scale * (105 # 100) else task_scale)%Q in
  Ok (pfloat (round1 (Qmaxb 1 (original * task_scale)))).

(** [task['title'][:30]], evaluated for the progress line that
    [generate_task_plan] prints for each scaled task. *)
Definition title_preview (task : dict) : result unit :=
  title ← getitem task "title";
  match title with
  | PStr _ | PTime _ | PList _ => Ok ()
  | _ => Raise TypeError
  end.

(** The scaling loops; [report] is set where the loop prints its line. *)
Fixpoint scale_tasks (report shrink : bool) (scale_factor : Q) (tasks : list dict)
    : result (list dict) :=
  match tasks with
  | [] => Ok []
  | task :: rest =>
      h ← scaled_hours shrink scale_factor task;
      _ ← (if report then title_preview task else Ok ());
      ts ← scale_tasks report shrink scale_factor rest;
      Ok (<["estimated_hours" := h]> task :: ts)
  end.

(** Step 4 of [calculate_deadlines]: the timeframe check on the scheduled
    tasks, with its scaling limits.  The branch that gives up the scaling
    prints [1/scale_factor], which raises [ZeroDivisionError] for a
    factor of zero (a timeframe of zero days). *)
Definition MIN_SCALE_FACTOR : Q := 8 # 10.

Definition fit_schedule_to_timeframe (tasks : list dict) (timeframe : option string)
    : result (list dict) :=
  match tasks with
  | task0 :: _ =>
      if given timeframe then
        first_task_start ← getitem task0 "start_time" ≫= fromisoformat;
        let timeframe_days := parse_timeframe_to_days timeframe in
        let available_hours := (inject_Z timeframe_days * 8)%Q in
        total_estimated_hours ← sum_hours tasks;
        let working_days := (total_estimated_hours / 8)%Q in
        let exceeds_hours := Qltb available_hours total_estimated_hours in
        let exceeds_days := Qltb (inject_Z timeframe_days) working_days in
        if exceeds_hours || exceeds_days then
          let hour_scale_factor :=
            if Qltb 0 total_estimated_hours then (available_hours / total_estimated_hours)%Q
            else 1%Q in
          let day_scale_factor :=
            if Qltb 0 working_days then (inject_Z timeframe_days / working_days)%Q else 1%Q in
          let scale_factor := Qminb hour_scale_factor day_scale_factor in
          if Qltb scale_factor MIN_SCALE_FACTOR then
            if Qeq_bool scale_factor 0 then Raise ZeroDivisionError
            else recompute_pass first_task_start [] 0 tasks []
          else
            tasks ← (if Qltb MIN_SCALE_FACTOR scale_factor && Qltb scale_factor 1
                     then scale_tasks false true scale_factor tasks
                     else Ok tasks);
            recompute_pass first_task_start [] 0 tasks []
        else Ok tasks
      else Ok tasks
  | [] => Ok tasks
  end.

(** [calculate_deadlines(tasks, start_date, timeframe)]; [start_date] is
    the instant that [datetime.fromisoformat] read from the argument. *)
Definition calculate_deadlines (tasks : list dict) (start_date : Z) (timeframe : option string)
    : result (list dict) :=
  tasks ← first_pass start_date [] None 0 tasks [];
  fit_schedule_to_timeframe tasks timeframe.

(** ** Timeframe compliance: [validate_timeframe_compliance] *)

Definition tolerance : Q := 1 # 100.

Definition in_band (available_hours total_estimated_hours : Q) : bool :=
  let max_allowed_hours := (available_hours * (120 # 100))%Q in
  let min_allowed_hours := (available_hours * (80 # 100))%Q in
  Qle_bool (min_allowed_hours - tolerance) total_estimated_hours &&
  Qle_bool total_estimated_hours (max_allowed_hours + tolerance).

Definition available_hours_of (timeframe : option string) : Q :=
  (inject_Z (parse_timeframe_to_days timeframe) * 8)%Q.

Definition validate_timeframe_compliance (tasks : list dict) (timeframe : option string)
    : result bool :=
  if negb (given timeframe) || match tasks with [] => true | _ => false end then Ok true
  else
    total_estimated_hours ← sum_hours tasks;
    Ok (in_band (available_hours_of timeframe) total_estimated_hours).

(** ** The pipeline of [generate_task_plan], from the validated tasks on *)

(** Step 4b: scale the hours when the plan does not fit the timeframe. *)
Definition scale_to_timeframe (validated_tasks : list dict) (timeframe : option string)
    : result (list dict) :=
  if given timeframe then
    compliant ← validate_timeframe_compliance validated_tasks timeframe;
    if compliant : bool then Ok validated_tasks
    else
      let available_hours := available_hours_of timeframe in
      total_estimated_hours ← sum_hours validated_tasks;
      let min_allowed_hours := (available_hours * (80 # 100))%Q in
      let max_allowed_hours := (available_hours * (120 # 100))%Q in
      tasks ←
        (if Qltb total_estimated_hours min_allowed_hours then
           if Qeq_bool total_estimated_hours 0 then Raise ZeroDivisionError
           else scale_tasks true false (min_allowed_hours / total_estimated_hours) validated_tasks
         else if Qltb max_allowed_hours total_estimated_hours then
           if Qeq_bool total_estimated_hours 0 then Raise ZeroDivisionError
           else scale_tasks true true (max_allowed_hours / total_estimated_hours) validated_tasks
         else Ok validated_tasks);
      _ ← sum_hours tasks;
      _ ← validate_timeframe_compliance tasks timeframe;
      Ok tasks
  else Ok validated_tasks.

(** Step 4c: the final validation raises when the plan is still outside
    the band. *)
Definition final_validation (validated_tasks : list dict) (timeframe : option string)
    : result (list dict) :=
  if given timeframe then
    compliant ← validate_timeframe_compliance validated_tasks timeframe;
    if compliant : bool then Ok validated_tasks
    else
      let available_hours := available_hours_of timeframe in
      total_estimated_hours ← sum_hours validated_tasks;
      Raise (LLMGenerationError
               (if Qltb (available_hours * (12 # 10)) total_estimated_hours
                then too_much_work else too_little_work)
               total_estimated_hours available_hours)
  else Ok validated_tasks.

(** [sum(t["estimated_hours"] for t in tasks)] *)
Fixpoint total_hours (tasks : list dict) : result Q :=
  match tasks with
  | [] => Ok 0%Q
  | t :: rest =>
      h ← getitem t "estimated_hours" ≫= as_number;
      s ← total_hours rest;
      Ok (h + s)%Q
  end.

Record plan : Type := {
  plan_tasks : list dict;
  total_estimated_hours : Q;
  estimated_completion : option pyval
}.

(** Steps 4b to 8, on the validated and re-estimated tasks. *)
Definition plan_from_estimated (validated_tasks : list dict) (timeframe : option string)
    (start_date : Z) : result plan :=
  validated_tasks ← scale_to_timeframe validated_tasks timeframe;
  validated_tasks ← final_validation validated_tasks timeframe;
  tasks_prepared ← split_for_plan validated_tasks;
  tasks_with_deadlines ← calculate_deadlines tasks_prepared start_date timeframe;
  total ← total_hours tasks_with_deadlines;
  completion ← match last tasks_with_deadlines with
               | Some t => Some <$> getitem t "deadline"
               | None => Ok None
               end;
  Ok {| plan_tasks := tasks_with_deadlines;
        total_estimated_hours := total;
        estimated_completion := completion |}.

(** Steps 4 and 4a: validation, then effort re-estimation. *)
Definition validator_estimator (tasks : list dict) (constraints : option dict)
    : result (list dict) :=
  validated_tasks ← validate_and_fix_tasks tasks;
  apply_practical_time_adjustments validated_tasks constraints.

(** Steps 4 to 8, on the raw task records. *)
Definition plan_from_tasks (tasks : list dict) (constraints : option dict)
    (timeframe : option string) (start_date : Z) : result plan :=
  validated_tasks ← validator_estimator tasks constraints;
  plan_from_estimated validated_tasks timeframe start_date.

(** ** Regular expressions, with the backtracking order of [re]

    The patterns of the source use literals, character classes, greedy and
    lazy repetition, an optional group, at most one capturing group, and
    the anchors [^] and [$] (without [MULTILINE]). *)

Inductive regex : Type :=
| Eps
| Chr (c : ascii)
| Cls (p : ascii -> bool)
| Cat (r1 r2 : regex)
| Star (greedy : bool) (r : regex)
| Opt (r : regex)
| Group (r : regex)
| Bol
| Eol.

Fixpoint lit (l : list ascii) : regex :=
  match l with
  | [] => Eps
  | c :: l' => Cat (Chr c) (lit l')
  end.

Definition Plus (greedy : bool) (r : regex) : regex := Cat r (Star greedy r).

Definition any_char (c : ascii) : bool := true.
Definition not_char (x c : ascii) : bool := negb (Ascii.eqb x c).
Definition one_of (l : list ascii) (c : ascii) : bool := existsb (Ascii.eqb c) l.
Definition is_word (c : ascii) : bool :=
  let n := nat_of_ascii c in
  (is_digit c || ((65 <=? n) && (n <=? 90)) || ((97 <=? n) && (n <=? 122)) || (n =? 95))%nat.

(** The repetition of [step]: greedy tries one more round first, lazy
    the continuation; a round that consumes nothing is not repeated. *)
Fixpoint star_loop {R : Type}
    (step : nat -> list ascii -> option (list ascii) ->
            (nat -> list ascii -> option (list ascii) -> option R) -> option R)
    (greedy : bool) (k : nat -> list ascii -> option (list ascii) -> option R)
    (fuel pos : nat) (s : list ascii) (cap : option (list ascii)) : option R :=
  match fuel with
  | O => k pos s cap
  | S fuel' =>
      let more :=
        step pos s cap
          (fun pos' s' cap' =>
             if (length s' <? length s)%nat then star_loop step greedy k fuel' pos' s' cap'
             else None) in
      if greedy then
        match more with Some x => Some x | None => k pos s cap end
      else
        match k pos s cap with Some x => Some x | None => more end
  end.

(** [rmatch r pos s cap k]: match [r] at position [pos], where [s] is the
    rest of the text, and go on with [k]; alternatives are tried in the
    order of the backtracking engine. *)
Fixpoint rmatch {R : Type} (r : regex) (pos : nat) (s : list ascii) (cap : option (list ascii))
    (k : nat -> list ascii -> option (list ascii) -> option R) {struct r} : option R :=
  match r with
  | Eps => k pos s cap
  | Chr c =>
      match s with
      | c' :: s' => if Ascii.eqb c c' then k (S pos) s' cap else None
      | [] => None
      end
  | Cls p =>
      match s with
      | c' :: s' => if p c' then k (S pos) s' cap else None
      | [] => None
      end
  | Cat r1 r2 => rmatch r1 pos s cap (fun pos' s' cap' => rmatch r2 pos' s' cap' k)
  | Opt r1 =>
      match rmatch r1 pos s cap k with
      | Some x => Some x
      | None => k pos s cap
      end
  | Star greedy r1 => star_loop (rmatch r1) greedy k (length s) pos s cap
  | Group r1 =>
      rmatch r1 pos s cap (fun pos' s' _ => k pos' s' (Some (take (pos' - pos) s)))
  | Bol => if (pos =? 0)%nat then k pos s cap else None
  | Eol =>
      match s with
      | [] => k pos s cap
      | [c] => if Ascii.eqb c "010" then k pos s cap else None
      | _ => None
      end
  end.

(** A match: its end, the text after it and the captured group. *)
Definition match_at (r : regex) (pos : nat) (s : list ascii)
    : option (nat * list ascii * option (list ascii)) :=
  rmatch r pos s None (fun pos' s' cap => Some (pos', s', cap)).

(** [re.search(r, text)]: the leftmost match, as its captured group. *)
Fixpoint search_from (r : regex) (pos : nat) (s : list ascii) : option (option (list ascii)) :=
  match match_at r pos s with
  | Some (_, _, cap) => Some cap
  | None =>
      match s with
      | [] => None
      | _ :: s' => search_from r (S pos) s'
      end
  end.

Definition re_search (r : regex) (s : list ascii) : option (option (list ascii)) :=
  search_from r 0 s.

(** [re.sub(r, repl, text)]; [repl] builds the replacement from the
    captured group. *)
Fixpoint sub_from (fuel : nat) (r : regex) (repl : option (list ascii) -> list ascii)
    (pos : nat) (s : list ascii) : list ascii :=
  match fuel with
  | O => s
  | S fuel' =>
      match match_at r pos s with
      | Some (pos', s', cap) =>
          if (pos' =? pos)%nat then
            match s with
            | [] => repl cap
            | c :: t => (repl cap ++ c :: sub_from fuel' r repl (S pos) t)%list
            end
          else (repl cap ++ sub_from fuel' r repl pos' s')%list
      | None =>
          match s with
          | [] => []
          | c :: t => c :: sub_from fuel' r repl (S pos) t
          end
      end
  end.

Definition re_sub (r : regex) (repl : option (list ascii) -> list ascii) (s : list ascii)
    : list ascii :=
  sub_from (S (length s)) r repl 0 s.

(** [re.findall(r, text)] for a pattern with one group. *)
Fixpoint findall_from (fuel : nat) (r : regex) (pos : nat) (s : list ascii)
    : list (list ascii) :=
  match fuel with
  | O => []
  | S fuel' =>
      match match_at r pos s with
      | Some (pos', s', cap) =>
          default [] cap ::
          (if (pos' =? pos)%nat then
             match s with
             | [] => []
             | _ :: t => findall_from fuel' r (S pos) t
             end
           else findall_from fuel' r pos' s')
      | None =>
          match s with
          | [] => []
          | _ :: t => findall_from fuel' r (S pos) t
          end
      end
  end.

Definition re_findall (r : regex) (s : list ascii) : list (list ascii) :=
  findall_from (S (length s)) r 0 s.

Definition ws : regex := Star true (Cls is_space).

(** ** [json.loads] *)

Definition is_json_space (c : ascii) : bool :=
  one_of [" "; "009"; "010"; "013"]%char c.

Fixpoint skip_ws (s : list ascii) : list ascii :=
  match s with
  | c :: s' => if is_json_space c then skip_ws s' else s
  | [] => []
  end.

Definition hex_val (c : ascii) : option Z :=
  let n := Z.of_nat (nat_of_ascii c) in
  if (48 <=? n) && (n <=? 57) then Some (n - 48)
  else if (65 <=? n) && (n <=? 70) then Some (n - 55)
  else if (97 <=? n) && (n <=? 102) then Some (n - 87)
  else None.

Definition ascii_of_Z (n : Z) : ascii := ascii_of_nat (Z.to_nat n).

(** The UTF-8 bytes of a code point of the basic plane. *)
Definition utf8 (n : Z) : list ascii :=
  if n <? 128 then [ascii_of_Z n]
  else if n <? 2048 then [ascii_of_Z (192 + n / 64); ascii_of_Z (128 + n mod 64)]
  else [ascii_of_Z (224 + n / 4096); ascii_of_Z (128 + n / 64 mod 64);
        ascii_of_Z (128 + n mod 64)].

(** The text of a string literal, after its opening quote. *)
Fixpoint scan_string (s : list ascii) (acc : list ascii) {struct s}
    : option (list ascii * list ascii) :=
  match s with
  | [] => None
  | c :: s' =>
      if Ascii.eqb c "034" then Some (rev acc, s')
      else if Ascii.eqb c "\" then
        match s' with
        | e :: s'' =>
            if Ascii.eqb e "u" then
              match s'' with
              | h1 :: h2 :: h3 :: h4 :: s3 =>
                  match hex_val h1, hex_val h2, hex_val h3, hex_val h4 with
                  | Some a, Some b, Some c', Some d =>
                      scan_string s3 (rev (utf8 (((a * 16 + b) * 16 + c') * 16 + d)) ++ acc)%list
                  | _, _, _, _ => None
                  end
              | _ => None
              end
            else
              match
                (if Ascii.eqb e "034" then Some "034"
                 else if Ascii.eqb e "\" then Some "\"
                 else if Ascii.eqb e "/" then Some "/"
                 else if Ascii.eqb e "b" then Some "008"
                 else if Ascii.eqb e "f" then Some "012"
                 else if Ascii.eqb e "n" then Some "010"
                 else if Ascii.eqb e "r" then Some "013"
                 else if Ascii.eqb e "t" then Some "009"
                 else None)%char
              with
              | Some x => scan_string s'' (x :: acc)
              | None => None
              end
        | [] => None
        end
      else if (nat_of_ascii c <? 32)%nat then None
      else scan_string s' (c :: acc)
  end.

(** A number literal: an optional minus, the integer part without
    leading zeros, an optional fraction and an optional exponent. *)
Definition scan_number (s : list ascii) : option (pyval * list ascii) :=
  let '(neg, s1) := match s with
                    | "-"%char :: r => (true, r)
                    | _ => (false, s)
                    end in
  let sg := if neg : bool then -1 else 1 in
  match s1 with
  | [] => None
  | d :: r0 =>
      if is_digit d then
        let '(ip, r1) := if Ascii.eqb d "0" then ([d], r0) else span is_digit s1 in
        let '(fp, r2) := match r1 with
                         | "."%char :: r' =>
                             match span is_digit r' with
                             | ([], _) => ([], r1)
                             | (fd, r'') => (fd, r'')
                             end
                         | _ => ([], r1)
                         end in
        let '(ex, r3) := match r2 with
                         | e :: r' =>
                             if (Ascii.eqb e "e" || Ascii.eqb e "E")%bool then
                               let '(esg, r'') := read_sign r' in
                               match span is_digit r'' with
                               | ([], _) => (None, r2)
                               | (ed, r4) => (Some (esg * digits_val ed), r4)
                               end
                             else (None, r2)
                         | [] => (None, r2)
                         end in
        match fp, ex with
        | [], None => Some (PInt (sg * digits_val ip), r3)
        | _, _ =>
            Some (pfloat (inject_Z (sg * digits_val (ip ++ fp)%list) *
                          Qpower (10 # 1) (default 0 ex - Z.of_nat (length fp))), r3)
        end
      else None
  end.

(** [d[k] = v] on an object under construction: a repeated key keeps its
    place and takes the new value. *)
Fixpoint dict_set (k : string) (v : pyval) (d : list (string * pyval))
    : list (string * pyval) :=
  match d with
  | [] => [(k, v)]
  | (k', v') :: d' => if String.eqb k k' then (k, v) :: d' else (k', v') :: dict_set k v d'
  end.

(** [d[k]] and [k in d] on an object. *)
Fixpoint dict_get (k : string) (d : list (string * pyval)) : option pyval :=
  match d with
  | [] => None
  | (k', v) :: d' => if String.eqb k k' then Some v else dict_get k d'
  end.

(** The recursive descent of the decoder; [fuel] bounds the nesting and
    the number of members, and the length of the text is enough. *)
Fixpoint parse_value (fuel : nat) (s : list ascii) {struct fuel}
    : option (pyval * list ascii) :=
  match fuel with
  | O => None
  | S fuel' =>
      match s with
      | "{"%char :: r =>
          match skip_ws r with
          | "}"%char :: r' => Some (PDict [], r')
          | r' => parse_members fuel' [] r'
          end
      | "["%char :: r =>
          match skip_ws r with
          | "]"%char :: r' => Some (PList [], r')
          | r' => parse_elements fuel' [] r'
          end
      | "034"%char :: r =>
          match scan_string r [] with
          | Some (str, r') => Some (PStr (text str), r')
          | None => None
          end
      | "t"%char :: "r"%char :: "u"%char :: "e"%char :: r => Some (PBool true, r)
      | "f"%char :: "a"%char :: "l"%char :: "s"%char :: "e"%char :: r => Some (PBool false, r)
      | "n"%char :: "u"%char :: "l"%char :: "l"%char :: r => Some (PNone, r)
      | _ => scan_number s
      end
  end
with parse_members (fuel : nat) (acc : list (string * pyval)) (s : list ascii) {struct fuel}
    : option (pyval * list ascii) :=
  match fuel with
  | O => None
  | S fuel' =>
      match s with
      | "034"%char :: r =>
          match scan_string r [] with
          | Some (key, r1) =>
              match skip_ws r1 with
              | ":"%char :: r2 =>
                  match parse_value fuel' (skip_ws r2) with
                  | Some (v, r3) =>
                      let acc := dict_set (text key) v acc in
                      match skip_ws r3 with
                      | "}"%char :: r4 => Some (PDict acc, r4)
                      | ","%char :: r4 => parse_members fuel' acc (skip_ws r4)
                      | _ => None
                      end
                  | None => None
                  end
              | _ => None
              end
          | None => None
          end
      | _ => None
      end
  end
with parse_elements (fuel : nat) (acc : list pyval) (s : list ascii) {struct fuel}
    : option (pyval * list ascii) :=
  match fuel with
  | O => None
  | S fuel' =>
      match parse_value fuel' s with
      | Some (v, r1) =>
          match skip_ws r1 with
          | "]"%char :: r2 => Some (PList (acc ++ [v]), r2)
          | ","%char :: r2 => parse_elements fuel' (acc ++ [v])%list (skip_ws r2)
          | _ => None
          end
      | None => None
      end
  end.

(** [json.loads(s)]; [None] stands for [json.JSONDecodeError].  The
    literals [NaN] and [Infinity], which the decoder of Python reads as
    floats, are outside the model, and so is its [RecursionError] on a
    text whose values are nested deeper than the recursion limit of the
    interpreter allows. *)
Definition json_loads (s : list ascii) : option pyval :=
  match parse_value (S (length s)) (skip_ws s) with
  | Some (v, rest) =>
      match skip_ws rest with
      | [] => Some v
      | _ => None
      end
  | None => None
  end.

(** Text written with apostrophes in place of double quotes. *)
Definition quoted (s : string) : string :=
  text (map (fun c => if Ascii.eqb c "'" then "034"%char else c) (chars s)).

(** ** Extraction: [extract_json_from_response] *)

Definition cat_all (rs : list regex) : regex := fold_right Cat Eps rs.

Definition dq : ascii := "034".
Definition not_dq : regex := Star true (Cls (not_char dq)).

(** The fenced code block: three backquotes, an optional [json], the
    shortest object text, three backquotes. *)
Definition fenced_block : regex :=
  cat_all [lit (chars "```"); Opt (lit (chars "json")); ws;
           Group (cat_all [Chr "{"; Star false (Cls any_char); Chr "}"]);
           ws; lit (chars "```")].

(** A comma before a closing bracket; the bracket is the group. *)
Definition trailing_comma : regex :=
  cat_all [Chr ","; Group (cat_all [ws; Cls (one_of ["}"; "]"]%char)])].

Definition open_string_at_end : regex := cat_all [Chr dq; not_dq; Eol].

Definition open_item_at_end : regex :=
  cat_all [Chr ","; ws; Chr dq; not_dq; Chr dq; Star true (Cls (not_char "}")); Eol].

Definition open_object_at_end : regex :=
  cat_all [Chr ","; ws; Chr "{"; Star true (Cls (not_char "}")); Eol].

Definition open_array_at_end : regex :=
  cat_all [Chr ","; ws; Chr "["; Star true (Cls (not_char "]")); Eol].

Definition open_string_value_at_end : regex := cat_all [Chr ":"; ws; Chr dq; not_dq; Eol].

Definition open_number_at_end : regex :=
  cat_all [Chr ":"; ws; Star true (Cls is_digit); Opt (Chr "."); Star true (Cls is_digit); Eol].

Definition tasks_array : regex :=
  cat_all [Chr dq; lit (chars "tasks"); Chr dq; ws; Chr ":"; ws; Chr "[";
           Group (Star false (Cls any_char)); Chr "]"].

(** [s.replace] of every apostrophe by a double quote. *)
Definition replace_quotes (s : list ascii) : list ascii :=
  map (fun c => if Ascii.eqb c "'" then dq else c) s.

Definition remove_trailing_commas (s : list ascii) : list ascii :=
  re_sub trailing_comma (default []) s.

(** [s.find(c)] *)
Fixpoint find_char (c : ascii) (s : list ascii) : option nat :=
  match s with
  | [] => None
  | c' :: s' => if Ascii.eqb c c' then Some O else S <$> find_char c s'
  end.

(** [s.rfind(c)] *)
Definition rfind_char (c : ascii) (s : list ascii) : option nat :=
  (fun i => length s - 1 - i)%nat <$> find_char c (rev s).

(** [s[a:b]] *)
Definition slice (s : list ascii) (a b : nat) : list ascii := take (b - a) (drop a s).

(** The loop that looks for the brace closing the first one; the result
    is the final [brace_count] and [end_pos]. *)
Fixpoint scan_braces (s : list ascii) (i : nat) (brace_count : Z) (end_pos : nat)
    (in_string escape_next : bool) : Z * nat :=
  match s with
  | [] => (brace_count, end_pos)
  | char :: rest =>
      if escape_next then scan_braces rest (S i) brace_count end_pos in_string false
      else if Ascii.eqb char "\" then scan_braces rest (S i) brace_count end_pos in_string true
      else if Ascii.eqb char dq then
        scan_braces rest (S i) brace_count end_pos (negb in_string) false
      else if negb in_string then
        if Ascii.eqb char "{" then
          scan_braces rest (S i) (brace_count + 1) end_pos in_string false
        else if Ascii.eqb char "}" then
          if brace_count - 1 =? 0 then (brace_count - 1, i)
          else scan_braces rest (S i) (brace_count - 1) end_pos in_string false
        else scan_braces rest (S i) brace_count end_pos in_string false
      else scan_braces rest (S i) brace_count end_pos in_string false
  end.

(** The loop over [range(len(content) - 1, start_pos, -1)]: the longest
    prefix from [start_pos] that ends in a closing bracket and parses
    after the basic fixes; [n] is the distance of the candidate from
    [start_pos]. *)
Fixpoint last_valid_prefix (content : list ascii) (start_pos n : nat)
    : option (list ascii) :=
  match n with
  | O => None
  | S n' =>
      let i := (start_pos + n)%nat in
      if default false (one_of ["}"; "]"]%char <$> content !! i) then
        let test_json :=
          remove_trailing_commas (replace_quotes (slice content start_pos (i + 1))) in
        match json_loads test_json with
        | Some _ => Some test_json
        | None => last_valid_prefix content start_pos n'
        end
      else last_valid_prefix content start_pos n'
  end.

(** Strategies 1 and 2: the text to parse, or [ValueError]. *)
Definition locate_json (content : list ascii) : result (list ascii) :=
  match re_search fenced_block content with
  | Some cap => Ok (default [] cap)
  | None =>
      match find_char "{" content with
      | None => Raise ValueError
      | Some start_pos =>
          let '(brace_count, end_pos) :=
            scan_braces (drop start_pos content) start_pos 0 start_pos false false in
          if negb (brace_count =? 0) then
            match last_valid_prefix content start_pos (length content - 1 - start_pos) with
            | Some json_str => Ok json_str
            | None => Raise ValueError
            end
          else Ok (slice content start_pos (end_pos + 1))
      end
  end.

(** Fix 6 of the cascade: cut what follows the last closing brace. *)
Definition cut_after_last_brace (json_str : list ascii) : list ascii :=
  match rfind_char "}" json_str with
  | Some last_complete_brace =>
      if (0 <? last_complete_brace)%nat then
        let after_brace := strip (drop (last_complete_brace + 1) json_str) in
        match after_brace with
        | [] => json_str
        | c :: _ =>
            if Ascii.eqb c "," then json_str else take (last_complete_brace + 1) json_str
        end
      else json_str
  | None => json_str
  end.

(** The fixes applied after a first parse failure. *)
Definition repair_json_text (json_str : list ascii) : list ascii :=
  let json_str := replace_quotes json_str in
  let json_str := remove_trailing_commas json_str in
  let json_str := re_sub open_string_at_end (fun _ => [dq; dq]) json_str in
  let json_str := re_sub open_item_at_end (fun _ => []) json_str in
  let json_str := re_sub open_object_at_end (fun _ => []) json_str in
  let json_str := re_sub open_array_at_end (fun _ => []) json_str in
  let json_str := re_sub open_string_value_at_end (fun _ => [":"; " "; dq; dq]%char) json_str in
  let json_str := re_sub open_number_at_end (fun _ => chars ": 0") json_str in
  cut_after_last_brace json_str.

(** The last resort: the body of the tasks array in a minimal object. *)
Definition minimal_json (json_str : list ascii) : option (list ascii) :=
  match re_search tasks_array json_str with
  | Some cap =>
      let tasks_content := remove_trailing_commas (replace_quotes (default [] cap)) in
      Some (chars "{" ++ [dq] ++ chars "tasks" ++ [dq] ++ chars ": [" ++ tasks_content ++
            chars "]}")%list
  | None => None
  end.

Definition extract_json_from_response (content : string) : result pyval :=
  json_str ← locate_json (chars content);
  match json_loads json_str with
  | Some v => Ok v
  | None =>
      let json_str := repair_json_text json_str in
      match json_loads json_str with
      | Some v => Ok v
      | None =>
          match minimal_json json_str ≫= json_loads with
          | Some v => Ok v
          | None => Raise ValueError
          end
      end
  end.

(** ** The fallback: [create_fallback_tasks_from_content] *)

Definition quoted_field (name : string) : regex :=
  cat_all [Chr dq; lit (chars name); Chr dq; ws; Chr ":"; ws; Chr dq;
           Group (Plus true (Cls (not_char dq))); Chr dq].

Definition rest_of_line : regex := Group (Plus true (Cls (not_char "010"))).

Definition numbered_item : regex :=
  cat_all [Bol; Plus true (Cls is_digit); Chr "."; ws; rest_of_line; Eol].

Definition dashed_item : regex :=
  cat_all [Bol; Cls (one_of ["-"; "*"]%char); ws; rest_of_line; Eol].

(** The bullet is the three bytes of U+2022. *)
Definition bulleted_item : regex :=
  cat_all [Bol; lit ["226"; "128"; "162"]%char; ws; rest_of_line; Eol].

Definition task_patterns : list regex := [numbered_item; dashed_item; bulleted_item].

Definition special_char : regex :=
  Cls (fun c => negb (is_word c || is_space c || one_of ["-"; "("; ")"]%char c)).

Definition fallback_task (title : string) : pyval :=
  PDict [("title", PStr title);
         ("description", PStr ("Complete " +:+ lower title));
         ("estimated_hours", PFloat 4);
         ("complexity_level", PStr "moderate");
         ("task_type", PStr "implementation");
         ("priority", PStr "medium");
         ("dependencies", PList [])].

(** [len(s) > 5 and len(s) < 100] *)
Definition reasonable_length (s : list ascii) : bool :=
  ((5 <? length s) && (length s <? 100))%nat.

(** [s.split(c)] for a one-character separator. *)
Fixpoint split_on (c : ascii) (s : list ascii) (cur : list ascii) : list (list ascii) :=
  match s with
  | [] => [rev cur]
  | c' :: s' => if Ascii.eqb c c' then rev cur :: split_on c s' [] else split_on c s' (c' :: cur)
  end.

(** The loop over [task_patterns] for one line: the first pattern that
    matches decides. *)
Fixpoint line_task (patterns : list regex) (line : list ascii) : list pyval :=
  match patterns with
  | [] => []
  | pattern :: rest =>
      match re_search pattern line with
      | Some cap =>
          let title := re_sub special_char (fun _ => []) (strip (default [] cap)) in
          if reasonable_length title then [fallback_task (text title)] else []
      | None => line_task rest line
      end
  end.

Definition template_task (title description : string) (hours : Q)
    (complexity type priority : string) (deps : list Z) : pyval :=
  PDict [("title", PStr title); ("description", PStr description);
         ("estimated_hours", PFloat hours); ("complexity_level", PStr complexity);
         ("task_type", PStr type); ("priority", PStr priority);
         ("dependencies", PList (map PInt deps))].

Definition application_template : list pyval :=
  [template_task "Setup development environment"
     "Install and configure necessary tools and frameworks" 4 "simple" "deployment" "high" [];
   template_task "Design user interface" "Create wireframes and design mockups"
     8 "moderate" "design" "high" [0];
   template_task "Implement core functionality" "Develop the main features and functionality"
     16 "complex" "implementation" "high" [0; 1];
   template_task "Testing and debugging" "Test the application and fix any issues"
     6 "moderate" "testing" "medium" [2];
   template_task "Deploy and document" "Deploy the application and create documentation"
     4 "simple" "deployment" "medium" [3]].

Definition generic_template : list pyval :=
  [template_task "Research and planning" "Research requirements and create project plan"
     4 "moderate" "research" "high" [];
   template_task "Initial setup" "Set up project structure and tools"
     4 "simple" "deployment" "high" [0];
   template_task "Core development" "Develop the main functionality"
     12 "complex" "implementation" "high" [1];
   template_task "Testing and refinement" "Test the solution and make improvements"
     6 "moderate" "testing" "medium" [2];
   template_task "Final review and documentation" "Review the work and create documentation"
     3 "simple" "documentation" "low" [3]].

(** The tasks that the fallback finds in the text itself. *)
Definition tasks_found_in (content : list ascii) : list pyval :=
  let from_fields :=
    flat_map (fun pattern =>
                map (fun m => fallback_task (text m))
                    (List.filter reasonable_length (re_findall pattern content)))
             [quoted_field "title"; quoted_field "description"] in
  let from_lines :=
    flat_map (fun line =>
                let line := strip line in
                if (length line <? 10)%nat then [] else line_task task_patterns line)
             (split_on "010" content []) in
  (from_fields ++ from_lines)%list.

Definition fallback_tasks (content goal : string) : list pyval :=
  match tasks_found_in (chars content) with
  | [] =>
      if any_in ["website"; "web"; "app"; "application"] (lower goal)
      then application_template else generic_template
  | tasks => tasks
  end.

Definition create_fallback_tasks_from_content (content goal : string) : pyval :=
  PDict [("tasks", PList (fallback_tasks content goal))].

(** ** The response repairer: step 3 of [generate_task_plan] *)

(** ["tasks" in v] *)
Definition has_tasks (v : pyval) : result bool :=
  match v with
  | PDict d => Ok (match dict_get "tasks" d with Some _ => true | None => false end)
  | PList l => Ok (existsb (fun x => in_strs x ["tasks"]) l)
  | PStr _ | PTime _ => Ok (default false (contains "tasks" <$> as_str v))
  | _ => Raise TypeError
  end.

Definition repair_response (content goal : string) : result pyval :=
  tasks_data ← match extract_json_from_response content with
               | Raise ValueError => Ok (create_fallback_tasks_from_content content goal)
               | r => r
               end;
  present ← has_tasks tasks_data;
  if present : bool then Ok tasks_data
  else Ok (create_fallback_tasks_from_content content goal).

(** ** From the response to the plan *)

(** [v["tasks"]] *)
Definition tasks_entry (v : pyval) : result pyval :=
  match v with
  | PDict d => match dict_get "tasks" d with Some x => Ok x | None => Raise KeyError end
  | _ => Raise TypeError
  end.

(** An object as a task record. *)
Definition dict_of (d : list (string * pyval)) : dict :=
  fold_left (fun m kv => <[fst kv := snd kv]> m) d ∅.

(** The records that the loops over the tasks see; anything that is not
    an object makes the validator raise [TypeError] at its first use. *)
Fixpoint records_of (items : list pyval) : result (list dict) :=
  match items with
  | [] => Ok []
  | PDict d :: rest => ts ← records_of rest; Ok (dict_of d :: ts)
  | _ :: _ => Raise TypeError
  end.

(** The body of the [try] of [generate_task_plan], from the text of the
    response on; [start_date] is the parsed start instant.  The handler
    of the function catches every exception [e] of this body and raises
    [Exception('Failed to generate plan: ' + str(e))] in its place: an
    exception of this definition is the one that the handler wraps. *)
Definition generate_task_plan (content goal : string) (constraints : option dict)
    (timeframe : option string) (start_date : Z) : result plan :=
  tasks_data ← repair_response content goal;
  entry ← tasks_entry tasks_data;
  items ← py_iter entry;
  tasks ← records_of items;
  plan_from_tasks tasks constraints timeframe start_date.

(** ** Predicates of the statements *)

Definition backward_dep (i : nat) (d : pyval) : Prop :=
  exists n, as_int d = Some n /\ 0 <= n < Z.of_nat i.

Definition deps_point_backwards_from (start : nat) (tasks : list dict) : Prop :=
  forall i t, tasks !! i = Some t ->
    exists ds, t !! "dependencies" = Some (PList ds) /\ Forall (backward_dep (start + i)) ds.

Definition deps_point_backwards (tasks : list dict) : Prop :=
  deps_point_backwards_from 0 tasks.

Definition same_fields_except (k : string) (a b : dict) : Prop :=
  forall f, f <> k -> a !! f = b !! f.

Definition agree_except (k : string) (l1 l2 : list dict) : Prop :=
  Forall2 (same_fields_except k) l1 l2.

(** The tasks that [append_parts] appends: parts numbered from
    [part_idx], the first chained to [prev], the others to the position
    before their own; [base] is the position of the first. *)
Fixpoint chunks_from (task : dict) (total_parts : nat) (first_part_deps : list pyval)
    (part_idx : nat) (prev : Z) (base : nat) (parts : list Q) : list dict :=
  match parts with
  | [] => []
  | part_hours :: rest =>
      part_task task total_parts first_part_deps part_idx prev part_hours ::
      chunks_from task total_parts first_part_deps (S part_idx) (Z.of_nat base) (S base) rest
  end.

(** The hours that the splitter reads from a task. *)
Definition split_hours (task : dict) : result Q :=
  Qmaxb 1 <$> py_float (py_or (get_default task "estimated_hours" (PInt 0)) (PInt 0)).

(** The durations of the chunks written for a task of [hours] hours. *)
Definition parts_of (threshold_hours chunk_hours hours : Q) : list Q :=
  if Qle_bool hours threshold_hours then [hours] else split_parts hours chunk_hours.

Definition hours_at_least (lo : Q) (t : dict) : Prop :=
  exists x, t !! "estimated_hours" = Some (PFloat x) /\ (lo <= x)%Q.

Definition hours_at_most (hi : Q) (t : dict) : Prop :=
  exists x, t !! "estimated_hours" = Some (PFloat x) /\ (x <= hi)%Q.

(** Position of the first chunk of original task [k]: the one after the
    last part recorded for task [k - 1]. *)
Definition first_position (last_part : gmap Z Z) (k : nat) : Z :=
  match k with
  | O => 0
  | S k' => default 0 (last_part !! Z.of_nat k') + 1
  end.

(** Every task at a position in [(s, e]] depends exactly on the task
    before it. *)
Definition chained (out : list dict) (s e : Z) : Prop :=
  forall p, s < p <= e ->
    exists t, out !! Z.to_nat p = Some t /\ t !! "dependencies" = Some (PList [PInt (p - 1)]).

(** The chunks of the original tasks tile the output: task [k] owns the
    positions from [first_position] to its recorded last part, as many as
    it has parts, chained in order. *)
Definition chunks_tile (threshold_hours chunk_hours : Q) (tasks out : list dict)
    (last_part : gmap Z Z) : Prop :=
  forall k task, tasks !! k = Some task ->
    exists e h,
      last_part !! Z.of_nat k = Some e /\
      split_hours task = Ok h /\
      e - first_position last_part k + 1 =
        Z.of_nat (length (parts_of threshold_hours chunk_hours h)) /\
      first_position last_part k <= e < Z.of_nat (length out) /\
      chained out (first_position last_part k) e.

(** The values of the fields [ks] of a task. *)
Definition fields (ks : list string) (t : dict) : list (option pyval) :=
  map (fun k => t !! k) ks.

(** ** Concrete inputs of the examples *)

(** Two raw records with forward, self, negative and non-integer
    dependencies; the first is long enough to be split. *)
Definition raw_with_bad_deps : list dict :=
  [ {[ "title" := PStr "Build the core"; "estimated_hours" := PInt 30;
       "dependencies" := PList [PInt 0; PInt 1; PInt (-1); PStr "0"] ]};
    {[ "title" := PStr "Ship it"; "estimated_hours" := PFloat (25 # 10);
       "dependencies" := PList [PInt 0; PInt 1; PInt 5; PFloat 0] ]} ].

(** A documentation task estimated at half an hour. *)
Definition half_hour_task : dict :=
  {[ "title" := PStr "Write notes"; "description" := PStr "Short summary of the meeting";
     "estimated_hours" := PFloat (5 # 10); "priority" := PStr "medium";
     "complexity_level" := PStr "simple"; "task_type" := PStr "documentation";
     "dependencies" := PList [] ]}.

(** A task of 24.5 hours: three full chunks and half an hour left over. *)
Definition long_task_with_small_rest : dict :=
  {[ "title" := PStr "Migrate the data"; "estimated_hours" := PFloat (245 # 10);
     "dependencies" := PList [] ]}.

(** The scenario of the specification: a task of 30 hours and a task that
    depends on it. *)
Definition thirty_hour_plan : list dict :=
  [ {[ "title" := PStr "Build"; "estimated_hours" := PFloat 30; "dependencies" := PList [] ]};
    {[ "title" := PStr "Ship"; "estimated_hours" := PFloat 2;
       "dependencies" := PList [PInt 0] ]} ].

(** Scheduling monotonicity: the recorded start of every task is not
    before the deadline of the task before it, nor before the deadline of
    any task that it depends on. *)
Definition starts_after_predecessors (out : list dict) : Prop :=
  forall i t, out !! i = Some t ->
    exists s, t !! "start_time" = Some (PTime s) /\
      (forall j tj, i = S j -> out !! j = Some tj ->
         exists e, tj !! "deadline" = Some (PTime e) /\ e <= s) /\
      (forall ds d n tj,
         t !! "dependencies" = Some (PList ds) -> d ∈ ds -> as_int d = Some n ->
         out !! Z.to_nat n = Some tj ->
         exists e, tj !! "deadline" = Some (PTime e) /\ e <= s).

(** The state of a scheduling loop: [done] are the tasks written so far
    and [ends] their end times. *)
Definition scheduled_so_far (ends : list Z) (done : list dict) : Prop :=
  length done = length ends /\
  deps_point_backwards done /\
  (forall j tj, done !! j = Some tj ->
     exists e, ends !! j = Some e /\ tj !! "deadline" = Some (PTime e)) /\
  starts_after_predecessors done.

(** A task of four hours, to be scheduled alone. *)
Definition four_hour_task : dict :=
  {[ "title" := PStr "Kick-off"; "estimated_hours" := PFloat 4; "dependencies" := PList [] ]}.

(** A raw record as the model returns it: every field given and valid. *)
Definition raw_task (title : string) (hours : Q) (complexity type : string) : dict :=
  {[ "title" := PStr title; "description" := PStr "Planned work for this step";
     "estimated_hours" := PFloat hours; "priority" := PStr "medium";
     "complexity_level" := PStr complexity; "task_type" := PStr type;
     "dependencies" := PList [] ]}.

Definition numbered (f : string -> dict) (n : nat) : list dict :=
  map (fun i => f (string_of_Z (Z.of_nat i))) (seq 1 n).

(** Ten implementation tasks of 4 raw hours each; re-estimation makes
    them 12 hours each, 120 hours in all. *)
Definition ten_heavy_tasks : list dict :=
  numbered (fun i => raw_task ("Stage " +:+ i) 4 "complex" "implementation") 10.

(** Sixteen documentation tasks of 0.1 raw hours each; re-estimation
    makes them half an hour each, 8 hours in all. *)
Definition sixteen_small_tasks : list dict :=
  numbered (fun i => raw_task ("Note " +:+ i) (1 # 10) "simple" "documentation") 16.

(** The hours of the tasks of a plan, with its total. *)
Definition plan_hours (p : plan) : list (option pyval) * Q :=
  (map hours_of (plan_tasks p), Qred (total_estimated_hours p)).

(** The fields that a second run of validation and re-estimation leaves
    alone. *)
Definition core_keys : list string :=
  ["title"; "description"; "complexity_level"; "task_type"; "dependencies"].

Definition same_core (a b : dict) : Prop :=
  forall k, In k core_keys -> a !! k = b !! k.

(** The shape of a validated task at index [i]. *)
Definition well_formed (i : nat) (t : dict) : Prop :=
  missing_or_falsy t "title" = false /\
  missing_or_falsy t "description" = false /\
  missing_or_not_in t "complexity_level" complexity_levels = false /\
  missing_or_not_in t "task_type" task_types = false /\
  exists ds, t !! "dependencies" = Some (PList ds) /\ forallb (valid_dep i) ds = true.

Definition well_formed_from (i : nat) (tasks : list dict) : Prop :=
  forall k t, tasks !! k = Some t -> well_formed (i + k) t.

(** One implementation task of four hours, of moderate complexity. *)
Definition one_moderate_task : list dict :=
  [raw_task "Stage 1" 4 "moderate" "implementation"].

(** A pattern without a capturing group. *)
Fixpoint group_free (r : regex) : bool :=
  match r with
  | Cat r1 r2 => group_free r1 && group_free r2
  | Star _ r1 | Opt r1 => group_free r1
  | Group _ => false
  | _ => true
  end.

Definition starts_with_brace (s : list ascii) : Prop := exists t, s = "{"%char :: t.

(** ** Predicates of the further properties *)

(** A whole number of half hours. *)
Definition half_hour_multiple (x : Q) : Prop := exists k : Z, (x == inject_Z k / 2)%Q.

(** An instant on Monday to Friday, from 09:00 to 17:00. *)
Definition working_time (t : Z) : Prop :=
  weekday t < 5 /\ 9 * us_per_hour <= time_of_day t <= 17 * us_per_hour.

(** 09:00 of a working day. *)
Definition workday_morning (t : Z) : Prop :=
  weekday t < 5 /\ time_of_day t = 9 * us_per_hour.

(** The task has a deadline, and it is a working time. *)
Definition deadline_in_working_time (task : dict) : Prop :=
  exists e, task !! "deadline" = Some (PTime e) /\ working_time e.

(** The tasks agree on every field outside [ks]. *)
Definition same_fields_outside (ks : list string) (a b : dict) : Prop :=
  forall f, ~ In f ks -> a !! f = b !! f.

(** What a scheduling loop writes for a task: the timing fields, with the
    deadline in working time; [ks] are the fields it may change. *)
Definition scheduled_as (ks : list string) (task t : dict) : Prop :=
  same_fields_outside ks task t /\
  deadline_in_working_time t /\
  exists s, t !! "start_time" = Some (PTime s).

(** The task at every position carries the position as its id. *)
Definition ids_are_positions_from (start : nat) (tasks : list dict) : Prop :=
  forall k t, tasks !! k = Some t -> t !! "id" = Some (PInt (Z.of_nat (start + k))).

Definition ids_are_positions (tasks : list dict) : Prop := ids_are_positions_from 0 tasks.

Definition timing_fields : list string := ["id"; "start_time"; "deadline"].
Definition schedule_fields : list string := ["id"; "start_time"; "deadline"; "estimated_hours"].

(** A task without dependencies that takes at most one working day. *)
Definition short_independent_task (task : dict) : Prop :=
  truthy (get_default task "dependencies" PNone) = false /\
  exists h, task !! "estimated_hours" = Some (PFloat h) /\ (0 < h)%Q /\ (h <= 8)%Q.

(** The task is due its own duration after 09:00 of the day of [start]. *)
Definition due_on_day_of (start : Z) (t : dict) : Prop :=
  exists h, t !! "estimated_hours" = Some (PFloat h) /\
            t !! "deadline" = Some (PTime (replace_9am start + timedelta_hours h)).

(** Three independent tasks of four hours each. *)
Definition three_short_tasks : list dict :=
  [ {[ "title" := PStr "Draft"; "estimated_hours" := PFloat 4; "dependencies" := PList [] ]};
    {[ "title" := PStr "Review"; "estimated_hours" := PFloat 4; "dependencies" := PList [] ]};
    {[ "title" := PStr "Publish"; "estimated_hours" := PFloat 4 ]} ].

(** The priority of the task is one of the three levels. *)
Definition valid_priority (t : dict) : Prop :=
  missing_or_not_in t "priority" priorities = false.

(** The hours of the task are a number that is not negative. *)
Definition hours_not_negative (t : dict) : Prop :=
  exists v q, t !! "estimated_hours" = Some v /\ as_number v = Ok q /\ (0 <= q)%Q.

(** The hours of the task are a number. *)
Definition hours_are_a_number (t : dict) : Prop :=
  exists v q, t !! "estimated_hours" = Some v /\ as_number v = Ok q.

(** A task as validation returns it at index [i]: the texts, the levels,
    the number of hours and the dependencies are in place. *)
Definition checked_task (i : nat) (t : dict) : Prop :=
  well_formed i t /\ valid_priority t /\ hours_are_a_number t.

Definition checked_tasks (tasks : list dict) : Prop :=
  forall i t, tasks !! i = Some t -> checked_task i t.

(** A task as validation leaves it at index [i]. *)
Definition validated_task (i : nat) (t : dict) : Prop :=
  well_formed i t /\ valid_priority t /\ hours_not_negative t.

Definition validated_tasks (tasks : list dict) : Prop :=
  forall i t, tasks !! i = Some t -> validated_task i t.

(** The number of tasks of priority [p]. *)
Definition count_priority (p : string) (tasks : list dict) : nat :=
  length (indices_with_priority p tasks).

(** Six raw records that all ask for high priority. *)
Definition six_urgent_tasks : list dict :=
  numbered (fun i => <["priority" := PStr "high"]>
                       (raw_task ("Step " +:+ i) 2 "simple" "implementation")) 6.

(** The field [k], when present and not empty, is a text. *)
Definition text_or_absent (t : dict) (k : string) : Prop :=
  forall v, t !! k = Some v -> truthy v = true -> exists s, v = PStr s.

(** A raw record with the field types of the response format: texts for
    the title and the description, a number for the hours, a list for the
    dependencies; every field may be absent. *)
Definition plain_record (t : dict) : Prop :=
  text_or_absent t "title" /\ text_or_absent t "description" /\
  (forall v, t !! "estimated_hours" = Some v -> (exists n, v = PInt n) \/ (exists x, v = PFloat x)) /\
  (forall v, t !! "dependencies" = Some v -> exists l, v = PList l).

(** The title and the description are texts. *)
Definition has_texts (t : dict) : Prop :=
  exists title description,
    t !! "title" = Some (PStr title) /\ t !! "description" = Some (PStr description).

(** What re-estimation writes for a task [t]: the estimate it found as
    [base_hours], the new estimate in half hours, and the factors. *)
Definition adjusted_from (t t' : dict) : Prop :=
  t' !! "base_hours" = Some (get_default t "estimated_hours" (pfloat 4)) /\
  (exists x, t' !! "estimated_hours" = Some (PFloat x) /\ half_hour_multiple x) /\
  (exists factors, t' !! "overhead_factors" = Some (PDict factors)).

(** The priority of [b] is that of [a], or [a] was of medium priority
    and [b] is of low priority. *)
Definition kept_or_demoted (a b : dict) : Prop :=
  b !! "priority" = a !! "priority" \/
  (has_priority "medium" a = true /\ b !! "priority" = Some (PStr "low")).

(** What a second run of validation and re-estimation makes of a task
    [a] that a first run returned: the five core fields stay; the hours
    of [a] (4.0 when they were 0) become the new [base_hours]; the
    estimate and the factors are written anew; the priority stays, or
    goes from medium to low. *)
Definition rerun_of (a b : dict) : Prop :=
  same_core a b /\
  (exists h hb, a !! "estimated_hours" = Some (PFloat h) /\
                b !! "base_hours" = Some (PFloat hb) /\
                (hb == if Qle_bool h 0 then 4 else h)%Q) /\
  (exists x, b !! "estimated_hours" = Some (PFloat x) /\ half_hour_multiple x) /\
  (exists factors, b !! "overhead_factors" = Some (PDict factors)) /\
  kept_or_demoted a b.

(** Twenty-one records of one hour of testing each, of medium priority. *)
Definition testing_tasks : list dict :=
  numbered (fun i => raw_task ("Test part " +:+ i) 1 "simple" "testing") 21.

(** A task that the fallback writes for a title found in the text. *)
Definition found_task (v : pyval) : Prop :=
  exists title, v = fallback_task (text title) /\ reasonable_length title = true.

(** A record of the fallback: found in the text, or from a template. *)
Definition fallback_record (v : pyval) : Prop :=
  found_task v \/ In v application_template \/ In v generic_template.

(** ** The range of the model

    The floats of the model are exact rationals, its integers and dates
    are unbounded, and its decoder has no recursion limit.  They stand
    for the values of the code as long as the numbers stay well inside
    the range of a [float], the dates inside the calendar and the nesting
    of a text below the recursion limit of the interpreter.  The theorems
    about whole runs are stated for such inputs. *)

(** A number of modest size: zero, or between a millionth and a million
    in absolute value. *)
Definition modest (q : Q) : bool :=
  Qeq_bool q 0 || (Qle_bool (1 # 1000000) (Qabs q) && Qle_bool (Qabs q) 1000000).

(** A number of modest size, a text that reads as one, or a value that
    is neither a number nor a text. *)
Definition modest_value (v : pyval) : bool :=
  match py_float v with
  | Ok q => modest q
  | Raise _ => match v with PStr _ => false | _ => true end
  end.

(** The hours of the record, when it has any, are of modest size. *)
Definition modest_hours (t : dict) : bool :=
  match t !! "estimated_hours" with
  | Some v => modest_value v
  | None => true
  end.

(** The team size of the constraints is of modest size. *)
Definition modest_constraints (constraints : option dict) : bool :=
  modest_value (constraint constraints "team_size" (PInt 1)).

(** The timeframe is of at most a million days. *)
Definition modest_timeframe (timeframe : option string) : bool :=
  parse_timeframe_to_days timeframe <=? 1000000.

(** An instant of the calendar of [datetime]: from 0001-01-01 to
    9999-12-31. *)
Definition on_calendar (t : Z) : bool := (0 <=? t) && (day_of t <=? last_day).

(** One task of twelve hours: more than a working day, and not long
    enough to be split. *)
Definition twelve_hour_task : list dict :=
  [raw_task "Stage 1" 12 "moderate" "implementation"].

(** The number of opening brackets and braces of a text: a bound on the
    depth to which the values in it are nested. *)
Definition opening_brackets (s : list ascii) : nat :=
  length (List.filter (fun c => Ascii.eqb c "["%char || Ascii.eqb c "{"%char) s).

(** A text whose values are nested at most a hundred deep. *)
Definition shallow (content : string) : bool :=
  (opening_brackets (chars content) <=? 100)%nat.


(** A task as the splitter and the scheduler need it at index [i]: a
    text for the title, a float for the hours, and a list of indices of
    earlier tasks for the dependencies. *)
Definition ready_task (i : nat) (t : dict) : Prop :=
  (exists title, t !! "title" = Some (PStr title)) /\
  (exists x, t !! "estimated_hours" = Some (PFloat x)) /\
  (exists ds, t !! "dependencies" = Some (PList ds) /\ forallb (valid_dep i) ds = true).

Definition ready_tasks (tasks : list dict) : Prop :=
  forall i t, tasks !! i = Some t -> ready_task i t.

(** Constraints with the types of the request format: a text for the
    experience level, a number for the team size, a text for the
    technical stack; each may be absent, and so may the constraints. *)
Definition plain_constraints (constraints : option dict) : Prop :=
  (exists s, constraint constraints "experience_level" (PStr "intermediate") = PStr s) /\
  (exists q, as_number (constraint constraints "team_size" (PInt 1)) = Ok q) /\
  (truthy (constraint constraints "technical_stack" (PStr "")) = false \/
   exists s, constraint constraints "technical_stack" (PStr "") = PStr s).

(** The title is a text and the hours are a float. *)
Definition has_title_and_hours (t : dict) : Prop :=
  (exists title, t !! "title" = Some (PStr title)) /\
  (exists x, t !! "estimated_hours" = Some (PFloat x)).

(** The hours of the task are a float. *)
Definition has_float_hours (t : dict) : Prop :=
  exists x, t !! "estimated_hours" = Some (PFloat x).

(** The ways in which the pipeline ends on plain records: a plan with at
    least as many tasks as records, the timeframe error, a division by
    zero (by a total of zero hours in step 4b, or by a scaling factor of
    zero in the scheduler), or a schedule that leaves the calendar. *)
Inductive pipeline_outcome (n : nat) : result plan -> Prop :=
| plan_returned (p : plan) :
    (n <= length (plan_tasks p))%nat -> pipeline_outcome n (Ok p)
| timeframe_rejected (kind : violation) (total available : Q) :
    pipeline_outcome n (Raise (LLMGenerationError kind total available))
| zero_divided : pipeline_outcome n (Raise ZeroDivisionError)
| calendar_left : pipeline_outcome n (Raise OverflowError).

(** A record of 0.04 hours of documentation: validation rounds the hours
    to 0.0 and re-estimation to 0.0 again. *)
Definition tiny_note : list dict := [raw_task "Note" (4 # 100) "simple" "documentation"].

(** The record of last parts when no task was split: every index below
    [n] is its own position. *)
Fixpoint own_positions (n : nat) : gmap Z Z :=
  match n with
  | O => ∅
  | S n' => <[Z.of_nat n' := Z.of_nat n']> (own_positions n')
  end.

(** A task as the splitter leaves it at position [i]: rounded hours of
    at most 24, integer dependencies on earlier positions, and the
    position as its id. *)
Definition settled_task (i : nat) (t : dict) : Prop :=
  (exists p, t !! "estimated_hours" = Some (pfloat (round1 (Qmaxb 1 p))) /\
             (Qmaxb 1 p <= 24)%Q) /\
  (exists ns, t !! "dependencies" = Some (PList (map PInt ns)) /\
              Forall (fun n => 0 <= n < Z.of_nat i) ns) /\
  t !! "id" = Some (PInt (Z.of_nat i)).

(** ** Subtasks of a task: [_generate_fallback_subtasks] *)

Definition subtask (id : Z) (title : string) (description hours : pyval) : dict :=
  {[ "id" := PInt id; "title" := PStr title; "description" := description;
     "estimated_hours" := hours; "status" := PStr "todo"; "completed" := PBool false ]}.

(** The three subtasks share the hours 20, 60 and 20 percent, each
    rounded to one decimal, and the middle one takes what the roundings
    leave; hours that are not a number make the multiplication raise, and
    the handler returns the task as one subtask. *)
Definition _generate_fallback_subtasks (task : dict) : list dict :=
  let estimated_hours := get_default task "estimated_hours" (PInt 4) in
  let title := py_str (get_default task "title" (PStr "Task")) in
  match as_number estimated_hours with
  | Ok hours =>
      let first := round1 (hours * (2 # 10)) in
      let middle := round1 (hours * (6 # 10)) in
      let last := round1 (hours * (2 # 10)) in
      let total_hours := (0 + first + middle + last)%Q in
      let middle :=
        if Qeq_bool total_hours hours then middle
        else round1 (middle + (hours - total_hours)) in
      [ subtask 0 ("Plan and prepare for " +:+ title)
          (PStr ("Research, gather resources, and create a plan for " +:+ title)) (pfloat first);
        subtask 1 ("Implement " +:+ title)
          (PStr ("Execute the main work for " +:+ title)) (pfloat middle);
        subtask 2 ("Test and finalize " +:+ title)
          (PStr ("Test the implementation and make final adjustments for " +:+ title))
          (pfloat last) ]
  | Raise _ =>
      [ subtask 0 "Complete task" (get_default task "description" (PStr "Work on this task"))
          estimated_hours ]
  end.

(** The hours of a list of subtasks, when each is a float. *)
Fixpoint float_hours (tasks : list dict) : option (list Q) :=
  match tasks with
  | [] => Some []
  | t :: rest =>
      match t !! "estimated_hours", float_hours rest with
      | Some (PFloat x), Some xs => Some (x :: xs)
      | _, _ => None
      end
  end.


(** A number with at most one decimal. *)
Definition one_decimal (x : Q) : Prop := exists k : Z, (x * 10 == inject_Z k)%Q.

(** A task of 7.3 hours. *)
Definition odd_hours_task : dict :=
  {[ "title" := PStr "Write the report"; "estimated_hours" := PFloat (73 # 10) ]}.


(** ** Calls of the language model *)

(** [generate_subtasks] and [optimize_plan] build a prompt, call
    [call_ollama] once and work on what it returns.  What the call
    returns or raises is their argument [call_ollama]: the value that the
    server sent, or the exception of the call. *)

(** [k in v] for a string literal [k]. *)
Definition has_key (k : string) (v : pyval) : result bool :=
  match v with
  | PDict d => Ok (match dict_get k d with Some _ => true | None => false end)
  | PList l => Ok (existsb (fun x => in_strs x [k]) l)
  | PStr _ | PTime _ => Ok (default false (contains k <$> as_str v))
  | _ => Raise TypeError
  end.

(** [v[k]] for a string literal [k]. *)
Definition item (k : string) (v : pyval) : result pyval :=
  match v with
  | PDict d => match dict_get k d with Some x => Ok x | None => Raise KeyError end
  | _ => Raise TypeError
  end.

(** [v.get(k, d)] *)
Definition py_get (v : pyval) (k : string) (d : pyval) : result pyval :=
  match v with
  | PDict o => Ok (default d (dict_get k o))
  | _ => Raise AttributeError
  end.

(** [len(v)] *)
Definition py_len (v : pyval) : result Z :=
  match v with
  | PList l => Ok (Z.of_nat (length l))
  | PDict d => Ok (Z.of_nat (length d))
  | PStr _ | PTime _ => Ok (Z.of_nat (default 0%nat (String.length <$> as_str v)))
  | _ => Raise TypeError
  end.

(** [not response or k not in response] *)
Definition lacks (k : string) (response : pyval) : result bool :=
  if truthy response then negb <$> has_key k response else Ok true.

(** [extract_json_from_response(response['response'])]; the search of the
    pattern raises [TypeError] on what is not text. *)
Definition response_json (response : pyval) : result pyval :=
  content ← item "response" response;
  match as_str content with
  | Some s => extract_json_from_response s
  | None => Raise TypeError
  end.

(** ** Subtasks from the model: [generate_subtasks] *)

(** [float(estimated_hours)], 1.0 when that raises [ValueError] or
    [TypeError] or is not positive.  An integer beyond the range of a
    float makes [float] raise [OverflowError], which this handler does
    not catch; such numbers are outside the model. *)
Definition subtask_hours (estimated_hours : pyval) : Q :=
  match py_float estimated_hours with
  | Ok h => if Qle_bool h 0 then 1%Q else h
  | Raise _ => 1%Q
  end.

(** [str(v).strip()] *)
Definition stripped (v : pyval) : string := text (strip (chars (py_str v))).

(** The loop over the entries of the response: what is not an object is
    skipped, and keeps its number. *)
Fixpoint validate_subtasks (i : nat) (subtasks : list pyval) (validated_subtasks : list dict)
    (total_hours : Q) : list dict * Q :=
  match subtasks with
  | [] => (validated_subtasks, total_hours)
  | PDict entry :: rest =>
      let number := string_of_Z (Z.of_nat i + 1) in
      let title := default (PStr ("Subtask " +:+ number)) (dict_get "title" entry) in
      let description :=
        default (PStr ("Complete subtask " +:+ number)) (dict_get "description" entry) in
      let estimated_hours :=
        subtask_hours (default (PInt 0) (dict_get "estimated_hours" entry)) in
      validate_subtasks (S i) rest
        (validated_subtasks ++
         [subtask (Z.of_nat i) (stripped title) (PStr (stripped description))
            (pfloat (round1 estimated_hours))])
        (total_hours + estimated_hours)%Q
  | _ :: rest => validate_subtasks (S i) rest validated_subtasks total_hours
  end.

(** [subtask['estimated_hours'] = round(subtask['estimated_hours'] * scale_factor, 1)] *)
Definition scale_subtask (scale_factor : Q) (subtask : dict) : result dict :=
  hours ← getitem subtask "estimated_hours" ≫= as_number;
  Ok (<["estimated_hours" := pfloat (round1 (hours * scale_factor))]> subtask).

(** The adjustment of the hours to those of the task. *)
Definition scale_subtasks (original_hours : pyval) (total_hours : Q)
    (validated_subtasks : list dict) : result (list dict) :=
  let differs :=
    match as_number original_hours with
    | Ok hours => negb (Qeq_bool total_hours hours)
    | Raise _ => true
    end in
  if differs && (0 <? length validated_subtasks)%nat then
    hours ← as_number original_hours;
    if Qeq_bool total_hours 0 then Raise ZeroDivisionError
    else adjust_tasks (scale_subtask (hours / total_hours)) validated_subtasks
  else Ok validated_subtasks.

(** The body of the [try]. *)
Definition subtasks_from_response (call_ollama : result pyval) (task : dict)
    : result (list dict) :=
  _ ← getitem task "title";
  _ ← getitem task "description";
  _ ← getitem task "estimated_hours";
  response ← call_ollama;
  missing ← lacks "response" response;
  if missing : bool then Ok (_generate_fallback_subtasks task)
  else
    subtasks_data ← response_json response;
    missing ← lacks "subtasks" subtasks_data;
    if missing : bool then Ok (_generate_fallback_subtasks task)
    else
      subtasks ← item "subtasks" subtasks_data;
      match subtasks with
      | PList l =>
          if (length l <? 2)%nat then Ok (_generate_fallback_subtasks task)
          else
            let '(validated_subtasks, total_hours) := validate_subtasks 0 l [] 0 in
            let total := match validated_subtasks with
                         | [] => PInt 0
                         | _ => pfloat total_hours
                         end in
            scale_subtasks (get_default task "estimated_hours" total) total_hours
              validated_subtasks
      | _ => Ok (_generate_fallback_subtasks task)
      end.

(** The handler of every exception writes the title of the task in its
    message before it returns the fallback. *)
Definition generate_subtasks (call_ollama : result pyval) (task : dict) : result (list dict) :=
  match subtasks_from_response call_ollama task with
  | Ok subtasks => Ok subtasks
  | Raise _ =>
      _ ← getitem task "title";
      Ok (_generate_fallback_subtasks task)
  end.

(** ** Optimisation of a plan *)

(** *** [_validate_optimization_data] *)

(** [if k not in d: d[k] = v] *)
Definition set_default (k : string) (v : pyval) (d : list (string * pyval))
    : list (string * pyval) :=
  match dict_get k d with
  | Some _ => d
  | None => dict_set k v d
  end.

(** [isinstance(tid, int) and 0 <= tid <= max_task_id] *)
Definition in_bounds (max_task_id : Z) (tid : pyval) : bool :=
  match as_int tid with
  | Some n => (0 <=? n) && (n <=? max_task_id)
  | None => false
  end.

(** The body of the loop, for a recommendation that is an object. *)
Definition validate_recommendation (max_task_id : Z) (rec : list (string * pyval))
    : result (list (string * pyval)) :=
  let task_ids := default (PList []) (dict_get "task_ids" rec) in
  valid_task_ids ←
    (if truthy task_ids then filter (fun tid => in_bounds max_task_id tid = true) <$> py_iter task_ids
     else Ok []);
  let rec := dict_set "task_ids" (PList valid_task_ids) rec in
  let rec := dict_set "type" (default (PStr "general") (dict_get "type" rec)) rec in
  let rec := dict_set "suggestion"
               (default (PStr "General optimization suggestion") (dict_get "suggestion" rec))
               rec in
  let rec := dict_set "impact"
               (default (PStr "Positive impact expected") (dict_get "impact" rec)) rec in
  let rec := dict_set "priority" (default (PStr "medium") (dict_get "priority" rec)) rec in
  Ok rec.

(** The loop over the recommendations.  It changes the objects of the
    list in place: the first component is the list as the loop leaves it,
    the second the validated recommendations or the exception that ended
    the loop. *)
Fixpoint validate_recommendations (max_task_id : Z) (recommendations : list pyval)
    : list pyval * result (list pyval) :=
  match recommendations with
  | [] => ([], Ok [])
  | PDict rec :: rest =>
      match validate_recommendation max_task_id rec with
      | Ok rec' =>
          let '(seen, validated) := validate_recommendations max_task_id rest in
          (PDict rec' :: seen, (fun l => PDict rec' :: l) <$> validated)
      | Raise e => (PDict rec :: rest, Raise e)
      end
  | v :: rest =>
      let '(seen, validated) := validate_recommendations max_task_id rest in
      (v :: seen, validated)
  end.

(** The object after the defaults are written; every exception after
    them returns the object as it is then. *)
Definition validate_optimization_object (optimization_data : list (string * pyval))
    (plan : dict) : list (string * pyval) :=
  let optimization_data := set_default "recommendations" (PList []) optimization_data in
  let optimization_data :=
    set_default "estimated_improvement" (PStr "Analysis completed") optimization_data in
  let optimization_data := set_default "warnings" (PList []) optimization_data in
  let optimization_data :=
    set_default "summary" (PStr "Plan analysis completed") optimization_data in
  match py_len (get_default plan "tasks" (PList [])) with
  | Raise _ => optimization_data
  | Ok len_tasks =>
      let max_task_id := len_tasks - 1 in
      let recommendations := default PNone (dict_get "recommendations" optimization_data) in
      match py_iter recommendations with
      | Raise _ => optimization_data
      | Ok recs =>
          let '(seen, validated) := validate_recommendations max_task_id recs in
          match validated with
          | Ok validated_recommendations =>
              dict_set "recommendations" (PList validated_recommendations) optimization_data
          | Raise _ =>
              match recommendations with
              | PList _ => dict_set "recommendations" (PList seen) optimization_data
              | _ => optimization_data
              end
          end
      end
  end.

(** On what is not an object the first membership test or assignment
    raises, and the handler returns the value as it is. *)
Definition _validate_optimization_data (optimization_data : pyval) (plan : dict) : pyval :=
  match optimization_data with
  | PDict d => PDict (validate_optimization_object d plan)
  | v => v
  end.

(** *** [_generate_fallback_optimization] *)

(** [[i for i, task in enumerate(tasks) if p(task)]], from position [i]. *)
Fixpoint positions_where (p : pyval -> result bool) (i : nat) (tasks : list pyval)
    : result (list nat) :=
  match tasks with
  | [] => Ok []
  | task :: rest =>
      b ← p task;
      l ← positions_where p (S i) rest;
      Ok (if b : bool then i :: l else l)
  end.

(** [not task.get('dependencies')] *)
Definition no_dependencies (task : pyval) : result bool :=
  (fun v => negb (truthy v)) <$> py_get task "dependencies" PNone.

(** [task.get('estimated_hours', 0) > 8] *)
Definition is_large (task : pyval) : result bool :=
  v ← py_get task "estimated_hours" (PInt 0);
  hours ← as_number v;
  Ok (Qltb 8 hours).

(** [task.get('priority') == 'high'] *)
Definition is_high_priority (task : pyval) : result bool :=
  (fun v => in_strs v ["high"]) <$> py_get task "priority" PNone.

Definition task_id_list (ids : list nat) : pyval := PList (map (fun i => PInt (Z.of_nat i)) ids).

Definition recommendation (type : string) (task_ids : list nat)
    (suggestion impact priority : string) : pyval :=
  PDict [("type", PStr type); ("task_ids", task_id_list task_ids);
         ("suggestion", PStr suggestion); ("impact", PStr impact);
         ("priority", PStr priority)].

(** [f"{i+1}"] *)
Definition task_number (i : nat) : string := string_of_Z (Z.of_nat i + 1).

Definition optimization (recommendations : list pyval)
    (estimated_improvement warning summary : string) : pyval :=
  PDict [("recommendations", PList recommendations);
         ("estimated_improvement", PStr estimated_improvement);
         ("warnings", PList [PStr warning]); ("summary", PStr summary)].

(** [tasks[i]] for a position [i]; the keys of an object are texts. *)
Definition at_position (tasks : pyval) (i : nat) : result pyval :=
  match tasks with
  | PList l => list_getitem l (PInt (Z.of_nat i))
  | PStr _ | PTime _ => items ← py_iter tasks; list_getitem items (PInt (Z.of_nat i))
  | PDict _ => Raise KeyError
  | _ => Raise TypeError
  end.

(** The recommendations of the body of the [try]; the tasks are read
    only for one of the three goals. *)
Definition fallback_recommendations (plan : dict) (optimization_goal : string)
    : result (list pyval) :=
  let tasks := get_default plan "tasks" (PList []) in
  if String.eqb optimization_goal "time" then
    independent_tasks ← py_iter tasks ≫= positions_where no_dependencies 0;
    match independent_tasks with
    | first :: second :: _ =>
        Ok [recommendation "parallelization" (take 2 independent_tasks)
              ("Tasks " +:+ task_number first +:+ " and " +:+ task_number second +:+
               " have no dependencies and can be done in parallel")
              "Reduces total completion time" "high"]
    | _ => Ok []
    end
  else if String.eqb optimization_goal "resources" then
    large_tasks ← py_iter tasks ≫= positions_where is_large 0;
    match large_tasks with
    | first :: _ =>
        task ← at_position tasks first;
        hours ← py_get task "estimated_hours" (PInt 0);
        Ok [recommendation "resource_optimization" [first]
              ("Task " +:+ task_number first +:+ " is quite large (" +:+ py_str hours +:+
               "h). Consider breaking it into smaller subtasks")
              "Better resource management and progress tracking" "medium"]
    | [] => Ok []
    end
  else if String.eqb optimization_goal "risk" then
    high_priority_tasks ← py_iter tasks ≫= positions_where is_high_priority 0;
    match high_priority_tasks with
    | first :: _ =>
        Ok [recommendation "risk_mitigation" (take 1 high_priority_tasks)
              ("Task " +:+ task_number first +:+
               " is high priority. Consider adding buffer time or backup plans")
              "Reduces project risk" "high"]
    | [] => Ok []
    end
  else Ok [].

Definition _generate_fallback_optimization (plan : dict) (optimization_goal : string) : pyval :=
  match fallback_recommendations plan optimization_goal with
  | Ok recommendations =>
      optimization recommendations "Basic optimization suggestions provided"
        "AI analysis unavailable - using basic heuristics" "Fallback optimization completed"
  | Raise _ =>
      optimization [] "Unable to analyze plan" "Optimization analysis failed"
        "Analysis could not be completed"
  end.

(** *** [optimize_plan] *)

(** One line of the summary of the tasks in the prompt. *)
Definition summary_line (i : nat) (task : pyval) : result string :=
  title ← item "title" task;
  hours ← item "estimated_hours" task;
  priority ← item "priority" task;
  dependencies ← py_get task "dependencies" (PList []);
  Ok (task_number i +:+ ". " +:+ py_str title +:+ " (" +:+ py_str hours +:+ "h, priority: " +:+
      py_str priority +:+ ", deps: " +:+ py_str dependencies +:+ ")").

Fixpoint summary_lines (i : nat) (tasks : list pyval) : result (list string) :=
  match tasks with
  | [] => Ok []
  | task :: rest =>
      line ← summary_line i task;
      lines ← summary_lines (S i) rest;
      Ok (line :: lines)
  end.

(** [sum(task.get('estimated_hours', 0) for task in tasks)] *)
Fixpoint sum_of_hours (tasks : list pyval) : result Q :=
  match tasks with
  | [] => Ok 0%Q
  | task :: rest =>
      hours ← py_get task "estimated_hours" (PInt 0) ≫= as_number;
      total ← sum_of_hours rest;
      Ok (hours + total)%Q
  end.

(** The body of the [try]: the prompt is built, with the exceptions of
    its parts, before the call. *)
Definition optimization_from_response (call_ollama : result pyval) (plan : dict)
    (optimization_goal : string) : result pyval :=
  tasks ← py_iter (get_default plan "tasks" (PList []));
  _ ← summary_lines 0 tasks;
  tasks ← py_iter (get_default plan "tasks" (PList []));
  _ ← sum_of_hours tasks;
  response ← call_ollama;
  missing ← lacks "response" response;
  if missing : bool then Ok (_generate_fallback_optimization plan optimization_goal)
  else
    optimization_data ← response_json response;
    if truthy optimization_data then Ok (_validate_optimization_data optimization_data plan)
    else Ok (_generate_fallback_optimization plan optimization_goal).

Definition optimize_plan (call_ollama : result pyval) (plan : dict) (optimization_goal : string)
    : pyval :=
  match optimization_from_response call_ollama plan optimization_goal with
  | Ok analysis => analysis
  | Raise _ => _generate_fallback_optimization plan optimization_goal
  end.

(** *** Predicates on the analysis *)

Definition optimization_keys : list string :=
  ["recommendations"; "estimated_improvement"; "warnings"; "summary"].

(** An object with the keys [ks]. *)
Definition has_keys (ks : list string) (v : pyval) : Prop :=
  exists d, v = PDict d /\ Forall (fun k => is_Some (dict_get k d)) ks.

Definition is_object (v : pyval) : bool :=
  match v with PDict _ => true | _ => false end.

(** A recommendation whose [task_ids], when given, is an array or null. *)
Definition listed_task_ids (rec : pyval) : Prop :=
  forall o v, rec = PDict o -> dict_get "task_ids" o = Some v ->
    v = PNone \/ exists l, v = PList l.

(** A position of one of [len_tasks] tasks, as an integer. *)
Definition task_position (len_tasks : Z) (tid : pyval) : Prop :=
  exists n, as_int tid = Some n /\ 0 <= n < len_tasks.

(** A recommendation as the validation leaves it. *)
Definition valid_recommendation (len_tasks : Z) (rec : pyval) : Prop :=
  exists o ids,
    rec = PDict o /\
    dict_get "task_ids" o = Some (PList ids) /\
    Forall (task_position len_tasks) ids /\
    Forall (fun k => is_Some (dict_get k o)) ["type"; "suggestion"; "impact"; "priority"].

(** The test that the fallback applies to the tasks for a goal. *)
Definition chosen_for (optimization_goal : string) (task : pyval) : Prop :=
  (optimization_goal = "time" /\ no_dependencies task = Ok true) \/
  (optimization_goal = "resources" /\ is_large task = Ok true) \/
  (optimization_goal = "risk" /\ is_high_priority task = Ok true).

(** A recommendation of the fallback: it names different tasks of the
    plan, each chosen for the goal. *)
Definition names_chosen_tasks (plan : dict) (optimization_goal : string) (rec : pyval) : Prop :=
  exists o ids tasks,
    rec = PDict o /\
    dict_get "task_ids" o = Some (task_id_list ids) /\
    plan !! "tasks" = Some (PList tasks) /\
    NoDup ids /\ ids <> [] /\
    forall i, i ∈ ids -> exists task, tasks !! i = Some task /\ chosen_for optimization_goal task.

(** An analysis from the model with a recommendation that names tasks 1,
    1, 7 and "2", and one without fields. *)
Definition raw_analysis : list (string * pyval) :=
  [("recommendations",
    PList [PDict [("type", PStr "sequencing");
                  ("task_ids", PList [PInt 1; PBool true; PInt 7; PStr "2"])];
           PStr "do the hard part first";
           PDict []]);
   ("summary", PStr "Two ideas")].

(** A plan of three tasks. *)
Definition three_task_plan : dict :=
  {[ "goal" := PStr "Launch";
     "tasks" := PList [PDict [("title", PStr "Design"); ("estimated_hours", PInt 12);
                              ("priority", PStr "high"); ("dependencies", PList [])];
                       PDict [("title", PStr "Build"); ("estimated_hours", PFloat 6);
                              ("priority", PStr "medium"); ("dependencies", PList [])];
                       PDict [("title", PStr "Ship"); ("estimated_hours", PInt 2);
                              ("priority", PStr "low"); ("dependencies", PList [PInt 1])]] ]}.

(** A recommendation that the validation leaves as it is. *)
Definition settled_recommendation (max_task_id : Z) (rec : list (string * pyval)) : Prop :=
  exists ids,
    dict_get "task_ids" rec = Some (PList ids) /\
    Forall (fun tid => in_bounds max_task_id tid = true) ids /\
    Forall (fun k => is_Some (dict_get k rec)) ["type"; "suggestion"; "impact"; "priority"].

Definition settled_recommendations (max_task_id : Z) (recs : list pyval) : Prop :=
  Forall (fun v => exists rec, v = PDict rec /\ settled_recommendation max_task_id rec) recs.

(** A reply of the server whose text holds an analysis. *)
Definition analysis_reply (analysis : string) : result pyval :=
  Ok (PDict [("model", PStr "llama3.1:8b"); ("response", PStr (quoted analysis))]).

(** *** Predicates on the subtasks *)

(** The positions of the objects among the entries, counted from [i]. *)
Fixpoint object_positions (i : nat) (entries : list pyval) : list nat :=
  match entries with
  | [] => []
  | PDict _ :: rest => i :: object_positions (S i) rest
  | _ :: rest => object_positions (S i) rest
  end.


Definition id_of (t : dict) : option pyval := t !! "id".

(** A task of six hours. *)
Definition six_hour_task : dict :=
  {[ "title" := PStr "Build the login"; "description" := PStr "Forms and sessions";
     "estimated_hours" := PFloat 6 ]}.

(** A reply whose subtasks are a note and two objects, of 1 and 3 hours. *)
Definition subtasks_reply : pyval :=
  PDict [("response",
          PStr (quoted "{'subtasks': ['first the schema', {'title': ' Schema ', 'estimated_hours': 1}, {'estimated_hours': '3'}]}"))].

(** ** Suggestions: [suggest_next_tasks] *)

(** [a == b]: numbers by value, texts by their characters, lists element
    by element, objects key by key. *)
Fixpoint py_eq (a b : pyval) : bool :=
  match a, b with
  | PNone, PNone => true
  | PList l, PList m =>
      (fix eq_list (l m : list pyval) : bool :=
         match l, m with
         | [], [] => true
         | x :: l', y :: m' => py_eq x y && eq_list l' m'
         | _, _ => false
         end) l m
  | PDict d, PDict e =>
      (length d =? length e)%nat &&
      forallb (fun kv => match dict_get (fst kv) e with
                         | Some w => py_eq (snd kv) w
                         | None => false
                         end) d
  | _, _ =>
      match as_number a, as_number b with
      | Ok x, Ok y => Qeq_bool x y
      | _, _ =>
          match as_str a, as_str b with
          | Some s, Some t => String.eqb s t
          | _, _ => false
          end
      end
  end.

(** [a < b]: numbers, texts and lists have an order among themselves;
    everything else raises [TypeError]. *)
Fixpoint py_lt (a b : pyval) : result bool :=
  match a, b with
  | PList l, PList m =>
      (fix lt_list (l m : list pyval) : result bool :=
         match l, m with
         | [], [] => Ok false
         | [], _ :: _ => Ok true
         | _ :: _, [] => Ok false
         | x :: l', y :: m' => if py_eq x y then lt_list l' m' else py_lt x y
         end) l m
  | _, _ =>
      match as_number a, as_number b with
      | Ok x, Ok y => Ok (Qltb x y)
      | _, _ =>
          match as_str a, as_str b with
          | Some s, Some t => Ok (String.ltb s t)
          | _, _ => Raise TypeError
          end
      end
  end.

(** [[t['id'] for t in tasks if t.get('status') == 'completed']] *)
Fixpoint completed_ids (tasks : list pyval) : result (list pyval) :=
  match tasks with
  | [] => Ok []
  | t :: rest =>
      status ← py_get t "status" PNone;
      if in_strs status ["completed"] then
        id ← item "id" t;
        ids ← completed_ids rest;
        Ok (id :: ids)
      else completed_ids rest
  end.

(** The entry that is appended for an available task. *)
Definition suggestion (task dependencies : pyval) : result dict :=
  id ← item "id" task;
  title ← item "title" task;
  description ← py_get task "description" (PStr "");
  priority ← item "priority" task;
  estimated_hours ← item "estimated_hours" task;
  deadline ← py_get task "deadline" PNone;
  Ok {[ "id" := id; "title" := title; "description" := description;
        "priority" := priority; "estimated_hours" := estimated_hours;
        "deadline" := deadline;
        "reason" := PStr (if truthy dependencies then "All dependencies completed"
                          else "Ready to start");
        "dependencies" := dependencies ]}.

(** [all(dep in completed_tasks for dep in dependencies)] *)
Definition deps_completed (completed_tasks deps : list pyval) : bool :=
  forallb (fun dep => existsb (fun id => py_eq id dep) completed_tasks) deps.

(** The loop that collects the available tasks. *)
Fixpoint available (completed_tasks tasks : list pyval) : result (list dict) :=
  match tasks with
  | [] => Ok []
  | task :: rest =>
      status ← py_get task "status" PNone;
      if in_strs status ["completed"; "in_progress"] then available completed_tasks rest
      else
        dependencies ← py_get task "dependencies" (PList []);
        deps ← py_iter dependencies;
        if deps_completed completed_tasks deps then
          entry ← suggestion task dependencies;
          entries ← available completed_tasks rest;
          Ok (entry :: entries)
        else available completed_tasks rest
  end.

(** [priority_order.get(priority, 1)]; a list or an object cannot be a
    key. *)
Definition priority_order (priority : pyval) : result Z :=
  match priority with
  | PList _ | PDict _ => Raise TypeError
  | _ => Ok (if in_strs priority ["high"] then 0
             else if in_strs priority ["low"] then 2 else 1)
  end.

(** The key of the sort. *)
Definition sort_key (x : dict) : result (Z * pyval) :=
  priority ← getitem x "priority";
  rank ← priority_order priority;
  estimated_hours ← getitem x "estimated_hours";
  Ok (rank, estimated_hours).

(** [a < b] for two keys: the first components decide when they differ;
    the hours are compared when they do not, and are not equal. *)
Definition key_lt (a b : Z * pyval) : result bool :=
  if fst a =? fst b then
    if py_eq (snd a) (snd b) then Ok false else py_lt (snd a) (snd b)
  else Ok (fst a <? fst b).

Fixpoint keyed (l : list dict) : result (list ((Z * pyval) * dict)) :=
  match l with
  | [] => Ok []
  | x :: rest =>
      k ← sort_key x;
      ks ← keyed rest;
      Ok ((k, x) :: ks)
  end.

Fixpoint all_pairs {A} (p : A -> A -> bool) (l : list A) : bool :=
  match l with
  | [] => true
  | x :: rest => forallb (p x) rest && all_pairs p rest
  end.

(** An entry goes behind those that are smaller, and before the first
    that is not: equal entries keep their order. *)
Fixpoint insert_by_key (x : (Z * pyval) * dict) (sorted : list ((Z * pyval) * dict))
    : list ((Z * pyval) * dict) :=
  match sorted with
  | [] => [x]
  | y :: rest =>
      if ok_or false (key_lt (fst y) (fst x)) then y :: insert_by_key x rest
      else x :: sorted
  end.

(** [l.sort(key=...)]: the keys are computed first.  The sort is stable,
    so its result is fixed by the order of the keys when every two of
    them can be compared.  Two keys that cannot be compared are of one
    priority, with hours of kinds that have no order with each other; no
    order of the list can be found without comparing two such keys, and
    the comparison raises [TypeError]. *)
Definition sort_by_key (l : list dict) : result (list dict) :=
  keys ← keyed l;
  if all_pairs (fun a b => is_ok (key_lt (fst a) (fst b))) keys
  then Ok (map snd (fold_right insert_by_key [] keys))
  else Raise TypeError.

(** The available tasks, as the loop leaves them. *)
Definition available_tasks (plan_data : dict) : result (list dict) :=
  tasks ← getitem plan_data "tasks" ≫= py_iter;
  completed_tasks ← completed_ids tasks;
  tasks ← getitem plan_data "tasks" ≫= py_iter;
  available completed_tasks tasks.

(** The body of the [try]. *)
Definition available_suggestions (plan_data : dict) : result (list dict) :=
  available_tasks ← available_tasks plan_data;
  sorted ← sort_by_key available_tasks;
  Ok (take 5 sorted).

Definition suggest_next_tasks (plan_data current_progress : dict) : list dict :=
  ok_or [] (available_suggestions plan_data).

(** *** Predicates on the suggestions *)

(** A value that equals the id of a completed task. *)
Definition completed_id (tasks : list pyval) (dep : pyval) : Prop :=
  exists t status id,
    t ∈ tasks /\
    py_get t "status" PNone = Ok status /\
    as_str status = Some "completed" /\
    item "id" t = Ok id /\
    py_eq id dep = true.

(** A task that is neither completed nor in progress. *)
Definition open_status (task : pyval) : Prop :=
  exists status,
    py_get task "status" PNone = Ok status /\
    in_strs status ["completed"; "in_progress"] = false.

(** The suggestion of an open task of [tasks] whose dependencies are all
    completed. *)
Definition suggests (tasks : list pyval) (s : dict) : Prop :=
  exists task dependencies deps,
    task ∈ tasks /\
    open_status task /\
    suggestion task dependencies = Ok s /\
    py_get task "dependencies" (PList []) = Ok dependencies /\
    py_iter dependencies = Ok deps /\
    Forall (completed_id tasks) deps.

(** A task with a text as priority and a number of hours. *)
Definition sortable_task (task : pyval) : Prop :=
  exists priority hours x,
    item "priority" task = Ok (PStr priority) /\
    item "estimated_hours" task = Ok hours /\
    as_number hours = Ok x.

(** The rank of the priority and the hours of a suggestion. *)
Definition rank_and_hours (s : dict) : option (Z * Q) :=
  match sort_key s with
  | Ok (rank, hours) =>
      match as_number hours with
      | Ok x => Some (rank, x)
      | Raise _ => None
      end
  | Raise _ => None
  end.

(** [a] may stand before [b]: its priority is higher, or the same with
    no more hours. *)
Definition in_order (a b : dict) : Prop :=
  exists ra ha rb hb,
    rank_and_hours a = Some (ra, ha) /\
    rank_and_hours b = Some (rb, hb) /\
    (ra < rb \/ (ra = rb /\ (ha <= hb)%Q)).

(** A plan in progress: the first task is completed, the second in
    progress; of the others, one waits for the second. *)
Definition tasks_in_progress : list pyval :=
  [PDict [("id", PInt 0); ("title", PStr "Design"); ("priority", PStr "high");
          ("estimated_hours", PFloat 4); ("status", PStr "completed");
          ("dependencies", PList [])];
   PDict [("id", PInt 1); ("title", PStr "Build"); ("priority", PStr "high");
          ("estimated_hours", PFloat 8); ("status", PStr "in_progress");
          ("dependencies", PList [PInt 0])];
   PDict [("id", PInt 2); ("title", PStr "Write the guide"); ("priority", PStr "low");
          ("estimated_hours", PFloat 2); ("status", PStr "todo");
          ("dependencies", PList [PInt 0])];
   PDict [("id", PInt 3); ("title", PStr "Test"); ("priority", PStr "high");
          ("estimated_hours", PFloat 3); ("status", PStr "todo");
          ("dependencies", PList [PInt 1])];
   PDict [("id", PInt 4); ("title", PStr "Set up the server");
          ("priority", PStr "urgent"); ("estimated_hours", PInt 1);
          ("status", PStr "todo"); ("dependencies", PList [PFloat 0])];
   PDict [("id", PInt 5); ("title", PStr "Order the domain");
          ("priority", PStr "high"); ("estimated_hours", PFloat (1 # 2));
          ("status", PStr "todo")]].

Definition plan_in_progress : dict := {[ "tasks" := PList tasks_in_progress ]}.

(** A key whose hours are a number. *)
Definition numeric_key (p : (Z * pyval) * dict) : Prop :=
  exists x, as_number (snd (fst p)) = Ok x.

(** The order of two keys with numbers of hours. *)
Definition key_le (a b : (Z * pyval) * dict) : Prop :=
  exists x y,
    as_number (snd (fst a)) = Ok x /\
    as_number (snd (fst b)) = Ok y /\
    (fst (fst a) < fst (fst b) \/ (fst (fst a) = fst (fst b) /\ (x <= y)%Q)).

(** A suggestion that has a key with a number of hours. *)
Definition sortable_entry (s : dict) : Prop :=
  exists rank hours x, sort_key s = Ok (rank, hours) /\ as_number hours = Ok x.

(** An analysis whose second recommendation gives a number as task ids. *)
Definition analysis_with_a_number : list (string * pyval) :=
  [("recommendations",
    PList [PDict [("task_ids", PList [PInt 2; PInt 9])];
           PDict [("task_ids", PInt 7)];
           PDict [("task_ids", PList [PInt 8])]])].

(** * Properties *)

(** ** Sanity checks of the embedding on concrete inputs *)

Example round1_6384 : round1 (6384 # 1000) = (32 # 5)%Q.
Proof. reflexivity. Qed.

Example saturday_2025_10_18 : weekday (datetime 2025 10 18 0 0) = 5.
Proof. reflexivity. Qed.

Example float_of_m3 : py_float_of_str "-3" = Some (-3 # 1)%Q.
Proof. reflexivity. Qed.

Example float_of_abc : py_float_of_str "abc" = None.
Proof. reflexivity. Qed.

Example validate_plain :
  map (fields ["title"; "description"; "estimated_hours"; "priority"; "complexity_level";
               "task_type"; "dependencies"]) <$>
  validate_and_fix_tasks [ {[ "title" := PStr "Set up database"; "estimated_hours" := PInt 3 ]} ]
  = Ok [[Some (PStr "Set up database"); Some (PStr "No description provided"); Some (PInt 3);
         Some (PStr "medium"); Some (PStr "complex"); Some (PStr "implementation");
         Some (PList [])]].
Proof. vm_compute. reflexivity. Qed.

Example split_30h :
  (fun out => (map hours_of out, map deps_of out)) <$>
  split_for_plan
    [ {[ "title" := PStr "Build"; "estimated_hours" := PFloat 30; "dependencies" := PList [] ]};
      {[ "title" := PStr "Ship"; "estimated_hours" := PFloat 2; "dependencies" := PList [PInt 0] ]} ]
  = Ok ([Some (PFloat 8); Some (PFloat 8); Some (PFloat 8); Some (PFloat 6); Some (PFloat 2)],
        [Some (PList []); Some (PList [PInt 0]); Some (PList [PInt 1]); Some (PList [PInt 2]);
         Some (PList [PInt 3])]).
Proof. vm_compute. reflexivity. Qed.

Example round1_tie : round1 (25 # 100) = (1 # 5)%Q.
Proof. reflexivity. Qed.

Example iso_2025_10_20 : isoformat (datetime 2025 10 20 9 0) = "2025-10-20T09:00:00".
Proof. vm_compute. reflexivity. Qed.

Example float_of_4_5 : py_float_of_str " 4.5 " = Some (45 # 10)%Q.
Proof. reflexivity. Qed.

(** ** Rationals: comparison and rounding *)

Lemma Qltb_lt (x y : Q) : Qltb x y = true <-> (x < y)%Q.
Proof.
  unfold Qltb. rewrite negb_true_iff. split.
  - intros H. apply Qnot_le_lt. intros Hle. apply Qle_bool_iff in Hle. congruence.
  - intros H. destruct (Qle_bool y x) eqn:E; [|reflexivity].
    apply Qle_bool_iff in E. exfalso. exact (Qlt_not_le _ _ H E).
Qed.

Lemma Qltb_ge (x y : Q) : Qltb x y = false <-> (y <= x)%Q.
Proof.
  unfold Qltb. rewrite negb_false_iff. apply Qle_bool_iff.
Qed.

Lemma Qmaxb_lower (x y : Q) : (x <= Qmaxb x y)%Q.
Proof.
  unfold Qmaxb. destruct (Qltb x y) eqn:E.
  - apply Qltb_lt in E. apply Qlt_le_weak, E.
  - apply Qle_refl.
Qed.

Lemma Qmaxb_upper (x y c : Q) : (x <= c)%Q -> (y <= c)%Q -> (Qmaxb x y <= c)%Q.
Proof. unfold Qmaxb. destruct (Qltb x y); auto. Qed.

Lemma round_half_even_lower (q : Q) (n : Z) :
  (inject_Z n <= q)%Q -> n <= round_half_even q.
Proof.
  intros H. unfold round_half_even.
  assert (n <= Qfloor q).
  { rewrite <- (Qfloor_Z n). apply Qfloor_resp_le, H. }
  repeat match goal with |- context [if ?b then _ else _] => destruct b end; lia.
Qed.

Lemma round_half_even_upper (q : Q) (n : Z) :
  (q <= inject_Z n)%Q -> round_half_even q <= n.
Proof.
  intros H. unfold round_half_even.
  assert (Hf : Qfloor q <= n).
  { rewrite <- (Qfloor_Z n). apply Qfloor_resp_le, H. }
  destruct (Z.eq_dec (Qfloor q) n) as [E|E].
  - assert (Hr : Qltb (q - inject_Z (Qfloor q)) (1 # 2) = true).
    { apply Qltb_lt. rewrite E. lra. }
    rewrite Hr. lia.
  - repeat match goal with |- context [if ?b then _ else _] => destruct b end; lia.
Qed.

Lemma round1_lower (q : Q) (n : Z) : (inject_Z n <= q)%Q -> (inject_Z n <= round1 q)%Q.
Proof.
  intros H. unfold round1. rewrite Qred_correct.
  assert (Hn : n * 10 <= round_half_even (q * 10)).
  { apply round_half_even_lower. rewrite inject_Z_mult.
    apply Qmult_le_compat_r; [exact H | discriminate]. }
  unfold Qle, inject_Z. simpl. lia.
Qed.

Lemma round1_upper (q : Q) (n : Z) : (q <= inject_Z n)%Q -> (round1 q <= inject_Z n)%Q.
Proof.
  intros H. unfold round1. rewrite Qred_correct.
  assert (Hn : round_half_even (q * 10) <= n * 10).
  { apply round_half_even_upper. rewrite inject_Z_mult.
    apply Qmult_le_compat_r; [exact H | discriminate]. }
  unfold Qle, inject_Z. simpl. lia.
Qed.

(** ** Validation: string hours *)

Lemma if_insert_ne (c : bool) (k k' : string) (v : pyval) (m : dict) :
  k <> k' -> (if c then <[k := v]> m else m) !! k' = m !! k'.
Proof. intros H. destruct c; [apply lookup_insert_ne, H | reflexivity]. Qed.

(** C2 (the code's behaviour at the scenario): comparing the text "-3"
    with 0 in fix 3 raises [TypeError], so validation of the record fails
    before the conversion of fix 4 and the defaults can apply. *)
Theorem C2_string_hours_raise_TypeError :
  validate_and_fix_tasks [scenario_task] = Raise TypeError.
Proof. vm_compute. reflexivity. Qed.

(** Every text-valued [estimated_hours] fails in the same way, whatever
    the other fields hold. *)
Lemma fix_task_text_hours (i : nat) (task : dict) (s : string) :
  task !! "estimated_hours" = Some (PStr s) -> fix_task i task = Raise TypeError.
Proof.
  intros H. unfold fix_task, fix_hours, fix_description, fix_title.
  rewrite !if_insert_ne by discriminate. rewrite H. reflexivity.
Qed.

(** ** The result monad *)

Lemma bind_Ok {A B} (m : result A) (f : A -> result B) (b : B) :
  m ≫= f = Ok b -> exists a, m = Ok a /\ f a = Ok b.
Proof. destruct m as [a|e]; [exists a; split; [reflexivity|assumption] | discriminate]. Qed.

Lemma ok_or_eq {A} (d : A) (r : result A) : is_ok r = true -> r = Ok (ok_or d r).
Proof. destruct r; [reflexivity | discriminate]. Qed.

Ltac inv_bind H :=
  let a := fresh "a" in
  let E := fresh "E" in
  apply bind_Ok in H; destruct H as (a & E & H).

Tactic Notation "inv_bind_as" hyp(H) ident(a) ident(E) :=
  apply bind_Ok in H; destruct H as (a & E & H).

Ltac inv_ok :=
  repeat match goal with
  | H : Ok _ = Ok _ |- _ => injection H as H; try subst
  | H : Raise _ = Ok _ |- _ => discriminate H
  end.

(** ** Validation: dependencies point backwards *)

Lemma valid_dep_backward (i : nat) (d : pyval) : valid_dep i d = true -> backward_dep i d.
Proof.
  unfold valid_dep, backward_dep. destruct (as_int d) as [n|]; [|discriminate].
  intros H. apply andb_true_iff in H as [H1 H2]. exists n. split; [reflexivity|lia].
Qed.

Lemma filter_valid_deps (i : nat) (ds : list pyval) :
  Forall (backward_dep i) (List.filter (valid_dep i) ds).
Proof.
  apply List.Forall_forall. intros d Hd. apply filter_In in Hd as [_ Hd].
  apply valid_dep_backward, Hd.
Qed.

Lemma fix_task_deps (i : nat) (task t : dict) :
  fix_task i task = Ok t ->
  exists ds, t !! "dependencies" = Some (PList ds) /\ Forall (backward_dep i) ds.
Proof.
  unfold fix_task. intros H. do 3 inv_bind H. unfold fix_dependencies in H.
  destruct (a1 !! "dependencies").
  - inv_bind H. inv_ok. eexists. split; [apply lookup_insert_eq | apply filter_valid_deps].
  - inv_ok. eexists. split; [apply lookup_insert_eq | constructor].
Qed.

Lemma fix_tasks_from_deps (tasks : list dict) : forall (i : nat) (out : list dict),
  fix_tasks_from i tasks = Ok out -> deps_point_backwards_from i out.
Proof.
  induction tasks as [|task rest IH]; intros i out H; simpl in H.
  - inv_ok. intros k t Hk. destruct k; discriminate.
  - inv_bind H. inv_bind H. inv_ok. intros k t Hk. destruct k as [|k]; simpl in Hk.
    + inv_ok. injection Hk as ->. rewrite Nat.add_0_r. eapply fix_task_deps; eassumption.
    + destruct (IH (S i) _ E0 k t Hk) as (ds & Hd & Hf).
      exists ds. split; [exact Hd|]. replace (i + S k)%nat with (S i + k)%nat by lia. exact Hf.
Qed.

(** *** The priority pass rewrites priorities only *)

Lemma agree_except_refl (k : string) (l : list dict) : agree_except k l l.
Proof. induction l; constructor; [intros f _; reflexivity | assumption]. Qed.

Lemma agree_except_trans (k : string) (l1 l2 l3 : list dict) :
  agree_except k l1 l2 -> agree_except k l2 l3 -> agree_except k l1 l3.
Proof.
  intros H. revert l3. induction H as [|a b l1 l2 Hab _ IH]; intros l3 H3.
  - inversion H3. constructor.
  - inversion H3 as [|b' c l2' l3' Hbc Hrest]; subst. constructor.
    + intros f Hf. rewrite (Hab f Hf). apply Hbc, Hf.
    + apply IH, Hrest.
Qed.

Lemma set_priority_agree (p : string) (i : nat) (l : list dict) :
  agree_except "priority" l (set_priority p i l).
Proof.
  unfold set_priority. revert i. induction l as [|a l IH]; intros i; [constructor|].
  destruct i as [|i]; simpl.
  - constructor; [|apply agree_except_refl].
    intros f Hf. symmetry. apply lookup_insert_ne. congruence.
  - constructor; [intros f _; reflexivity | apply IH].
Qed.

Lemma foldl_set_priority_agree (p : string) (idxs : list nat) : forall l : list dict,
  agree_except "priority" l (foldl (fun ts i => set_priority p i ts) l idxs).
Proof.
  induction idxs as [|i idxs IH]; intros l; simpl; [apply agree_except_refl|].
  eapply agree_except_trans; [apply set_priority_agree | apply IH].
Qed.

Lemma demote_to_low_agree (idxs : list nat) : forall l out : list dict,
  demote_to_low idxs l = Ok out -> agree_except "priority" l out.
Proof.
  induction idxs as [|i idxs IH]; intros l out H; simpl in H.
  - inv_ok. apply agree_except_refl.
  - destruct (l !! i) as [task|]; [|discriminate].
    inv_bind H. inv_bind H.
    match type of H with context [if ?b then _ else _] => destruct b end.
    + eapply agree_except_trans; [apply set_priority_agree | apply IH, H].
    + apply IH, H.
Qed.

Lemma fix_priority_distribution_agree (l out : list dict) :
  fix_priority_distribution l = Ok out -> agree_except "priority" l out.
Proof.
  unfold fix_priority_distribution. intros H.
  destruct (0 <? length l)%nat; [|inv_ok; apply agree_except_refl].
  destruct (Qltb 40 _); destruct (Qltb _ 10); inv_ok.
  - eapply agree_except_trans; [apply foldl_set_priority_agree|].
    eapply demote_to_low_agree, H.
  - apply foldl_set_priority_agree.
  - eapply demote_to_low_agree, H.
  - apply agree_except_refl.
Qed.

Lemma agree_except_lookup (k : string) (l1 l2 : list dict) (i : nat) (t : dict) :
  agree_except k l1 l2 -> l2 !! i = Some t ->
  exists t0, l1 !! i = Some t0 /\ same_fields_except k t0 t.
Proof.
  intros H Ht. destruct (Forall2_lookup_r _ _ _ _ _ H Ht) as (t0 & H0 & Hs). eauto.
Qed.

Lemma validate_deps (tasks out : list dict) :
  validate_and_fix_tasks tasks = Ok out -> deps_point_backwards out.
Proof.
  unfold validate_and_fix_tasks. intros H. inv_bind H.
  intros i t Ht.
  destruct (agree_except_lookup _ _ _ _ _ (fix_priority_distribution_agree _ _ H) Ht)
    as (t0 & H0 & Hs).
  destruct (fix_tasks_from_deps _ _ _ E i t0 H0) as (ds & Hd & Hf).
  exists ds. split; [|exact Hf]. rewrite <- Hs by discriminate. exact Hd.
Qed.

(** ** The splitter *)

Lemma Qmaxb_idem (x y : Q) : Qmaxb x (Qmaxb x y) = Qmaxb x y.
Proof.
  unfold Qmaxb. destruct (Qltb x y) eqn:E; [rewrite E; reflexivity|].
  destruct (Qltb x x) eqn:E'; [|reflexivity].
  apply Qltb_lt in E'. exfalso. exact (Qlt_irrefl _ E').
Qed.

Lemma append_parts_spec (task : dict) (total : nat) (fpd : list pyval) (parts : list Q) :
  forall (idx : nat) (prev : Z) (nt : list dict),
  append_parts task total fpd idx prev parts nt =
  (nt ++ chunks_from task total fpd idx prev (length nt) parts)%list.
Proof.
  induction parts as [|p rest IH]; intros idx prev nt; simpl.
  - symmetry. apply app_nil_r.
  - rewrite IH, <- app_assoc, length_app. simpl.
    replace (Z.of_nat (length nt + 1) - 1) with (Z.of_nat (length nt)) by lia.
    replace (length nt + 1)%nat with (S (length nt)) by lia. reflexivity.
Qed.

Lemma chunks_from_length (task : dict) (total : nat) (fpd : list pyval) (parts : list Q) :
  forall idx prev base, length (chunks_from task total fpd idx prev base parts) = length parts.
Proof. induction parts; intros; simpl; [reflexivity | f_equal; auto]. Qed.

Lemma chunks_from_lookup (task : dict) (total : nat) (fpd : list pyval) (parts : list Q) :
  forall (idx : nat) (prev : Z) (base j : nat) (t : dict),
  (1 <= idx)%nat ->
  chunks_from task total fpd idx prev base parts !! j = Some t ->
  exists p, parts !! j = Some p /\
    t !! "estimated_hours" = Some (pfloat (round1 (Qmaxb 1 p))) /\
    t !! "dependencies" =
      Some (PList (match j with
                   | O => if (idx =? 1)%nat then fpd else [PInt prev]
                   | S _ => [PInt (Z.of_nat base + Z.of_nat j - 1)]
                   end)).
Proof.
  induction parts as [|p rest IH]; intros idx prev base j t Hidx Hj; [destruct j; discriminate|].
  destruct j as [|j]; simpl in Hj.
  - injection Hj as <-. exists p. split; [reflexivity|]. unfold part_task. split.
    + rewrite lookup_insert_ne by discriminate. apply lookup_insert_eq.
    + rewrite lookup_insert_eq. destruct (idx =? 1)%nat; reflexivity.
  - destruct (IH (S idx) (Z.of_nat base) (S base) j t ltac:(lia) Hj) as (q & Hq & Hh & Hd).
    exists q. split; [exact Hq|]. split; [exact Hh|]. rewrite Hd. do 2 f_equal.
    destruct j as [|j].
    + destruct (Nat.eqb_spec (S idx) 1); [lia|]. do 2 f_equal. lia.
    + do 2 f_equal. lia.
Qed.

Lemma split_parts_nonempty (hours chunk : Q) : split_parts hours chunk <> [].
Proof.
  unfold split_parts.
  destruct (_ ++ _)%list eqn:E; [discriminate | rewrite <- E; rewrite E; discriminate].
Qed.

Lemma parts_of_nonempty (th ch h : Q) : (1 <= length (parts_of th ch h))%nat.
Proof.
  unfold parts_of. destruct (Qle_bool h th); [simpl; lia|].
  pose proof (split_parts_nonempty h ch). destruct (split_parts h ch); [congruence | simpl; lia].
Qed.

(** What one iteration appends and records. *)
Lemma split_task_spec (th ch : Q) (idx : nat) (task : dict)
    (nt nt' : list dict) (lp lp' : gmap Z Z) :
  split_task th ch idx task (nt, lp) = Ok (nt', lp') ->
  exists h ds g,
    split_hours task = Ok h /\
    deps_or_empty task = Ok ds /\
    nt' = (nt ++ g)%list /\
    length g = length (parts_of th ch h) /\
    lp' = <[Z.of_nat idx := Z.of_nat (length nt + length g) - 1]> lp /\
    forall j t, g !! j = Some t ->
      exists p, parts_of th ch h !! j = Some p /\
        t !! "estimated_hours" = Some (pfloat (round1 (Qmaxb 1 p))) /\
        t !! "dependencies" =
          Some (PList (match j with
                       | O => remap_deps lp ds
                       | S _ => [PInt (Z.of_nat (length nt) + Z.of_nat j - 1)]
                       end)).
Proof.
  unfold split_task, split_hours, parts_of. intros H. inv_bind H. rewrite E. simpl.
  destruct (Qle_bool (Qmaxb 1 a) th) eqn:Hle.
  - inv_bind H. inv_ok.
    exists (Qmaxb 1 a), a0, [<["estimated_hours" := pfloat (round1 (Qmaxb 1 a))]>
                               (<["dependencies" := PList (remap_deps lp a0)]> task)].
    rewrite Hle. repeat split; try reflexivity; try assumption.
    + rewrite !length_app. reflexivity.
    + intros j t Hj. destruct j as [|j]; [|destruct j; discriminate].
      injection Hj as <-. exists (Qmaxb 1 a). split; [reflexivity|]. split.
      * rewrite Qmaxb_idem. apply lookup_insert_eq.
      * rewrite lookup_insert_ne by discriminate. apply lookup_insert_eq.
  - destruct (Qeq_bool ch 0); [discriminate|]. inv_bind H. inv_ok.
    rewrite append_parts_spec.
    exists (Qmaxb 1 a), a0. eexists. rewrite Hle.
    repeat split; try reflexivity; try assumption.
    + apply chunks_from_length.
    + rewrite length_app. reflexivity.
    + intros j t Hj. apply chunks_from_lookup in Hj; [|lia]. exact Hj.
Qed.

Lemma split_loop_snoc (th ch : Q) (pre : list dict) (task : dict) :
  forall (i : nat) (st : list dict * gmap Z Z),
  split_loop th ch i (pre ++ [task]) st =
  split_loop th ch i pre st ≫= split_task th ch (i + length pre) task.
Proof.
  induction pre as [|t pre IH]; intros i st; simpl.
  - rewrite Nat.add_0_r. destruct (split_task th ch i task st); reflexivity.
  - destruct (split_task th ch i t st) as [st'|e]; simpl; [|reflexivity].
    rewrite IH. replace (S i + length pre)%nat with (i + S (length pre))%nat by lia. reflexivity.
Qed.

(** The record of last parts after a run: its keys are the indices of the
    tasks, its values positions of the output, and the next chunk goes
    right behind the last part of the last task. *)
Lemma split_loop_index (th ch : Q) (tasks : list dict) :
  forall (nt : list dict) (lp : gmap Z Z),
  split_loop th ch 0 tasks ([], ∅) = Ok (nt, lp) ->
  (forall k, is_Some (lp !! k) -> 0 <= k < Z.of_nat (length tasks)) /\
  (forall k v, lp !! k = Some v -> 0 <= v < Z.of_nat (length nt)) /\
  first_position lp (length tasks) = Z.of_nat (length nt).
Proof.
  induction tasks as [|task pre IH] using rev_ind; intros nt lp H.
  - simpl in H. inv_ok.
    split; [|split; [|reflexivity]].
    + intros k [v Hv]. rewrite lookup_empty in Hv. discriminate.
    + intros k v Hv. rewrite lookup_empty in Hv. discriminate.
  - rewrite split_loop_snoc in H. inv_bind H. destruct a as [nt0 lp0].
    destruct (IH _ _ E) as (Hdom & Hrange & Hnext).
    apply split_task_spec in H as (h & ds & g & _ & _ & -> & Hlen & -> & _).
    pose proof (parts_of_nonempty th ch h) as Hne.
    rewrite !length_app. simpl. split; [|split].
    + intros k Hk. destruct (decide (k = Z.of_nat (length pre))) as [->|Hne']; [lia|].
      rewrite lookup_insert_ne in Hk by congruence. apply Hdom in Hk. lia.
    + intros k v Hv. destruct (decide (k = Z.of_nat (length pre))) as [->|Hne'].
      * rewrite lookup_insert_eq in Hv. injection Hv as <-. lia.
      * rewrite lookup_insert_ne in Hv by congruence. apply Hrange in Hv. lia.
    + replace (length pre + 1)%nat with (S (length pre)) by lia. simpl.
      rewrite lookup_insert_eq. simpl. lia.
Qed.

Lemma remap_deps_range (lp : gmap Z Z) (ds : list pyval) (bound : nat) :
  (forall k v, lp !! k = Some v -> 0 <= v < Z.of_nat bound) ->
  Forall (backward_dep bound) (remap_deps lp ds).
Proof.
  intros Hrange. apply Forall_forall. intros d Hd.
  unfold remap_deps in Hd. apply list_elem_of_omap in Hd as (d0 & _ & Hd).
  destruct (as_int d0) as [n|]; [|discriminate]. simpl in Hd.
  destruct (lp !! n) as [v|] eqn:Hv; [|discriminate]. injection Hd as <-.
  exists v. split; [reflexivity | eapply Hrange, Hv].
Qed.

(** In the splitter's output every dependency points to an earlier
    position, whatever the input was. *)
Lemma split_loop_deps (th ch : Q) (tasks : list dict) :
  forall (nt : list dict) (lp : gmap Z Z),
  split_loop th ch 0 tasks ([], ∅) = Ok (nt, lp) -> deps_point_backwards nt.
Proof.
  induction tasks as [|task pre IH] using rev_ind; intros nt lp H.
  - simpl in H. inv_ok. intros i t Hi. destruct i; discriminate.
  - rewrite split_loop_snoc in H. inv_bind H. destruct a as [nt0 lp0].
    pose proof (IH _ _ E) as Hback.
    destruct (split_loop_index _ _ _ _ _ E) as (_ & Hrange & _).
    apply split_task_spec in H as (h & ds & g & _ & _ & -> & _ & _ & Hg).
    intros i t Hi. destruct (decide (i < length nt0)%nat) as [Hlt|Hge].
    + rewrite lookup_app_l in Hi by exact Hlt. apply Hback, Hi.
    + rewrite lookup_app_r in Hi by lia.
      destruct (Hg _ _ Hi) as (p & _ & _ & Hd). eexists. split; [exact Hd|].
      destruct (i - length nt0)%nat as [|j] eqn:Hj.
      * eapply Forall_impl; [apply remap_deps_range, Hrange|].
        intros d (n & Hn & Hb). exists n. split; [exact Hn|]. simpl. lia.
      * constructor; [|constructor]. eexists. split; [reflexivity|]. simpl. lia.
Qed.

Lemma assign_ids_lookup (nt : list dict) (i : nat) (t : dict) :
  assign_ids nt !! i = Some t ->
  exists t0, nt !! i = Some t0 /\ same_fields_except "id" t0 t.
Proof.
  unfold assign_ids. rewrite list_lookup_imap. destruct (nt !! i) as [t0|]; [|discriminate].
  simpl. intros H. injection H as <-. exists t0. split; [reflexivity|].
  intros f Hf. symmetry. apply lookup_insert_ne. congruence.
Qed.

Lemma split_long_tasks_loop (tasks out : list dict) (th ch : Q) :
  split_long_tasks tasks th ch = Ok out ->
  exists nt lp, split_loop th ch 0 tasks ([], ∅) = Ok (nt, lp) /\ out = assign_ids nt.
Proof.
  unfold split_long_tasks. destruct tasks as [|task rest].
  - intros H. inv_ok. exists [], ∅. split; reflexivity.
  - intros H. inv_bind H. inv_ok. destruct a as [nt lp]. exists nt, lp. split; [exact E|reflexivity].
Qed.

Lemma split_long_tasks_deps (tasks out : list dict) (th ch : Q) :
  split_long_tasks tasks th ch = Ok out -> deps_point_backwards out.
Proof.
  intros H. apply split_long_tasks_loop in H as (nt & lp & H & ->).
  intros i t Hi. apply assign_ids_lookup in Hi as (t0 & H0 & Hs).
  destruct (split_loop_deps _ _ _ _ _ H i t0 H0) as (ds & Hd & Hf).
  exists ds. split; [|exact Hf]. rewrite <- Hs by discriminate. exact Hd.
Qed.

(** C1: after validation every [dependencies] field is a list of integers
    [d] with [0 <= d < i], [i] the task's own index, and the output of the
    splitter satisfies the same invariant: every dependency index it
    writes, remapped or chained, is below the position of its task. *)
Theorem C1_dependencies_point_backwards (raw validated prepared out : list dict) :
  validate_and_fix_tasks raw = Ok validated ->
  split_for_plan prepared = Ok out ->
  deps_point_backwards validated /\ deps_point_backwards out.
Proof.
  intros Hv Hs. split.
  - eapply validate_deps, Hv.
  - eapply split_long_tasks_deps, Hs.
Qed.

Lemma C1_dependencies_point_backwards_witness :
  let validated := ok_or [] (validate_and_fix_tasks raw_with_bad_deps) in
  let out := ok_or [] (split_for_plan validated) in
  deps_point_backwards validated /\ deps_point_backwards out.
Proof.
  intros validated out.
  apply (C1_dependencies_point_backwards raw_with_bad_deps validated validated out);
    apply ok_or_eq; vm_compute; reflexivity.
Defined.

(** The hours of every output task are the rounded hours of a part of
    some input task. *)
Lemma split_loop_hours (th ch : Q) (tasks : list dict) :
  forall (nt : list dict) (lp : gmap Z Z),
  split_loop th ch 0 tasks ([], ∅) = Ok (nt, lp) ->
  forall j t, nt !! j = Some t ->
    exists task h p,
      task ∈ tasks /\ split_hours task = Ok h /\ p ∈ parts_of th ch h /\
      t !! "estimated_hours" = Some (pfloat (round1 (Qmaxb 1 p))).
Proof.
  induction tasks as [|task pre IH] using rev_ind; intros nt lp H j t Hj.
  - simpl in H. inv_ok. destruct j; discriminate.
  - rewrite split_loop_snoc in H. inv_bind H. destruct a as [nt0 lp0].
    apply split_task_spec in H as (h & ds & g & Hh & _ & -> & _ & _ & Hg).
    destruct (decide (j < length nt0)%nat) as [Hlt|Hge].
    + rewrite lookup_app_l in Hj by exact Hlt.
      destruct (IH _ _ E j t Hj) as (task0 & h0 & p & Hin & ? & ? & ?).
      exists task0, h0, p. split; [apply elem_of_app; left; exact Hin | auto].
    + rewrite lookup_app_r in Hj by lia.
      destruct (Hg _ _ Hj) as (p & Hp & Hhours & _).
      exists task, h, p. split; [apply elem_of_app; right; apply list_elem_of_singleton; reflexivity|].
      split; [exact Hh|]. split; [eapply list_elem_of_lookup_2, Hp | exact Hhours].
Qed.

Lemma rounded_part_at_least_one (p : Q) : (1 <= Qred (round1 (Qmaxb 1 p)))%Q.
Proof.
  rewrite Qred_correct. apply (round1_lower _ 1). apply Qmaxb_lower.
Qed.

Lemma split_long_tasks_hours_at_least_one (tasks out : list dict) (th ch : Q) :
  split_long_tasks tasks th ch = Ok out -> forall t, t ∈ out -> hours_at_least 1 t.
Proof.
  intros H t Ht. apply split_long_tasks_loop in H as (nt & lp & H & ->).
  apply list_elem_of_lookup in Ht as (j & Hj).
  apply assign_ids_lookup in Hj as (t0 & H0 & Hs).
  destruct (split_loop_hours _ _ _ _ _ H j t0 H0) as (task & h & p & _ & _ & _ & Hh).
  exists (Qred (round1 (Qmaxb 1 p))). split.
  - rewrite <- Hs by discriminate. exact Hh.
  - apply rounded_part_at_least_one.
Qed.

(** C10: every task that the splitter writes has at least one hour: an
    estimate of half an hour is raised to 1.0, the half hour left over
    from a task of 24.5 hours becomes a chunk of 1.0, and in both cases
    the total of the plan grows. *)
Theorem C10_splitter_floors_hours_at_one (tasks out : list dict) (th ch : Q) :
  split_long_tasks tasks th ch = Ok out ->
  (forall t, t ∈ out -> hours_at_least 1 t) /\
  map hours_of <$> split_for_plan [half_hour_task] = Ok [Some (PFloat 1)] /\
  map hours_of <$> split_for_plan [long_task_with_small_rest]
    = Ok [Some (PFloat 8); Some (PFloat 8); Some (PFloat 8); Some (PFloat 1)] /\
  total_hours [half_hour_task] = Ok (5 # 10)%Q /\
  Qred <$> (split_for_plan [half_hour_task] ≫= total_hours) = Ok 1%Q /\
  Qred <$> total_hours [long_task_with_small_rest] = Ok (49 # 2)%Q /\
  Qred <$> (split_for_plan [long_task_with_small_rest] ≫= total_hours) = Ok 25%Q.
Proof.
  intros H. split; [eapply split_long_tasks_hours_at_least_one, H|].
  repeat split; vm_compute; reflexivity.
Qed.

Lemma C10_splitter_floors_hours_at_one_witness :
  Forall (hours_at_least 1)
    (ok_or [] (split_long_tasks [half_hour_task; long_task_with_small_rest] 24 8)).
Proof.
  apply Forall_forall.
  apply (C10_splitter_floors_hours_at_one
           [half_hour_task; long_task_with_small_rest] _ 24 8).
  apply ok_or_eq; vm_compute; reflexivity.
Defined.

Lemma first_position_insert (lp : gmap Z Z) (k n : nat) (v : Z) :
  (k <= n)%nat -> first_position (<[Z.of_nat n := v]> lp) k = first_position lp k.
Proof.
  intros Hk. destruct k as [|k]; [reflexivity|]. simpl.
  rewrite lookup_insert_ne by lia. reflexivity.
Qed.

Lemma split_loop_tile (th ch : Q) (tasks : list dict) :
  forall (nt : list dict) (lp : gmap Z Z),
  split_loop th ch 0 tasks ([], ∅) = Ok (nt, lp) -> chunks_tile th ch tasks nt lp.
Proof.
  induction tasks as [|task pre IH] using rev_ind; intros nt lp H k task_k Hk.
  - destruct k; discriminate.
  - rewrite split_loop_snoc in H. inv_bind H. destruct a as [nt0 lp0].
    destruct (split_loop_index _ _ _ _ _ E) as (_ & _ & Hnext).
    apply split_task_spec in H as (h & ds & g & Hh & _ & -> & Hlen & -> & Hg).
    pose proof (parts_of_nonempty th ch h) as Hne. simpl.
    destruct (decide (k < length pre)%nat) as [Hlt|Hge].
    + rewrite lookup_app_l in Hk by exact Hlt.
      destruct (IH _ _ E k task_k Hk) as (e & h0 & He & Hh0 & Hcount & Hbound & Hchain).
      exists e, h0. rewrite lookup_insert_ne by lia.
      rewrite first_position_insert by lia. rewrite length_app.
      repeat split; try assumption; try lia.
      intros p Hp. destruct (Hchain p Hp) as (t & Ht & Hd).
      exists t. split; [apply lookup_app_l_Some, Ht | exact Hd].
    + assert (k = length pre) as ->.
      { apply lookup_lt_Some in Hk. rewrite length_app in Hk. simpl in Hk. lia. }
      rewrite lookup_app_r, Nat.sub_diag in Hk by lia. injection Hk as <-.
      exists (Z.of_nat (length nt0 + length g) - 1), h.
      rewrite lookup_insert_eq, first_position_insert, Hnext, length_app by lia.
      repeat split; try assumption; try lia.
      intros p Hp.
      destruct (lookup_lt_is_Some_2 g (Z.to_nat p - length nt0)) as [t Ht]; [lia|].
      exists t. split; [rewrite lookup_app_r by lia; exact Ht|].
      destruct (Hg _ _ Ht) as (q & _ & _ & Hd). rewrite Hd.
      destruct (Z.to_nat p - length nt0)%nat as [|j] eqn:Hj; [lia|].
      do 4 f_equal. lia.
Qed.

Lemma chunks_tile_assign_ids (th ch : Q) (tasks nt : list dict) (lp : gmap Z Z) :
  chunks_tile th ch tasks nt lp -> chunks_tile th ch tasks (assign_ids nt) lp.
Proof.
  intros Htile k task Hk.
  destruct (Htile k task Hk) as (e & h & He & Hh & Hcount & Hbound & Hchain).
  exists e, h. unfold assign_ids. rewrite length_imap.
  repeat split; try assumption; try lia.
  intros p Hp. destruct (Hchain p Hp) as (t & Ht & Hd).
  exists (<["id" := PInt (Z.of_nat (Z.to_nat p))]> t). split.
  - rewrite list_lookup_imap, Ht. reflexivity.
  - rewrite lookup_insert_ne by discriminate. exact Hd.
Qed.

(** With chunks of 8 hours, no part of a task above 24 hours exceeds 8. *)
Lemma split_parts_8_bound (h p : Q) :
  (24 < h)%Q -> p ∈ split_parts h 8 -> (p <= 8)%Q.
Proof.
  intros Hh. unfold split_parts.
  assert (Hfull : 3 <= Qfloor (h / 8)).
  { rewrite <- (Qfloor_Z 3). apply Qfloor_resp_le.
    change (inject_Z 3) with 3%Q. apply Qle_shift_div_l; lra. }
  assert (Hrem : (h - inject_Z (Qfloor (h / 8)) * 8 < 8)%Q).
  { pose proof (Qlt_floor (h / 8)) as Hlt. rewrite inject_Z_plus in Hlt.
    change (inject_Z 1) with 1%Q in Hlt.
    assert (Heq : (h == h / 8 * 8)%Q) by field.
    set (f := inject_Z (Qfloor (h / 8))) in *. set (q := (h / 8)%Q) in *. lra. }
  destruct (Z.to_nat (Qfloor (h / 8))) as [|n] eqn:Hn; [lia|].
  simpl. intros Hp. apply elem_of_cons in Hp as [->|Hp]; [apply Qle_refl|].
  apply elem_of_app in Hp as [Hp|Hp].
  - apply list_elem_of_In, repeat_spec in Hp. subst. apply Qle_refl.
  - destruct (Qltb 0 _); [|inversion Hp].
    apply list_elem_of_singleton in Hp. subst. apply Qlt_le_weak, Hrem.
Qed.

Lemma parts_of_24_8_bound (h p : Q) : p ∈ parts_of 24 8 h -> (p <= 24)%Q.
Proof.
  unfold parts_of. destruct (Qle_bool h 24) eqn:Hle.
  - intros Hp. apply list_elem_of_singleton in Hp. subst. apply Qle_bool_iff, Hle.
  - intros Hp. apply Qle_trans with (y := 8%Q); [|discriminate].
    apply (split_parts_8_bound h); [|exact Hp].
    apply Qnot_le_lt. intros Hc. apply Qle_bool_iff in Hc. congruence.
Qed.

Lemma split_loop_hours_at_most_24 (tasks nt : list dict) (lp : gmap Z Z) :
  split_loop 24 8 0 tasks ([], ∅) = Ok (nt, lp) ->
  forall t, t ∈ assign_ids nt -> hours_at_most 24 t.
Proof.
  intros H t Ht. apply list_elem_of_lookup in Ht as (j & Hj).
  apply assign_ids_lookup in Hj as (t0 & H0 & Hs).
  destruct (split_loop_hours _ _ _ _ _ H j t0 H0) as (task & h & p & _ & _ & Hp & Hh).
  exists (Qred (round1 (Qmaxb 1 p))). split.
  - rewrite <- Hs by discriminate. exact Hh.
  - rewrite Qred_correct. apply (round1_upper _ 24).
    apply Qmaxb_upper; [discriminate | apply parts_of_24_8_bound with (h := h), Hp].
Qed.

(** C8: for the call of the pipeline (threshold 24, chunks of 8), with
    [new_tasks] and [last_part] the state at the end of the loop: the
    output is [new_tasks] with ids, no output task has more than 24 hours,
    the chunks of each original task are chained one to the next and end
    at its recorded last part, and a task of 30 hours becomes the chunks
    8, 8, 8 and 6, its dependant remapped to the fourth. *)
Theorem C8_splitter_bounds_and_chains (tasks new_tasks : list dict) (last_part : gmap Z Z) :
  split_loop 24 8 0 tasks ([], ∅) = Ok (new_tasks, last_part) ->
  split_for_plan tasks = Ok (assign_ids new_tasks) /\
  (forall t, t ∈ assign_ids new_tasks -> hours_at_most 24 t) /\
  chunks_tile 24 8 tasks (assign_ids new_tasks) last_part /\
  split_parts 30 8 = [8; 8; 8; 6]%Q /\
  (fun out => (map hours_of out, map deps_of out)) <$> split_for_plan thirty_hour_plan
  = Ok ([Some (PFloat 8); Some (PFloat 8); Some (PFloat 8); Some (PFloat 6); Some (PFloat 2)],
        [Some (PList []); Some (PList [PInt 0]); Some (PList [PInt 1]); Some (PList [PInt 2]);
         Some (PList [PInt 3])]).
Proof.
  intros H. split; [|split; [|split; [|split]]].
  - unfold split_for_plan, split_long_tasks. destruct tasks; [simpl in H; inv_ok; reflexivity|].
    rewrite H. reflexivity.
  - apply (split_loop_hours_at_most_24 tasks new_tasks last_part H).
  - apply chunks_tile_assign_ids, split_loop_tile, H.
  - reflexivity.
  - vm_compute. reflexivity.
Qed.

Lemma C8_splitter_bounds_and_chains_witness :
  let st := ok_or ([], ∅) (split_loop 24 8 0 thirty_hour_plan ([], ∅)) in
  chunks_tile 24 8 thirty_hour_plan (assign_ids (fst st)) (snd st).
Proof.
  intros st. apply (C8_splitter_bounds_and_chains thirty_hour_plan (fst st) (snd st)).
  rewrite <- surjective_pairing. apply ok_or_eq; vm_compute; reflexivity.
Defined.

(** ** Scheduling: starts wait for predecessors *)

Lemma max_time_ge_first (l : list Z) : forall t, t <= max_time t l.
Proof.
  unfold max_time. induction l as [|x l IH]; intros t; simpl; [lia|].
  specialize (IH (Z.max t x)). lia.
Qed.

Lemma max_time_ge (l : list Z) : forall t e, e ∈ t :: l -> e <= max_time t l.
Proof.
  induction l as [|x l IH]; intros t e He.
  - apply list_elem_of_singleton in He. subst. apply max_time_ge_first.
  - apply elem_of_cons in He as [->|He]; [apply max_time_ge_first|].
    unfold max_time. simpl. apply elem_of_cons in He as [->|He].
    + pose proof (max_time_ge_first l (Z.max t x)). unfold max_time in *. lia.
    + apply (IH (Z.max t x)). apply elem_of_cons. right. exact He.
Qed.

Lemma lt_index_backward (i : nat) (d : pyval) :
  backward_dep i d -> lt_index d i = Ok true.
Proof.
  intros (n & Hn & Hb). unfold lt_index.
  assert (Hlt : Qltb (inject_Z n) (inject_Z (Z.of_nat i)) = true).
  { apply Qltb_lt. rewrite <- Zlt_Qlt. lia. }
  destruct d as [|b|m| | | | |]; try discriminate; simpl in *.
  - injection Hn as <-. destruct b; simpl; rewrite <- Hlt; reflexivity.
  - injection Hn as <-. rewrite Hlt. reflexivity.
Qed.

Lemma list_getitem_backward {A} (l : list A) (i : nat) (d : pyval) (n : Z) (x : A) :
  as_int d = Some n -> 0 <= n -> list_getitem l d = Ok x -> l !! Z.to_nat n = Some x.
Proof.
  unfold list_getitem. intros -> Hn.
  destruct (Z.ltb_spec n 0) as [Hneg|_]; [lia|].
  destruct (Z.ltb_spec n 0) as [Hneg|_]; [lia|].
  destruct (l !! Z.to_nat n); [|discriminate]. intros Hx. inv_ok. reflexivity.
Qed.

(** With backward dependencies, the end time of every dependency is among
    the collected ones. *)
Lemma dep_end_times_mem (ends : list Z) (i : nat) (ds : list pyval) :
  forall l, dep_end_times ends i ds = Ok l ->
  Forall (backward_dep i) ds ->
  forall d n e, d ∈ ds -> as_int d = Some n -> ends !! Z.to_nat n = Some e -> e ∈ l.
Proof.
  induction ds as [|d0 ds IH]; intros l H Hback d n e Hd Hn He; [inversion Hd|].
  inversion Hback as [|? ? Hb0 Hbs]; subst. simpl in H.
  rewrite (lt_index_backward _ _ Hb0) in H. simpl in H.
  inv_bind H. inv_bind H. inv_ok.
  apply elem_of_cons in Hd as [->|Hd].
  - destruct Hb0 as (n0 & Hn0 & Hr). assert (n0 = n) by congruence. subst n0.
    apply (list_getitem_backward _ i _ n) in E; [|assumption|lia].
    assert (a = e) by congruence. subst. apply elem_of_cons. left. reflexivity.
  - apply elem_of_cons. right. eapply IH; eauto.
Qed.

Lemma dep_end_times_nonempty (ends : list Z) (i : nat) (d : pyval) (ds : list pyval) (l : list Z) :
  dep_end_times ends i (d :: ds) = Ok l -> backward_dep i d -> l <> [].
Proof.
  intros H Hb. simpl in H. rewrite (lt_index_backward _ _ Hb) in H. simpl in H.
  inv_bind H. inv_bind H. inv_ok. discriminate.
Qed.

Lemma first_pass_start_spec (cd : Z) (ends : list Z) (i : nat) (task : dict)
    (s : Z) (ds : list pyval) :
  task !! "dependencies" = Some (PList ds) ->
  Forall (backward_dep i) ds ->
  first_pass_start cd ends (last ends) i task = Ok s ->
  (forall l, last ends = Some l -> l <= s) /\
  (forall d n e, d ∈ ds -> as_int d = Some n -> ends !! Z.to_nat n = Some e -> e <= s).
Proof.
  intros Hd Hback. unfold first_pass_start, get_default, getitem. rewrite Hd. simpl.
  destruct ds as [|d0 ds'].
  - intros H. inv_ok. split.
    + intros l ->. simpl. lia.
    + intros d n e Hin. inversion Hin.
  - intros H. inv_bind H. change (dep_end_times ends i (d0 :: ds') = Ok a) in E.
    pose proof (dep_end_times_mem _ _ _ _ E Hback) as Hmem.
    inversion Hback as [|? ? Hb0 _]; subst.
    pose proof (dep_end_times_nonempty _ _ _ _ _ E Hb0) as Hne.
    destruct a as [|t ts]; [congruence|]. inv_ok.
    split.
    + intros l ->. lia.
    + intros d n e Hin Hn He. pose proof (max_time_ge ts t e (Hmem _ _ _ Hin Hn He)).
      destruct (last ends); lia.
Qed.

Lemma recompute_start_spec (cd : Z) (ends : list Z) (i : nat) (task : dict)
    (s : Z) (ds : list pyval) :
  task !! "dependencies" = Some (PList ds) ->
  Forall (backward_dep i) ds ->
  recompute_start cd ends i task = Ok s ->
  (forall l, last ends = Some l -> l <= s) /\
  (forall d n e, d ∈ ds -> as_int d = Some n -> ends !! Z.to_nat n = Some e -> e <= s).
Proof.
  intros Hd Hback. unfold recompute_start, get_default, getitem. rewrite Hd. simpl.
  destruct ds as [|d0 ds'].
  - intros H. simpl in H. inv_ok. split.
    + intros l ->. simpl. lia.
    + intros d n e Hin. inversion Hin.
  - destruct ends as [|e0 ends'].
    + simpl. intros H. inv_ok. split; [discriminate|].
      intros d n e _ _ He. rewrite lookup_nil in He. discriminate.
    + remember (e0 :: ends') as ends eqn:Hends. simpl.
      replace (match ends with [] => false | _ :: _ => true end) with true by (subst; reflexivity).
      intros H. inv_bind H. change (dep_end_times ends i (d0 :: ds') = Ok a) in E.
      pose proof (dep_end_times_mem _ _ _ _ E Hback) as Hmem.
      inversion Hback as [|? ? Hb0 _]; subst.
      pose proof (dep_end_times_nonempty _ _ _ _ _ E Hb0) as Hne.
      destruct a as [|t ts]; [congruence|]. inv_ok.
      split.
      * intros l Hl. rewrite Hl. lia.
      * intros d n e Hin Hn He. pose proof (max_time_ge ts t e (Hmem _ _ _ Hin Hn He)).
        destruct (last (e0 :: ends')); lia.
Qed.

Lemma scheduled_so_far_nil : scheduled_so_far [] [].
Proof.
  split; [reflexivity|]. split; [|split]; intros i t Hi; destruct i; discriminate.
Qed.

(** Appending a task whose start respects the end times keeps the state. *)
Lemma scheduled_extend (ends : list Z) (done : list dict) (t' : dict) (s e : Z)
    (ds : list pyval) :
  scheduled_so_far ends done ->
  t' !! "start_time" = Some (PTime s) ->
  t' !! "deadline" = Some (PTime e) ->
  t' !! "dependencies" = Some (PList ds) ->
  Forall (backward_dep (length done)) ds ->
  (forall l, last ends = Some l -> l <= s) ->
  (forall d n e', d ∈ ds -> as_int d = Some n -> ends !! Z.to_nat n = Some e' -> e' <= s) ->
  scheduled_so_far (ends ++ [e]) (done ++ [t']).
Proof.
  intros (Hlen & Hback & Hdl & Hmono) Hs He Hd Hds Hlast Hdeps.
  assert (Hback' : deps_point_backwards (done ++ [t'])%list).
  { intros i t Hi. destruct (decide (i < length done)%nat) as [Hlt|Hge].
    - rewrite lookup_app_l in Hi by exact Hlt. apply Hback, Hi.
    - pose proof (lookup_lt_Some _ _ _ Hi) as Hb. rewrite length_app in Hb. simpl in Hb.
      assert (i = length done) as -> by lia.
      rewrite lookup_app_r, Nat.sub_diag in Hi by lia. injection Hi as <-.
      exists ds. split; [exact Hd | exact Hds]. }
  assert (Hdl' : forall j tj, (done ++ [t'])%list !! j = Some tj ->
            exists e0, (ends ++ [e])%list !! j = Some e0 /\ tj !! "deadline" = Some (PTime e0)).
  { intros j tj Hj. destruct (decide (j < length done)%nat) as [Hlt|Hge].
    - rewrite lookup_app_l in Hj by exact Hlt. destruct (Hdl _ _ Hj) as (e0 & H0 & H1).
      exists e0. split; [apply lookup_app_l_Some, H0 | exact H1].
    - pose proof (lookup_lt_Some _ _ _ Hj) as Hb. rewrite length_app in Hb. simpl in Hb.
      assert (j = length done) as -> by lia.
      rewrite lookup_app_r, Nat.sub_diag in Hj by lia. injection Hj as <-.
      exists e. split; [|exact He]. rewrite Hlen, lookup_app_r, Nat.sub_diag by lia. reflexivity. }
  split; [rewrite !length_app; simpl; lia|]. split; [exact Hback'|]. split; [exact Hdl'|].
  intros i t Hi. destruct (decide (i < length done)%nat) as [Hlt|Hge].
  - rewrite lookup_app_l in Hi by exact Hlt.
    destruct (Hmono _ _ Hi) as (s0 & Hs0 & Hprev & Hdep). exists s0. split; [exact Hs0|]. split.
    + intros j tj -> Hj. rewrite lookup_app_l in Hj by lia. eapply Hprev; eauto.
    + intros ds0 d n tj Hds0 Hin Hn Hj.
      destruct (Hback _ _ Hi) as (ds1 & Hds1 & Hall). simpl in Hall.
      assert (ds1 = ds0) as -> by congruence.
      rewrite Forall_forall in Hall. destruct (Hall _ Hin) as (n' & Hn' & Hr).
      assert (n' = n) as -> by congruence.
      rewrite lookup_app_l in Hj by lia. eapply Hdep; eauto.
  - pose proof (lookup_lt_Some _ _ _ Hi) as Hb. rewrite length_app in Hb. simpl in Hb.
    assert (i = length done) as -> by lia.
    rewrite lookup_app_r, Nat.sub_diag in Hi by lia. injection Hi as <-.
    exists s. split; [exact Hs|]. split.
    + intros j tj Hj Htj. rewrite lookup_app_l in Htj by lia.
      destruct (Hdl _ _ Htj) as (e0 & H0 & H1). exists e0. split; [exact H1|].
      apply Hlast. rewrite last_lookup, <- Hlen, Hj. exact H0.
    + intros ds0 d n tj Hds0 Hin Hn Hj. assert (ds0 = ds) as -> by congruence.
      rewrite Forall_forall in Hds. destruct (Hds _ Hin) as (n' & Hn' & Hr).
      assert (n' = n) as -> by congruence.
      rewrite lookup_app_l in Hj by lia.
      destruct (Hdl _ _ Hj) as (e0 & H0 & H1). exists e0. split; [exact H1|].
      eapply Hdeps; eauto.
Qed.

Lemma deps_from_head (i : nat) (task : dict) (rest : list dict) :
  deps_point_backwards_from i (task :: rest) ->
  (exists ds, task !! "dependencies" = Some (PList ds) /\ Forall (backward_dep i) ds) /\
  deps_point_backwards_from (S i) rest.
Proof.
  intros H. split.
  - destruct (H 0%nat task eq_refl) as (ds & Hd & Hf). rewrite Nat.add_0_r in Hf. eauto.
  - intros k t Hk. destruct (H (S k) t Hk) as (ds & Hd & Hf).
    exists ds. split; [exact Hd|]. replace (S i + k)%nat with (i + S k)%nat by lia. exact Hf.
Qed.

Lemma first_pass_scheduled (cd : Z) (tasks : list dict) :
  forall (ends : list Z) (done out : list dict),
  scheduled_so_far ends done ->
  deps_point_backwards_from (length done) tasks ->
  first_pass cd ends (last ends) (length done) tasks done = Ok out ->
  exists ends', scheduled_so_far ends' out.
Proof.
  induction tasks as [|task rest IH]; intros ends done out Hst Hback H; simpl in H.
  - inv_ok. exists ends. exact Hst.
  - apply deps_from_head in Hback as ((ds & Hd & Hds) & Hrest).
    inv_bind H. inv_bind H.
    destruct (first_pass_start_spec _ _ _ _ _ _ Hd Hds E) as (Hlast & Hdeps).
    replace (Some a0) with (last (ends ++ [a0])%list) in H by apply last_snoc.
    match type of H with
    | first_pass _ _ _ _ _ ?d = _ =>
        replace (S (length done)) with (length d) in H, Hrest
          by (rewrite length_app; simpl; lia)
    end.
    apply IH in H; [exact H | | exact Hrest].
    eapply scheduled_extend; eauto.
    + apply lookup_insert_eq.
    + rewrite lookup_insert_ne by discriminate. apply lookup_insert_eq.
    + rewrite !lookup_insert_ne by discriminate. exact Hd.
Qed.

Lemma recompute_pass_scheduled (cd : Z) (tasks : list dict) :
  forall (ends : list Z) (done out : list dict),
  scheduled_so_far ends done ->
  deps_point_backwards_from (length done) tasks ->
  recompute_pass cd ends (length done) tasks done = Ok out ->
  exists ends', scheduled_so_far ends' out.
Proof.
  induction tasks as [|task rest IH]; intros ends done out Hst Hback H; simpl in H.
  - inv_ok. exists ends. exact Hst.
  - apply deps_from_head in Hback as ((ds & Hd & Hds) & Hrest).
    inv_bind H. inv_bind H.
    destruct (recompute_start_spec _ _ _ _ _ _ Hd Hds E) as (Hlast & Hdeps).
    match type of H with
    | recompute_pass _ _ _ _ ?d = _ =>
        replace (S (length done)) with (length d) in H, Hrest
          by (rewrite length_app; simpl; lia)
    end.
    apply IH in H; [exact H | | exact Hrest].
    eapply scheduled_extend; eauto.
    + rewrite lookup_insert_ne by discriminate. apply lookup_insert_eq.
    + apply lookup_insert_eq.
    + rewrite !lookup_insert_ne by discriminate. exact Hd.
Qed.

(** Scaling rewrites the hours only. *)
Lemma scale_tasks_agree (report shrink : bool) (f : Q) (tasks : list dict) :
  forall out, scale_tasks report shrink f tasks = Ok out ->
  agree_except "estimated_hours" tasks out.
Proof.
  induction tasks as [|task rest IH]; intros out H; simpl in H.
  - inv_ok. constructor.
  - inv_bind H. inv_bind H. inv_bind H. inv_ok. constructor; [|apply IH, E1].
    intros k Hk. symmetry. apply lookup_insert_ne. congruence.
Qed.

Lemma agree_except_deps (k : string) (l1 l2 : list dict) :
  k <> "dependencies" -> agree_except k l1 l2 ->
  deps_point_backwards l1 -> deps_point_backwards l2.
Proof.
  intros Hk Hagree Hback i t Hi.
  destruct (agree_except_lookup _ _ _ _ _ Hagree Hi) as (t0 & H0 & Hs).
  destruct (Hback i t0 H0) as (ds & Hd & Hf).
  exists ds. split; [|exact Hf]. rewrite <- Hs by congruence. exact Hd.
Qed.

Lemma scheduled_monotone (ends : list Z) (out : list dict) :
  scheduled_so_far ends out -> starts_after_predecessors out.
Proof. intros (_ & _ & _ & H). exact H. Qed.

(** C6: for a task sequence whose dependencies point backwards, as
    validation leaves them, every path of [calculate_deadlines] (the first
    pass, the recomputation after scaling and the one after scaling is
    abandoned) records for each task a start that is not before the
    deadline of the task before it nor before the deadline of any of its
    dependencies. *)
Theorem C6_starts_wait_for_predecessors (tasks out : list dict) (start_date : Z)
    (timeframe : option string) :
  deps_point_backwards tasks ->
  calculate_deadlines tasks start_date timeframe = Ok out ->
  starts_after_predecessors out.
Proof.
  intros Hback H. unfold calculate_deadlines in H. inv_bind H.
  destruct (first_pass_scheduled start_date tasks [] [] a scheduled_so_far_nil Hback E)
    as (ends1 & Hst1).
  pose proof Hst1 as (_ & Hback1 & _ & Hmono1).
  unfold fit_schedule_to_timeframe in H.
  destruct a as [|task0 rest]; [inv_ok; exact Hmono1|].
  destruct (given timeframe); [|inv_ok; exact Hmono1].
  inv_bind H. inv_bind H.
  match type of H with (if ?c then _ else _) = _ => destruct c end;
    [|inv_ok; exact Hmono1].
  match type of H with (if ?c then _ else _) = _ => destruct c end.
  - match type of H with (if ?c then _ else _) = _ => destruct c end; [discriminate|].
    destruct (recompute_pass_scheduled _ _ [] [] out scheduled_so_far_nil Hback1 H)
      as (ends2 & Hst2).
    eapply scheduled_monotone, Hst2.
  - inv_bind_as H scaled Hscaled.
    assert (Hback2 : deps_point_backwards scaled).
    { match type of Hscaled with (if ?c then _ else _) = _ => destruct c end.
      - eapply agree_except_deps; [|eapply scale_tasks_agree, Hscaled|exact Hback1].
        discriminate.
      - inv_ok. exact Hback1. }
    destruct (recompute_pass_scheduled _ _ [] [] out scheduled_so_far_nil Hback2 H)
      as (ends2 & Hst2).
    eapply scheduled_monotone, Hst2.
Qed.


Lemma C6_starts_wait_for_predecessors_witness :
  let validated := ok_or [] (validate_and_fix_tasks raw_with_bad_deps) in
  starts_after_predecessors
    (ok_or [] (calculate_deadlines validated (datetime 2025 10 17 9 0) (Some "4 days"))).
Proof.
  intros validated.
  apply (C6_starts_wait_for_predecessors validated _ (datetime 2025 10 17 9 0) (Some "4 days")).
  - apply (validate_deps raw_with_bad_deps). apply ok_or_eq. vm_compute. reflexivity.
  - apply ok_or_eq. vm_compute. reflexivity.
Defined.

(** The schedule of the witness takes the scaling path: 32.5 hours against
    32 available. *)
Example schedule_with_scaling :
  map (fields ["estimated_hours"; "start_time"; "deadline"]) <$>
  (validate_and_fix_tasks raw_with_bad_deps ≫= fun v =>
   calculate_deadlines v (datetime 2025 10 17 9 0) (Some "4 days"))
  = Ok [[Some (PFloat (281 # 10)); Some (PTime (datetime 2025 10 17 9 0));
         Some (PTime (datetime 2025 10 22 13 6))];
        [Some (PFloat (5 # 2)); Some (PTime (datetime 2025 10 22 13 6));
         Some (PTime (datetime 2025 10 22 11 30))]].
Proof. vm_compute. reflexivity. Qed.

(** ** The working calendar *)

Lemma us_per_day_pos : 0 < us_per_day.
Proof. reflexivity. Qed.

Lemma day_of_replace_9am (t : Z) : day_of (replace_9am t) = day_of t.
Proof.
  unfold replace_9am, day_of. rewrite Z.add_comm, Z.div_add by discriminate.
  rewrite Z.div_small by (unfold us_per_day, us_per_hour; lia). reflexivity.
Qed.

Lemma day_of_next (t : Z) : day_of (t + us_per_day) = day_of t + 1.
Proof.
  unfold day_of. replace (t + us_per_day) with (t + 1 * us_per_day) by lia.
  apply Z.div_add. discriminate.
Qed.

Lemma weekday_range (t : Z) : 0 <= weekday t < 7.
Proof. unfold weekday. apply Z.mod_pos_bound. reflexivity. Qed.

Lemma weekday_next_morning (t : Z) :
  weekday (replace_9am (t + us_per_day)) = (weekday t + 1) mod 7.
Proof.
  unfold weekday. rewrite day_of_replace_9am, day_of_next.
  rewrite Zplus_mod_idemp_l. reflexivity.
Qed.

(** The morning that the normalisation returns is never on a weekend. *)
Lemma to_next_workday_morning_weekday (t : Z) : weekday (to_next_workday_morning t) < 5.
Proof.
  unfold to_next_workday_morning. set (m := replace_9am t).
  pose proof (weekday_range m) as Hr. simpl.
  destruct (Z.leb_spec 5 (weekday m)) as [H5|H5]; [|exact H5].
  pose proof (weekday_next_morning m) as Hn.
  destruct (Z.leb_spec 5 (weekday (replace_9am (m + us_per_day)))) as [H6|H6]; [|exact H6].
  rewrite weekday_next_morning.
  set (w := weekday m) in *. set (w2 := weekday (replace_9am (m + us_per_day))) in *.
  clearbody w2 w. Z.div_mod_to_equations. lia.
Qed.

Lemma work_rounds_pos (r : Q) : (0 < r)%Q -> (1 <= work_rounds r)%nat.
Proof.
  intros Hr. unfold work_rounds.
  assert (0 < Qceiling (r / 8)); [|lia].
  destruct (Z_lt_le_dec 0 (Qceiling (r / 8))) as [H|H]; [exact H|exfalso].
  pose proof (Qle_ceiling (r / 8)) as Hc.
  assert (Hle : (inject_Z (Qceiling (r / 8)) <= 0)%Q).
  { change 0%Q with (inject_Z 0). rewrite <- Zle_Qle. exact H. }
  assert (Heq : (r == r / 8 * 8)%Q) by field.
  set (q := (r / 8)%Q) in *. lra.
Qed.

Lemma work_rounds_step (r : Q) :
  (8 < r)%Q -> (S (work_rounds (r - 8)) <= work_rounds r)%nat.
Proof.
  intros Hr.
  assert (H1 : (1 <= work_rounds r)%nat) by (apply work_rounds_pos; lra).
  unfold work_rounds in H1.
  assert (H2 : Qceiling ((r - 8) / 8) <= Qceiling (r / 8) - 1).
  { rewrite <- (Qceiling_Z (Qceiling (r / 8) - 1)). apply Qceiling_resp_le.
    unfold Z.sub. rewrite inject_Z_plus, inject_Z_opp. change (inject_Z 1) with 1%Q.
    pose proof (Qle_ceiling (r / 8)) as Hc.
    assert (Heq : ((r - 8) / 8 == r / 8 - 1)%Q) by field. rewrite Heq.
    set (q := (r / 8)%Q) in *. set (c := inject_Z (Qceiling q)) in *. lra. }
  unfold work_rounds. lia.
Qed.

(** On a working day the loop ends within [work_rounds] rounds. *)
Lemma work_loop_total (fuel : nat) : forall (r : Q) (cur : Z),
  weekday cur < 5 -> (work_rounds r <= fuel)%nat ->
  exists t, work_loop fuel r cur = Some t.
Proof.
  induction fuel as [|fuel IH]; intros r cur Hday Hfuel.
  - simpl. destruct (Qltb 0 r) eqn:Hr; [|eexists; reflexivity].
    apply Qltb_lt, work_rounds_pos in Hr. lia.
  - simpl. destruct (Qltb 0 r) eqn:Hr; [|eexists; reflexivity].
    destruct (Z.leb_spec 5 (weekday cur)) as [H5|_]; [lia|].
    destruct (Qltb 0 (r - Qminb r 8)) eqn:Hrest.
    + apply Qltb_lt in Hrest. unfold Qminb in *.
      destruct (Qltb 8 r) eqn:H8; [|exfalso; lra].
      apply Qltb_lt in H8. apply IH; [apply to_next_workday_morning_weekday|].
      pose proof (work_rounds_step r H8). lia.
    + destruct fuel; simpl; rewrite Hrest; eexists; reflexivity.
Qed.

(** The end time of a task is always defined: [OutOfRounds] is never
    raised. *)
Lemma task_end_total (start_time : Z) (hours : Q) :
  exists t, task_end start_time hours = Some t.
Proof.
  unfold task_end. apply work_loop_total; [apply to_next_workday_morning_weekday | lia].
Qed.

(** ** Recorded start times *)

(** C5 (the code's behaviour): the start that is recorded is the given
    instant itself.  A single task scheduled from Saturday 2025-10-18 00:00
    is recorded as starting on that Saturday at midnight, while its
    deadline is computed from Monday 09:00; from Wednesday 2025-10-15,
    given as a date, it is recorded as starting at 00:00. *)
Theorem C5_first_start_is_not_normalised :
  map (fields ["start_time"; "deadline"]) <$>
    calculate_deadlines [four_hour_task] (datetime 2025 10 18 0 0) None
  = Ok [[Some (PTime (datetime 2025 10 18 0 0)); Some (PTime (datetime 2025 10 20 13 0))]] /\
  weekday (datetime 2025 10 18 0 0) = 5 /\
  to_next_workday_morning (datetime 2025 10 18 0 0) = datetime 2025 10 20 9 0 /\
  map (fields ["start_time"; "deadline"]) <$>
    calculate_deadlines [four_hour_task] (datetime 2025 10 15 0 0) None
  = Ok [[Some (PTime (datetime 2025 10 15 0 0)); Some (PTime (datetime 2025 10 15 13 0))]].
Proof. repeat split; vm_compute; reflexivity. Qed.

(** ** Timeframe compliance *)

(** C3 (the code's behaviour): ten tasks of 12 hours against one week
    (56 hours available, at most 67.2 accepted) need the factor 0.56.
    Step 4b applies it, with the bias for tasks above 8 hours, and the
    plan of 64 hours is accepted; the scheduler scales once more and the
    plan is returned with 5.6 hours for each task. *)
Theorem C3_compression_below_limit_is_accepted :
  map hours_of <$> (validate_and_fix_tasks ten_heavy_tasks ≫= fun v =>
                    apply_practical_time_adjustments v None)
  = Ok (repeat (Some (PFloat 12)) 10) /\
  map hours_of <$> (validate_and_fix_tasks ten_heavy_tasks ≫= fun v =>
                    apply_practical_time_adjustments v None ≫= fun e =>
                    scale_to_timeframe e (Some "1 week") ≫= fun s =>
                    final_validation s (Some "1 week"))
  = Ok (repeat (Some (PFloat (32 # 5))) 10) /\
  plan_hours <$> plan_from_tasks ten_heavy_tasks None (Some "1 week") (datetime 2025 10 20 9 0)
  = Ok (repeat (Some (PFloat (28 # 5))) 10, 56%Q).
Proof. repeat split; vm_compute; reflexivity. Qed.

(** C4 (the code's behaviour): sixteen tasks of half an hour against one
    day (8 hours available) pass the final validation with 8 hours; the
    splitter then raises each task to one hour, the scheduler finds the
    factor 0.5 below its limit and returns the tasks as they are, and the
    plan is returned with 16 hours, outside the band of 6.4 to 9.6. *)
Theorem C4_accepted_plan_leaves_the_band :
  Qred <$> (validate_and_fix_tasks sixteen_small_tasks ≫= fun v =>
            apply_practical_time_adjustments v None ≫= fun e =>
            scale_to_timeframe e (Some "1 day") ≫= fun s =>
            final_validation s (Some "1 day") ≫= sum_hours)
  = Ok 8%Q /\
  plan_hours <$> plan_from_tasks sixteen_small_tasks None (Some "1 day") (datetime 2025 10 20 9 0)
  = Ok (repeat (Some (PFloat 1)) 16, 16%Q) /\
  available_hours_of (Some "1 day") = 8%Q /\
  in_band 8 16 = false.
Proof. repeat split; vm_compute; reflexivity. Qed.

(** ** Running validation and re-estimation twice *)

Lemma missing_or_falsy_ext (a b : dict) (k : string) :
  a !! k = b !! k -> missing_or_falsy a k = missing_or_falsy b k.
Proof. unfold missing_or_falsy. intros ->. reflexivity. Qed.

Lemma missing_or_not_in_ext (a b : dict) (k : string) (ws : list string) :
  a !! k = b !! k -> missing_or_not_in a k ws = missing_or_not_in b k ws.
Proof. unfold missing_or_not_in. intros ->. reflexivity. Qed.

Lemma well_formed_transport (i : nat) (a b : dict) :
  same_core a b -> well_formed i a -> well_formed i b.
Proof.
  intros Hs (H1 & H2 & H3 & H4 & ds & H5 & H6).
  pose proof (Hs "title" ltac:(simpl; tauto)) as E1.
  pose proof (Hs "description" ltac:(simpl; tauto)) as E2.
  pose proof (Hs "complexity_level" ltac:(simpl; tauto)) as E3.
  pose proof (Hs "task_type" ltac:(simpl; tauto)) as E4.
  pose proof (Hs "dependencies" ltac:(simpl; tauto)) as E5.
  unfold well_formed, missing_or_falsy, missing_or_not_in in *.
  rewrite <- E1, <- E2, <- E3, <- E4, <- E5. eauto 10.
Qed.

Lemma same_core_refl (a : dict) : same_core a a.
Proof. intros k _. reflexivity. Qed.

Lemma same_core_trans (a b c : dict) : same_core a b -> same_core b c -> same_core a c.
Proof. intros H1 H2 k Hk. rewrite (H1 k Hk). apply H2, Hk. Qed.

Lemma same_fields_except_core (k : string) (a b : dict) :
  ~ In k core_keys -> same_fields_except k a b -> same_core a b.
Proof. intros Hk H f Hf. apply H. intros ->. contradiction. Qed.

Lemma detect_complexity_level_valid (t d : string) :
  existsb (String.eqb (detect_complexity_level t d)) complexity_levels = true.
Proof.
  unfold detect_complexity_level.
  repeat match goal with |- context [if ?c then _ else _] => destruct c end; reflexivity.
Qed.

Lemma detect_task_type_valid (t d : string) :
  existsb (String.eqb (detect_task_type t d)) task_types = true.
Proof.
  unfold detect_task_type.
  repeat match goal with |- context [if ?c then _ else _] => destruct c end; reflexivity.
Qed.

(** *** Each fix rewrites its own field only *)

Lemma fix_title_fields (i : nat) (task : dict) :
  same_fields_except "title" task (fix_title i task).
Proof. intros f Hf. unfold fix_title. symmetry. apply if_insert_ne. congruence. Qed.

Lemma fix_description_fields (task : dict) :
  same_fields_except "description" task (fix_description task).
Proof. intros f Hf. unfold fix_description. symmetry. apply if_insert_ne. congruence. Qed.

Lemma fix_priority_fields (task : dict) :
  same_fields_except "priority" task (fix_priority task).
Proof. intros f Hf. unfold fix_priority. symmetry. apply if_insert_ne. congruence. Qed.

Lemma fix_hours_fields (task t : dict) :
  fix_hours task = Ok t -> same_fields_except "estimated_hours" task t.
Proof.
  unfold fix_hours. intros H f Hf. do 4 inv_bind H. inv_ok.
  rewrite lookup_insert_ne by congruence.
  destruct (as_str a0); rewrite ?lookup_insert_ne by congruence;
    rewrite if_insert_ne by congruence; reflexivity.
Qed.

Lemma fix_complexity_level_fields (task t : dict) :
  fix_complexity_level task = Ok t -> same_fields_except "complexity_level" task t.
Proof.
  unfold fix_complexity_level. intros H f Hf.
  destruct (missing_or_not_in task "complexity_level" complexity_levels).
  - do 2 inv_bind H. inv_ok. symmetry. apply lookup_insert_ne. congruence.
  - inv_ok. reflexivity.
Qed.

Lemma fix_task_type_fields (task t : dict) :
  fix_task_type task = Ok t -> same_fields_except "task_type" task t.
Proof.
  unfold fix_task_type. intros H f Hf.
  destruct (missing_or_not_in task "task_type" task_types).
  - do 2 inv_bind H. inv_ok. symmetry. apply lookup_insert_ne. congruence.
  - inv_ok. reflexivity.
Qed.

Lemma fix_dependencies_fields (i : nat) (task t : dict) :
  fix_dependencies i task = Ok t -> same_fields_except "dependencies" task t.
Proof.
  unfold fix_dependencies. intros H f Hf. destruct (task !! "dependencies").
  - inv_bind H. inv_ok. symmetry. apply lookup_insert_ne. congruence.
  - inv_ok. symmetry. apply lookup_insert_ne. congruence.
Qed.

(** *** What each fix establishes *)

Lemma fix_title_truthy (i : nat) (task : dict) :
  missing_or_falsy (fix_title i task) "title" = false.
Proof.
  unfold fix_title. destruct (missing_or_falsy task "title") eqn:E; [|exact E].
  unfold missing_or_falsy. rewrite lookup_insert_eq. reflexivity.
Qed.

Lemma fix_description_truthy (task : dict) :
  missing_or_falsy (fix_description task) "description" = false.
Proof.
  unfold fix_description. destruct (missing_or_falsy task "description") eqn:E; [|exact E].
  unfold missing_or_falsy. rewrite lookup_insert_eq. reflexivity.
Qed.

Lemma fix_complexity_level_valid (task t : dict) :
  fix_complexity_level task = Ok t ->
  missing_or_not_in t "complexity_level" complexity_levels = false.
Proof.
  unfold fix_complexity_level. intros H.
  destruct (missing_or_not_in task "complexity_level" complexity_levels) eqn:E.
  - do 2 inv_bind H. inv_ok. unfold missing_or_not_in. rewrite lookup_insert_eq.
    unfold in_strs. simpl as_str. cbv iota. rewrite detect_complexity_level_valid. reflexivity.
  - inv_ok. exact E.
Qed.

Lemma fix_task_type_valid (task t : dict) :
  fix_task_type task = Ok t -> missing_or_not_in t "task_type" task_types = false.
Proof.
  unfold fix_task_type. intros H.
  destruct (missing_or_not_in task "task_type" task_types) eqn:E.
  - do 2 inv_bind H. inv_ok. unfold missing_or_not_in. rewrite lookup_insert_eq.
    unfold in_strs. simpl as_str. cbv iota. rewrite detect_task_type_valid. reflexivity.
  - inv_ok. exact E.
Qed.

Lemma forallb_filter {A} (p : A -> bool) (l : list A) : forallb p (List.filter p l) = true.
Proof.
  induction l as [|x l IH]; [reflexivity|]. simpl. destruct (p x) eqn:E; [|exact IH].
  simpl. rewrite E. exact IH.
Qed.

Lemma filter_forallb {A} (p : A -> bool) (l : list A) :
  forallb p l = true -> List.filter p l = l.
Proof.
  induction l as [|x l IH]; [reflexivity|]. simpl. intros H.
  apply andb_true_iff in H as [Hx Hl]. rewrite Hx, (IH Hl). reflexivity.
Qed.

Lemma fix_dependencies_valid (i : nat) (task t : dict) :
  fix_dependencies i task = Ok t ->
  exists ds, t !! "dependencies" = Some (PList ds) /\ forallb (valid_dep i) ds = true.
Proof.
  unfold fix_dependencies. intros H. destruct (task !! "dependencies").
  - inv_bind H. inv_ok. eexists. split; [apply lookup_insert_eq | apply forallb_filter].
  - inv_ok. eexists. split; [apply lookup_insert_eq | reflexivity].
Qed.

(** Validation leaves every task well formed. *)
Lemma fix_task_well_formed (i : nat) (task t : dict) :
  fix_task i task = Ok t -> well_formed i t.
Proof.
  unfold fix_task. intros H.
  inv_bind_as H t1 H1. inv_bind_as H t3 H3. inv_bind_as H t4 H4.
  pose proof (fix_title_truthy i task) as Vt.
  pose proof (fix_description_truthy (fix_title i task)) as Vd.
  pose proof (fix_description_fields (fix_title i task)) as Fd.
  pose proof (fix_hours_fields _ _ H1) as Fh.
  pose proof (fix_priority_fields t1) as Fp.
  pose proof (fix_complexity_level_fields _ _ H3) as Fc.
  pose proof (fix_complexity_level_valid _ _ H3) as Vc.
  pose proof (fix_task_type_fields _ _ H4) as Ft.
  pose proof (fix_task_type_valid _ _ H4) as Vy.
  pose proof (fix_dependencies_fields _ _ _ H) as Fx.
  pose proof (fix_dependencies_valid _ _ _ H) as Vx.
  unfold well_formed, missing_or_falsy, missing_or_not_in in *.
  rewrite <- (Fx "title"), <- (Ft "title"), <- (Fc "title"), <- (Fp "title"),
    <- (Fh "title"), <- (Fd "title") by discriminate.
  rewrite <- (Fx "description"), <- (Ft "description"), <- (Fc "description"),
    <- (Fp "description"), <- (Fh "description") by discriminate.
  rewrite <- (Fx "complexity_level"), <- (Ft "complexity_level") by discriminate.
  rewrite <- (Fx "task_type") by discriminate.
  auto.
Qed.

Lemma valid_is_truthy (t : dict) (k : string) (ws : list string) :
  forallb (fun w => negb (String.eqb w "")) ws = true ->
  missing_or_not_in t k ws = false -> missing_or_falsy t k = false.
Proof.
  unfold missing_or_not_in, missing_or_falsy, in_strs. intros Hws.
  destruct (t !! k) as [v|]; [|discriminate].
  destruct v; simpl; try discriminate; [|reflexivity].
  intros H. apply negb_false_iff in H. apply negb_false_iff.
  apply existsb_exists in H as (w & Hw & Heq). apply String.eqb_eq in Heq. subst w.
  rewrite forallb_forall in Hws. apply Hws in Hw. exact Hw.
Qed.

(** On a well-formed task, validation rewrites no core field. *)
Lemma fix_task_core (i : nat) (t t' : dict) :
  well_formed i t -> fix_task i t = Ok t' -> same_core t t'.
Proof.
  intros (W1 & W2 & W3 & W4 & ds & W5 & W6). unfold fix_task, fix_title, fix_description.
  rewrite W1, W2. intros H.
  inv_bind_as H t1 H1. inv_bind_as H t3 H3. inv_bind_as H t4 H4.
  pose proof (fix_hours_fields _ _ H1) as Fh.
  pose proof (fix_priority_fields t1) as Fp.
  assert (t3 = fix_priority t1) as ->.
  { unfold fix_complexity_level in H3.
    rewrite (missing_or_not_in_ext (fix_priority t1) t) in H3
      by (rewrite <- Fp, <- Fh by discriminate; reflexivity).
    rewrite W3 in H3. inv_ok. reflexivity. }
  assert (t4 = fix_priority t1) as ->.
  { unfold fix_task_type in H4.
    rewrite (missing_or_not_in_ext (fix_priority t1) t) in H4
      by (rewrite <- Fp, <- Fh by discriminate; reflexivity).
    rewrite W4 in H4. inv_ok. reflexivity. }
  unfold fix_dependencies in H.
  rewrite <- Fp, <- Fh, W5 in H by discriminate. simpl in H. inv_ok.
  rewrite (filter_forallb _ _ W6).
  intros k Hk. simpl in Hk.
  destruct Hk as [<-|[<-|[<-|[<-|[<-|[]]]]]];
    rewrite ?lookup_insert_eq, ?lookup_insert_ne by discriminate;
    rewrite <- ?Fp, <- ?Fh by discriminate; auto.
Qed.

(** On a well-formed task, re-estimation rewrites no core field. *)
Lemma adjust_task_core (i : nat) (e s c : Q) (b : bool) (t t' : dict) :
  well_formed i t -> adjust_task e s c b t = Ok t' -> same_core t t'.
Proof.
  intros (W1 & W2 & W3 & W4 & ds & W5 & W6). unfold adjust_task.
  pose proof (valid_is_truthy t "task_type" task_types eq_refl W4) as T4.
  pose proof (valid_is_truthy t "complexity_level" complexity_levels eq_refl W3) as T3.
  rewrite T4. cbv iota. rewrite T3. cbv iota. intros H.
  do 7 inv_bind H. inv_ok.
  intros k Hk. simpl in Hk.
  destruct Hk as [<-|[<-|[<-|[<-|[<-|[]]]]]];
    rewrite !lookup_insert_ne by discriminate; reflexivity.
Qed.

Lemma well_formed_from_cons (i : nat) (t : dict) (l : list dict) :
  well_formed_from i (t :: l) <-> well_formed i t /\ well_formed_from (S i) l.
Proof.
  split.
  - intros H. split.
    + specialize (H 0%nat t eq_refl). rewrite Nat.add_0_r in H. exact H.
    + intros k t' Hk. specialize (H (S k) t' Hk).
      replace (S i + k)%nat with (i + S k)%nat by lia. exact H.
  - intros [H0 Hl] k t' Hk. destruct k as [|k]; simpl in Hk.
    + injection Hk as <-. rewrite Nat.add_0_r. exact H0.
    + specialize (Hl k t' Hk). replace (i + S k)%nat with (S i + k)%nat by lia. exact Hl.
Qed.

Lemma fix_tasks_from_well_formed (tasks : list dict) : forall i out,
  fix_tasks_from i tasks = Ok out -> well_formed_from i out.
Proof.
  induction tasks as [|task rest IH]; intros i out H; simpl in H.
  - inv_ok. intros k t Hk. destruct k; discriminate.
  - inv_bind H. inv_bind H. inv_ok. apply well_formed_from_cons. split.
    + eapply fix_task_well_formed, E.
    + apply IH, E0.
Qed.

Lemma fix_tasks_from_core (tasks : list dict) : forall i out,
  well_formed_from i tasks -> fix_tasks_from i tasks = Ok out -> Forall2 same_core tasks out.
Proof.
  induction tasks as [|task rest IH]; intros i out Hwf H; simpl in H.
  - inv_ok. constructor.
  - apply well_formed_from_cons in Hwf as [H0 Hl].
    inv_bind H. inv_bind H. inv_ok. constructor.
    + eapply fix_task_core; eassumption.
    + eapply IH; eassumption.
Qed.

Lemma adjust_tasks_core (e s c : Q) (b : bool) (tasks : list dict) : forall i out,
  well_formed_from i tasks -> adjust_tasks (adjust_task e s c b) tasks = Ok out ->
  Forall2 same_core tasks out.
Proof.
  induction tasks as [|task rest IH]; intros i out Hwf H; simpl in H.
  - inv_ok. constructor.
  - apply well_formed_from_cons in Hwf as [H0 Hl].
    inv_bind H. inv_bind H. inv_ok. constructor.
    + eapply adjust_task_core; eassumption.
    + eapply IH; eassumption.
Qed.

Lemma same_core_list_refl (l : list dict) : Forall2 same_core l l.
Proof. induction l; constructor; [apply same_core_refl | assumption]. Qed.

Lemma same_core_list_trans (l1 l2 l3 : list dict) :
  Forall2 same_core l1 l2 -> Forall2 same_core l2 l3 -> Forall2 same_core l1 l3.
Proof.
  intros H. revert l3. induction H as [|a b l1 l2 Hab _ IH]; intros l3 H3.
  - inversion H3. constructor.
  - inversion H3; subst. constructor; [eapply same_core_trans; eassumption | apply IH; assumption].
Qed.

Lemma well_formed_from_transport (l1 l2 : list dict) : forall i,
  Forall2 same_core l1 l2 -> well_formed_from i l1 -> well_formed_from i l2.
Proof.
  intros i H. revert i. induction H as [|a b l1 l2 Hab _ IH]; intros i Hwf.
  - intros k t Hk. destruct k; discriminate.
  - apply well_formed_from_cons in Hwf as [H0 Hl]. apply well_formed_from_cons. split.
    + eapply well_formed_transport; eassumption.
    + apply IH, Hl.
Qed.

Lemma agree_except_priority_core (l1 l2 : list dict) :
  agree_except "priority" l1 l2 -> Forall2 same_core l1 l2.
Proof.
  intros H. eapply Forall2_impl; [exact H|]. intros a b Hab.
  apply (same_fields_except_core "priority"); [|exact Hab].
  simpl. intros [H1|[H1|[H1|[H1|[H1|[]]]]]]; discriminate.
Qed.

Lemma apply_practical_time_adjustments_core (tasks out : list dict) (c : option dict) :
  well_formed_from 0 tasks -> apply_practical_time_adjustments tasks c = Ok out ->
  Forall2 same_core tasks out.
Proof.
  intros Hwf. unfold apply_practical_time_adjustments. destruct tasks as [|t l].
  - intros H. inv_ok. constructor.
  - intros H. do 3 inv_bind H. eapply adjust_tasks_core; eassumption.
Qed.

Lemma validate_well_formed (tasks out : list dict) :
  validate_and_fix_tasks tasks = Ok out -> well_formed_from 0 out.
Proof.
  unfold validate_and_fix_tasks. intros H. inv_bind H.
  eapply well_formed_from_transport.
  - eapply agree_except_priority_core, fix_priority_distribution_agree, H.
  - eapply fix_tasks_from_well_formed, E.
Qed.

Lemma validate_core (tasks out : list dict) :
  well_formed_from 0 tasks -> validate_and_fix_tasks tasks = Ok out ->
  Forall2 same_core tasks out.
Proof.
  unfold validate_and_fix_tasks. intros Hwf H. inv_bind H.
  eapply same_core_list_trans.
  - eapply fix_tasks_from_core; eassumption.
  - eapply agree_except_priority_core, fix_priority_distribution_agree, H.
Qed.

(** A second run of validation and re-estimation on the output of a
    first run leaves title, description, complexity level, task type and
    dependencies of every task as they are; it keeps the number of
    tasks. *)
Lemma second_run_core (tasks once twice : list dict)
    (constraints constraints' : option dict) :
  validator_estimator tasks constraints = Ok once ->
  validator_estimator once constraints' = Ok twice ->
  Forall2 same_core once twice.
Proof.
  unfold validator_estimator. intros H1 H2.
  inv_bind_as H1 v1 V1. inv_bind_as H2 v2 V2.
  assert (Hwf : well_formed_from 0 once).
  { eapply well_formed_from_transport.
    - eapply apply_practical_time_adjustments_core; [|exact H1].
      eapply validate_well_formed, V1.
    - eapply validate_well_formed, V1. }
  eapply same_core_list_trans.
  - eapply validate_core; eassumption.
  - eapply apply_practical_time_adjustments_core; [|exact H2].
    eapply validate_well_formed, V2.
Qed.

(** The second run is not a no-op: it takes the adjusted 8 hours as the
    new base and makes them 14. *)
Lemma C7_second_run_changes_hours :
  ~ (forall (tasks once twice : list dict) (constraints : option dict),
       validator_estimator tasks constraints = Ok once ->
       validator_estimator once constraints = Ok twice ->
       twice = once).
Proof.
  intros H.
  pose (once := ok_or [] (validator_estimator one_moderate_task None)).
  pose (twice := ok_or [] (validator_estimator once None)).
  assert (E : twice = once).
  { apply (H one_moderate_task once twice None); apply ok_or_eq; vm_compute; reflexivity. }
  assert (E' : map hours_of twice = map hours_of once) by (rewrite E; reflexivity).
  vm_compute in E'. discriminate E'.
Qed.

Example second_run_hours :
  map (fields ["base_hours"; "estimated_hours"]) <$>
    validator_estimator one_moderate_task None
  = Ok [[Some (PFloat 4); Some (PFloat 8)]] /\
  map (fields ["base_hours"; "estimated_hours"]) <$>
    (validator_estimator one_moderate_task None ≫= fun once => validator_estimator once None)
  = Ok [[Some (PFloat 8); Some (PFloat 14)]].
Proof. split; vm_compute; reflexivity. Qed.

(** ** The response repairer *)

(** A match goes forward, and a pattern without a group hands the
    capture on as it got it. *)
Lemma star_loop_continues {R : Type}
    (step : nat -> list ascii -> option (list ascii) ->
            (nat -> list ascii -> option (list ascii) -> option R) -> option R)
    (keeps : bool) :
  (forall pos s cap k x, step pos s cap k = Some x ->
     exists pos' s' cap', (pos <= pos')%nat /\ (keeps = true -> cap' = cap) /\
                          k pos' s' cap' = Some x) ->
  forall greedy k fuel pos s cap x,
    star_loop step greedy k fuel pos s cap = Some x ->
    exists pos' s' cap', (pos <= pos')%nat /\ (keeps = true -> cap' = cap) /\
                         k pos' s' cap' = Some x.
Proof.
  intros Hstep greedy k fuel. induction fuel as [|fuel IH]; intros pos s cap x H; simpl in H.
  - exists pos, s, cap. auto.
  - assert (Hmore : forall y,
              step pos s cap
                (fun pos' s' cap' =>
                   if (length s' <? length s)%nat
                   then star_loop step greedy k fuel pos' s' cap' else None) = Some y ->
              exists pos' s' cap', (pos <= pos')%nat /\ (keeps = true -> cap' = cap) /\
                                   k pos' s' cap' = Some y).
    { intros y Hy. apply Hstep in Hy as (p1 & s1 & c1 & Hp1 & Hc1 & Hk1).
      destruct (length s1 <? length s)%nat; [|discriminate].
      apply IH in Hk1 as (p2 & s2 & c2 & Hp2 & Hc2 & Hk2).
      exists p2, s2, c2. split; [lia|]. split; [|exact Hk2].
      intros Hkeep. rewrite (Hc2 Hkeep). apply Hc1, Hkeep. }
    destruct greedy.
    + destruct (step pos s cap _) as [y|] eqn:E.
      * injection H as <-. apply Hmore. reflexivity.
      * exists pos, s, cap. auto.
    + destruct (k pos s cap) as [y|] eqn:E.
      * injection H as <-. exists pos, s, cap. auto.
      * apply Hmore, H.
Qed.

Lemma rmatch_continues {R : Type} (r : regex) :
  forall pos s cap (k : nat -> list ascii -> option (list ascii) -> option R) x,
    rmatch r pos s cap k = Some x ->
    exists pos' s' cap', (pos <= pos')%nat /\ (group_free r = true -> cap' = cap) /\
                         k pos' s' cap' = Some x.
Proof.
  induction r as [|c|p|r1 IH1 r2 IH2|g r1 IH1|r1 IH1|r1 IH1| |]; intros pos s cap k x H;
    simpl in H.
  - exists pos, s, cap. auto.
  - destruct s as [|c' s']; [discriminate|]. destruct (Ascii.eqb c c'); [|discriminate].
    exists (S pos), s', cap. auto.
  - destruct s as [|c' s']; [discriminate|]. destruct (p c'); [|discriminate].
    exists (S pos), s', cap. auto.
  - apply IH1 in H as (p1 & s1 & c1 & Hp1 & Hc1 & H).
    apply IH2 in H as (p2 & s2 & c2 & Hp2 & Hc2 & H).
    exists p2, s2, c2. split; [lia|]. split; [|exact H].
    simpl. intros Hg. apply andb_true_iff in Hg as [G1 G2]. rewrite (Hc2 G2). apply Hc1, G1.
  - eapply (star_loop_continues (rmatch r1) (group_free r1)); [|exact H].
    intros pos0 s0 cap0 k0 x0 Hx. exact (IH1 _ _ _ _ _ Hx).
  - destruct (rmatch r1 pos s cap k) as [y|] eqn:E.
    + injection H as <-. exact (IH1 _ _ _ _ _ E).
    + exists pos, s, cap. auto.
  - apply IH1 in H as (p1 & s1 & c1 & Hp1 & _ & H).
    exists p1, s1, (Some (take (p1 - pos) s)). split; [exact Hp1|]. split; [discriminate|exact H].
  - destruct (pos =? 0)%nat; [|discriminate]. exists pos, s, cap. auto.
  - destruct s as [|c [|c' s']]; try discriminate.
    + exists pos, [], cap. auto.
    + destruct (Ascii.eqb c "010"); [|discriminate]. exists pos, [c], cap. auto.
Qed.

Lemma group_chr_capture {R : Type} (c : ascii) (r : regex) (pos : nat) (s : list ascii)
    (cap : option (list ascii)) (k : nat -> list ascii -> option (list ascii) -> option R)
    (x : R) :
  rmatch (Group (Cat (Chr c) r)) pos s cap k = Some x ->
  exists pos' s' t, k pos' s' (Some (c :: t)) = Some x.
Proof.
  simpl. destruct s as [|c' s1]; [discriminate|].
  destruct (Ascii.eqb_spec c c') as [<-|]; [|discriminate]. intros H.
  apply rmatch_continues in H as (p2 & s2 & c2 & Hp2 & _ & H).
  destruct (p2 - pos)%nat as [|n] eqn:E; [lia|]. simpl in H. eauto.
Qed.

(** The group of the fenced block captures a text that opens a brace. *)
Lemma fenced_block_capture (pos : nat) (s : list ascii) (pos' : nat) (s' : list ascii)
    (cap : option (list ascii)) :
  match_at fenced_block pos s = Some (pos', s', cap) ->
  exists t, cap = Some ("{"%char :: t).
Proof.
  unfold match_at, fenced_block. intros H.
  change (rmatch (cat_all [lit (chars "```"); Opt (lit (chars "json")); ws]) pos s None
            (fun p1 s1 c1 =>
               rmatch (Group (Cat (Chr "{") (cat_all [Star false (Cls any_char); Chr "}"])))
                 p1 s1 c1
                 (fun p2 s2 c2 =>
                    rmatch (cat_all [ws; lit (chars "```")]) p2 s2 c2
                      (fun p3 s3 c3 => Some (p3, s3, c3)))) = Some (pos', s', cap)) in H.
  apply rmatch_continues in H as (p1 & s1 & c1 & _ & _ & H).
  apply group_chr_capture in H as (p2 & s2 & t & H).
  apply rmatch_continues in H as (p3 & s3 & c3 & _ & Hc3 & H).
  cbv beta in H. injection H as E1 E2 E3. subst cap. rewrite Hc3 by reflexivity. eauto.
Qed.

Lemma search_from_unfold (r : regex) (pos : nat) (s : list ascii) :
  search_from r pos s =
  match match_at r pos s with
  | Some (_, _, cap) => Some cap
  | None => match s with [] => None | _ :: s' => search_from r (S pos) s' end
  end.
Proof. destruct s; reflexivity. Qed.

Lemma search_fenced_block (s : list ascii) : forall pos cap,
  search_from fenced_block pos s = Some cap -> starts_with_brace (default [] cap).
Proof.
  induction s as [|c s IH]; intros pos cap H; rewrite search_from_unfold in H;
    destruct (match_at fenced_block pos _) as [[[p' s'] cap']|] eqn:E.
  - injection H as <-. apply fenced_block_capture in E as (t & ->). exists t. reflexivity.
  - discriminate.
  - injection H as <-. apply fenced_block_capture in E as (t & ->). exists t. reflexivity.
  - eapply IH, H.
Qed.

(** A substitution whose pattern cannot match at an opening brace keeps
    that brace in front. *)
Lemma re_sub_keeps_brace (r : regex) (repl : option (list ascii) -> list ascii)
    (s : list ascii) :
  (forall pos t, match_at r pos ("{"%char :: t) = None) ->
  starts_with_brace s -> starts_with_brace (re_sub r repl s).
Proof.
  intros Hr (t & ->). unfold re_sub. simpl length. cbn [sub_from]. rewrite Hr.
  eexists. reflexivity.
Qed.

Lemma replace_quotes_keeps_brace (s : list ascii) :
  starts_with_brace s -> starts_with_brace (replace_quotes s).
Proof. intros (t & ->). eexists. reflexivity. Qed.

Lemma remove_trailing_commas_keeps_brace (s : list ascii) :
  starts_with_brace s -> starts_with_brace (remove_trailing_commas s).
Proof. apply re_sub_keeps_brace. reflexivity. Qed.

Lemma find_char_drop (c : ascii) (s : list ascii) : forall i,
  find_char c s = Some i -> exists t, drop i s = c :: t.
Proof.
  induction s as [|c' s IH]; intros i H; simpl in H; [discriminate|].
  destruct (Ascii.eqb_spec c c') as [<-|].
  - injection H as <-. eexists. reflexivity.
  - destruct (find_char c s) as [j|]; [|discriminate]. injection H as <-.
    simpl. apply IH. reflexivity.
Qed.

Lemma find_char_bound (c : ascii) (s : list ascii) : forall i,
  find_char c s = Some i -> (i < length s)%nat.
Proof.
  induction s as [|c' s IH]; intros i H; simpl in H; [discriminate|].
  destruct (Ascii.eqb c c').
  - injection H as <-. simpl. lia.
  - destruct (find_char c s) as [j|]; [|discriminate]. injection H as <-.
    specialize (IH j eq_refl). simpl. lia.
Qed.

Lemma scan_braces_end (s : list ascii) : forall i bc ep ins esc start,
  (start <= i)%nat -> (start <= ep)%nat ->
  (start <= snd (scan_braces s i bc ep ins esc))%nat.
Proof.
  induction s as [|c s IH]; intros i bc ep ins esc start Hi Hep; simpl; [exact Hep|].
  repeat match goal with
  | |- context [if ?b then _ else _] => destruct b
  end; simpl; try apply IH; try lia.
Qed.

Lemma slice_keeps_brace (s : list ascii) (a b : nat) (t : list ascii) :
  drop a s = "{"%char :: t -> (a < b)%nat -> starts_with_brace (slice s a b).
Proof.
  intros Hd Hab. unfold slice. rewrite Hd.
  destruct (b - a)%nat as [|n] eqn:E; [lia|]. eexists. reflexivity.
Qed.

Lemma last_valid_prefix_brace (content : list ascii) (start_pos : nat) (t : list ascii) :
  drop start_pos content = "{"%char :: t ->
  forall n js, last_valid_prefix content start_pos n = Some js -> starts_with_brace js.
Proof.
  intros Hd n. induction n as [|n IH]; intros js H; simpl in H; [discriminate|].
  destruct (default false _).
  - destruct (json_loads _); [|apply IH, H]. injection H as <-.
    apply remove_trailing_commas_keeps_brace, replace_quotes_keeps_brace.
    eapply slice_keeps_brace; [exact Hd | lia].
  - apply IH, H.
Qed.

Lemma locate_json_brace (content js : list ascii) :
  locate_json content = Ok js -> starts_with_brace js.
Proof.
  unfold locate_json, re_search. intros H.
  destruct (search_from fenced_block 0 content) as [cap|] eqn:E.
  - inv_ok. eapply search_fenced_block, E.
  - destruct (find_char "{" content) as [start_pos|] eqn:F; [|discriminate].
    destruct (find_char_drop _ _ _ F) as (t & Hd).
    destruct (scan_braces _ _ _ _ _ _) as [bc ep] eqn:S.
    destruct (negb (bc =? 0)).
    + destruct (last_valid_prefix _ _ _) as [j|] eqn:L; [|discriminate]. inv_ok.
      eapply last_valid_prefix_brace; eassumption.
    + inv_ok. eapply slice_keeps_brace; [exact Hd|].
      pose proof (scan_braces_end (drop start_pos content) start_pos 0 start_pos false false
                    start_pos (Nat.le_refl _) (Nat.le_refl _)) as Hend.
      rewrite S in Hend. simpl in Hend. lia.
Qed.

Lemma cut_after_last_brace_keeps_brace (s : list ascii) :
  starts_with_brace s -> starts_with_brace (cut_after_last_brace s).
Proof.
  intros (t & ->). unfold cut_after_last_brace.
  destruct (rfind_char _ _) as [i|]; [|eexists; reflexivity].
  destruct (0 <? i)%nat; [|eexists; reflexivity].
  destruct (strip _) as [|c ?]; [eexists; reflexivity|].
  destruct (Ascii.eqb c ","); [eexists; reflexivity|].
  replace (i + 1)%nat with (S i) by lia. eexists. reflexivity.
Qed.

Lemma repair_json_text_keeps_brace (s : list ascii) :
  starts_with_brace s -> starts_with_brace (repair_json_text s).
Proof.
  intros H. unfold repair_json_text.
  apply cut_after_last_brace_keeps_brace.
  do 6 (apply re_sub_keeps_brace; [reflexivity|]).
  apply remove_trailing_commas_keeps_brace, replace_quotes_keeps_brace, H.
Qed.

(** *** The decoder returns an object for a text that opens a brace *)

Lemma parse_members_dict (fuel : nat) : forall acc s v rest,
  parse_members fuel acc s = Some (v, rest) -> exists d, v = PDict d.
Proof.
  induction fuel as [|fuel IH]; intros acc s v rest H; simpl in H; [discriminate|].
  destruct s as [|c r]; [discriminate|].
  destruct (Ascii.eqb_spec c "034") as [->|Hc].
  - destruct (scan_string r []) as [[key r1]|]; [|discriminate].
    destruct (skip_ws r1) as [|c1 r2]; [discriminate|].
    destruct (Ascii.eqb_spec c1 ":") as [->|Hc1].
    + destruct (parse_value fuel (skip_ws r2)) as [[v0 r3]|]; [|discriminate].
      destruct (skip_ws r3) as [|c3 r4]; [discriminate|].
      destruct (Ascii.eqb_spec c3 "}") as [->|H3].
      * injection H as <- _. eauto.
      * destruct (Ascii.eqb_spec c3 ",") as [->|H4]; [eapply IH, H|].
        exfalso. revert H. clear -H3 H4.
        destruct c3 as [[] [] [] [] [] [] [] []]; try discriminate; congruence.
    + exfalso. revert H. clear -Hc1.
      destruct c1 as [[] [] [] [] [] [] [] []]; try discriminate; congruence.
  - exfalso. revert H. clear -Hc.
    destruct c as [[] [] [] [] [] [] [] []]; try discriminate; congruence.
Qed.

Lemma json_loads_dict (s : list ascii) (v : pyval) :
  starts_with_brace s -> json_loads s = Some v -> exists d, v = PDict d.
Proof.
  intros (t & ->). unfold json_loads. simpl.
  destruct (skip_ws t) as [|c r] eqn:E.
  - destruct (length t); simpl; discriminate.
  - destruct (Ascii.eqb_spec c "}") as [->|Hc].
    + destruct (skip_ws r); [|discriminate]. intros H. injection H as <-. eauto.
    + destruct (match c with "}"%char => _ | _ => _ end) as [[v0 rest]|] eqn:P; [|discriminate].
      destruct (skip_ws rest); [|discriminate]. intros H. injection H as <-.
      assert (Hm : parse_members (S (length t)) [] (c :: r) = Some (v0, rest)).
      { revert P. clear -Hc.
        destruct c as [[] [] [] [] [] [] [] []]; try (intros P; exact P); congruence. }
      eapply parse_members_dict, Hm.
Qed.

Lemma extract_json_is_object (content : string) (v : pyval) :
  extract_json_from_response content = Ok v -> exists d, v = PDict d.
Proof.
  unfold extract_json_from_response. intros H. inv_bind_as H js Hjs.
  pose proof (locate_json_brace _ _ Hjs) as Hb.
  destruct (json_loads js) as [v1|] eqn:P1.
  - inv_ok. eapply json_loads_dict; eassumption.
  - destruct (json_loads (repair_json_text js)) as [v2|] eqn:P2.
    + inv_ok. eapply json_loads_dict; [apply repair_json_text_keeps_brace, Hb | exact P2].
    + destruct (minimal_json (repair_json_text js)) as [m|] eqn:M; [|discriminate].
      simpl in H. destruct (json_loads m) as [v3|] eqn:P3; [|discriminate]. inv_ok.
      eapply json_loads_dict; [|exact P3].
      unfold minimal_json in M. destruct (re_search _ _); [|discriminate].
      injection M as <-. eexists. reflexivity.
Qed.

Lemma extract_json_raises_ValueError (content : string) (e : exn) :
  extract_json_from_response content = Raise e -> e = ValueError.
Proof.
  unfold extract_json_from_response, locate_json. intros H.
  destruct (re_search fenced_block _).
  - simpl in H. repeat match type of H with
    | match ?x with _ => _ end = _ => destruct x
    end; congruence.
  - destruct (find_char _ _); [|simpl in H; congruence].
    destruct (scan_braces _ _ _ _ _ _) as [bc ep]. destruct (negb _).
    + destruct (last_valid_prefix _ _ _); simpl in H; [|congruence].
      repeat match type of H with
      | match ?x with _ => _ end = _ => destruct x
      end; congruence.
    + simpl in H. repeat match type of H with
      | match ?x with _ => _ end = _ => destruct x
      end; congruence.
Qed.

Lemma fallback_tasks_nonempty (content goal : string) :
  exists t ts, fallback_tasks content goal = t :: ts.
Proof.
  unfold fallback_tasks. destruct (tasks_found_in _) as [|t ts]; [|eauto].
  destruct (any_in _ _); eexists _, _; reflexivity.
Qed.

(** What holds for every text and goal: the repairer returns, without
    raising, an object with a "tasks" entry: either the object that the
    extraction found, or the fallback, whose entry is a non-empty list
    (found in the text, or one of the two templates). *)
Theorem repair_response_yields_tasks_entry (content goal : string) :
  exists d x,
    repair_response content goal = Ok (PDict d) /\
    dict_get "tasks" d = Some x /\
    (extract_json_from_response content = Ok (PDict d) \/
     (PDict d = create_fallback_tasks_from_content content goal /\
      exists t ts, x = PList (t :: ts))).
Proof.
  destruct (fallback_tasks_nonempty content goal) as (t & ts & Hf).
  assert (Hfb : exists d x,
            create_fallback_tasks_from_content content goal = PDict d /\
            dict_get "tasks" d = Some x /\ x = PList (t :: ts)).
  { unfold create_fallback_tasks_from_content. rewrite Hf. eexists _, _.
    split; [reflexivity|]. split; reflexivity. }
  destruct Hfb as (df & xf & Hfb & Hget & Hx).
  unfold repair_response.
  destruct (extract_json_from_response content) as [v|e] eqn:E.
  - destruct (extract_json_is_object _ _ E) as (d & ->). simpl.
    destruct (dict_get "tasks" d) as [x|] eqn:G.
    + exists d, x. auto.
    + exists df, xf. rewrite Hfb. split; [reflexivity|]. split; [exact Hget|].
      right. split; [reflexivity|]. eauto.
  - rewrite (extract_json_raises_ValueError _ _ E). rewrite Hfb. simpl. rewrite Hget.
    exists df, xf. split; [reflexivity|]. split; [exact Hget|].
    right. split; [reflexivity|]. eauto.
Qed.

(** The entry of an extracted object is not inspected: it need not be a
    list. *)
Lemma tasks_entry_need_not_be_a_list :
  ~ (forall content goal : string,
       exists d l, repair_response content goal = Ok (PDict d) /\
                   dict_get "tasks" d = Some (PList l)).
Proof.
  intros H. destruct (H (quoted "{'tasks': 5}") "Build a web shop") as (d & l & Hr & Hd).
  vm_compute in Hr. injection Hr as <-. vm_compute in Hd. discriminate Hd.
Qed.

(** C9 (the code's behaviour): the membership test ["tasks" in tasks_data]
    is the only check on an extracted object.  For the response
    [{"tasks": 5}] the repairer returns the object with the number 5
    under "tasks", no list and no fallback, and the validator, which
    iterates over the entry, then raises [TypeError]. *)
Theorem C9_number_under_tasks_is_returned :
  repair_response (quoted "{'tasks': 5}") "Build a web shop"
  = Ok (PDict [("tasks", PInt 5)]) /\
  create_fallback_tasks_from_content (quoted "{'tasks': 5}") "Build a web shop"
  <> PDict [("tasks", PInt 5)] /\
  generate_task_plan (quoted "{'tasks': 5}") "Build a web shop" None None
                     (datetime 2025 10 20 9 0)
  = Raise TypeError.
Proof.
  split; [vm_compute; reflexivity|].
  split; [vm_compute; discriminate|].
  vm_compute; reflexivity.
Qed.

Example repair_fenced_block :
  repair_response
    (quoted "Here is the plan: ```json
{'tasks':[{'title':'Set up repo','estimated_hours':2,'dependencies':[]}]}
```") "Plan the release of the library"
  = Ok (PDict [("tasks",
                PList [PDict [("title", PStr "Set up repo"); ("estimated_hours", PInt 2);
                              ("dependencies", PList [])]])]).
Proof. vm_compute. reflexivity. Qed.

(** ** Practical increments *)

Lemma Qfloor_bounds (q : Q) :
  (inject_Z (Qfloor q) <= q)%Q /\ (q < inject_Z (Qfloor q) + 1)%Q.
Proof.
  split; [apply Qfloor_le|].
  pose proof (Qlt_floor q) as H. rewrite inject_Z_plus in H. exact H.
Qed.

Lemma round_half_even_near (q : Q) :
  (q - (1 # 2) <= inject_Z (round_half_even q))%Q /\
  (inject_Z (round_half_even q) <= q + (1 # 2))%Q.
Proof.
  destruct (Qfloor_bounds q) as [Hlo Hhi]. unfold round_half_even.
  set (f := Qfloor q) in *.
  destruct (Qltb (q - inject_Z f) (1 # 2)) eqn:E1.
  - apply Qltb_lt in E1. split; lra.
  - apply Qltb_ge in E1.
    assert (Hf1 : inject_Z (f + 1) == inject_Z f + 1) by (rewrite inject_Z_plus; reflexivity).
    destruct (Qltb (1 # 2) (q - inject_Z f)) eqn:E2.
    + rewrite Hf1. split; lra.
    + apply Qltb_ge in E2. destruct (Z.even f); [|rewrite Hf1]; split; lra.
Qed.

Lemma closest_to_In (hours first : Q) (l : list Q) :
  In (closest_to hours l first) (first :: l).
Proof.
  unfold closest_to. revert first. induction l as [|x l IH]; intros first; simpl.
  - left. reflexivity.
  - destruct (Qltb _ _).
    + destruct (IH x) as [H|H]; [right; left; exact H | right; right; exact H].
    + destruct (IH first) as [H|H]; [left; exact H | right; right; exact H].
Qed.

Lemma increments_half_hours (x : Q) : In x increments -> half_hour_multiple x.
Proof.
  unfold increments. simpl. intros H.
  repeat (destruct H as [<-|H]; [eexists; apply Qeq_bool_eq;
    match goal with |- Qeq_bool ?a (inject_Z ?k / 2) = true =>
      instantiate (1 := Qnum (Qred (a * 2))) end; reflexivity|]).
  destruct H.
Qed.

Lemma increments_at_least_half (x : Q) : In x increments -> (1 # 2 <= x)%Q.
Proof.
  unfold increments. simpl. intros H.
  repeat (destruct H as [<-|H]; [apply Qle_bool_iff; reflexivity|]).
  destruct H.
Qed.

Lemma closest_increment (hours : Q) : In (closest_to hours (tail increments) (5 # 10)) increments.
Proof. apply (closest_to_In hours (5 # 10) (tail increments)). Qed.

Lemma round_half_even_of_Z (q : Q) (k : Z) : (q == inject_Z k)%Q -> round_half_even q = k.
Proof.
  intros H. apply Z.le_antisymm.
  - apply round_half_even_upper. rewrite H. apply Qle_refl.
  - apply round_half_even_lower. rewrite H. apply Qle_refl.
Qed.

Lemma round_to_practical_increment_half_hours (hours : Q) :
  half_hour_multiple (round_to_practical_increment hours).
Proof.
  unfold round_to_practical_increment.
  destruct (Qltb _ _); [apply increments_half_hours, closest_increment|].
  eexists; reflexivity.
Qed.

(** X1: the practical estimate is a whole number of half hours and lies
    within a quarter of an hour of the computed one. *)
Theorem round_to_practical_increment_near (hours : Q) :
  half_hour_multiple (round_to_practical_increment hours) /\
  (Qabs (round_to_practical_increment hours - hours) <= 1 # 4)%Q.
Proof.
  split; [apply round_to_practical_increment_half_hours|].
  unfold round_to_practical_increment.
  set (c := closest_to hours (tail increments) (5 # 10)) in *.
  destruct (Qltb (Qabs (hours - c)) (25 # 100)) eqn:E.
  - apply Qltb_lt in E. rewrite Qabs_Qminus. apply Qlt_le_weak.
    eapply Qlt_le_trans; [exact E|]. apply Qle_bool_iff. reflexivity.
  - destruct (round_half_even_near (hours * 2)) as [Hlo Hhi].
    set (n := inject_Z (round_half_even (hours * 2))) in *.
    apply Qabs_Qle_condition.
    assert (Hn : (n / 2 == n * (1 # 2))%Q) by field.
    rewrite Hn. split; lra.
Qed.

Lemma round_to_practical_increment_fixes (x : Q) :
  half_hour_multiple x -> (round_to_practical_increment x == x)%Q.
Proof.
  intros [k Hk]. unfold round_to_practical_increment.
  pose proof (closest_increment x) as Hin.
  set (c := closest_to x (tail increments) (5 # 10)) in *.
  destruct (Qltb (Qabs (x - c)) (25 # 100)) eqn:E.
  - apply Qltb_lt in E. destruct (increments_half_hours _ Hin) as [j Hj].
    assert (k = j) as ->; [|rewrite Hk, Hj; reflexivity].
    assert (Hd : (Qabs (inject_Z k - inject_Z j) < 1)%Q).
    { assert (Hx : (inject_Z k - inject_Z j == (x - c) * 2)%Q).
      { rewrite Hk, Hj. field. }
      rewrite Hx. rewrite Qabs_Qmult.
      apply Qabs_Qlt_condition in E. destruct E as [E1 E2].
      assert (H2 : (Qabs 2 == 2)%Q) by reflexivity. rewrite H2.
      assert (Ha : (Qabs (x - c) < 1 # 2)%Q) by (apply Qabs_Qlt_condition; split; lra).
      lra. }
    apply Qabs_Qlt_condition in Hd. destruct Hd as [Hd1 Hd2].
    unfold Qlt, Qminus, Qplus, Qopp, inject_Z in Hd1, Hd2. simpl in Hd1, Hd2. lia.
  - assert (Hr : round_half_even (x * 2) = k).
    { apply round_half_even_of_Z. rewrite Hk. field. }
    rewrite Hr, Hk. reflexivity.
Qed.

(** X2: rounding to a practical increment is idempotent: an estimate that
    was rounded is not changed by rounding it again. *)
Theorem round_to_practical_increment_idempotent (hours : Q) :
  (round_to_practical_increment (round_to_practical_increment hours)
   == round_to_practical_increment hours)%Q.
Proof.
  apply round_to_practical_increment_fixes, round_to_practical_increment_half_hours.
Qed.

Lemma Qfloor_unique (q : Q) (n : Z) :
  (inject_Z n <= q)%Q -> (q < inject_Z n + 1)%Q -> Qfloor q = n.
Proof.
  intros Hlo Hhi. destruct (Qfloor_bounds q) as [Flo Fhi].
  assert (H1 : (inject_Z n < inject_Z (Qfloor q + 1))%Q) 
    by (rewrite inject_Z_plus; change (inject_Z 1) with 1%Q; lra).
  assert (H2 : (inject_Z (Qfloor q) < inject_Z (n + 1))%Q)
    by (rewrite inject_Z_plus; change (inject_Z 1) with 1%Q; lra).
  rewrite <- Zlt_Qlt in H1, H2. lia.
Qed.

(** X3: an estimate of at most a quarter of an hour is rounded to zero
    hours: no increment is within a quarter of an hour, and rounding to
    the half hour gives 0 (the tie at a quarter goes to the even side). *)
Theorem round_to_practical_increment_small (hours : Q) :
  (0 <= hours)%Q -> (hours <= 1 # 4)%Q -> (round_to_practical_increment hours == 0)%Q.
Proof.
  intros Hlo Hhi. unfold round_to_practical_increment.
  pose proof (increments_at_least_half _ (closest_increment hours)) as Hc.
  set (c := closest_to hours (tail increments) (5 # 10)) in *.
  assert (E : Qltb (Qabs (hours - c)) (25 # 100) = false).
  { apply Qltb_ge. rewrite Qabs_Qminus, Qabs_pos; lra. }
  rewrite E.
  assert (Hr : round_half_even (hours * 2) = 0).
  { unfold round_half_even.
    assert (Hf : Qfloor (hours * 2) = 0) by (apply Qfloor_unique; change (inject_Z 0) with 0%Q; lra).
    rewrite Hf. change (inject_Z 0) with 0%Q.
    destruct (Qltb (hours * 2 - 0) (1 # 2)) eqn:E1; [reflexivity|].
    assert (E2 : Qltb (1 # 2) (hours * 2 - 0) = false) by (apply Qltb_ge; lra).
    rewrite E2. reflexivity. }
  rewrite Hr. reflexivity.
Qed.

Lemma round_to_practical_increment_small_witness :
  (round_to_practical_increment (2 # 10) == 0)%Q.
Proof. apply round_to_practical_increment_small; [discriminate | discriminate]. Defined.

(** ** Deadlines fall in working time *)

Lemma time_of_day_replace_9am (t : Z) : time_of_day (replace_9am t) = 9 * us_per_hour.
Proof.
  unfold replace_9am, time_of_day. rewrite Z.add_comm, Z.mod_add by discriminate.
  apply Z.mod_small. unfold us_per_day, us_per_hour. lia.
Qed.

Lemma skip_weekend_time (rounds : nat) : forall d,
  time_of_day d = 9 * us_per_hour -> time_of_day (skip_weekend rounds d) = 9 * us_per_hour.
Proof.
  induction rounds as [|rounds IH]; intros d Hd; simpl; [exact Hd|].
  destruct (5 <=? weekday d); [|exact Hd].
  apply IH, time_of_day_replace_9am.
Qed.

Lemma to_next_workday_morning_morning (t : Z) : workday_morning (to_next_workday_morning t).
Proof.
  split; [apply to_next_workday_morning_weekday|].
  apply skip_weekend_time, time_of_day_replace_9am.
Qed.

Lemma timedelta_hours_bounds (h : Q) :
  (0 <= h)%Q -> (h <= 8)%Q -> 0 <= timedelta_hours h <= 8 * us_per_hour.
Proof.
  intros Hlo Hhi. unfold timedelta_hours. split.
  - apply round_half_even_lower. change (inject_Z 0) with 0%Q.
    apply Qmult_le_0_compat; [exact Hlo | discriminate].
  - apply round_half_even_upper.
    assert (He : (inject_Z (8 * us_per_hour) == 8 * inject_Z us_per_hour)%Q) by reflexivity.
    rewrite He. apply Qmult_le_compat_r; [exact Hhi | discriminate].
Qed.

Lemma same_day_add (t d : Z) :
  time_of_day t = 9 * us_per_hour -> 0 <= d <= 8 * us_per_hour ->
  day_of (t + d) = day_of t /\ time_of_day (t + d) = 9 * us_per_hour + d.
Proof.
  unfold time_of_day, day_of, us_per_day, us_per_hour. intros Ht Hd.
  split; Z.div_mod_to_equations; lia.
Qed.

Lemma work_loop_working_time (fuel : nat) : forall (r : Q) (cur t : Z),
  workday_morning cur -> work_loop fuel r cur = Some t -> working_time t.
Proof.
  assert (Hm : forall cur, workday_morning cur -> working_time cur).
  { intros cur [Hw Ht]. split; [exact Hw|]. rewrite Ht. unfold us_per_hour. lia. }
  induction fuel as [|fuel IH]; intros r cur t Hcur Hrun.
  - simpl in Hrun. destruct (Qltb 0 r); [discriminate|].
    injection Hrun as <-. apply Hm, Hcur.
  - simpl in Hrun. destruct (Qltb 0 r) eqn:Hr; [|injection Hrun as <-; apply Hm, Hcur].
    apply Qltb_lt in Hr. destruct Hcur as [Hw Ht].
    destruct (Z.leb_spec 5 (weekday cur)) as [H5|_]; [lia|].
    destruct (Qltb 0 (r - Qminb r 8)) eqn:Hrest.
    + eapply IH; [apply to_next_workday_morning_morning | exact Hrun].
    + assert (Hend : t = cur + timedelta_hours (Qminb r 8)).
      { destruct fuel; simpl in Hrun; rewrite Hrest in Hrun; congruence. }
      assert (Hd : 0 <= timedelta_hours (Qminb r 8) <= 8 * us_per_hour).
      { apply timedelta_hours_bounds; unfold Qminb; destruct (Qltb 8 r) eqn:H8;
          try apply Qltb_ge in H8; lra. }
      destruct (same_day_add cur _ Ht Hd) as [Hday Htime].
      subst t. split.
      * unfold weekday. rewrite Hday. exact Hw.
      * rewrite Htime. lia.
Qed.

Lemma task_end_working_time (start_time : Z) (hours : Q) (t : Z) :
  task_end start_time hours = Some t -> working_time t.
Proof. apply work_loop_working_time, to_next_workday_morning_morning. Qed.

(** What [calculate_task_end_with_working_hours] does with the end that
    the loop reaches. *)
Lemma calculate_task_end_of_task_end (start_time : Z) (hours : Q) (t : Z) :
  task_end start_time hours = Some t ->
  calculate_task_end_with_working_hours start_time (PFloat hours)
  = if (last_day <? day_of t) && (day_of start_time <? day_of t)
    then Raise OverflowError else Ok t.
Proof. intros Ht. unfold calculate_task_end_with_working_hours. simpl. rewrite Ht. reflexivity. Qed.

Lemma calculate_task_end_same_day (start_time : Z) (hours : Q) (t : Z) :
  task_end start_time hours = Some t -> day_of t = day_of start_time ->
  calculate_task_end_with_working_hours start_time (PFloat hours) = Ok t.
Proof.
  intros Ht Hday. rewrite (calculate_task_end_of_task_end _ _ _ Ht), Hday.
  rewrite Z.ltb_irrefl, andb_false_r. reflexivity.
Qed.

Lemma task_end_in_working_time_on (start_time : Z) (hours : Q) :
  (exists t, calculate_task_end_with_working_hours start_time (PFloat hours) = Ok t /\
             working_time t) \/
  (calculate_task_end_with_working_hours start_time (PFloat hours) = Raise OverflowError /\
   exists t, task_end start_time hours = Some t /\ last_day < day_of t).
Proof.
  destruct (task_end_total start_time hours) as [t Ht].
  rewrite (calculate_task_end_of_task_end _ _ _ Ht).
  destruct ((last_day <? day_of t) && (day_of start_time <? day_of t)) eqn:E.
  - right. split; [reflexivity|]. exists t. split; [exact Ht|].
    apply andb_true_iff in E as [E _]. apply Z.ltb_lt, E.
  - left. exists t. split; [reflexivity|]. eapply task_end_working_time, Ht.
Qed.

(** X4: for every start of the calendar and every duration the loop
    ends.  The end time falls on Monday to Friday between 09:00 and
    17:00, unless the work would go on after the last day of the
    calendar, 9999-12-31: then the step to the next day raises
    [OverflowError]. *)
Theorem task_end_in_working_time (start_time : Z) (hours : Q) :
  on_calendar start_time = true ->
  (exists t, calculate_task_end_with_working_hours start_time (PFloat hours) = Ok t /\
             working_time t) \/
  (calculate_task_end_with_working_hours start_time (PFloat hours) = Raise OverflowError /\
   exists t, task_end start_time hours = Some t /\ last_day < day_of t).
Proof. intros _. apply task_end_in_working_time_on. Qed.

Lemma task_end_in_working_time_witness :
  let start_time := datetime 2025 10 18 0 0 in
  (exists t, calculate_task_end_with_working_hours start_time (PFloat 20) = Ok t /\
             working_time t) \/
  (calculate_task_end_with_working_hours start_time (PFloat 20) = Raise OverflowError /\
   exists t, task_end start_time 20 = Some t /\ last_day < day_of t).
Proof.
  intros start_time. apply (task_end_in_working_time start_time 20). vm_compute. reflexivity.
Defined.

(** Twenty hours from a Saturday end on Wednesday at 13:00; twenty hours
    from the last day of the calendar, a Friday, raise. *)
Example twenty_hours :
  calculate_task_end_with_working_hours (datetime 2025 10 18 0 0) (PFloat 20)
  = Ok (datetime 2025 10 22 13 0) /\
  day_of (datetime 9999 12 31 9 0) = last_day /\
  weekday (datetime 9999 12 31 9 0) = 4 /\
  calculate_task_end_with_working_hours (datetime 9999 12 31 9 0) (PFloat 20)
  = Raise OverflowError /\
  calculate_task_end_with_working_hours (datetime 9999 12 31 9 0) (PFloat 8)
  = Ok (datetime 9999 12 31 17 0).
Proof. repeat split; vm_compute; reflexivity. Qed.

Lemma calculate_task_end_working_time (start_time : Z) (hours : pyval) (t : Z) :
  calculate_task_end_with_working_hours start_time hours = Ok t -> working_time t.
Proof.
  unfold calculate_task_end_with_working_hours. intros H. inv_bind H.
  destruct (task_end start_time a) eqn:Ht; [|discriminate].
  match type of H with (if ?c then _ else _) = _ => destruct c end; [discriminate|].
  inv_ok. eapply task_end_working_time, Ht.
Qed.

Ltac other_field H :=
  rewrite ?lookup_insert_ne by (intros <-; apply H; simpl; tauto).

Lemma first_pass_writes (cd : Z) (tasks : list dict) :
  forall (ends : list Z) (last_end : option Z) (i : nat) (done out : list dict),
  first_pass cd ends last_end i tasks done = Ok out ->
  exists new, out = (done ++ new)%list /\
    Forall2 (scheduled_as ["id"; "deadline"; "start_time"]) tasks new /\
    ids_are_positions_from i new.
Proof.
  induction tasks as [|task rest IH]; intros ends last_end i done out H; simpl in H.
  - inv_ok. exists []. rewrite app_nil_r. repeat split; [constructor|]. intros k t Hk. discriminate.
  - inv_bind_as H s Hs. inv_bind_as H e He. inv_bind_as He h Hh.
    apply IH in H as (new & -> & Hnew & Hids).
    eexists (_ :: new). split; [rewrite <- app_assoc; reflexivity|]. split.
    + constructor; [|exact Hnew]. split; [|split].
      * intros f Hf. other_field Hf. reflexivity.
      * exists e. split; [|eapply calculate_task_end_working_time, He].
        rewrite lookup_insert_ne by discriminate. apply lookup_insert_eq.
      * exists s. apply lookup_insert_eq.
    + intros [|k] t Hk; simpl in Hk.
      * injection Hk as <-. rewrite !lookup_insert_ne by discriminate.
        rewrite lookup_insert_eq, Nat.add_0_r. reflexivity.
      * rewrite (Hids k t Hk). do 3 f_equal. lia.
Qed.

Lemma recompute_pass_writes (cd : Z) (tasks : list dict) :
  forall (ends : list Z) (i : nat) (done out : list dict),
  recompute_pass cd ends i tasks done = Ok out ->
  exists new, out = (done ++ new)%list /\
    Forall2 (scheduled_as ["deadline"; "start_time"]) tasks new.
Proof.
  induction tasks as [|task rest IH]; intros ends i done out H; simpl in H.
  - inv_ok. exists []. rewrite app_nil_r. split; [reflexivity | constructor].
  - inv_bind_as H s Hs. inv_bind_as H e He. inv_bind_as He h Hh.
    apply IH in H as (new & -> & Hnew).
    eexists (_ :: new). split; [rewrite <- app_assoc; reflexivity|].
    constructor; [|exact Hnew]. split; [|split].
    + intros f Hf. other_field Hf. reflexivity.
    + exists e. split; [apply lookup_insert_eq | eapply calculate_task_end_working_time, He].
    + exists s. rewrite lookup_insert_ne by discriminate. apply lookup_insert_eq.
Qed.

Lemma same_fields_outside_incl (ks ks' : list string) (a b : dict) :
  incl ks ks' -> same_fields_outside ks a b -> same_fields_outside ks' a b.
Proof. intros Hi H f Hf. apply H. intros Hin. apply Hf, Hi, Hin. Qed.

Lemma scheduled_as_incl (ks ks' : list string) (a b : dict) :
  incl ks ks' -> scheduled_as ks a b -> scheduled_as ks' a b.
Proof.
  intros Hi (H1 & H2 & H3). split; [|split]; auto.
  eapply same_fields_outside_incl; eauto.
Qed.

Lemma scheduled_as_after (ks ks' : list string) (a b c : dict) :
  same_fields_outside ks a b -> scheduled_as ks' b c -> scheduled_as (ks ++ ks') a c.
Proof.
  intros Hab (Hbc & Hd & Hs). split; [|split]; auto.
  intros f Hf. rewrite Hab, Hbc; [reflexivity | |];
    intros Hin; apply Hf, in_or_app; tauto.
Qed.

Lemma same_fields_except_outside (k : string) (a b : dict) :
  same_fields_except k a b -> same_fields_outside [k] a b.
Proof. intros H f Hf. apply H. intros ->. apply Hf. left. reflexivity. Qed.

Lemma ids_kept (ks : list string) (l1 l2 : list dict) :
  ~ In "id" ks -> Forall2 (same_fields_outside ks) l1 l2 ->
  ids_are_positions l1 -> ids_are_positions l2.
Proof.
  intros Hid H Hids k t Hk.
  destruct (Forall2_lookup_r _ _ _ _ _ H Hk) as (t1 & Hk1 & Ht).
  rewrite <- (Ht "id" Hid). apply (Hids k t1 Hk1).
Qed.

Lemma recompute_pass_from_scratch (cd : Z) (tasks out : list dict) :
  recompute_pass cd [] 0 tasks [] = Ok out ->
  Forall2 (scheduled_as ["deadline"; "start_time"]) tasks out.
Proof. intros H. apply recompute_pass_writes in H as (new & -> & H). exact H. Qed.

Lemma fit_schedule_writes (ks : list string) (tasks0 tasks out : list dict)
    (timeframe : option string) :
  Forall2 (scheduled_as ks) tasks0 tasks ->
  fit_schedule_to_timeframe tasks timeframe = Ok out ->
  Forall2 (scheduled_as (ks ++ ["estimated_hours"; "deadline"; "start_time"])) tasks0 out /\
  Forall2 (same_fields_outside ["estimated_hours"; "deadline"; "start_time"]) tasks out /\
  (given timeframe = false -> out = tasks).
Proof.
  intros H0 H.
  assert (Hsame : Forall2 (scheduled_as (ks ++ ["estimated_hours"; "deadline"; "start_time"]))
                          tasks0 tasks /\
                  Forall2 (same_fields_outside ["estimated_hours"; "deadline"; "start_time"])
                          tasks tasks).
  { split.
    - eapply Forall2_impl; [exact H0|]. intros a b. apply scheduled_as_incl, incl_appl, incl_refl.
    - apply Forall_Forall2_diag, Forall_forall. intros t _ f _. reflexivity. }
  assert (Hre : forall cd ts, Forall2 (same_fields_outside ["estimated_hours"]) tasks ts ->
            recompute_pass cd [] 0 ts [] = Ok out ->
            Forall2 (scheduled_as (ks ++ ["estimated_hours"; "deadline"; "start_time"])) tasks0 out /\
            Forall2 (same_fields_outside ["estimated_hours"; "deadline"; "start_time"]) tasks out).
  { intros cd ts Hts Hrun. apply recompute_pass_from_scratch in Hrun.
    assert (Hto : Forall2 (scheduled_as ["estimated_hours"; "deadline"; "start_time"]) tasks out).
    { eapply Forall2_trans; [|exact Hts|exact Hrun].
      intros a b c Hab Hbc. apply (scheduled_as_after ["estimated_hours"] _ a b c Hab Hbc). }
    split.
    - eapply Forall2_trans; [|exact H0|exact Hto].
      intros a b c (Hab & _) Hbc. apply (scheduled_as_after ks _ a b c Hab Hbc).
    - eapply Forall2_impl; [exact Hto|]. intros a b Hab. apply Hab. }
  assert (Hid : Forall2 (same_fields_outside ["estimated_hours"]) tasks tasks).
  { apply Forall_Forall2_diag, Forall_forall. intros t _ f _. reflexivity. }
  unfold fit_schedule_to_timeframe in H.
  destruct tasks as [|task0 rest] eqn:Etasks; [inv_ok; split; [apply Hsame|split; [apply Hsame|auto]]|].
  rewrite <- Etasks in *.
  destruct (given timeframe) eqn:Hg;
    [|inv_ok; split; [apply Hsame|split; [apply Hsame|auto]]].
  inv_bind_as H fts Hfts. inv_bind_as H total Htotal.
  assert (Hno : given timeframe = false -> out = tasks) by (intros Hn; rewrite Hg in Hn; discriminate).
  destruct (_ || _); [|inv_ok; split; [apply Hsame|split; [apply Hsame|auto]]].
  destruct (Qltb _ MIN_SCALE_FACTOR).
  - match type of H with (if ?c then _ else _) = _ => destruct c end; [discriminate|].
    destruct (Hre _ _ Hid H). split; [|split]; [assumption..|discriminate].
  - inv_bind_as H scaled Hscaled.
    assert (Hsc : Forall2 (same_fields_outside ["estimated_hours"]) tasks scaled).
    { destruct (_ && _).
      - apply scale_tasks_agree in Hscaled. eapply Forall2_impl; [exact Hscaled|].
        intros a b. apply same_fields_except_outside.
      - inv_ok. exact Hid. }
    destruct (Hre _ _ Hsc H). split; [|split]; [assumption..|discriminate].
Qed.

Lemma calculate_deadlines_writes (tasks out : list dict) (start_date : Z)
    (timeframe : option string) :
  calculate_deadlines tasks start_date timeframe = Ok out ->
  Forall2 (scheduled_as schedule_fields) tasks out /\
  ids_are_positions out /\
  (given timeframe = false -> Forall2 (scheduled_as timing_fields) tasks out).
Proof.
  unfold calculate_deadlines. intros H. inv_bind_as H scheduled Hfirst.
  apply first_pass_writes in Hfirst as (new & -> & Hnew & Hids). simpl in *.
  destruct (fit_schedule_writes _ _ _ _ _ Hnew H) as (Hall & Hkept & Hnone).
  split; [|split].
  - eapply Forall2_impl; [exact Hall|]. intros a b. apply scheduled_as_incl.
    intros f Hf. unfold schedule_fields. simpl in *. tauto.
  - eapply ids_kept; [|exact Hkept|exact Hids]. simpl. intros Hin.
    repeat (destruct Hin as [Hin|Hin]; [discriminate|]). exact Hin.
  - intros Hg. rewrite (Hnone Hg). eapply Forall2_impl; [exact Hnew|].
    intros a b. apply scheduled_as_incl. intros f Hf. unfold timing_fields. simpl in *. tauto.
Qed.

(** X5: the scheduler returns as many tasks as it was given, and every
    deadline that it writes falls on Monday to Friday between 09:00 and
    17:00, whatever the start date and the timeframe. *)
Theorem calculate_deadlines_deadlines_in_working_time (tasks out : list dict)
    (start_date : Z) (timeframe : option string) :
  calculate_deadlines tasks start_date timeframe = Ok out ->
  length out = length tasks /\ Forall deadline_in_working_time out.
Proof.
  intros H. apply calculate_deadlines_writes in H as (H & _ & _). split.
  - symmetry. eapply Forall2_length, H.
  - eapply Forall2_Forall_r; [exact H|]. apply Forall_forall. intros a _ b Hab. apply Hab.
Qed.

Lemma calculate_deadlines_deadlines_in_working_time_witness :
  let out := ok_or [] (calculate_deadlines thirty_hour_plan (datetime 2025 10 18 0 0)
                                           (Some "1 week")) in
  length out = length thirty_hour_plan /\ Forall deadline_in_working_time out.
Proof.
  intros out.
  apply (calculate_deadlines_deadlines_in_working_time thirty_hour_plan out
           (datetime 2025 10 18 0 0) (Some "1 week")).
  apply ok_or_eq. vm_compute. reflexivity.
Defined.

(** X6: the scheduler writes the id, the start time and the deadline of
    a task, and its hours when it scales the plan to the timeframe; it
    changes no other field, the id of a task is its position, and
    without a timeframe the hours are kept as well. *)
Theorem calculate_deadlines_keeps_other_fields (tasks out : list dict)
    (start_date : Z) (timeframe : option string) :
  calculate_deadlines tasks start_date timeframe = Ok out ->
  Forall2 (same_fields_outside schedule_fields) tasks out /\
  ids_are_positions out /\
  (given timeframe = false -> Forall2 (same_fields_outside timing_fields) tasks out).
Proof.
  intros H. apply calculate_deadlines_writes in H as (H & Hids & Hnone).
  split; [|split; [exact Hids|]].
  - eapply Forall2_impl; [exact H|]. intros a b Hab. apply Hab.
  - intros Hg. eapply Forall2_impl; [exact (Hnone Hg)|]. intros a b Hab. apply Hab.
Qed.

Lemma calculate_deadlines_keeps_other_fields_witness :
  let out := ok_or [] (calculate_deadlines thirty_hour_plan (datetime 2025 10 20 9 0) None) in
  Forall2 (same_fields_outside schedule_fields) thirty_hour_plan out /\
  ids_are_positions out /\
  (given None = false -> Forall2 (same_fields_outside timing_fields) thirty_hour_plan out).
Proof.
  intros out.
  apply (calculate_deadlines_keeps_other_fields thirty_hour_plan out (datetime 2025 10 20 9 0) None).
  apply ok_or_eq. vm_compute. reflexivity.
Defined.

(** ** Tasks of at most one working day *)

Lemma replace_9am_same_day (s t : Z) : day_of s = day_of t -> replace_9am s = replace_9am t.
Proof. unfold replace_9am. intros ->. reflexivity. Qed.

Lemma to_next_workday_morning_workday (s : Z) :
  weekday s < 5 -> to_next_workday_morning s = replace_9am s.
Proof.
  intros Hw. unfold to_next_workday_morning. simpl.
  assert (Hr : weekday (replace_9am s) = weekday s)
    by (unfold weekday; rewrite day_of_replace_9am; reflexivity).
  rewrite Hr. destruct (Z.leb_spec 5 (weekday s)); [lia | reflexivity].
Qed.

Lemma task_end_one_day (s : Z) (h : Q) :
  weekday s < 5 -> (0 < h)%Q -> (h <= 8)%Q ->
  task_end s h = Some (replace_9am s + timedelta_hours h).
Proof.
  intros Hw Hlo Hhi. unfold task_end. rewrite to_next_workday_morning_workday by exact Hw.
  pose proof (work_rounds_pos h Hlo) as Hf.
  destruct (work_rounds h) as [|fuel]; [lia|]. simpl.
  assert (H0 : Qltb 0 h = true) by (apply Qltb_lt; exact Hlo). rewrite H0.
  assert (Hr : weekday (replace_9am s) = weekday s)
    by (unfold weekday; rewrite day_of_replace_9am; reflexivity).
  rewrite Hr. destruct (Z.leb_spec 5 (weekday s)) as [|_]; [lia|].
  assert (Hm : Qminb h 8 = h).
  { unfold Qminb. assert (H8 : Qltb 8 h = false) by (apply Qltb_ge; exact Hhi).
    rewrite H8. reflexivity. }
  rewrite Hm.
  assert (Hrest : Qltb 0 (h - h) = false) by (apply Qltb_ge; lra).
  rewrite Hrest. destruct fuel; simpl; rewrite Hrest; reflexivity.
Qed.

(** X7: a task of at most eight hours that starts on a working day is due
    its duration after 09:00 of that day, whatever the clock time of the
    start; when the start is later in the day than that, the end time
    precedes the start. *)
Theorem task_end_counts_from_nine (start_time : Z) (hours : Q) :
  weekday start_time < 5 -> (0 < hours)%Q -> (hours <= 8)%Q ->
  calculate_task_end_with_working_hours start_time (PFloat hours)
  = Ok (replace_9am start_time + timedelta_hours hours) /\
  (9 * us_per_hour + timedelta_hours hours < time_of_day start_time ->
   replace_9am start_time + timedelta_hours hours < start_time).
Proof.
  intros Hw Hlo Hhi. split.
  - apply calculate_task_end_same_day; [apply task_end_one_day; assumption|].
    assert (Hd : 0 <= timedelta_hours hours <= 8 * us_per_hour)
      by (apply timedelta_hours_bounds; lra).
    apply (same_day_add (replace_9am start_time) _ (time_of_day_replace_9am start_time))
      in Hd as [Hd _].
    rewrite Hd. apply day_of_replace_9am.
  - unfold replace_9am, time_of_day, day_of. intros Hlate.
    pose proof (Z.div_mod start_time us_per_day) as Hdm.
    assert (Hne : us_per_day <> 0) by discriminate. specialize (Hdm Hne). lia.
Qed.

Lemma task_end_counts_from_nine_witness :
  calculate_task_end_with_working_hours (datetime 2025 10 20 15 0) (PFloat 2)
  = Ok (replace_9am (datetime 2025 10 20 15 0) + timedelta_hours 2) /\
  (9 * us_per_hour + timedelta_hours 2 < time_of_day (datetime 2025 10 20 15 0) ->
   replace_9am (datetime 2025 10 20 15 0) + timedelta_hours 2 < datetime 2025 10 20 15 0).
Proof.
  apply (task_end_counts_from_nine (datetime 2025 10 20 15 0) 2);
    [reflexivity | reflexivity | discriminate].
Defined.

Lemma first_pass_one_day (cd : Z) (tasks : list dict) :
  weekday cd < 5 -> Forall short_independent_task tasks ->
  forall (ends : list Z) (last_end : option Z) (i : nat) (done : list dict),
  (forall e, last_end = Some e -> day_of e = day_of cd) ->
  exists new, first_pass cd ends last_end i tasks done = Ok (done ++ new)%list /\
              Forall (due_on_day_of cd) new.
Proof.
  intros Hw Htasks. induction Htasks as [|task rest (Hnodeps & h & Hh & Hlo & Hhi) _ IH];
    intros ends last_end i done Hlast; simpl.
  - exists []. rewrite app_nil_r. split; [reflexivity | constructor].
  - unfold first_pass_start. rewrite Hnodeps. simpl.
    unfold getitem. rewrite Hh. simpl.
    set (s := default cd last_end).
    assert (Hday : day_of s = day_of cd).
    { unfold s. destruct last_end as [e|]; [apply Hlast|]; reflexivity. }
    assert (Hws : weekday s < 5) by (unfold weekday; rewrite Hday; exact Hw).
    assert (Hsame : day_of (replace_9am s + timedelta_hours h) = day_of s).
    { assert (Hd : 0 <= timedelta_hours h <= 8 * us_per_hour)
        by (apply timedelta_hours_bounds; lra).
      apply (same_day_add (replace_9am s) _ (time_of_day_replace_9am s)) in Hd as [Hd _].
      rewrite Hd. apply day_of_replace_9am. }
    rewrite (calculate_task_end_same_day s h _ (task_end_one_day s h Hws Hlo Hhi) Hsame). simpl.
    rewrite (replace_9am_same_day s cd Hday).
    set (e := replace_9am cd + timedelta_hours h).
    edestruct (IH (ends ++ [e])%list (Some e) (S i)) as (new & Hrun & Hnew).
    { intros e' He'. injection He' as <-. unfold e.
      assert (Hd : 0 <= timedelta_hours h <= 8 * us_per_hour)
        by (apply timedelta_hours_bounds; lra).
      apply (same_day_add (replace_9am cd) _ (time_of_day_replace_9am cd)) in Hd as [Hd _].
      rewrite Hd. apply day_of_replace_9am. }
    eexists (_ :: new). rewrite Hrun. split; [rewrite <- app_assoc; reflexivity|].
    constructor; [|exact Hnew]. exists h. split.
    + rewrite !lookup_insert_ne by discriminate. exact Hh.
    + rewrite lookup_insert_ne by discriminate. apply lookup_insert_eq.
Qed.

(** X8: independent tasks of at most eight hours each, scheduled from a
    working day without a timeframe, are all due on that day: each
    deadline is the task's own duration after 09:00 of the start day, so
    the tasks are not laid out one after the other. *)
Theorem short_tasks_are_all_due_on_the_first_day (tasks : list dict) (start_date : Z) :
  weekday start_date < 5 -> Forall short_independent_task tasks ->
  exists out, calculate_deadlines tasks start_date None = Ok out /\
              length out = length tasks /\
              Forall (due_on_day_of start_date) out.
Proof.
  intros Hw Htasks.
  destruct (first_pass_one_day start_date tasks Hw Htasks [] None 0 [])
    as (new & Hrun & Hnew); [discriminate|].
  exists new. unfold calculate_deadlines. rewrite Hrun. simpl.
  assert (Hfit : fit_schedule_to_timeframe new None = Ok new) by (destruct new; reflexivity).
  split; [exact Hfit|]. split; [|exact Hnew].
  apply first_pass_writes in Hrun as (new' & Heq & H2 & _). simpl in Heq. subst new'.
  symmetry. eapply Forall2_length, H2.
Qed.

Lemma short_tasks_are_all_due_on_the_first_day_witness :
  exists out, calculate_deadlines three_short_tasks (datetime 2025 10 20 9 0) None = Ok out /\
              length out = length three_short_tasks /\
              Forall (due_on_day_of (datetime 2025 10 20 9 0)) out.
Proof.
  apply (short_tasks_are_all_due_on_the_first_day three_short_tasks (datetime 2025 10 20 9 0)).
  - vm_compute. reflexivity.
  - unfold three_short_tasks.
    repeat (apply Forall_cons; split;
            [split; [vm_compute; reflexivity|];
             exists 4%Q; split; [vm_compute; reflexivity | split; [reflexivity | discriminate]]|]).
    apply Forall_nil. exact I.
Defined.

Example three_short_tasks_schedule :
  map (fields ["start_time"; "deadline"]) <$>
    calculate_deadlines three_short_tasks (datetime 2025 10 20 9 0) None
  = Ok [[Some (PTime (datetime 2025 10 20 9 0)); Some (PTime (datetime 2025 10 20 13 0))];
        [Some (PTime (datetime 2025 10 20 13 0)); Some (PTime (datetime 2025 10 20 13 0))];
        [Some (PTime (datetime 2025 10 20 13 0)); Some (PTime (datetime 2025 10 20 13 0))]].
Proof. vm_compute. reflexivity. Qed.

(** ** The shape of validated tasks *)

Lemma round1_nonneg (x : Q) : (0 <= x)%Q -> (0 <= round1 x)%Q.
Proof. intros H. change 0%Q with (inject_Z 0). apply round1_lower. exact H. Qed.

Lemma le_zero_false (v : pyval) :
  le_zero v = Ok false -> exists q, as_number v = Ok q /\ (0 < q)%Q.
Proof.
  destruct v as [|b|n|x|s|l|d|t]; simpl; intros H; try discriminate.
  - destruct b; [|discriminate]. exists 1%Q. split; reflexivity.
  - injection H as H. exists (inject_Z n). split; [reflexivity|].
    apply Z.leb_gt in H. change 0%Q with (inject_Z 0). rewrite <- Zlt_Qlt. exact H.
  - injection H as H. exists x. split; [reflexivity|].
    apply Qltb_lt. unfold Qltb. rewrite H. reflexivity.
Qed.

Lemma py_round1_nonneg (v r : pyval) (q : Q) :
  as_number v = Ok q -> (0 <= q)%Q -> py_round1 v = Ok r ->
  exists q', as_number r = Ok q' /\ (0 <= q')%Q.
Proof.
  destruct v as [|b|n|x|s|l|d|t]; simpl; intros Hq Hpos H; try discriminate; inv_ok.
  - eexists. split; [reflexivity|]. destruct b; discriminate.
  - eexists. split; [reflexivity|]. exact Hpos.
  - eexists. split; [reflexivity|]. rewrite Qred_correct. apply round1_nonneg, Hpos.
Qed.

Lemma fix_hours_not_negative (task t : dict) :
  fix_hours task = Ok t -> hours_not_negative t.
Proof.
  unfold fix_hours. intros H.
  inv_bind_as H bad Hbad. inv_bind_as H h Hh. inv_bind_as H h2 Hh2. inv_bind_as H r Hr. inv_ok.
  assert (Hnum : exists q, as_number h = Ok q /\ (0 <= q)%Q).
  { unfold getitem in Hh. destruct bad.
    - rewrite lookup_insert_eq in Hh. inv_ok. exists (Qred 4). split; [reflexivity | discriminate].
    - destruct (task !! "estimated_hours") as [v|] eqn:Hv; [|discriminate]. inv_ok.
      destruct (le_zero_false _ Hbad) as (q & Hq & Hpos). exists q. split; [exact Hq | lra]. }
  destruct Hnum as (q & Hq & Hpos).
  assert (Hs : as_str h = None) by (destruct h; try reflexivity; discriminate).
  rewrite Hs in Hh2. rewrite Hh in Hh2. inv_ok.
  destruct (py_round1_nonneg _ _ _ Hq Hpos Hr) as (q' & Hq' & Hpos').
  exists r, q'. split; [apply lookup_insert_eq | split; assumption].
Qed.

Lemma fix_priority_valid (task : dict) : valid_priority (fix_priority task).
Proof.
  unfold valid_priority, fix_priority.
  destruct (missing_or_not_in task "priority" priorities) eqn:E; [|exact E].
  unfold missing_or_not_in. rewrite lookup_insert_eq. reflexivity.
Qed.

Lemma fix_task_validated (i : nat) (task t : dict) :
  fix_task i task = Ok t -> validated_task i t.
Proof.
  intros H. split; [eapply fix_task_well_formed, H|].
  unfold fix_task in H.
  inv_bind_as H t1 H1. inv_bind_as H t3 H3. inv_bind_as H t4 H4.
  pose proof (fix_hours_not_negative _ _ H1) as (v & q & Hv & Hq & Hpos).
  pose proof (fix_priority_valid t1) as Hp.
  pose proof (fix_priority_fields t1) as F2.
  pose proof (fix_complexity_level_fields _ _ H3) as F3.
  pose proof (fix_task_type_fields _ _ H4) as F4.
  pose proof (fix_dependencies_fields _ _ _ H) as F5.
  split.
  - unfold valid_priority in *.
    rewrite <- (missing_or_not_in_ext (fix_priority t1) t "priority"); [exact Hp|].
    rewrite F3, F4, F5 by discriminate. reflexivity.
  - exists v, q. split; [|split; assumption].
    rewrite <- F5, <- F4, <- F3, <- F2 by discriminate. exact Hv.
Qed.

Lemma fix_tasks_from_validated (tasks : list dict) : forall i out,
  fix_tasks_from i tasks = Ok out ->
  length out = length tasks /\
  forall k t, out !! k = Some t -> validated_task (i + k) t.
Proof.
  induction tasks as [|task rest IH]; intros i out H; simpl in H.
  - inv_ok. split; [reflexivity|]. intros k t Hk. destruct k; discriminate.
  - inv_bind_as H t1 H1. inv_bind_as H ts Hts. inv_ok.
    destruct (IH _ _ Hts) as (Hlen & Hrest). split; [simpl; f_equal; exact Hlen|].
    intros [|k] t Hk; simpl in Hk.
    + injection Hk as <-. rewrite Nat.add_0_r. eapply fix_task_validated, H1.
    + replace (i + S k)%nat with (S i + k)%nat by lia. apply Hrest, Hk.
Qed.

Lemma set_priority_valid (p : string) (i : nat) (l : list dict) :
  In p priorities -> Forall valid_priority l -> Forall valid_priority (set_priority p i l).
Proof.
  intros Hp Hl. unfold set_priority. apply Forall_alter; [exact Hl|].
  intros t _ _. unfold valid_priority, missing_or_not_in. rewrite lookup_insert_eq.
  change (in_strs (PStr p) priorities) with (existsb (String.eqb p) priorities).
  apply negb_false_iff. apply existsb_exists.
  exists p. split; [exact Hp | apply String.eqb_refl].
Qed.

Lemma foldl_set_priority_valid (p : string) (idxs : list nat) : forall l : list dict,
  In p priorities -> Forall valid_priority l ->
  Forall valid_priority (foldl (fun ts i => set_priority p i ts) l idxs).
Proof.
  induction idxs as [|i idxs IH]; intros l Hp Hl; simpl; [exact Hl|].
  apply IH; [exact Hp|]. apply set_priority_valid; assumption.
Qed.

Lemma demote_to_low_valid (idxs : list nat) : forall l out : list dict,
  demote_to_low idxs l = Ok out -> Forall valid_priority l -> Forall valid_priority out.
Proof.
  induction idxs as [|i idxs IH]; intros l out H Hl; simpl in H.
  - inv_ok. exact Hl.
  - destruct (l !! i) as [task|]; [|discriminate].
    inv_bind H. inv_bind H. apply IH in H; [exact H|].
    match goal with |- context [if ?b then _ else _] => destruct b end; [|exact Hl].
    apply set_priority_valid; [simpl; tauto | exact Hl].
Qed.

Lemma fix_priority_distribution_valid (l out : list dict) :
  fix_priority_distribution l = Ok out -> Forall valid_priority l -> Forall valid_priority out.
Proof.
  unfold fix_priority_distribution. intros H Hl.
  destruct (0 <? length l)%nat; [|inv_ok; exact Hl].
  assert (Hm : Forall valid_priority
                 (foldl (fun ts i => set_priority "medium" i ts) l
                        (drop 3 (indices_with_priority "high" l)))).
  { apply foldl_set_priority_valid; [simpl; tauto | exact Hl]. }
  destruct (Qltb 40 _); destruct (Qltb _ 10); inv_ok; try assumption;
    eapply demote_to_low_valid; eassumption.
Qed.

Lemma validate_validated (tasks out : list dict) :
  validate_and_fix_tasks tasks = Ok out ->
  length out = length tasks /\ validated_tasks out.
Proof.
  unfold validate_and_fix_tasks. intros H. inv_bind_as H fixed Hfixed.
  destruct (fix_tasks_from_validated _ _ _ Hfixed) as (Hlen & Hval).
  pose proof (fix_priority_distribution_agree _ _ H) as Hagree.
  split; [rewrite <- Hlen; symmetry; eapply Forall2_length, Hagree|].
  assert (Hprio : Forall valid_priority out).
  { eapply fix_priority_distribution_valid; [exact H|].
    apply Forall_lookup. intros k t Hk. apply (Hval k t Hk). }
  intros i t Hi.
  destruct (agree_except_lookup _ _ _ _ _ Hagree Hi) as (t0 & H0 & Hs).
  destruct (Hval i t0 H0) as (Hwf & _ & v & q & Hv & Hq & Hpos).
  split; [|split].
  - apply (validate_well_formed tasks out); [|exact Hi].
    unfold validate_and_fix_tasks. rewrite Hfixed. exact H.
  - eapply Forall_lookup_1; eassumption.
  - exists v, q. split; [|split; assumption]. rewrite <- Hs by discriminate. exact Hv.
Qed.

(** X9: validation returns as many tasks as it was given, and every task
    it returns has a title and a description that are not empty, a
    priority, a complexity level and a task type from the allowed values,
    hours that are a number, and a list of dependencies that are indices
    of earlier tasks. *)
Theorem validate_and_fix_tasks_shape (tasks out : list dict) :
  validate_and_fix_tasks tasks = Ok out ->
  length out = length tasks /\ checked_tasks out.
Proof.
  intros H. destruct (validate_validated _ _ H) as (Hlen & Hval). split; [exact Hlen|].
  intros i t Hi. destruct (Hval i t Hi) as (Hwf & Hp & v & q & Hv & Hq & _).
  split; [exact Hwf|]. split; [exact Hp|]. exists v, q. split; assumption.
Qed.

Lemma validate_and_fix_tasks_shape_witness :
  let out := ok_or [] (validate_and_fix_tasks raw_with_bad_deps) in
  length out = length raw_with_bad_deps /\ checked_tasks out.
Proof.
  intros out. apply (validate_and_fix_tasks_shape raw_with_bad_deps out).
  apply ok_or_eq. vm_compute. reflexivity.
Defined.

(** ** Positions with a given priority *)

Lemma In_indices_with_priority (p : string) (l : list dict) (i : nat) :
  In i (indices_with_priority p l) <->
  exists t, l !! i = Some t /\ has_priority p t = true.
Proof.
  unfold indices_with_priority. rewrite in_map_iff. split.
  - intros ([j t] & <- & Hin). apply filter_In in Hin as [Hin Hp].
    apply list_elem_of_In, elem_of_lookup_imap in Hin as (k & t' & Heq & Hk).
    injection Heq as -> ->. exists t'. split; assumption.
  - intros (t & Hi & Hp). exists (i, t). split; [reflexivity|].
    apply filter_In. split; [|exact Hp].
    apply list_elem_of_In, elem_of_lookup_imap. exists i, t. split; [reflexivity | exact Hi].
Qed.

Lemma NoDup_map_filter {A B} (f : A -> B) (q : A -> bool) (l : list A) :
  NoDup (map f l) -> NoDup (map f (List.filter q l)).
Proof.
  induction l as [|a l IH]; simpl; intros H; [exact H|].
  apply NoDup_cons in H as [Hnot Hl].
  destruct (q a); simpl; [|apply IH, Hl].
  apply NoDup_cons. split; [|apply IH, Hl].
  intros Hin. apply Hnot. apply list_elem_of_In in Hin. apply list_elem_of_In.
  apply in_map_iff in Hin as (x & Hx & Hin). apply filter_In in Hin as [Hin _].
  apply in_map_iff. exists x. split; assumption.
Qed.

Lemma NoDup_indices_with_priority (p : string) (l : list dict) :
  NoDup (indices_with_priority p l).
Proof.
  unfold indices_with_priority. apply NoDup_map_filter.
  change (map fst (imap pair l)) with (fst <$> imap pair l).
  apply NoDup_alt. intros i j x Hi Hj.
  rewrite list_lookup_fmap, list_lookup_imap in Hi, Hj.
  destruct (l !! i); [|discriminate]. destruct (l !! j); [|discriminate].
  simpl in Hi, Hj. congruence.
Qed.

Lemma indices_in_range (p : string) (l : list dict) (i : nat) :
  In i (indices_with_priority p l) -> (i < length l)%nat.
Proof.
  intros H. apply In_indices_with_priority in H as (t & Ht & _).
  eapply lookup_lt_Some, Ht.
Qed.

(** ** The balance of priorities *)

Lemma set_priority_keeps_others (p : string) (i : nat) (l : list dict) (j : nat) (t' : dict) :
  p <> "high" -> set_priority p i l !! j = Some t' -> has_priority "high" t' = true ->
  j <> i /\ l !! j = Some t'.
Proof.
  intros Hp Hj Hh. unfold set_priority in Hj. destruct (decide (i = j)) as [<-|Hne].
  - exfalso. rewrite list_lookup_alter_eq in Hj. destruct (l !! i) as [t|]; [|discriminate].
    simpl in Hj. injection Hj as <-. unfold has_priority in Hh.
    rewrite lookup_insert_eq in Hh.
    change (in_strs (PStr p) ["high"]) with (String.eqb p "high" || false)%bool in Hh.
    apply orb_true_iff in Hh as [Hh|Hh]; [|discriminate].
    apply String.eqb_eq in Hh. contradiction.
  - rewrite list_lookup_alter_ne in Hj by exact Hne. split; [congruence | exact Hj].
Qed.

Lemma foldl_set_medium_high (idxs : list nat) : forall (l : list dict) (j : nat) (t' : dict),
  foldl (fun ts i => set_priority "medium" i ts) l idxs !! j = Some t' ->
  has_priority "high" t' = true ->
  l !! j = Some t' /\ ~ In j idxs.
Proof.
  induction idxs as [|i idxs IH]; intros l j t' Hj Hh; simpl in *; [tauto|].
  destruct (IH _ _ _ Hj Hh) as (Hj' & Hnot).
  destruct (set_priority_keeps_others "medium" i l j t' ltac:(discriminate) Hj' Hh) as (Hne & Hl).
  split; [exact Hl|]. intros [E|E]; [congruence | contradiction].
Qed.

Lemma demote_to_low_high (idxs : list nat) : forall (l out : list dict) (j : nat) (t' : dict),
  demote_to_low idxs l = Ok out -> out !! j = Some t' -> has_priority "high" t' = true ->
  l !! j = Some t'.
Proof.
  induction idxs as [|i idxs IH]; intros l out j t' H Hj Hh; simpl in H.
  - inv_ok. exact Hj.
  - destruct (l !! i) as [task|]; [|discriminate].
    inv_bind H. inv_bind H. pose proof (IH _ _ _ _ H Hj Hh) as Hj'.
    match type of Hj' with context [if ?b then _ else _] => destruct b end; [|exact Hj'].
    apply (set_priority_keeps_others "low" i l j t' ltac:(discriminate) Hj' Hh).
Qed.

Lemma percentage_at_most_40 (count total : nat) :
  (0 < total)%nat -> Qltb 40 (percentage count total) = false -> (5 * count <= 2 * total)%nat.
Proof.
  intros Hpos H. apply Qltb_ge in H. unfold percentage in H.
  set (c := inject_Z (Z.of_nat count)) in *. set (n := inject_Z (Z.of_nat total)) in *.
  assert (Hn : (0 < n)%Q).
  { unfold n. change 0%Q with (inject_Z 0). rewrite <- Zlt_Qlt. lia. }
  assert (Hq : (c / n <= 2 # 5)%Q).
  { set (a := (c / n)%Q) in *. lra. }
  assert (Hcn : (c == c / n * n)%Q) by (field; lra).
  assert (Hm : (c / n * n <= (2 # 5) * n)%Q)
    by (apply Qmult_le_compat_r; [exact Hq | lra]).
  assert (Hc : (c * 5 <= 2 * n)%Q) by (set (a := (c / n * n)%Q) in *; lra).
  unfold c, n in Hc. unfold Qle in Hc. simpl in Hc. lia.
Qed.

Lemma fix_priority_distribution_balance (l out : list dict) :
  fix_priority_distribution l = Ok out ->
  (count_priority "high" out <= 3)%nat \/
  (5 * count_priority "high" out <= 2 * length l)%nat.
Proof.
  unfold fix_priority_distribution, count_priority. intros H.
  destruct (0 <? length l)%nat eqn:Hpos.
  2:{ inv_ok. left. apply Nat.ltb_ge in Hpos. destruct out; [simpl; lia | simpl in Hpos; lia]. }
  apply Nat.ltb_lt in Hpos.
  set (highs := indices_with_priority "high" l) in *.
  set (l' := if Qltb 40 (percentage (length highs) (length l))
             then foldl (fun ts i => set_priority "medium" i ts) l (drop 3 highs)
             else l) in *.
  assert (Hout : forall j t', out !! j = Some t' -> has_priority "high" t' = true ->
                              l' !! j = Some t').
  { destruct (Qltb _ 10); [|inv_ok; auto].
    intros j t' Hj Hh. eapply demote_to_low_high; eassumption. }
  assert (Hincl : incl (indices_with_priority "high" out) (indices_with_priority "high" l')).
  { intros j Hj. apply In_indices_with_priority in Hj as (t' & Hj & Hh).
    apply In_indices_with_priority. exists t'. split; [apply Hout; assumption | exact Hh]. }
  pose proof (NoDup_indices_with_priority "high" out) as Hnd.
  apply NoDup_ListNoDup in Hnd.
  unfold l' in Hincl. destruct (Qltb 40 _) eqn:E40.
  - left. transitivity (length (take 3 highs)); [|rewrite length_take; lia].
    apply List.NoDup_incl_length; [exact Hnd|].
    intros j Hj. apply Hincl in Hj. apply In_indices_with_priority in Hj as (t' & Hj & Hh).
    destruct (foldl_set_medium_high _ _ _ _ Hj Hh) as (Hl & Hnot).
    assert (Hin : In j highs) by (apply In_indices_with_priority; eauto).
    rewrite <- (take_drop 3 highs) in Hin. apply in_app_or in Hin as [Hin|Hin];
      [exact Hin | contradiction].
  - right. apply percentage_at_most_40 in E40; [|exact Hpos].
    pose proof (List.NoDup_incl_length Hnd Hincl) as Hle. fold highs in Hle. lia.
Qed.

(** X10: validation leaves a balanced share of high priorities: among
    the tasks it returns, at most three have priority high, or at most
    40 percent of them do. *)
Theorem validate_and_fix_tasks_limits_high_priority (tasks out : list dict) :
  validate_and_fix_tasks tasks = Ok out ->
  (count_priority "high" out <= 3)%nat \/
  (5 * count_priority "high" out <= 2 * length out)%nat.
Proof.
  unfold validate_and_fix_tasks. intros H. inv_bind_as H fixed Hfixed.
  pose proof (Forall2_length _ _ _ (fix_priority_distribution_agree _ _ H)) as Hlen.
  rewrite <- Hlen. apply fix_priority_distribution_balance, H.
Qed.

Lemma validate_and_fix_tasks_limits_high_priority_witness :
  let out := ok_or [] (validate_and_fix_tasks six_urgent_tasks) in
  (count_priority "high" out <= 3)%nat \/
  (5 * count_priority "high" out <= 2 * length out)%nat.
Proof.
  intros out. apply (validate_and_fix_tasks_limits_high_priority six_urgent_tasks out).
  apply ok_or_eq. vm_compute. reflexivity.
Defined.

Example six_urgent_tasks_priorities :
  map (fields ["priority"]) <$> validate_and_fix_tasks six_urgent_tasks
  = Ok [[Some (PStr "high")]; [Some (PStr "high")]; [Some (PStr "high")];
        [Some (PStr "medium")]; [Some (PStr "medium")]; [Some (PStr "medium")]].
Proof. vm_compute. reflexivity. Qed.

(** ** Validation returns on plain records *)

Lemma fix_title_text (i : nat) (task : dict) :
  text_or_absent task "title" -> exists s, fix_title i task !! "title" = Some (PStr s).
Proof.
  intros H. unfold fix_title, missing_or_falsy.
  destruct (task !! "title") as [v|] eqn:E.
  - destruct (truthy v) eqn:T; simpl.
    + destruct (H v E T) as [s ->]. exists s. exact E.
    + eexists. apply lookup_insert_eq.
  - eexists. apply lookup_insert_eq.
Qed.

Lemma fix_description_text (task : dict) :
  text_or_absent task "description" ->
  exists s, fix_description task !! "description" = Some (PStr s).
Proof.
  intros H. unfold fix_description, missing_or_falsy.
  destruct (task !! "description") as [v|] eqn:E.
  - destruct (truthy v) eqn:T; simpl.
    + destruct (H v E T) as [s ->]. exists s. exact E.
    + eexists. apply lookup_insert_eq.
  - eexists. apply lookup_insert_eq.
Qed.

Lemma fix_hours_total (task : dict) :
  (forall v, task !! "estimated_hours" = Some v ->
             (exists n, v = PInt n) \/ (exists x, v = PFloat x)) ->
  exists t, fix_hours task = Ok t.
Proof.
  intros H. unfold fix_hours.
  destruct (task !! "estimated_hours") as [v|] eqn:E.
  - destruct (H v eq_refl) as [[n ->]|[x ->]]; simpl.
    + destruct (n <=? 0); unfold getitem; rewrite ?lookup_insert_eq, ?E; simpl;
        rewrite ?lookup_insert_eq, ?E; simpl; eexists; reflexivity.
    + destruct (Qle_bool x 0); unfold getitem; rewrite ?lookup_insert_eq, ?E; simpl;
        rewrite ?lookup_insert_eq, ?E; simpl; eexists; reflexivity.
  - simpl. unfold getitem. rewrite lookup_insert_eq. simpl. rewrite lookup_insert_eq. simpl.
    eexists; reflexivity.
Qed.

Lemma fix_task_total (i : nat) (task : dict) :
  plain_record task -> exists t, fix_task i task = Ok t /\ has_texts t.
Proof.
  intros (Ht & Hd & Hh & Hdeps). unfold fix_task.
  destruct (fix_title_text i task Ht) as [title Htitle].
  pose proof (fix_title_fields i task) as F0.
  assert (Hd0 : text_or_absent (fix_title i task) "description").
  { intros v Hv. apply Hd. rewrite (F0 "description") by discriminate. exact Hv. }
  destruct (fix_description_text _ Hd0) as [description Hdescription].
  pose proof (fix_description_fields (fix_title i task)) as F1.
  set (t0 := fix_description (fix_title i task)) in *.
  assert (Htitle0 : t0 !! "title" = Some (PStr title)).
  { rewrite <- (F1 "title") by discriminate. exact Htitle. }
  destruct (fix_hours_total t0) as [t1 H1].
  { intros v Hv. apply Hh. rewrite (F0 "estimated_hours"), (F1 "estimated_hours") by discriminate.
    exact Hv. }
  rewrite H1. simpl.
  pose proof (fix_hours_fields _ _ H1) as F2.
  pose proof (fix_priority_fields t1) as F3.
  set (t2 := fix_priority t1) in *.
  assert (T2 : t2 !! "title" = Some (PStr title))
    by (rewrite <- (F3 "title"), <- (F2 "title") by discriminate; exact Htitle0).
  assert (D2 : t2 !! "description" = Some (PStr description))
    by (rewrite <- (F3 "description"), <- (F2 "description") by discriminate; exact Hdescription).
  assert (H3 : exists t3, fix_complexity_level t2 = Ok t3).
  { unfold fix_complexity_level, getitem. rewrite T2, D2.
    destruct (missing_or_not_in _ _ _); eexists; reflexivity. }
  destruct H3 as [t3 H3]. rewrite H3. simpl.
  pose proof (fix_complexity_level_fields _ _ H3) as F4.
  assert (T3 : t3 !! "title" = Some (PStr title))
    by (rewrite <- (F4 "title") by discriminate; exact T2).
  assert (D3 : t3 !! "description" = Some (PStr description))
    by (rewrite <- (F4 "description") by discriminate; exact D2).
  assert (H4 : exists t4, fix_task_type t3 = Ok t4).
  { unfold fix_task_type, getitem. rewrite T3, D3.
    destruct (missing_or_not_in _ _ _); eexists; reflexivity. }
  destruct H4 as [t4 H4]. rewrite H4. simpl.
  pose proof (fix_task_type_fields _ _ H4) as F5.
  assert (H5 : exists t5, fix_dependencies i t4 = Ok t5).
  { unfold fix_dependencies. destruct (t4 !! "dependencies") as [v|] eqn:E; [|eexists; reflexivity].
    destruct (Hdeps v) as [l ->]; [|eexists; reflexivity].
    rewrite (F0 "dependencies"), (F1 "dependencies"), (F2 "dependencies"), (F3 "dependencies"),
      (F4 "dependencies"), (F5 "dependencies") by discriminate. exact E. }
  destruct H5 as [t5 H5]. exists t5. split; [exact H5|].
  pose proof (fix_dependencies_fields _ _ _ H5) as F6.
  exists title, description. split.
  - rewrite <- (F6 "title"), <- (F5 "title") by discriminate. exact T3.
  - rewrite <- (F6 "description"), <- (F5 "description") by discriminate. exact D3.
Qed.

Lemma fix_tasks_from_total (tasks : list dict) : forall i,
  Forall plain_record tasks ->
  exists out, fix_tasks_from i tasks = Ok out /\ Forall has_texts out.
Proof.
  induction tasks as [|task rest IH]; intros i H; simpl.
  - exists []. split; [reflexivity | constructor].
  - apply Forall_cons in H as [Htask Hrest].
    destruct (fix_task_total i task Htask) as (t & Hfix & Ht). rewrite Hfix. simpl.
    destruct (IH (S i) Hrest) as (ts & Hfixes & Hts). rewrite Hfixes. simpl.
    exists (t :: ts). split; [reflexivity | constructor; assumption].
Qed.

Lemma set_priority_texts (p : string) (i : nat) (l : list dict) :
  Forall has_texts l -> Forall has_texts (set_priority p i l).
Proof.
  intros H. unfold set_priority. apply Forall_alter; [exact H|].
  intros t _ (title & description & Ht & Hd). exists title, description.
  rewrite !lookup_insert_ne by discriminate. split; assumption.
Qed.

Lemma foldl_set_priority_texts (p : string) (idxs : list nat) : forall l : list dict,
  Forall has_texts l -> Forall has_texts (foldl (fun ts i => set_priority p i ts) l idxs).
Proof.
  induction idxs as [|i idxs IH]; intros l H; simpl; [exact H|].
  apply IH, set_priority_texts, H.
Qed.

Lemma demote_to_low_total (idxs : list nat) : forall l : list dict,
  Forall has_texts l -> Forall (fun i => (i < length l)%nat) idxs ->
  exists out, demote_to_low idxs l = Ok out /\ Forall has_texts out.
Proof.
  induction idxs as [|i idxs IH]; intros l Hl Hidxs.
  - exists l. split; [reflexivity | exact Hl].
  - apply Forall_cons in Hidxs as [Hi Hrest].
    destruct (lookup_lt_is_Some_2 l i Hi) as [task Htask].
    pose proof (Forall_lookup_1 _ _ _ _ Hl Htask) as (title & description & Ht & _).
    cbn [demote_to_low]. rewrite Htask. unfold getitem. rewrite Ht.
    change (Ok (PStr title) ≫= _) with
      (demote_to_low idxs (if any_in polish_keywords (lower title)
                           then set_priority "low" i l else l)).
    apply IH.
    + destruct (any_in _ _); [apply set_priority_texts|]; exact Hl.
    + destruct (any_in _ _); [|exact Hrest].
      unfold set_priority. rewrite length_alter. exact Hrest.
Qed.

Lemma fix_priority_distribution_total (l : list dict) :
  Forall has_texts l ->
  exists out, fix_priority_distribution l = Ok out /\ Forall has_texts out.
Proof.
  intros Hl. unfold fix_priority_distribution.
  destruct (0 <? length l)%nat; [|exists l; split; [reflexivity | exact Hl]].
  set (l' := if Qltb 40 _ then _ else l).
  assert (Hl' : Forall has_texts l').
  { unfold l'. destruct (Qltb 40 _); [apply foldl_set_priority_texts|]; exact Hl. }
  destruct (Qltb _ 10); [|exists l'; split; [reflexivity | exact Hl']].
  apply demote_to_low_total; [exact Hl'|].
  apply Forall_forall. intros i Hi. apply (indices_in_range "medium").
  apply list_elem_of_In. eapply subseteq_drop. exact Hi.
Qed.

Lemma validate_and_fix_tasks_returns_on (tasks : list dict) :
  Forall plain_record tasks ->
  exists out, validate_and_fix_tasks tasks = Ok out /\
              length out = length tasks /\ validated_tasks out.
Proof.
  intros H. unfold validate_and_fix_tasks.
  destruct (fix_tasks_from_total tasks 0 H) as (fixed & Hfixed & Htexts).
  destruct (fix_priority_distribution_total fixed Htexts) as (out & Hout & _).
  exists out. rewrite Hfixed. split; [exact Hout|].
  apply validate_validated. unfold validate_and_fix_tasks. rewrite Hfixed. exact Hout.
Qed.

Lemma validate_and_fix_tasks_texts (tasks out : list dict) :
  Forall plain_record tasks -> validate_and_fix_tasks tasks = Ok out -> Forall has_texts out.
Proof.
  intros H Hv. unfold validate_and_fix_tasks in Hv.
  destruct (fix_tasks_from_total tasks 0 H) as (fixed & Hfixed & Htexts).
  rewrite Hfixed in Hv. simpl in Hv.
  destruct (fix_priority_distribution_total fixed Htexts) as (out' & Hout & Ht).
  change (fix_priority_distribution fixed = Ok out) in Hv. congruence.
Qed.


Ltac field_of_record :=
  let v := fresh "v" in
  let Hv := fresh "Hv" in
  intros v Hv; intros; vm_compute in Hv;
  first [ discriminate Hv
        | injection Hv as <-;
          first [eexists; reflexivity | left; eexists; reflexivity | right; eexists; reflexivity] ].

Ltac plain_records :=
  repeat (apply Forall_cons; split;
          [split; [field_of_record | split; [field_of_record | split; field_of_record]]|]);
  apply Forall_nil; exact I.


(** ** Re-estimation *)

Lemma half_hour_multiple_Qred (x : Q) : half_hour_multiple x -> half_hour_multiple (Qred x).
Proof. intros [k Hk]. exists k. rewrite Qred_correct. exact Hk. Qed.

Lemma adjust_task_writes (e s c : Q) (b : bool) (t t' : dict) :
  adjust_task e s c b t = Ok t' -> adjusted_from t t'.
Proof.
  unfold adjust_task. intros H. do 7 inv_bind H. inv_ok.
  split; [|split].
  - rewrite !lookup_insert_ne by discriminate. rewrite lookup_insert_eq.
    unfold get_default. f_equal.
    repeat match goal with
    | |- context [if ?b then _ else _] => destruct b
    end; rewrite ?lookup_insert_ne by discriminate; reflexivity.
  - eexists. split.
    + rewrite lookup_insert_ne by discriminate. apply lookup_insert_eq.
    + apply half_hour_multiple_Qred, round_to_practical_increment_half_hours.
  - eexists. apply lookup_insert_eq.
Qed.

Lemma adjust_tasks_writes (f : dict -> result dict) (tasks : list dict) :
  (forall t t', f t = Ok t' -> adjusted_from t t') ->
  forall out, adjust_tasks f tasks = Ok out -> Forall2 adjusted_from tasks out.
Proof.
  intros Hf. induction tasks as [|t rest IH]; intros out H; simpl in H.
  - inv_ok. constructor.
  - inv_bind_as H t' Ht'. inv_bind_as H ts Hts. inv_ok.
    constructor; [apply Hf, Ht' | apply IH, Hts].
Qed.

Lemma apply_practical_time_adjustments_writes_on (tasks out : list dict)
    (constraints : option dict) :
  apply_practical_time_adjustments tasks constraints = Ok out ->
  Forall2 adjusted_from tasks out.
Proof.
  unfold apply_practical_time_adjustments. destruct tasks as [|t rest].
  - intros H. inv_ok. constructor.
  - intros H. do 3 inv_bind H.
    eapply adjust_tasks_writes; [|exact H]. intros t0 t' Ht. eapply adjust_task_writes, Ht.
Qed.

(** X12: re-estimation returns one task for each task it was given;
    each keeps the estimate it came with as [base_hours] (4.0 when it had
    none), carries the factors that were applied, and has a new estimate
    that is a whole number of half hours. *)
Theorem apply_practical_time_adjustments_writes (tasks out : list dict)
    (constraints : option dict) :
  apply_practical_time_adjustments tasks constraints = Ok out ->
  Forall2 adjusted_from tasks out.
Proof. apply apply_practical_time_adjustments_writes_on. Qed.

Lemma apply_practical_time_adjustments_writes_witness :
  Forall2 adjusted_from one_moderate_task
    (ok_or [] (apply_practical_time_adjustments one_moderate_task None)).
Proof.
  apply (apply_practical_time_adjustments_writes one_moderate_task _ None).
  apply ok_or_eq. vm_compute. reflexivity.
Defined.

(** ** Timeframes written as a number and a unit *)












(** *** The decimal numeral of a number reads back as the number *)













(** ** The response repairer *)

(** X14: on a text of modest nesting the extraction either returns a
    JSON object or raises [ValueError]; it returns no list, text or
    number, and raises nothing else. *)
Theorem extract_json_object_or_ValueError (content : string) :
  shallow content = true ->
  (exists d, extract_json_from_response content = Ok (PDict d)) \/
  extract_json_from_response content = Raise ValueError.
Proof.
  intros _. destruct (extract_json_from_response content) as [v|e] eqn:E.
  - left. destruct (extract_json_is_object _ _ E) as [d ->]. exists d. reflexivity.
  - right. rewrite (extract_json_raises_ValueError _ _ E). reflexivity.
Qed.

Lemma extract_json_object_or_ValueError_witness :
  (exists d, extract_json_from_response (quoted "Here it is: {'tasks': [[1], {}]}")
             = Ok (PDict d)) \/
  extract_json_from_response (quoted "Here it is: {'tasks': [[1], {}]}") = Raise ValueError.
Proof.
  apply (extract_json_object_or_ValueError (quoted "Here it is: {'tasks': [[1], {}]}")).
  vm_compute. reflexivity.
Defined.

Example extract_json_both_ways :
  extract_json_from_response (quoted "Here it is: {'tasks': [[1], {}]}")
  = Ok (PDict [("tasks", PList [PList [PInt 1]; PDict []])]) /\
  extract_json_from_response "[1, 2]" = Raise ValueError.
Proof. split; vm_compute; reflexivity. Qed.

(** ** The fallback *)

Lemma line_task_found (patterns : list regex) (line : list ascii) :
  Forall found_task (line_task patterns line).
Proof.
  induction patterns as [|pattern rest IH]; simpl; [constructor|].
  destruct (re_search pattern line) as [cap|]; [|exact IH].
  destruct (reasonable_length _) eqn:E; [|constructor].
  constructor; [|constructor]. eexists. split; [reflexivity | exact E].
Qed.

Lemma Forall_flat_map {A B} (P : B -> Prop) (f : A -> list B) (l : list A) :
  (forall x, Forall P (f x)) -> Forall P (flat_map f l).
Proof.
  intros H. induction l as [|x l IH]; simpl; [constructor|].
  apply Forall_app. split; [apply H | exact IH].
Qed.

Lemma tasks_found_in_found (content : list ascii) : Forall found_task (tasks_found_in content).
Proof.
  unfold tasks_found_in. apply Forall_app. split.
  - apply Forall_flat_map. intros pattern. apply Forall_forall. intros v Hv.
    apply list_elem_of_In, in_map_iff in Hv as (m & <- & Hm).
    apply filter_In in Hm as [_ Hm]. exists m. split; [reflexivity | exact Hm].
  - apply Forall_flat_map. intros line. destruct (_ <? 10)%nat; [constructor|].
    apply line_task_found.
Qed.

Lemma fallback_tasks_records (content goal : string) :
  Forall fallback_record (fallback_tasks content goal).
Proof.
  unfold fallback_tasks.
  pose proof (tasks_found_in_found (chars content)) as H.
  destruct (tasks_found_in (chars content)) as [|t ts].
  - destruct (any_in _ _); apply Forall_forall; intros v Hv; apply list_elem_of_In in Hv;
      unfold fallback_record; tauto.
  - eapply Forall_impl; [exact H|]. intros v Hv. left. exact Hv.
Qed.

Ltac lookup_in_record Hv :=
  unfold dict_of in Hv; cbn [fold_left fst snd] in Hv;
  repeat (rewrite lookup_insert_ne in Hv by discriminate);
  first [ rewrite lookup_insert_eq in Hv; injection Hv as <-
        | rewrite lookup_empty in Hv; discriminate Hv ].

Lemma found_task_plain (v : pyval) :
  found_task v -> exists d, v = PDict d /\ plain_record (dict_of d).
Proof.
  intros (title & -> & _). eexists. split; [reflexivity|].
  split; [|split; [|split]].
  - intros v Hv _. lookup_in_record Hv. eexists. reflexivity.
  - intros v Hv _. lookup_in_record Hv. eexists. reflexivity.
  - intros v Hv. lookup_in_record Hv. right. eexists. reflexivity.
  - intros v Hv. lookup_in_record Hv. eexists. reflexivity.
Qed.

Lemma template_plain (template : list pyval) (v : pyval) :
  template = application_template \/ template = generic_template ->
  In v template -> exists d, v = PDict d /\ plain_record (dict_of d).
Proof.
  intros [-> | ->] Hin; simpl in Hin;
    repeat (destruct Hin as [<-|Hin];
            [eexists; split; [reflexivity|];
             split; [field_of_record | split; [field_of_record | split; field_of_record]]|]);
    destruct Hin.
Qed.

Lemma fallback_record_plain (v : pyval) :
  fallback_record v -> exists d, v = PDict d /\ plain_record (dict_of d).
Proof.
  intros [H|[H|H]]; [apply found_task_plain, H | |].
  - eapply template_plain; [left; reflexivity | exact H].
  - eapply template_plain; [right; reflexivity | exact H].
Qed.

Lemma records_of_fallback (l : list pyval) :
  Forall fallback_record l ->
  exists recs, records_of l = Ok recs /\ Forall plain_record recs /\ length recs = length l.
Proof.
  induction 1 as [|v l Hv _ IH]; simpl.
  - exists []. repeat split. constructor.
  - destruct (fallback_record_plain v Hv) as (d & -> & Hd).
    destruct IH as (recs & -> & Hrecs & Hlen). simpl.
    exists (dict_of d :: recs). split; [reflexivity|]. split; [constructor; assumption|].
    simpl. f_equal. exact Hlen.
Qed.

(** X15: whatever the text and the goal, the tasks of the fallback are
    records, at least one, and validation accepts them: it returns one
    validated task for each without raising. *)
Theorem fallback_tasks_pass_validation (content goal : string) :
  exists recs out,
    records_of (fallback_tasks content goal) = Ok recs /\
    recs <> [] /\
    validate_and_fix_tasks recs = Ok out /\
    length out = length recs /\ validated_tasks out.
Proof.
  destruct (records_of_fallback _ (fallback_tasks_records content goal))
    as (recs & Hrecs & Hplain & Hlen).
  destruct (validate_and_fix_tasks_returns_on recs Hplain) as (out & Hout & Hshape).
  exists recs, out. split; [exact Hrecs|]. split; [|split; [exact Hout | exact Hshape]].
  destruct (fallback_tasks_nonempty content goal) as (t & ts & Hf).
  rewrite Hf in Hlen. destruct recs; [discriminate Hlen | discriminate].
Qed.

(** ** The stages return on the tasks of the stage before *)

Lemma bind_Ok_l {A B} (a : A) (f : A -> result B) : (Ok a ≫= f) = f a.
Proof. reflexivity. Qed.

Ltac run_binds :=
  repeat first [ rewrite bind_Ok_l
               | progress cbn beta iota
               | progress cbn [py_iter default from_option id] ].

Lemma valid_value (t : dict) (k : string) (ws : list string) :
  missing_or_not_in t k ws = false ->
  exists v, t !! k = Some v /\ forall table d, exists q, table_get table v d = Ok q.
Proof.
  unfold missing_or_not_in. destruct (t !! k) as [v|]; [|discriminate].
  intros H. apply negb_false_iff in H. exists v. split; [reflexivity|].
  intros table d. unfold in_strs in H.
  destruct v; simpl in H; try discriminate; eexists; reflexivity.
Qed.

Lemma adjust_task_total (e s c : Q) (b : bool) (i : nat) (t : dict) :
  validated_task i t -> has_texts t -> exists t', adjust_task e s c b t = Ok t'.
Proof.
  intros ((W1 & W2 & W3 & W4 & ds & W5 & W6) & _ & v & q & Hv & Hq & _)
         (title & description & Ht & Hd).
  pose proof (valid_is_truthy t "task_type" task_types eq_refl W4) as T4.
  pose proof (valid_is_truthy t "complexity_level" complexity_levels eq_refl W3) as T3.
  destruct (valid_value _ _ _ W3) as (cv & Hcv & Hctab).
  destruct (valid_value _ _ _ W4) as (tv & Htv & Httab).
  unfold adjust_task, get_default. rewrite Ht, Hd, T4, T3, Hv.
  cbn [default from_option id py_lower as_str].
  rewrite !bind_Ok_l. unfold getitem.
  rewrite !lookup_insert_ne by discriminate. rewrite Hcv, Htv. cbn beta iota.
  rewrite bind_Ok_l.
  match goal with |- context [table_get ?tab cv ?d] =>
    destruct (Hctab tab d) as [cq Hcq]; rewrite Hcq end.
  rewrite bind_Ok_l, Hq, !bind_Ok_l.
  unfold get_task_type_overhead.
  match goal with |- context [table_get ?tab tv ?d] =>
    destruct (Httab tab d) as [tq Htq]; rewrite Htq end.
  rewrite !bind_Ok_l. eexists. reflexivity.
Qed.

Lemma adjust_tasks_total (e s c : Q) (b : bool) (tasks : list dict) : forall i,
  (forall k t, tasks !! k = Some t -> validated_task (i + k) t) ->
  Forall has_texts tasks ->
  exists out, adjust_tasks (adjust_task e s c b) tasks = Ok out.
Proof.
  induction tasks as [|t rest IH]; intros i Hval Htexts; simpl.
  - exists []. reflexivity.
  - apply Forall_cons in Htexts as [Ht Hrest].
    destruct (adjust_task_total e s c b (i + 0) t (Hval 0%nat t eq_refl) Ht) as [t' Ht'].
    rewrite Ht', bind_Ok_l.
    destruct (IH (S i)) as [out Hout]; [|exact Hrest|].
    + intros k t0 Hk. replace (S i + k)%nat with (i + S k)%nat by lia. apply Hval. exact Hk.
    + rewrite Hout. eexists. reflexivity.
Qed.

Lemma stack_multiplier_total (stack : pyval) :
  truthy stack = false \/ (exists s, stack = PStr s) ->
  exists q, get_technical_stack_familiarity_multiplier stack = Ok q.
Proof.
  unfold get_technical_stack_familiarity_multiplier. intros [H|[s ->]].
  - rewrite H. eexists. reflexivity.
  - destruct (negb _); eexists; reflexivity.
Qed.

Lemma ready_from_validated (tasks out : list dict) :
  validated_tasks tasks -> Forall has_texts tasks ->
  Forall2 same_core tasks out -> Forall2 adjusted_from tasks out ->
  ready_tasks out.
Proof.
  intros Hval Htexts Hcore Hadj i t' Hi.
  destruct (Forall2_lookup_r _ _ _ _ _ Hcore Hi) as (t & Ht & Hsame).
  destruct (Forall2_lookup_r _ _ _ _ _ Hadj Hi) as (t0 & Ht0 & _ & (x & Hx & _) & _).
  destruct (Hval i t Ht) as ((_ & _ & _ & _ & ds & Hds & Hvalid) & _).
  pose proof (Forall_lookup_1 _ _ _ _ Htexts Ht) as (title & _ & Htitle & _).
  split; [|split].
  - exists title. rewrite <- (Hsame "title") by (simpl; tauto). exact Htitle.
  - exists x. exact Hx.
  - exists ds. rewrite <- (Hsame "dependencies") by (simpl; tauto). split; assumption.
Qed.

Lemma apply_practical_time_adjustments_total (tasks : list dict) (constraints : option dict) :
  plain_constraints constraints -> validated_tasks tasks -> Forall has_texts tasks ->
  exists out, apply_practical_time_adjustments tasks constraints = Ok out /\
              length out = length tasks /\ ready_tasks out.
Proof.
  intros ((lvl & Hlvl) & (size & Hsize) & Hstack) Hval Htexts.
  assert (Hrun : exists out, apply_practical_time_adjustments tasks constraints = Ok out).
  { unfold apply_practical_time_adjustments. destruct tasks as [|t rest] eqn:E; [eauto|].
    rewrite <- E in *. rewrite Hlvl. cbn [py_lower as_str]. rewrite bind_Ok_l.
    rewrite Hsize, bind_Ok_l.
    destruct (stack_multiplier_total _ Hstack) as [m Hm]. rewrite Hm, bind_Ok_l.
    apply (adjust_tasks_total _ _ _ _ tasks 0); assumption. }
  destruct Hrun as [out Hout]. exists out. split; [exact Hout|].
  pose proof (apply_practical_time_adjustments_writes_on _ _ _ Hout) as Hadj.
  assert (Hcore : Forall2 same_core tasks out).
  { eapply apply_practical_time_adjustments_core; [|exact Hout].
    intros k t Hk. apply (Hval k t Hk). }
  split; [symmetry; eapply Forall2_length, Hadj|].
  eapply ready_from_validated; eassumption.
Qed.

Lemma ready_title_and_hours (tasks : list dict) :
  ready_tasks tasks -> Forall has_title_and_hours tasks.
Proof.
  intros H. apply Forall_lookup. intros i t Hi.
  destruct (H i t Hi) as (Ht & Hx & _). split; assumption.
Qed.

Lemma sum_hours_total (tasks : list dict) :
  Forall has_title_and_hours tasks -> exists q, sum_hours tasks = Ok q.
Proof.
  induction 1 as [|t rest (_ & x & Hx) _ (q & IH)]; cbn [sum_hours]; [eauto|].
  unfold get_default. rewrite Hx. cbn [default from_option id as_number].
  rewrite bind_Ok_l, IH, bind_Ok_l. eauto.
Qed.

Lemma scaled_hours_total (shrink : bool) (f x : Q) (t : dict) :
  t !! "estimated_hours" = Some (PFloat x) ->
  exists h, scaled_hours shrink f t = Ok (PFloat h).
Proof.
  intros Hx. unfold scaled_hours, getitem. rewrite Hx. eexists. reflexivity.
Qed.

Lemma scale_tasks_total (report shrink : bool) (f : Q) (tasks : list dict) :
  Forall has_title_and_hours tasks ->
  exists out, scale_tasks report shrink f tasks = Ok out /\ Forall has_title_and_hours out.
Proof.
  induction 1 as [|t rest ((title & Ht) & x & Hx) _ (out & IH & Hout)]; cbn [scale_tasks].
  - exists []. split; [reflexivity | constructor].
  - destruct (scaled_hours_total shrink f x t Hx) as [h Hh]. rewrite Hh, bind_Ok_l.
    assert (Hp : (if report then title_preview t else Ok ()) = Ok ()).
    { destruct report; [|reflexivity]. unfold title_preview, getitem. rewrite Ht. reflexivity. }
    rewrite Hp, bind_Ok_l, IH, bind_Ok_l. eexists. split; [reflexivity|].
    constructor; [|exact Hout]. split.
    + exists title. rewrite lookup_insert_ne by discriminate. exact Ht.
    + eexists. apply lookup_insert_eq.
Qed.

Lemma ready_after_scaling (tasks out : list dict) :
  ready_tasks tasks -> agree_except "estimated_hours" tasks out ->
  Forall has_title_and_hours out -> ready_tasks out.
Proof.
  intros Hready Hagree Hout i t' Hi.
  destruct (agree_except_lookup _ _ _ _ _ Hagree Hi) as (t & Ht & Hsame).
  destruct (Hready i t Ht) as (_ & _ & ds & Hds & Hvalid).
  pose proof (Forall_lookup_1 _ _ _ _ Hout Hi) as (Htitle & Hx).
  split; [exact Htitle|]. split; [exact Hx|].
  exists ds. rewrite <- Hsame by discriminate. split; assumption.
Qed.

Lemma validate_timeframe_compliance_total (tasks : list dict) (timeframe : option string) :
  Forall has_title_and_hours tasks ->
  exists b, validate_timeframe_compliance tasks timeframe = Ok b.
Proof.
  intros H. unfold validate_timeframe_compliance.
  destruct (_ || _); [eauto|].
  destruct (sum_hours_total tasks H) as [q Hq]. rewrite Hq, bind_Ok_l. eauto.
Qed.

(** Step 4b returns tasks that are ready, or divides by a total of zero. *)
Lemma scale_to_timeframe_total (tasks : list dict) (timeframe : option string) :
  ready_tasks tasks ->
  (exists out, scale_to_timeframe tasks timeframe = Ok out /\
               length out = length tasks /\ ready_tasks out) \/
  scale_to_timeframe tasks timeframe = Raise ZeroDivisionError.
Proof.
  intros Hready. pose proof (ready_title_and_hours tasks Hready) as Hth.
  unfold scale_to_timeframe.
  destruct (given timeframe); [|left; exists tasks; auto].
  destruct (validate_timeframe_compliance_total tasks timeframe Hth) as [b Hb].
  rewrite Hb, bind_Ok_l. destruct b; [left; exists tasks; auto|].
  destruct (sum_hours_total tasks Hth) as [total Htotal]. rewrite Htotal, bind_Ok_l.
  assert (Hscaled : forall report shrink f,
            exists out, (scale_tasks report shrink f tasks ≫= fun ts =>
                         sum_hours ts ≫= fun _ =>
                         validate_timeframe_compliance ts timeframe ≫= fun _ => Ok ts) = Ok out /\
                        length out = length tasks /\ ready_tasks out).
  { intros report shrink f.
    destruct (scale_tasks_total report shrink f tasks Hth) as (out & Hout & Hth').
    pose proof (scale_tasks_agree _ _ _ _ _ Hout) as Hagree.
    destruct (sum_hours_total out Hth') as [q Hq].
    destruct (validate_timeframe_compliance_total out timeframe Hth') as [b Hb'].
    exists out. rewrite Hout, bind_Ok_l, Hq, bind_Ok_l, Hb', bind_Ok_l.
    split; [reflexivity|]. split; [symmetry; eapply Forall2_length, Hagree|].
    eapply ready_after_scaling; eassumption. }
  destruct (Qltb total _).
  - destruct (Qeq_bool total 0); [right; reflexivity|]. left. apply Hscaled.
  - destruct (Qltb _ total).
    { destruct (Qeq_bool total 0); [right; reflexivity|]. left. apply Hscaled. }
    left. rewrite bind_Ok_l. rewrite Htotal, bind_Ok_l.
    destruct (validate_timeframe_compliance_total tasks timeframe Hth) as [b' Hb'].
    rewrite Hb', bind_Ok_l. exists tasks. auto.
Qed.

(** Step 4c returns the tasks as they are, or raises the timeframe error. *)
Lemma final_validation_total (tasks : list dict) (timeframe : option string) :
  Forall has_title_and_hours tasks ->
  final_validation tasks timeframe = Ok tasks \/
  exists kind total available,
    final_validation tasks timeframe = Raise (LLMGenerationError kind total available).
Proof.
  intros Hth. unfold final_validation. destruct (given timeframe); [|left; reflexivity].
  destruct (validate_timeframe_compliance_total tasks timeframe Hth) as [b Hb].
  rewrite Hb, bind_Ok_l. destruct b; [left; reflexivity|].
  destruct (sum_hours_total tasks Hth) as [total Htotal]. rewrite Htotal, bind_Ok_l.
  right. eexists _, _, _. reflexivity.
Qed.

(** *** The splitter *)

Lemma split_task_total (th ch : Q) (idx : nat) (task : dict) (st : list dict * gmap Z Z) :
  Qeq_bool ch 0 = false -> has_float_hours task ->
  (exists ds, task !! "dependencies" = Some (PList ds)) ->
  exists st', split_task th ch idx task st = Ok st'.
Proof.
  intros Hch [x Hx] [ds Hds]. destruct st as [new_tasks last_part].
  unfold split_task, deps_or_empty, get_default, py_or. rewrite Hx, Hds, Hch.
  cbn [default from_option id].
  assert (Hf : exists h, py_float (if truthy (PFloat x) then PFloat x else PInt 0) = Ok h)
    by (destruct (truthy (PFloat x)); eexists; reflexivity).
  destruct Hf as [h Hh]. rewrite Hh, bind_Ok_l.
  assert (Hi : py_iter (if truthy (PList ds) then PList ds else PList []) = Ok ds).
  { destruct ds; reflexivity. }
  rewrite Hi, !bind_Ok_l. destruct (Qle_bool _ th); eexists; reflexivity.
Qed.

Lemma split_loop_total (th ch : Q) (tasks : list dict) :
  Qeq_bool ch 0 = false -> Forall has_float_hours tasks ->
  Forall (fun t => exists ds, t !! "dependencies" = Some (PList ds)) tasks ->
  forall idx st, exists st', split_loop th ch idx tasks st = Ok st'.
Proof.
  intros Hch Hh Hd. induction tasks as [|task rest IH]; intros idx st; cbn [split_loop]; [eauto|].
  apply Forall_cons in Hh as [Hh0 Hh]. apply Forall_cons in Hd as [Hd0 Hd].
  destruct (split_task_total th ch idx task st Hch Hh0 Hd0) as [st' Hst'].
  rewrite Hst', bind_Ok_l. apply IH; assumption.
Qed.

Lemma split_loop_length (th ch : Q) (tasks : list dict) :
  forall idx nt lp nt' lp',
  split_loop th ch idx tasks (nt, lp) = Ok (nt', lp') ->
  (length nt + length tasks <= length nt')%nat.
Proof.
  induction tasks as [|task rest IH]; intros idx nt lp nt' lp' H; cbn [split_loop] in H.
  - inv_ok. simpl. lia.
  - inv_bind_as H st Hst. destruct st as [nt1 lp1].
    apply split_task_spec in Hst as (h & ds & g & _ & _ & -> & Hlen & _).
    apply IH in H. rewrite length_app in H. pose proof (parts_of_nonempty th ch h).
    simpl. lia.
Qed.

Lemma split_long_tasks_length (tasks out : list dict) (th ch : Q) :
  split_long_tasks tasks th ch = Ok out -> (length tasks <= length out)%nat.
Proof.
  intros H. apply split_long_tasks_loop in H as (nt & lp & H & ->).
  apply split_loop_length in H. unfold assign_ids. rewrite length_imap. simpl in H. lia.
Qed.

Lemma split_for_plan_total (tasks : list dict) :
  ready_tasks tasks ->
  exists out, split_for_plan tasks = Ok out /\
              deps_point_backwards out /\ Forall has_float_hours out /\
              (tasks <> [] -> out <> []).
Proof.
  intros Hready.
  assert (Hrun : exists out, split_for_plan tasks = Ok out).
  { unfold split_for_plan, split_long_tasks. destruct tasks as [|t rest] eqn:E; [eauto|].
    rewrite <- E in *.
    destruct (split_loop_total 24 8 tasks eq_refl) with (idx := 0%nat) (st := ([] : list dict, ∅ : gmap Z Z))
      as [st Hst].
    - apply Forall_lookup. intros i t0 Hi. destruct (Hready i t0 Hi) as (_ & Hx & _). exact Hx.
    - apply Forall_lookup. intros i t0 Hi. destruct (Hready i t0 Hi) as (_ & _ & ds & Hds & _).
      exists ds. exact Hds.
    - rewrite Hst, bind_Ok_l. eauto. }
  destruct Hrun as [out Hout]. exists out. split; [exact Hout|]. split; [|split].
  - eapply split_long_tasks_deps, Hout.
  - apply Forall_forall. intros t Ht.
    destruct (split_long_tasks_hours_at_least_one _ _ _ _ Hout t Ht) as (x & Hx & _).
    exists x. exact Hx.
  - intros Hne ->. apply split_long_tasks_length in Hout.
    destruct tasks; [contradiction | simpl in Hout; lia].
Qed.

(** *** The scheduler *)

Lemma backward_dep_number (i : nat) (d : pyval) :
  backward_dep i d ->
  exists n, as_int d = Some n /\ 0 <= n < Z.of_nat i /\ as_number d = Ok (inject_Z n).
Proof.
  intros (n & Hn & Hr). exists n. split; [exact Hn|]. split; [exact Hr|].
  destruct d; simpl in Hn; try discriminate; injection Hn as <-; [|reflexivity].
  destruct b; reflexivity.
Qed.

Lemma dep_end_times_total (ends : list Z) (i : nat) (ds : list pyval) :
  length ends = i -> Forall (backward_dep i) ds ->
  exists l, dep_end_times ends i ds = Ok l.
Proof.
  intros Hlen. induction 1 as [|d ds Hd _ (l & IH)]; cbn [dep_end_times]; [eauto|].
  destruct (backward_dep_number i d Hd) as (n & Hn & Hr & Hq).
  unfold lt_index. rewrite Hq, !bind_Ok_l.
  assert (Hlt : Qltb (inject_Z n) (inject_Z (Z.of_nat i)) = true).
  { apply Qltb_lt. rewrite <- Zlt_Qlt. lia. }
  rewrite Hlt. unfold list_getitem. rewrite Hn.
  destruct (Z.ltb_spec n 0) as [|_]; [lia|].
  destruct (Z.ltb_spec n 0) as [|_]; [lia|].
  destruct (lookup_lt_is_Some_2 ends (Z.to_nat n)) as [e He]; [lia|].
  rewrite He, bind_Ok_l, IH, bind_Ok_l. eauto.
Qed.

Lemma first_pass_start_total (cd : Z) (ends : list Z) (last_end : option Z) (i : nat)
    (task : dict) (ds : list pyval) :
  length ends = i -> task !! "dependencies" = Some (PList ds) -> Forall (backward_dep i) ds ->
  exists s, first_pass_start cd ends last_end i task = Ok s.
Proof.
  intros Hlen Hds Hback. unfold first_pass_start, get_default, getitem. rewrite Hds.
  cbn [default from_option id]. destruct (truthy (PList ds)); [|eauto].
  run_binds.
  destruct (dep_end_times_total ends i ds Hlen Hback) as [l Hl]. rewrite Hl, bind_Ok_l.
  destruct l; eauto.
Qed.

Lemma recompute_start_total (cd : Z) (ends : list Z) (i : nat) (task : dict) (ds : list pyval) :
  length ends = i -> task !! "dependencies" = Some (PList ds) -> Forall (backward_dep i) ds ->
  exists s, recompute_start cd ends i task = Ok s.
Proof.
  intros Hlen Hds Hback. unfold recompute_start, get_default, getitem. rewrite Hds.
  cbn [default from_option id]. destruct (_ && _); [|eauto].
  run_binds.
  destruct (dep_end_times_total ends i ds Hlen Hback) as [l Hl]. rewrite Hl, bind_Ok_l.
  destruct l; eauto.
Qed.

(** The end of a task with float hours is found, or it is after the last
    day of the calendar. *)
Lemma task_end_of_float (start_time : Z) (task : dict) :
  has_float_hours task ->
  (exists e, getitem task "estimated_hours" ≫= calculate_task_end_with_working_hours start_time
             = Ok e) \/
  getitem task "estimated_hours" ≫= calculate_task_end_with_working_hours start_time
  = Raise OverflowError.
Proof.
  intros [x Hx]. unfold getitem. rewrite Hx, bind_Ok_l.
  destruct (task_end_in_working_time_on start_time x) as [(e & He & _)|(He & _)];
    [left; eauto | right; exact He].
Qed.

Lemma first_pass_total (cd : Z) (tasks : list dict) :
  forall (ends : list Z) (last_end : option Z) (i : nat) (done : list dict),
  length ends = i -> deps_point_backwards_from i tasks -> Forall has_float_hours tasks ->
  (exists out, first_pass cd ends last_end i tasks done = Ok out) \/
  first_pass cd ends last_end i tasks done = Raise OverflowError.
Proof.
  induction tasks as [|task rest IH]; intros ends last_end i done Hlen Hback Hh;
    cbn [first_pass]; [eauto|].
  apply deps_from_head in Hback as ((ds & Hds & Hback0) & Hback).
  apply Forall_cons in Hh as [Hh0 Hh].
  destruct (first_pass_start_total cd ends last_end i task ds Hlen Hds Hback0) as [s Hs].
  rewrite Hs, bind_Ok_l.
  destruct (task_end_of_float s task Hh0) as [[e He]|He]; [|right; rewrite He; reflexivity].
  rewrite He, bind_Ok_l.
  apply IH; [rewrite length_app; simpl; lia | exact Hback | exact Hh].
Qed.

Lemma recompute_pass_total (cd : Z) (tasks : list dict) :
  forall (ends : list Z) (i : nat) (done : list dict),
  length ends = i -> deps_point_backwards_from i tasks -> Forall has_float_hours tasks ->
  (exists out, recompute_pass cd ends i tasks done = Ok out) \/
  recompute_pass cd ends i tasks done = Raise OverflowError.
Proof.
  induction tasks as [|task rest IH]; intros ends i done Hlen Hback Hh;
    cbn [recompute_pass]; [eauto|].
  apply deps_from_head in Hback as ((ds & Hds & Hback0) & Hback).
  apply Forall_cons in Hh as [Hh0 Hh].
  destruct (recompute_start_total cd ends i task ds Hlen Hds Hback0) as [s Hs].
  rewrite Hs, bind_Ok_l.
  destruct (task_end_of_float s task Hh0) as [[e He]|He]; [|right; rewrite He; reflexivity].
  rewrite He, bind_Ok_l.
  apply IH; [rewrite length_app; simpl; lia | exact Hback | exact Hh].
Qed.

Lemma sum_float_hours_total (tasks : list dict) :
  Forall has_float_hours tasks -> exists q, sum_hours tasks = Ok q.
Proof.
  induction 1 as [|t rest (x & Hx) _ (q & IH)]; cbn [sum_hours]; [eauto|].
  unfold get_default. rewrite Hx. cbn [default from_option id as_number].
  rewrite bind_Ok_l, IH, bind_Ok_l. eauto.
Qed.

Lemma scale_tasks_quiet_total (shrink : bool) (f : Q) (tasks : list dict) :
  Forall has_float_hours tasks ->
  exists out, scale_tasks false shrink f tasks = Ok out /\ Forall has_float_hours out.
Proof.
  induction 1 as [|t rest (x & Hx) _ (out & IH & Hout)]; cbn [scale_tasks].
  - exists []. split; [reflexivity | constructor].
  - destruct (scaled_hours_total shrink f x t Hx) as [h Hh].
    rewrite Hh, !bind_Ok_l, IH, bind_Ok_l. eexists. split; [reflexivity|].
    constructor; [|exact Hout]. eexists. apply lookup_insert_eq.
Qed.

Lemma deps_point_backwards_kept (ks : list string) (l1 l2 : list dict) :
  ~ In "dependencies" ks -> Forall2 (same_fields_outside ks) l1 l2 ->
  deps_point_backwards l1 -> deps_point_backwards l2.
Proof.
  intros Hk H Hback i t Hi.
  destruct (Forall2_lookup_r _ _ _ _ _ H Hi) as (t1 & H1 & Hs).
  destruct (Hback i t1 H1) as (ds & Hds & Hf). exists ds. split; [|exact Hf].
  rewrite <- (Hs "dependencies" Hk). exact Hds.
Qed.

Lemma float_hours_kept (ks : list string) (l1 l2 : list dict) :
  ~ In "estimated_hours" ks -> Forall2 (same_fields_outside ks) l1 l2 ->
  Forall has_float_hours l1 -> Forall has_float_hours l2.
Proof.
  intros Hk H Hh. apply Forall_lookup. intros i t Hi.
  destruct (Forall2_lookup_r _ _ _ _ _ H Hi) as (t1 & H1 & Hs).
  pose proof (Forall_lookup_1 _ _ _ _ Hh H1) as (x & Hx). exists x.
  rewrite <- (Hs "estimated_hours" Hk). exact Hx.
Qed.

Ltac not_in_keys :=
  let H := fresh in
  simpl; intros H; repeat (destruct H as [H|H]; [discriminate H|]); exact H.

(** A scaling factor of zero comes from a timeframe of zero days. *)
Lemma scale_factor_zero (days : Z) (total : Q) :
  Qeq_bool
    (Qminb (if Qltb 0 total then inject_Z days * 8 / total else 1)
           (if Qltb 0 (total / 8) then inject_Z days / (total / 8) else 1)) 0 = true ->
  days = 0.
Proof.
  intros H. apply Qeq_bool_iff in H. unfold Qminb in H.
  assert (Hwd : Qltb 0 (total / 8) = Qltb 0 total).
  { destruct (Qltb 0 total) eqn:E.
    - apply Qltb_lt. apply Qltb_lt in E. apply Qlt_shift_div_l; lra.
    - apply Qltb_ge. apply Qltb_ge in E. apply Qle_shift_div_r; lra. }
  rewrite Hwd in H. destruct (Qltb 0 total) eqn:E.
  2:{ destruct (Qltb 1 1); discriminate H. }
  apply Qltb_lt in E.
  assert (Hd : (inject_Z days == 0)%Q).
  { destruct (Qltb _ _).
    - assert (E1 : (inject_Z days == inject_Z days / (total / 8) * (total / 8))%Q)
        by (field; lra).
      rewrite E1, H. ring.
    - assert (E1 : (inject_Z days == inject_Z days * 8 / total * (total / 8))%Q)
        by (field; lra).
      rewrite E1, H. ring. }
  unfold Qeq in Hd. simpl in Hd. lia.
Qed.

(** The scheduler returns, or its schedule leaves the calendar, or the
    timeframe has zero days and the report of the scaling divides by
    zero. *)
Lemma calculate_deadlines_total (tasks : list dict) (start_date : Z)
    (timeframe : option string) :
  deps_point_backwards tasks -> Forall has_float_hours tasks ->
  (exists out, calculate_deadlines tasks start_date timeframe = Ok out) \/
  calculate_deadlines tasks start_date timeframe = Raise OverflowError \/
  (calculate_deadlines tasks start_date timeframe = Raise ZeroDivisionError /\
   given timeframe = true /\ parse_timeframe_to_days timeframe = 0).
Proof.
  intros Hback Hh. unfold calculate_deadlines.
  destruct (first_pass_total start_date tasks [] None 0 [] eq_refl Hback Hh) as [[new Hnew]|Hnew];
    [|right; left; rewrite Hnew; reflexivity].
  rewrite Hnew, bind_Ok_l.
  apply first_pass_writes in Hnew as (new' & Heq & Hwrites & _). simpl in Heq. subst new'.
  assert (Hsame : Forall2 (same_fields_outside ["id"; "deadline"; "start_time"]) tasks new).
  { eapply Forall2_impl; [exact Hwrites|]. intros a b Hab. apply Hab. }
  assert (Hback' : deps_point_backwards new).
  { eapply deps_point_backwards_kept; [|exact Hsame|exact Hback]. not_in_keys. }
  assert (Hh' : Forall has_float_hours new).
  { eapply float_hours_kept; [|exact Hsame|exact Hh]. not_in_keys. }
  assert (Hre : forall s ts, deps_point_backwards ts -> Forall has_float_hours ts ->
            (exists out, recompute_pass s [] 0 ts [] = Ok out) \/
            recompute_pass s [] 0 ts [] = Raise OverflowError \/
            (recompute_pass s [] 0 ts [] = Raise ZeroDivisionError /\
             given timeframe = true /\ parse_timeframe_to_days timeframe = 0)).
  { intros s ts Hb Hf.
    destruct (recompute_pass_total s ts [] 0 [] eq_refl Hb Hf) as [H|H]; [left|right; left];
      exact H. }
  unfold fit_schedule_to_timeframe. destruct new as [|task0 rest] eqn:E; [eauto|].
  rewrite <- E in *. destruct (given timeframe) eqn:Hg; [|eauto].
  assert (Hst : exists s, getitem task0 "start_time" ≫= fromisoformat = Ok s).
  { rewrite E in Hwrites. apply Forall2_cons_inv_r in Hwrites as (t0 & ts & (_ & _ & s & Hs) & _ & _).
    exists s. unfold getitem. rewrite Hs. reflexivity. }
  destruct Hst as [s Hs]. rewrite Hs, bind_Ok_l.
  destruct (sum_float_hours_total new Hh') as [total Htotal]. rewrite Htotal, bind_Ok_l.
  destruct (_ || _); [|eauto].
  destruct (Qltb _ MIN_SCALE_FACTOR).
  { destruct (Qeq_bool _ 0) eqn:E0; [|apply Hre; assumption].
    right; right. split; [reflexivity|]. split; [reflexivity|].
    eapply scale_factor_zero, E0. }
  destruct (_ && _).
  - match goal with |- context [scale_tasks false true ?f new] =>
      destruct (scale_tasks_quiet_total true f new Hh') as (scaled & Hscaled & Hsh) end.
    rewrite Hscaled, bind_Ok_l. apply Hre; [|exact Hsh].
    apply scale_tasks_agree in Hscaled.
    eapply (deps_point_backwards_kept ["estimated_hours"]); [not_in_keys| |exact Hback'].
    eapply Forall2_impl; [exact Hscaled|]. intros a b. apply same_fields_except_outside.
  - rewrite bind_Ok_l. apply Hre; assumption.
Qed.

Lemma fit_schedule_float_hours (tasks out : list dict) (timeframe : option string) :
  Forall has_float_hours tasks -> fit_schedule_to_timeframe tasks timeframe = Ok out ->
  Forall has_float_hours out.
Proof.
  intros Hh H. unfold fit_schedule_to_timeframe in H.
  destruct tasks as [|task0 rest] eqn:E; [inv_ok; constructor|]. rewrite <- E in *.
  destruct (given timeframe); [|inv_ok; exact Hh].
  inv_bind_as H s Hs. inv_bind_as H total Htotal.
  assert (Hre : forall ts, Forall has_float_hours ts ->
                  recompute_pass s [] 0 ts [] = Ok out -> Forall has_float_hours out).
  { intros ts Hts Hrun. apply recompute_pass_from_scratch in Hrun.
    eapply (float_hours_kept ["deadline"; "start_time"]); [not_in_keys| |exact Hts].
    eapply Forall2_impl; [exact Hrun|]. intros a b Hab. apply Hab. }
  destruct (_ || _); [|inv_ok; exact Hh].
  destruct (Qltb _ MIN_SCALE_FACTOR).
  { destruct (Qeq_bool _ 0); [discriminate H | eapply Hre; eassumption]. }
  inv_bind_as H scaled Hscaled. destruct (_ && _).
  - match type of Hscaled with scale_tasks false true ?f _ = _ =>
      destruct (scale_tasks_quiet_total true f tasks Hh) as (scaled' & Hscaled' & Hsh) end.
    assert (scaled' = scaled) as -> by congruence. eapply Hre; eassumption.
  - inv_ok. eapply Hre; eassumption.
Qed.

Lemma calculate_deadlines_float_hours (tasks out : list dict) (start_date : Z)
    (timeframe : option string) :
  Forall has_float_hours tasks -> calculate_deadlines tasks start_date timeframe = Ok out ->
  Forall has_float_hours out.
Proof.
  intros Hh H. unfold calculate_deadlines in H. inv_bind_as H new Hnew.
  apply first_pass_writes in Hnew as (new' & Heq & Hwrites & _). simpl in Heq. subst new'.
  eapply fit_schedule_float_hours; [|exact H].
  eapply (float_hours_kept ["id"; "deadline"; "start_time"]); [not_in_keys| |exact Hh].
  eapply Forall2_impl; [exact Hwrites|]. intros a b Hab. apply Hab.
Qed.

Lemma total_hours_total (tasks : list dict) :
  Forall has_float_hours tasks -> exists q, total_hours tasks = Ok q.
Proof.
  induction 1 as [|t rest (x & Hx) _ (q & IH)]; cbn [total_hours]; [eauto|].
  unfold getitem. rewrite Hx. run_binds. cbn [as_number]. rewrite bind_Ok_l, IH, bind_Ok_l. eauto.
Qed.

Lemma plan_from_estimated_outcome (tasks : list dict) (timeframe : option string)
    (start_date : Z) :
  ready_tasks tasks ->
  pipeline_outcome (length tasks) (plan_from_estimated tasks timeframe start_date) /\
  (given timeframe = false ->
   is_ok (plan_from_estimated tasks timeframe start_date) = true \/
   plan_from_estimated tasks timeframe start_date = Raise OverflowError).
Proof.
  intros Hready. unfold plan_from_estimated.
  assert (Hnone : given timeframe = false ->
            scale_to_timeframe tasks timeframe = Ok tasks /\
            final_validation tasks timeframe = Ok tasks).
  { intros Hg. unfold scale_to_timeframe, final_validation. rewrite Hg. auto. }
  destruct (scale_to_timeframe_total tasks timeframe Hready)
    as [(scaled & Hscaled & Hlen & Hready')|Hzero].
  2:{ rewrite Hzero. split; [apply zero_divided|].
      intros Hg. destruct (Hnone Hg) as [Hs _]. congruence. }
  rewrite Hscaled, bind_Ok_l.
  destruct (final_validation_total scaled timeframe (ready_title_and_hours _ Hready'))
    as [Hfinal|(kind & total & available & Hfinal)].
  2:{ rewrite Hfinal. split; [apply timeframe_rejected|].
      intros Hg. destruct (Hnone Hg) as [Hs Hf]. congruence. }
  rewrite Hfinal, bind_Ok_l.
  destruct (split_for_plan_total scaled Hready') as (prepared & Hprepared & Hback & Hh & _).
  rewrite Hprepared, bind_Ok_l.
  destruct (calculate_deadlines_total prepared start_date timeframe Hback Hh)
    as [[out Hout]|[Hout|(Hout & Hg & _)]].
  2:{ rewrite Hout. split; [apply calendar_left | right; reflexivity]. }
  2:{ rewrite Hout. split; [apply zero_divided | congruence]. }
  rewrite Hout, bind_Ok_l.
  pose proof (calculate_deadlines_float_hours _ _ _ _ Hh Hout) as Hh'.
  destruct (total_hours_total out Hh') as [total Htotal]. rewrite Htotal, bind_Ok_l.
  apply calculate_deadlines_writes in Hout as (Hwrites & _ & _).
  assert (Hc : exists c, match last out with
                         | Some t => Some <$> getitem t "deadline"
                         | None => Ok None
                         end = Ok c).
  { destruct (last out) as [t|] eqn:El; [|eauto].
    apply last_Some in El as (l' & ->).
    apply Forall2_app_inv_r in Hwrites as (k1 & k2 & _ & Hlast & _).
    apply Forall2_cons_inv_r in Hlast as (a & k' & (_ & (e & He & _) & _) & _ & _).
    unfold getitem. rewrite He. eauto. }
  destruct Hc as [c Hc]. rewrite Hc, bind_Ok_l.
  split; [|left; reflexivity]. apply plan_returned. simpl.
  apply split_long_tasks_length in Hprepared.
  pose proof (Forall2_length _ _ _ Hwrites). lia.
Qed.

Lemma plan_from_tasks_outcome (tasks : list dict) (constraints : option dict)
    (timeframe : option string) (start_date : Z) :
  Forall plain_record tasks -> plain_constraints constraints ->
  pipeline_outcome (length tasks) (plan_from_tasks tasks constraints timeframe start_date) /\
  (given timeframe = false ->
   is_ok (plan_from_tasks tasks constraints timeframe start_date) = true \/
   plan_from_tasks tasks constraints timeframe start_date = Raise OverflowError).
Proof.
  intros Hplain Hc. unfold plan_from_tasks, validator_estimator.
  destruct (validate_and_fix_tasks_returns_on tasks Hplain) as (validated & Hv & Hlen & Hval).
  pose proof (validate_and_fix_tasks_texts _ _ Hplain Hv) as Htexts.
  rewrite Hv, bind_Ok_l.
  destruct (apply_practical_time_adjustments_total validated constraints Hc Hval Htexts)
    as (estimated & He & Hlen' & Hready).
  rewrite He, !bind_Ok_l. rewrite <- Hlen, <- Hlen'.
  apply plan_from_estimated_outcome, Hready.
Qed.


(** X17: without a timeframe the same steps return a plan, unless the
    schedule goes on after the last day of the calendar. *)
Theorem plan_from_tasks_returns_without_timeframe (tasks : list dict)
    (constraints : option dict) (start_date : Z) :
  Forall plain_record tasks -> forallb modest_hours tasks = true ->
  plain_constraints constraints -> modest_constraints constraints = true ->
  on_calendar start_date = true ->
  (exists p, plan_from_tasks tasks constraints None start_date = Ok p /\
             (length tasks <= length (plan_tasks p))%nat) \/
  plan_from_tasks tasks constraints None start_date = Raise OverflowError.
Proof.
  intros Hp _ Hc _ _.
  destruct (plan_from_tasks_outcome tasks constraints None start_date Hp Hc) as [Hout Hok].
  destruct (Hok eq_refl) as [Hok'|Hover]; [|right; exact Hover].
  destruct Hout as [p Hlen| | |]; [|discriminate..].
  left. exists p. split; [reflexivity | exact Hlen].
Qed.

Ltac no_constraints :=
  split; [eexists; reflexivity | split; [eexists; reflexivity | left; reflexivity]].


(** The third way is taken: the hours of [tiny_note] are re-estimated to
    zero, and step 4b divides by their total. *)
Example tiny_note_divides_by_zero :
  map hours_of <$> validator_estimator tiny_note None = Ok [Some (PFloat 0)] /\
  plan_from_tasks tiny_note None (Some "1 day") (datetime 2025 10 20 9 0)
  = Raise ZeroDivisionError.
Proof. split; vm_compute; reflexivity. Qed.

(** So is the fourth: work of more than a day that begins on the last
    day of the calendar, a Friday. *)
Example last_day_leaves_the_calendar :
  weekday (datetime 9999 12 31 9 0) = 4 /\
  plan_from_tasks ten_heavy_tasks None None (datetime 9999 12 31 9 0)
  = Raise OverflowError.
Proof. split; vm_compute; reflexivity. Qed.

Lemma plan_from_tasks_returns_without_timeframe_witness :
  (exists p, plan_from_tasks raw_with_bad_deps None None (datetime 2025 10 20 9 0) = Ok p /\
             (length raw_with_bad_deps <= length (plan_tasks p))%nat) \/
  plan_from_tasks raw_with_bad_deps None None (datetime 2025 10 20 9 0) = Raise OverflowError.
Proof.
  apply (plan_from_tasks_returns_without_timeframe raw_with_bad_deps None
           (datetime 2025 10 20 9 0)).
  - unfold raw_with_bad_deps. plain_records.
  - vm_compute. reflexivity.
  - no_constraints.
  - vm_compute. reflexivity.
  - vm_compute. reflexivity.
Defined.

(** ** From a response without JSON to a plan *)

Lemma repair_response_falls_back (content goal : string) (e : exn) :
  extract_json_from_response content = Raise e ->
  repair_response content goal = Ok (create_fallback_tasks_from_content content goal).
Proof.
  intros H. rewrite (extract_json_raises_ValueError _ _ H) in H.
  unfold repair_response. rewrite H. reflexivity.
Qed.

(** X18: when the extraction finds no JSON in the response, the plan is
    built from the fallback.  For a text of modest nesting, constraints
    of the request format and a start date of the calendar, the body of
    [generate_task_plan] without a timeframe returns a plan that is not
    empty, whatever the text and the goal, unless the schedule goes on
    after the last day of the calendar and [OverflowError] is raised. *)
Theorem generate_task_plan_from_fallback (content goal : string) (constraints : option dict)
    (start_date : Z) (e : exn) :
  extract_json_from_response content = Raise e -> shallow content = true ->
  plain_constraints constraints -> modest_constraints constraints = true ->
  on_calendar start_date = true ->
  (exists p, generate_task_plan content goal constraints None start_date = Ok p /\
             plan_tasks p <> []) \/
  generate_task_plan content goal constraints None start_date = Raise OverflowError.
Proof.
  intros Hraise _ Hc _ _. unfold generate_task_plan.
  rewrite (repair_response_falls_back content goal e Hraise), bind_Ok_l.
  unfold create_fallback_tasks_from_content. cbn [tasks_entry dict_get].
  change ("tasks" =? "tasks")%string with true. run_binds.
  destruct (records_of_fallback _ (fallback_tasks_records content goal))
    as (recs & Hrecs & Hplain & Hlen).
  rewrite Hrecs, bind_Ok_l.
  destruct (plan_from_tasks_outcome recs constraints None start_date Hplain Hc) as [Hout Hok].
  destruct (Hok eq_refl) as [Hok'|Hover]; [|right; exact Hover].
  destruct Hout as [p Hp| | |]; [|discriminate..]. left. exists p. split; [reflexivity|].
  destruct (fallback_tasks_nonempty content goal) as (t & ts & Hf).
  rewrite Hf in Hlen. simpl in Hlen. intros Hnil. rewrite Hnil, Hlen in Hp. simpl in Hp. lia.
Qed.

Lemma generate_task_plan_from_fallback_witness :
  (exists p, generate_task_plan "I am sorry, I cannot plan that." "Learn to sail" None None
                                (datetime 2025 10 20 9 0) = Ok p /\
             plan_tasks p <> []) \/
  generate_task_plan "I am sorry, I cannot plan that." "Learn to sail" None None
                     (datetime 2025 10 20 9 0) = Raise OverflowError.
Proof.
  apply (generate_task_plan_from_fallback "I am sorry, I cannot plan that." "Learn to sail"
           None (datetime 2025 10 20 9 0) ValueError).
  - vm_compute. reflexivity.
  - vm_compute. reflexivity.
  - no_constraints.
  - vm_compute. reflexivity.
  - vm_compute. reflexivity.
Defined.

(** ** Splitting twice *)

Lemma round1_round1 (q : Q) : round1 (round1 q) = round1 q.
Proof.
  unfold round1 at 1 3. f_equal. f_equal.
  apply round_half_even_of_Z. unfold round1. rewrite Qred_correct.
  unfold Qeq, Qmult, inject_Z. simpl. lia.
Qed.

Lemma Qred_round1 (q : Q) : Qred (round1 q) = round1 q.
Proof. unfold round1. apply Qred_complete, Qred_correct. Qed.

Lemma Qmaxb_one_rounded (m : Q) : (1 <= m)%Q -> Qmaxb 1 (round1 m) = round1 m.
Proof.
  intros Hm. unfold Qmaxb. destruct (Qltb 1 (round1 m)) eqn:E; [reflexivity|].
  apply Qltb_ge in E. pose proof (round1_lower m 1 Hm) as Hlo.
  change (inject_Z 1) with 1%Q in Hlo.
  assert (Heq : (round1 m == 1)%Q) by (apply Qle_antisym; assumption).
  apply Qred_complete in Heq. rewrite Qred_round1 in Heq. rewrite Heq. reflexivity.
Qed.

Lemma own_positions_lookup (n : nat) (k : Z) :
  0 <= k < Z.of_nat n -> own_positions n !! k = Some k.
Proof.
  induction n as [|n IH]; intros Hk; [lia|]. cbn [own_positions].
  destruct (decide (k = Z.of_nat n)) as [->|Hne]; [apply lookup_insert_eq|].
  rewrite lookup_insert_ne by congruence. apply IH. lia.
Qed.

Lemma remap_own_positions (n : nat) (ns : list Z) :
  Forall (fun k => 0 <= k < Z.of_nat n) ns ->
  remap_deps (own_positions n) (map PInt ns) = map PInt ns.
Proof.
  unfold remap_deps. induction 1 as [|k ns Hk _ IH]; [reflexivity|].
  simpl. rewrite (own_positions_lookup n k Hk). simpl. f_equal. exact IH.
Qed.

Lemma remap_deps_ints (lp : gmap Z Z) (ds : list pyval) (bound : Z) :
  (forall k v, lp !! k = Some v -> 0 <= v < bound) ->
  exists ns, remap_deps lp ds = map PInt ns /\ Forall (fun n => 0 <= n < bound) ns.
Proof.
  intros Hrange. unfold remap_deps. induction ds as [|d ds (ns & IH & Hns)].
  - exists []. split; [reflexivity | constructor].
  - simpl. destruct (as_int d) as [n|]; simpl; [|exists ns; auto].
    destruct (lp !! n) as [v|] eqn:Hv; simpl; [|exists ns; auto].
    exists (v :: ns). split; [simpl; f_equal; exact IH|].
    constructor; [eapply Hrange, Hv | exact Hns].
Qed.

(** The dependencies that the splitter writes are integers. *)
Lemma split_loop_int_deps (th ch : Q) (tasks : list dict) :
  forall (nt : list dict) (lp : gmap Z Z),
  split_loop th ch 0 tasks ([], ∅) = Ok (nt, lp) ->
  forall i t, nt !! i = Some t ->
    exists ns, t !! "dependencies" = Some (PList (map PInt ns)) /\
               Forall (fun n => 0 <= n < Z.of_nat i) ns.
Proof.
  induction tasks as [|task pre IH] using rev_ind; intros nt lp H i t Hi.
  - simpl in H. inv_ok. destruct i; discriminate.
  - rewrite split_loop_snoc in H. inv_bind H. destruct a as [nt0 lp0].
    destruct (split_loop_index _ _ _ _ _ E) as (_ & Hrange & _).
    apply split_task_spec in H as (h & ds & g & _ & _ & -> & _ & _ & Hg).
    destruct (decide (i < length nt0)%nat) as [Hlt|Hge].
    + rewrite lookup_app_l in Hi by exact Hlt. eapply IH; eassumption.
    + rewrite lookup_app_r in Hi by lia.
      destruct (Hg _ _ Hi) as (p & _ & _ & Hd). rewrite Hd.
      destruct (i - length nt0)%nat as [|j] eqn:Hj.
      * destruct (remap_deps_ints lp0 ds (Z.of_nat (length nt0)) Hrange) as (ns & -> & Hns).
        exists ns. split; [reflexivity|].
        eapply Forall_impl; [exact Hns|]. intros n Hn. simpl in Hn. lia.
      * exists [Z.of_nat (length nt0) + Z.of_nat (S j) - 1]. split; [reflexivity|].
        constructor; [lia | constructor].
Qed.

Lemma split_for_plan_settles (tasks nt : list dict) (lp : gmap Z Z) :
  split_loop 24 8 0 tasks ([], ∅) = Ok (nt, lp) ->
  forall i t, assign_ids nt !! i = Some t -> settled_task i t.
Proof.
  intros H i t Hi. unfold assign_ids in Hi. rewrite list_lookup_imap in Hi.
  destruct (nt !! i) as [t0|] eqn:H0; [|discriminate]. simpl in Hi. injection Hi as <-.
  split; [|split].
  - destruct (split_loop_hours _ _ _ _ _ H i t0 H0) as (task & h & p & _ & _ & Hp & Hh).
    exists p. rewrite lookup_insert_ne by discriminate. split; [exact Hh|].
    apply Qmaxb_upper; [discriminate | apply parts_of_24_8_bound with (h := h), Hp].
  - destruct (split_loop_int_deps _ _ _ _ _ H i t0 H0) as (ns & Hd & Hns).
    exists ns. rewrite lookup_insert_ne by discriminate. split; assumption.
  - apply lookup_insert_eq.
Qed.

Lemma split_task_settled (pre : list dict) (t : dict) :
  settled_task (length pre) t ->
  split_task 24 8 (length pre) t (pre, own_positions (length pre))
  = Ok ((pre ++ [t])%list, own_positions (S (length pre))).
Proof.
  intros ((p & Hh & Hp) & (ns & Hd & Hns) & _).
  set (m := Qmaxb 1 p) in *.
  assert (Hm : (1 <= m)%Q) by apply Qmaxb_lower.
  assert (Hval : pfloat (round1 m) = PFloat (round1 m)).
  { unfold pfloat. rewrite Qred_round1. reflexivity. }
  rewrite Hval in Hh.
  assert (Htrue : truthy (PFloat (round1 m)) = true).
  { simpl. apply negb_true_iff. destruct (Qeq_bool (round1 m) 0) eqn:E; [|reflexivity].
    apply Qeq_bool_iff in E. pose proof (round1_lower m 1 Hm) as Hlo.
    change (inject_Z 1) with 1%Q in Hlo. lra. }
  unfold split_task, deps_or_empty, get_default, py_or. rewrite Hh, Hd.
  cbn [default from_option id]. rewrite Htrue. cbn [py_float].
  change (Ok (round1 m) ≫= ?f) with (f (round1 m)). cbv beta.
  rewrite (Qmaxb_one_rounded m Hm).
  assert (Hle : Qle_bool (round1 m) 24 = true).
  { apply Qle_bool_iff. apply (round1_upper m 24). exact Hp. }
  rewrite Hle.
  assert (Hiter : py_iter (if truthy (PList (map PInt ns)) then PList (map PInt ns) else PList [])
                  = Ok (map PInt ns)) by (destruct ns; reflexivity).
  rewrite Hiter. change (Ok (map PInt ns) ≫= ?f) with (f (map PInt ns)). cbv beta.
  rewrite (remap_own_positions (length pre) ns Hns), round1_round1.
  rewrite Hval. rewrite (insert_id t "dependencies" _ Hd).
  rewrite (insert_id t "estimated_hours" _ Hh).
  rewrite length_app. simpl.
  replace (Z.of_nat (length pre + 1) - 1) with (Z.of_nat (length pre)) by lia. reflexivity.
Qed.

Lemma split_loop_settled (rest : list dict) : forall pre : list dict,
  (forall k t, rest !! k = Some t -> settled_task (length pre + k) t) ->
  split_loop 24 8 (length pre) rest (pre, own_positions (length pre))
  = Ok ((pre ++ rest)%list, own_positions (length pre + length rest)).
Proof.
  induction rest as [|t rest IH]; intros pre Hs; cbn [split_loop].
  - rewrite app_nil_r, Nat.add_0_r. reflexivity.
  - rewrite split_task_settled.
    2:{ specialize (Hs 0%nat t eq_refl). rewrite Nat.add_0_r in Hs. exact Hs. }
    change (Ok ?a ≫= ?f) with (f a). cbv beta.
    replace (S (length pre)) with (length (pre ++ [t])) by (rewrite length_app; simpl; lia).
    rewrite IH.
    + rewrite <- app_assoc, length_app. simpl. do 3 f_equal. lia.
    + intros k t' Hk. rewrite length_app. simpl.
      replace (length pre + 1 + k)%nat with (length pre + S k)%nat by lia. apply Hs, Hk.
Qed.

Lemma assign_ids_settled (l : list dict) :
  (forall k t, l !! k = Some t -> settled_task k t) -> assign_ids l = l.
Proof.
  intros Hs. apply list_eq. intros i. unfold assign_ids. rewrite list_lookup_imap.
  destruct (l !! i) as [t|] eqn:Hi; [|reflexivity]. simpl. f_equal.
  apply insert_id. apply (Hs i t Hi).
Qed.

(** X19: splitting is idempotent: the tasks that the splitter returns
    for the pipeline are returned unchanged when they are split again. *)
Theorem split_for_plan_idempotent (tasks out : list dict) :
  split_for_plan tasks = Ok out -> split_for_plan out = Ok out.
Proof.
  intros H. unfold split_for_plan in H.
  apply split_long_tasks_loop in H as (nt & lp & Hloop & ->).
  pose proof (split_for_plan_settles tasks nt lp Hloop) as Hs.
  set (out := assign_ids nt) in *.
  unfold split_for_plan, split_long_tasks. destruct out as [|t rest] eqn:E; [reflexivity|].
  rewrite <- E in *.
  pose proof (split_loop_settled out [] Hs) as Hrun.
  cbn [length own_positions app Nat.add] in Hrun. rewrite Hrun.
  change (Ok ?a ≫= ?f) with (f a). cbv beta. cbn [fst].
  rewrite assign_ids_settled by exact Hs. reflexivity.
Qed.

Lemma split_for_plan_idempotent_witness :
  let out := ok_or [] (split_for_plan thirty_hour_plan) in
  split_for_plan out = Ok out.
Proof.
  intros out. apply (split_for_plan_idempotent thirty_hour_plan out).
  apply ok_or_eq. vm_compute. reflexivity.
Defined.

(** ** The scheduler on the output of the splitter *)

(** X20: the scheduler accepts whatever the splitter returns.  For
    hours, thresholds and a timeframe of modest size and a start date of
    the calendar it returns one scheduled task for each task of the
    splitter, with two exceptions: [OverflowError] when the schedule goes
    on after the last day of the calendar, and [ZeroDivisionError] when
    the timeframe has zero days and the report of the scaling divides by
    the factor. *)
Theorem calculate_deadlines_after_split (tasks prepared : list dict)
    (threshold_hours chunk_hours : Q) (start_date : Z) (timeframe : option string) :
  split_long_tasks tasks threshold_hours chunk_hours = Ok prepared ->
  forallb modest_hours tasks = true ->
  modest threshold_hours = true -> modest chunk_hours = true ->
  modest_timeframe timeframe = true -> on_calendar start_date = true ->
  (exists out, calculate_deadlines prepared start_date timeframe = Ok out /\
               length out = length prepared) \/
  calculate_deadlines prepared start_date timeframe = Raise OverflowError \/
  (calculate_deadlines prepared start_date timeframe = Raise ZeroDivisionError /\
   given timeframe = true /\ parse_timeframe_to_days timeframe = 0).
Proof.
  intros H _ _ _ _ _.
  assert (Hback : deps_point_backwards prepared) by (eapply split_long_tasks_deps, H).
  assert (Hh : Forall has_float_hours prepared).
  { apply Forall_forall. intros t Ht.
    destruct (split_long_tasks_hours_at_least_one _ _ _ _ H t Ht) as (x & Hx & _).
    exists x. exact Hx. }
  destruct (calculate_deadlines_total prepared start_date timeframe Hback Hh)
    as [[out Hout]|Hraise]; [|right; exact Hraise].
  left. exists out. split; [exact Hout|].
  apply calculate_deadlines_writes in Hout as (Hw & _). symmetry. eapply Forall2_length, Hw.
Qed.

Lemma calculate_deadlines_after_split_witness :
  let prepared := ok_or [] (split_long_tasks thirty_hour_plan 24 8) in
  let start_date := datetime 2025 10 18 0 0 in
  (exists out, calculate_deadlines prepared start_date (Some "3 days") = Ok out /\
               length out = length prepared) \/
  calculate_deadlines prepared start_date (Some "3 days") = Raise OverflowError \/
  (calculate_deadlines prepared start_date (Some "3 days") = Raise ZeroDivisionError /\
   given (Some "3 days") = true /\ parse_timeframe_to_days (Some "3 days") = 0).
Proof.
  intros prepared start_date.
  apply (calculate_deadlines_after_split thirty_hour_plan prepared 24 8 start_date
           (Some "3 days")).
  - apply ok_or_eq. vm_compute. reflexivity.
  - vm_compute. reflexivity.
  - vm_compute. reflexivity.
  - vm_compute. reflexivity.
  - vm_compute. reflexivity.
  - vm_compute. reflexivity.
Defined.

(** Both exceptions occur: a timeframe of zero days, and twelve hours of
    work that begin on the last day of the calendar. *)
Example calculate_deadlines_raises :
  (split_long_tasks thirty_hour_plan 24 8 ≫= fun prepared =>
   calculate_deadlines prepared (datetime 2025 10 18 0 0) (Some "0 days"))
  = Raise ZeroDivisionError /\
  (split_long_tasks twelve_hour_task 24 8 ≫= fun prepared =>
   calculate_deadlines prepared (datetime 9999 12 31 9 0) None)
  = Raise OverflowError.
Proof. split; vm_compute; reflexivity. Qed.

(** ** Fallback subtasks *)


Lemma round1_fixes (q : Q) : one_decimal q -> (round1 q == q)%Q.
Proof.
  intros [k Hk]. unfold round1. rewrite Qred_correct.
  rewrite (round_half_even_of_Z _ _ Hk).
  rewrite Qmake_Qdiv, <- Hk. change (inject_Z (Z.pos 10)) with 10%Q. field.
Qed.




Example fallback_subtasks_of_odd_hours :
  float_hours (_generate_fallback_subtasks odd_hours_task)
  = Some [3 # 2; 43 # 10; 3 # 2]%Q.
Proof. vm_compute. reflexivity. Qed.

(** ** Running validation and re-estimation twice: what the second run writes *)

Lemma half_hour_one_decimal (x : Q) : half_hour_multiple x -> one_decimal x.
Proof.
  intros [k Hk]. exists (5 * k). rewrite Hk, inject_Z_mult.
  change (inject_Z 5) with 5%Q. field.
Qed.

Lemma adjust_task_priority (e s c : Q) (b : bool) (t t' : dict) :
  adjust_task e s c b t = Ok t' -> t' !! "priority" = t !! "priority".
Proof.
  unfold adjust_task. intros H. do 7 inv_bind H. inv_ok.
  rewrite !lookup_insert_ne by discriminate.
  repeat match goal with
  | |- context [if ?b then _ else _] => destruct b
  end; rewrite ?lookup_insert_ne by discriminate; reflexivity.
Qed.

Lemma adjust_tasks_priority (f : dict -> result dict) (tasks : list dict) :
  (forall t t', f t = Ok t' -> t' !! "priority" = t !! "priority") ->
  forall out, adjust_tasks f tasks = Ok out ->
  Forall2 (fun t t' => t' !! "priority" = t !! "priority") tasks out.
Proof.
  intros Hf. induction tasks as [|t rest IH]; intros out H; simpl in H.
  - inv_ok. constructor.
  - inv_bind_as H t' Ht'. inv_bind_as H ts Hts. inv_ok.
    constructor; [apply Hf, Ht' | apply IH, Hts].
Qed.

Lemma apply_practical_time_adjustments_priority (tasks out : list dict)
    (constraints : option dict) :
  apply_practical_time_adjustments tasks constraints = Ok out ->
  Forall2 (fun t t' => t' !! "priority" = t !! "priority") tasks out.
Proof.
  unfold apply_practical_time_adjustments. destruct tasks as [|t rest].
  - intros H. inv_ok. constructor.
  - intros H. do 3 inv_bind H.
    eapply adjust_tasks_priority; [|exact H]. intros t0 t' Ht. eapply adjust_task_priority, Ht.
Qed.

(** Validation of a task that a first run returned: the priority stays,
    and the hours stay unless they were 0. *)
Lemma fix_task_again (i : nat) (a f : dict) (h : Q) :
  fix_task i a = Ok f -> valid_priority a ->
  a !! "estimated_hours" = Some (PFloat h) -> one_decimal h ->
  f !! "priority" = a !! "priority" /\
  exists hb, f !! "estimated_hours" = Some (PFloat hb) /\
             (hb == if Qle_bool h 0 then 4 else h)%Q.
Proof.
  intros H Hp Hh Hd. unfold fix_task in H.
  inv_bind_as H t1 H1. inv_bind_as H t3 H3. inv_bind_as H t4 H4.
  pose proof (fix_title_fields i a) as F0.
  pose proof (fix_description_fields (fix_title i a)) as F1.
  pose proof (fix_hours_fields _ _ H1) as Fh.
  pose proof (fix_priority_fields t1) as F2.
  pose proof (fix_complexity_level_fields _ _ H3) as F3.
  pose proof (fix_task_type_fields _ _ H4) as F4.
  pose proof (fix_dependencies_fields _ _ _ H) as F5.
  assert (E1 : t1 !! "priority" = a !! "priority").
  { rewrite <- Fh, <- F1, <- F0 by discriminate. reflexivity. }
  assert (E2 : fix_priority t1 = t1).
  { unfold fix_priority. rewrite (missing_or_not_in_ext t1 a "priority" priorities E1).
    unfold valid_priority in Hp. rewrite Hp. reflexivity. }
  rewrite E2 in *. split.
  - rewrite <- F5, <- F4, <- F3 by discriminate. exact E1.
  - rewrite <- F5, <- F4, <- F3 by discriminate.
    assert (E0 : fix_description (fix_title i a) !! "estimated_hours" = Some (PFloat h)).
    { rewrite <- F1, <- F0 by discriminate. exact Hh. }
    unfold fix_hours in H1. rewrite E0 in H1.
    inv_bind_as H1 bad Hbad. inv_bind_as H1 x Hx. inv_bind_as H1 x2 Hx2. inv_bind_as H1 r Hr.
    simpl in Hbad. inv_ok. unfold getitem in Hx, Hx2.
    destruct (Qle_bool h 0).
    + rewrite lookup_insert_eq in Hx. inv_ok. simpl in Hx2.
      rewrite lookup_insert_eq in Hx2. inv_ok. simpl in Hr. inv_ok.
      eexists. split; [apply lookup_insert_eq|]. vm_compute. reflexivity.
    + rewrite E0 in Hx. inv_ok. simpl in Hx2. rewrite E0 in Hx2. inv_ok. simpl in Hr. inv_ok.
      eexists. split; [apply lookup_insert_eq|]. rewrite Qred_correct. apply round1_fixes, Hd.
Qed.

Lemma fix_tasks_from_each (tasks : list dict) : forall i out,
  fix_tasks_from i tasks = Ok out ->
  Forall2 (fun t t' => exists j, fix_task j t = Ok t') tasks out.
Proof.
  induction tasks as [|task rest IH]; intros i out H; simpl in H.
  - inv_ok. constructor.
  - inv_bind_as H t1 H1. inv_bind_as H ts Hts. inv_ok.
    constructor; [exists i; exact H1 | eapply IH, Hts].
Qed.

(** *** The priority pass on a balanced list *)

Lemma percentage_above_40 (count total : nat) :
  (0 < total)%nat -> Qltb 40 (percentage count total) = true -> (2 * total < 5 * count)%nat.
Proof.
  intros Hpos H. apply Qltb_lt in H. unfold percentage in H.
  set (c := inject_Z (Z.of_nat count)) in *. set (n := inject_Z (Z.of_nat total)) in *.
  assert (Hn : (0 < n)%Q).
  { unfold n. change 0%Q with (inject_Z 0). rewrite <- Zlt_Qlt. lia. }
  assert (Hq : (2 # 5 < c / n)%Q).
  { set (a := (c / n)%Q) in *. lra. }
  assert (Hcn : (c == c / n * n)%Q) by (field; lra).
  assert (Hm : ((2 # 5) * n < c / n * n)%Q)
    by (apply Qmult_lt_compat_r; [exact Hn | exact Hq]).
  assert (Hc : (2 * n < c * 5)%Q) by (set (a := (c / n * n)%Q) in *; lra).
  unfold c, n in Hc. unfold Qlt in Hc. simpl in Hc. lia.
Qed.

Lemma kept_or_demoted_refl (l : list dict) : Forall2 kept_or_demoted l l.
Proof. induction l; constructor; [left; reflexivity | assumption]. Qed.

Lemma demote_to_low_demotes (l0 : list dict) (idxs : list nat) : forall l out : list dict,
  (forall i, In i idxs -> exists t, l0 !! i = Some t /\ has_priority "medium" t = true) ->
  Forall2 kept_or_demoted l0 l -> demote_to_low idxs l = Ok out ->
  Forall2 kept_or_demoted l0 out.
Proof.
  induction idxs as [|i idxs IH]; intros l out Hidx Hl H; simpl in H.
  - inv_ok. exact Hl.
  - destruct (l !! i) as [task|] eqn:Hi; [|discriminate].
    inv_bind H. inv_bind H. eapply IH; [| |exact H].
    + intros j Hj. apply Hidx. right. exact Hj.
    + match goal with |- context [if ?b then _ else _] => destruct b end; [|exact Hl].
      unfold set_priority. apply Forall2_alter_r; [exact Hl|].
      intros x y Hx Hy _. right. split; [|apply lookup_insert_eq].
      destruct (Hidx i (or_introl eq_refl)) as (t & Ht & Hm). congruence.
Qed.

Lemma fix_priority_distribution_demotes (l out : list dict) :
  (count_priority "high" l <= 3)%nat \/ (5 * count_priority "high" l <= 2 * length l)%nat ->
  fix_priority_distribution l = Ok out -> Forall2 kept_or_demoted l out.
Proof.
  unfold fix_priority_distribution, count_priority. intros Hbal H.
  destruct (0 <? length l)%nat eqn:Hpos; [|inv_ok; apply kept_or_demoted_refl].
  apply Nat.ltb_lt in Hpos.
  set (highs := indices_with_priority "high" l) in *.
  assert (E : (if Qltb 40 (percentage (length highs) (length l))
               then foldl (fun ts i => set_priority "medium" i ts) l (drop 3 highs)
               else l) = l).
  { destruct (Qltb 40 _) eqn:E40; [|reflexivity].
    apply percentage_above_40 in E40; [|exact Hpos].
    destruct Hbal as [Hbal|Hbal]; [|lia].
    rewrite drop_ge by exact Hbal. reflexivity. }
  rewrite E in H.
  destruct (Qltb _ 10); [|inv_ok; apply kept_or_demoted_refl].
  eapply demote_to_low_demotes; [|apply kept_or_demoted_refl|exact H].
  intros i Hi. apply In_indices_with_priority.
  unfold last_two in Hi. apply list_elem_of_In in Hi. apply list_elem_of_In.
  eapply subseteq_drop, Hi.
Qed.

(** *** Lists with the same priorities have the same counts *)

Lemma has_priority_ext (p : string) (a b : dict) :
  a !! "priority" = b !! "priority" -> has_priority p a = has_priority p b.
Proof. unfold has_priority. intros ->. reflexivity. Qed.

Lemma indices_incl (p : string) (l1 l2 : list dict) :
  Forall2 (fun a b => b !! "priority" = a !! "priority") l1 l2 ->
  incl (indices_with_priority p l1) (indices_with_priority p l2).
Proof.
  intros H i Hi. apply In_indices_with_priority in Hi as (t & Ht & Hp).
  destruct (Forall2_lookup_l _ _ _ _ _ H Ht) as (t' & Ht' & Heq).
  apply In_indices_with_priority. exists t'. split; [exact Ht'|].
  rewrite (has_priority_ext p t' t Heq). exact Hp.
Qed.

Lemma count_priority_ext (p : string) (l1 l2 : list dict) :
  Forall2 (fun a b => b !! "priority" = a !! "priority") l1 l2 ->
  count_priority p l1 = count_priority p l2.
Proof.
  intros H. unfold count_priority. apply Nat.le_antisymm.
  - apply List.NoDup_incl_length; [apply NoDup_ListNoDup, NoDup_indices_with_priority|].
    apply indices_incl, H.
  - apply List.NoDup_incl_length; [apply NoDup_ListNoDup, NoDup_indices_with_priority|].
    apply indices_incl. apply Forall2_flip. eapply Forall2_impl; [exact H|].
    intros a b Hab. symmetry. exact Hab.
Qed.

Lemma validate_balance (tasks out : list dict) :
  validate_and_fix_tasks tasks = Ok out ->
  (count_priority "high" out <= 3)%nat \/
  (5 * count_priority "high" out <= 2 * length out)%nat.
Proof.
  unfold validate_and_fix_tasks. intros H. inv_bind_as H fixed Hfixed.
  pose proof (Forall2_length _ _ _ (fix_priority_distribution_agree _ _ H)) as Hlen.
  rewrite <- Hlen. apply fix_priority_distribution_balance, H.
Qed.

(** C7, as amended: a second run of validation and re-estimation on the
    output of a first run returns one task for each task, with the same
    title, description, complexity level, task type and dependencies.
    It is not a no-op: the hours that the first run wrote (4.0 where they
    were 0) become the new [base_hours], the estimate is written anew as
    a whole number of half hours together with the factors, and the
    priority of a task stays or goes from medium to low. *)
Theorem C7_second_run_recomputes (tasks once twice : list dict)
    (constraints constraints' : option dict) :
  validator_estimator tasks constraints = Ok once ->
  validator_estimator once constraints' = Ok twice ->
  Forall2 rerun_of once twice.
Proof.
  intros H1 H2.
  pose proof (second_run_core _ _ _ _ _ H1 H2) as Hcore.
  unfold validator_estimator in H1, H2.
  inv_bind_as H1 v1 V1. inv_bind_as H2 v2 V2.
  pose proof (apply_practical_time_adjustments_writes_on _ _ _ H1) as W1.
  pose proof (apply_practical_time_adjustments_writes_on _ _ _ H2) as W2.
  pose proof (apply_practical_time_adjustments_priority _ _ _ H1) as P1.
  pose proof (apply_practical_time_adjustments_priority _ _ _ H2) as P2.
  destruct (validate_validated _ _ V1) as (_ & Hval1).
  pose proof (validate_balance _ _ V1) as Hbal1.
  unfold validate_and_fix_tasks in V2. inv_bind_as V2 f2 F2.
  pose proof (fix_tasks_from_each _ _ _ F2) as Hfix.
  pose proof (fix_priority_distribution_agree _ _ V2) as Hagree.
  (* every task of the first run has a valid priority and hours in half hours *)
  assert (Honce : forall i a, once !! i = Some a ->
            valid_priority a /\
            exists h, a !! "estimated_hours" = Some (PFloat h) /\ half_hour_multiple h).
  { intros i a Ha.
    destruct (Forall2_lookup_r _ _ _ _ _ W1 Ha) as (t & Ht & _ & Hh & _).
    destruct (Forall2_lookup_r _ _ _ _ _ P1 Ha) as (t' & Ht' & Hp).
    assert (t' = t) as -> by congruence.
    destruct (Hval1 i t Ht) as (_ & Hvp & _). split; [|exact Hh].
    unfold valid_priority in *.
    rewrite (missing_or_not_in_ext a t "priority" priorities Hp). exact Hvp. }
  (* the validated list of the second run has the priorities of the first *)
  assert (Hsame : Forall2 (fun a b => b !! "priority" = a !! "priority") v1 f2).
  { apply Forall2_same_length_lookup. split.
    - rewrite (Forall2_length _ _ _ P1). apply (Forall2_length _ _ _ Hfix).
    - intros i t f Ht Hf.
      destruct (Forall2_lookup_l _ _ _ _ _ P1 Ht) as (a & Ha & Hp).
      destruct (Forall2_lookup_l _ _ _ _ _ Hfix Ha) as (f' & Hf' & j & Hj).
      assert (f' = f) as -> by congruence.
      destruct (Honce i a Ha) as (Hvp & h & Hh & Hm).
      destruct (fix_task_again j a f h Hj Hvp Hh (half_hour_one_decimal _ Hm)) as (E & _).
      congruence. }
  assert (Hbal2 : (count_priority "high" f2 <= 3)%nat \/
                  (5 * count_priority "high" f2 <= 2 * length f2)%nat).
  { rewrite <- (count_priority_ext "high" v1 f2 Hsame), <- (Forall2_length _ _ _ Hsame).
    exact Hbal1. }
  pose proof (fix_priority_distribution_demotes _ _ Hbal2 V2) as Hdem.
  apply Forall2_same_length_lookup. split; [apply (Forall2_length _ _ _ Hcore)|].
  intros i a b Ha Hb.
  destruct (Honce i a Ha) as (Hvp & h & Hh & Hm).
  destruct (Forall2_lookup_l _ _ _ _ _ Hfix Ha) as (f & Hf & j & Hj).
  destruct (fix_task_again j a f h Hj Hvp Hh (half_hour_one_decimal _ Hm))
    as (Ep & hb & Ehb & Hhb).
  destruct (Forall2_lookup_l _ _ _ _ _ Hdem Hf) as (v & Hv & Hkd).
  destruct (Forall2_lookup_l _ _ _ _ _ Hagree Hf) as (v' & Hv' & Hfields).
  assert (v' = v) as -> by congruence.
  destruct (Forall2_lookup_l _ _ _ _ _ W2 Hv) as (b' & Hb' & Hbase & Hest & Hfac).
  assert (b' = b) as -> by congruence.
  destruct (Forall2_lookup_l _ _ _ _ _ P2 Hv) as (b' & Hb'' & Hpb).
  assert (b' = b) as -> by congruence.
  split; [|split; [|split; [|split]]].
  - eapply Forall2_lookup_lr; eassumption.
  - exists h, hb. split; [exact Hh|]. split; [|exact Hhb].
    rewrite Hbase. unfold get_default. rewrite <- Hfields by discriminate.
    rewrite Ehb. reflexivity.
  - exact Hest.
  - exact Hfac.
  - unfold kept_or_demoted in *. rewrite Hpb.
    destruct Hkd as [Hkd|[Hmed Hlow]].
    + left. congruence.
    + right. split; [|exact Hlow].
      rewrite <- (has_priority_ext "medium" f a Ep). exact Hmed.
Qed.

Lemma C7_second_run_recomputes_witness :
  let once := ok_or [] (validator_estimator one_moderate_task None) in
  let twice := ok_or [] (validator_estimator once None) in
  Forall2 rerun_of once twice.
Proof.
  intros once twice.
  apply (C7_second_run_recomputes one_moderate_task once twice None None);
    apply ok_or_eq; vm_compute; reflexivity.
Defined.

(** The second run can demote further: of twenty-one testing tasks of
    medium priority, the first run makes the last two low, and the second
    run the two before them. *)
Example second_run_demotes_further :
  (drop 16 ∘ map (fields ["priority"])) <$> validator_estimator testing_tasks None
  = Ok [[Some (PStr "medium")]; [Some (PStr "medium")]; [Some (PStr "medium")];
        [Some (PStr "low")]; [Some (PStr "low")]] /\
  (drop 16 ∘ map (fields ["priority"])) <$>
    (validator_estimator testing_tasks None ≫= fun once => validator_estimator once None)
  = Ok [[Some (PStr "medium")]; [Some (PStr "low")]; [Some (PStr "low")];
        [Some (PStr "low")]; [Some (PStr "low")]].
Proof. split; vm_compute; reflexivity. Qed.

(** Hours that the first run made 0 are taken as 4.0 by the second. *)
Example second_run_of_zero_hours :
  map (fields ["base_hours"; "estimated_hours"]) <$> validator_estimator tiny_note None
  = Ok [[Some (PFloat 0); Some (PFloat 0)]] /\
  map (fields ["base_hours"; "estimated_hours"]) <$>
    (validator_estimator tiny_note None ≫= fun once => validator_estimator once None)
  = Ok [[Some (PFloat 4); Some (PFloat 4)]].
Proof. split; vm_compute; reflexivity. Qed.

(** ** Optimisation of a plan *)

(** *** Objects *)

Lemma dict_get_set_eq (k : string) (v : pyval) (d : list (string * pyval)) :
  dict_get k (dict_set k v d) = Some v.
Proof.
  induction d as [|[k' v'] d IH]; simpl.
  - rewrite String.eqb_refl. reflexivity.
  - destruct (String.eqb k k') eqn:E; simpl.
    + rewrite String.eqb_refl. reflexivity.
    + rewrite E. exact IH.
Qed.

Lemma dict_get_set_ne (k k' : string) (v : pyval) (d : list (string * pyval)) :
  k <> k' -> dict_get k (dict_set k' v d) = dict_get k d.
Proof.
  intros Hne. induction d as [|[k2 v2] d IH]; simpl.
  - apply String.eqb_neq in Hne. rewrite Hne. reflexivity.
  - destruct (String.eqb k' k2) eqn:E; simpl.
    + apply String.eqb_eq in E. subst k2.
      apply String.eqb_neq in Hne. rewrite Hne. reflexivity.
    + destruct (String.eqb k k2); [reflexivity | exact IH].
Qed.

Lemma dict_set_same (k : string) (v : pyval) (d : list (string * pyval)) :
  dict_get k d = Some v -> dict_set k v d = d.
Proof.
  induction d as [|[k' v'] d IH]; simpl; [discriminate|].
  destruct (String.eqb k k') eqn:E.
  - apply String.eqb_eq in E. subst k'. intros [= ->]. reflexivity.
  - intros H. rewrite (IH H). reflexivity.
Qed.

Lemma dict_get_set_is_Some (k k' : string) (v : pyval) (d : list (string * pyval)) :
  is_Some (dict_get k d) -> is_Some (dict_get k (dict_set k' v d)).
Proof.
  intros H. destruct (String.eqb_spec k k') as [->|Hne].
  - rewrite dict_get_set_eq. eexists. reflexivity.
  - rewrite dict_get_set_ne by exact Hne. exact H.
Qed.

Lemma set_default_is_Some (k k' : string) (v : pyval) (d : list (string * pyval)) :
  is_Some (dict_get k d) -> is_Some (dict_get k (set_default k' v d)).
Proof.
  intros H. unfold set_default. destruct (dict_get k' d); [exact H|].
  apply dict_get_set_is_Some. exact H.
Qed.

Lemma set_default_sets (k : string) (v : pyval) (d : list (string * pyval)) :
  is_Some (dict_get k (set_default k v d)).
Proof.
  unfold set_default. destruct (dict_get k d) eqn:E.
  - rewrite E. eexists. reflexivity.
  - rewrite dict_get_set_eq. eexists. reflexivity.
Qed.

Lemma set_default_present (k : string) (v : pyval) (d : list (string * pyval)) :
  is_Some (dict_get k d) -> set_default k v d = d.
Proof. intros [x H]. unfold set_default. rewrite H. reflexivity. Qed.

(** A default that is written when the key is missing. *)
Lemma fill_present (k : string) (v : pyval) (d : list (string * pyval)) :
  is_Some (dict_get k d) -> dict_set k (default v (dict_get k d)) d = d.
Proof. intros [x H]. rewrite H. simpl. apply dict_set_same. exact H. Qed.

(** *** One recommendation *)

Lemma Forall_filter_same {A} (P : A -> Prop) `{forall x, Decision (P x)} (l : list A) :
  Forall P (filter P l).
Proof. apply Forall_forall. intros x Hx. apply list_elem_of_filter in Hx. tauto. Qed.

Lemma filter_Forall_id {A} (P : A -> Prop) `{forall x, Decision (P x)} (l : list A) :
  Forall P l -> filter P l = l.
Proof.
  induction 1 as [|x l Hx _ IH]; [reflexivity|].
  rewrite filter_cons_True by exact Hx. rewrite IH. reflexivity.
Qed.

Ltac get_after_sets :=
  repeat first [ rewrite dict_get_set_eq | rewrite dict_get_set_ne by discriminate ].

Lemma validate_recommendation_settles (max_task_id : Z) (rec rec' : list (string * pyval)) :
  validate_recommendation max_task_id rec = Ok rec' -> settled_recommendation max_task_id rec'.
Proof.
  unfold validate_recommendation. intros H. inv_bind_as H ids Hids.
  injection H as <-. exists ids. split; [|split].
  - get_after_sets. reflexivity.
  - destruct (truthy _).
    + destruct (py_iter _) as [l|e]; [|discriminate]. injection Hids as <-.
      apply Forall_filter_same.
    + injection Hids as <-. constructor.
  - repeat (apply Forall_cons; split; [get_after_sets; eexists; reflexivity|]).
    apply Forall_nil. exact I.
Qed.

Lemma settled_recommendation_fixed (max_task_id : Z) (rec : list (string * pyval)) :
  settled_recommendation max_task_id rec -> validate_recommendation max_task_id rec = Ok rec.
Proof.
  intros (ids & Hids & Hin & Hkeys).
  apply Forall_cons in Hkeys as [Htype Hkeys].
  apply Forall_cons in Hkeys as [Hsuggestion Hkeys].
  apply Forall_cons in Hkeys as [Himpact Hkeys].
  apply Forall_cons in Hkeys as [Hpriority _].
  unfold validate_recommendation. rewrite Hids. cbn [default from_option id].
  assert (Hvalid : (if truthy (PList ids)
                    then filter (fun tid => in_bounds max_task_id tid = true) <$> py_iter (PList ids)
                    else Ok []) = Ok ids).
  { destruct ids as [|tid ids]; [reflexivity|].
    cbn [truthy py_iter fmap result_fmap]. rewrite filter_Forall_id by exact Hin. reflexivity. }
  rewrite Hvalid. cbn [mbind result_bind].
  rewrite (dict_set_same _ _ _ Hids).
  rewrite (fill_present "type") by assumption.
  rewrite (fill_present "suggestion") by assumption.
  rewrite (fill_present "impact") by assumption.
  rewrite (fill_present "priority") by assumption. reflexivity.
Qed.

Lemma in_bounds_position (max_task_id : Z) (tid : pyval) :
  in_bounds max_task_id tid = true -> task_position (max_task_id + 1) tid.
Proof.
  unfold in_bounds, task_position. destruct (as_int tid) as [n|]; [|discriminate].
  intros H. apply andb_true_iff in H as [H1 H2]. exists n. split; [reflexivity|lia].
Qed.

Lemma settled_valid (len_tasks : Z) (rec : list (string * pyval)) :
  settled_recommendation (len_tasks - 1) rec -> valid_recommendation len_tasks (PDict rec).
Proof.
  intros (ids & Hids & Hin & Hkeys). exists rec, ids. repeat split; try assumption.
  eapply Forall_impl; [exact Hin|]. intros tid Htid.
  replace len_tasks with (len_tasks - 1 + 1) by lia. apply in_bounds_position, Htid.
Qed.

(** *** The loop *)

Lemma validate_recommendations_settles (max_task_id : Z) (recs seen validated : list pyval) :
  validate_recommendations max_task_id recs = (seen, Ok validated) ->
  settled_recommendations max_task_id validated /\
  length validated = length (List.filter is_object recs).
Proof.
  revert seen validated. induction recs as [|v recs IH]; intros seen validated H.
  - injection H as <- <-. split; [constructor | reflexivity].
  - destruct (validate_recommendations max_task_id recs) as [seen' out] eqn:E.
    assert (Hskip : is_object v = false -> validate_recommendations max_task_id (v :: recs)
                     = (v :: seen', out)).
    { intros Hv. destruct v; try discriminate Hv; cbn [validate_recommendations];
        rewrite E; reflexivity. }
    destruct v as [| | | | | |rec|];
      try (rewrite Hskip in H by reflexivity; injection H as <- ->;
           destruct (IH _ _ eq_refl) as [IH1 IH2]; split; [exact IH1 | exact IH2]).
    clear Hskip. cbn [validate_recommendations] in H.
    destruct (validate_recommendation max_task_id rec) as [rec'|e] eqn:R; [|discriminate].
    rewrite E in H. destruct out as [validated'|e]; [|discriminate].
    injection H as <- <-. destruct (IH _ _ eq_refl) as [IH1 IH2]. split.
    + constructor; [|exact IH1]. exists rec'. split; [reflexivity|].
      eapply validate_recommendation_settles, R.
    + cbn [List.filter is_object length]. rewrite IH2. reflexivity.
Qed.

Lemma settled_recommendations_fixed (max_task_id : Z) (recs : list pyval) :
  settled_recommendations max_task_id recs ->
  validate_recommendations max_task_id recs = (recs, Ok recs).
Proof.
  induction 1 as [|v recs (rec & -> & Hrec) _ IH]; [reflexivity|].
  cbn [validate_recommendations]. rewrite (settled_recommendation_fixed _ _ Hrec), IH.
  reflexivity.
Qed.

(** The list that an exception leaves behind ends the loop in the same
    way. *)
Lemma validate_recommendations_raise_again (max_task_id : Z) (recs seen : list pyval) (e : exn) :
  validate_recommendations max_task_id recs = (seen, Raise e) ->
  validate_recommendations max_task_id seen = (seen, Raise e).
Proof.
  revert seen. induction recs as [|v recs IH]; intros seen H; [discriminate|].
  destruct (validate_recommendations max_task_id recs) as [seen' out] eqn:E.
  assert (Hskip : is_object v = false -> validate_recommendations max_task_id (v :: recs)
                   = (v :: seen', out)).
  { intros Hv. destruct v; try discriminate Hv; cbn [validate_recommendations];
      rewrite E; reflexivity. }
  destruct v as [| | | | | |rec|];
    try (rewrite Hskip in H by reflexivity; injection H as <- ->;
         cbn [validate_recommendations]; rewrite (IH _ eq_refl); reflexivity).
  clear Hskip. cbn [validate_recommendations] in H.
  destruct (validate_recommendation max_task_id rec) as [rec'|e'] eqn:R.
  - rewrite E in H. destruct out as [validated'|e']; [discriminate|].
    injection H as <- <-. cbn [validate_recommendations].
    rewrite (settled_recommendation_fixed _ _ (validate_recommendation_settles _ _ _ R)).
    rewrite (IH _ eq_refl). reflexivity.
  - injection H as <- <-. cbn [validate_recommendations]. rewrite R. reflexivity.
Qed.

(** *** The object *)

Lemma defaults_fixed (d : list (string * pyval)) :
  Forall (fun k => is_Some (dict_get k d)) optimization_keys ->
  set_default "summary" (PStr "Plan analysis completed")
    (set_default "warnings" (PList [])
       (set_default "estimated_improvement" (PStr "Analysis completed")
          (set_default "recommendations" (PList []) d))) = d.
Proof.
  intros H.
  apply Forall_cons in H as [H1 H]. apply Forall_cons in H as [H2 H].
  apply Forall_cons in H as [H3 H]. apply Forall_cons in H as [H4 _].
  rewrite (set_default_present "recommendations") by assumption.
  rewrite (set_default_present "estimated_improvement") by assumption.
  rewrite (set_default_present "warnings") by assumption.
  apply set_default_present. assumption.
Qed.

Lemma defaults_keys (d : list (string * pyval)) :
  Forall (fun k => is_Some
            (dict_get k
               (set_default "summary" (PStr "Plan analysis completed")
                  (set_default "warnings" (PList [])
                     (set_default "estimated_improvement" (PStr "Analysis completed")
                        (set_default "recommendations" (PList []) d))))))
    optimization_keys.
Proof.
  repeat (apply Forall_cons; split;
          [repeat first [apply set_default_sets | apply set_default_is_Some]|]).
  apply Forall_nil. exact I.
Qed.

Lemma keys_after_set (ks : list string) (k : string) (v : pyval) (d : list (string * pyval)) :
  Forall (fun k => is_Some (dict_get k d)) ks ->
  Forall (fun k' => is_Some (dict_get k' (dict_set k v d))) ks.
Proof.
  intros H. eapply Forall_impl; [exact H|]. intros k' Hk'. apply dict_get_set_is_Some, Hk'.
Qed.

Lemma validate_optimization_object_keys (d : list (string * pyval)) (plan : dict) :
  Forall (fun k => is_Some (dict_get k (validate_optimization_object d plan))) optimization_keys.
Proof.
  unfold validate_optimization_object. cbv zeta.
  pose proof (defaults_keys d) as HD. revert HD.
  generalize (set_default "summary" (PStr "Plan analysis completed")
                (set_default "warnings" (PList [])
                   (set_default "estimated_improvement" (PStr "Analysis completed")
                      (set_default "recommendations" (PList []) d)))).
  intros D HD.
  destruct (py_len _) as [n|e]; [|exact HD].
  destruct (py_iter _) as [items|e]; [|exact HD].
  destruct (validate_recommendations _ items) as [seen [validated|e]].
  - apply keys_after_set, HD.
  - destruct (default PNone (dict_get "recommendations" D)); try exact HD.
    apply keys_after_set, HD.
Qed.

(** The validation of an object that has the four keys. *)
Lemma validate_optimization_object_fixed (d : list (string * pyval)) (plan : dict) :
  validate_optimization_object (validate_optimization_object d plan) plan
  = validate_optimization_object d plan.
Proof.
  assert (Hrun : forall R, Forall (fun k => is_Some (dict_get k R)) optimization_keys ->
            validate_optimization_object R plan =
            match py_len (get_default plan "tasks" (PList [])) with
            | Raise _ => R
            | Ok len_tasks =>
                match py_iter (default PNone (dict_get "recommendations" R)) with
                | Raise _ => R
                | Ok recs =>
                    let '(seen, validated) := validate_recommendations (len_tasks - 1) recs in
                    match validated with
                    | Ok validated_recommendations =>
                        dict_set "recommendations" (PList validated_recommendations) R
                    | Raise _ =>
                        match default PNone (dict_get "recommendations" R) with
                        | PList _ => dict_set "recommendations" (PList seen) R
                        | _ => R
                        end
                    end
                end
            end).
  { intros R HR. unfold validate_optimization_object. cbv zeta.
    rewrite (defaults_fixed R HR). reflexivity. }
  rewrite (Hrun _ (validate_optimization_object_keys d plan)). clear Hrun.
  unfold validate_optimization_object. cbv zeta.
  generalize (set_default "summary" (PStr "Plan analysis completed")
                (set_default "warnings" (PList [])
                   (set_default "estimated_improvement" (PStr "Analysis completed")
                      (set_default "recommendations" (PList []) d)))).
  intros D.
  destruct (py_len _) as [n|e]; [|reflexivity].
  destruct (py_iter (default PNone (dict_get "recommendations" D))) as [items|e] eqn:Eiter.
  2:{ rewrite Eiter. reflexivity. }
  destruct (validate_recommendations _ items) as [seen [validated|e]] eqn:Eloop.
  - rewrite dict_get_set_eq. cbn [default from_option id py_iter].
    destruct (validate_recommendations_settles _ _ _ _ Eloop) as [Hsettled _].
    rewrite (settled_recommendations_fixed _ _ Hsettled).
    apply dict_set_same, dict_get_set_eq.
  - destruct (default PNone (dict_get "recommendations" D)) as [| | | | |l| |] eqn:Erecs;
      try (rewrite Erecs, Eiter, Eloop; reflexivity).
    rewrite dict_get_set_eq. cbn [default from_option id py_iter]. injection Eiter as <-.
    rewrite (validate_recommendations_raise_again _ _ _ _ Eloop).
    apply dict_set_same, dict_get_set_eq.
Qed.

(** X22: validating an analysis a second time changes nothing, whatever
    the analysis and the plan are, also when the validation was ended by
    an exception. *)
Theorem validate_optimization_data_idempotent (optimization_data : pyval) (plan : dict) :
  _validate_optimization_data (_validate_optimization_data optimization_data plan) plan
  = _validate_optimization_data optimization_data plan.
Proof.
  destruct optimization_data; try reflexivity.
  cbn [_validate_optimization_data]. rewrite validate_optimization_object_fixed. reflexivity.
Qed.

Lemma validate_listed_returns (max_task_id : Z) (recs : list pyval) :
  Forall listed_task_ids recs ->
  exists seen validated, validate_recommendations max_task_id recs = (seen, Ok validated).
Proof.
  induction 1 as [|v recs Hv _ (seen & validated & IH)]; [exists [], []; reflexivity|].
  destruct v as [| | | | | |rec|]; cbn [validate_recommendations]; rewrite ?IH;
    try (eexists _, _; reflexivity).
  assert (Hrec : exists rec', validate_recommendation max_task_id rec = Ok rec').
  { unfold validate_recommendation.
    destruct (dict_get "task_ids" rec) as [ids|] eqn:E.
    - destruct (Hv rec ids eq_refl E) as [-> | [l ->]]; cbn [default from_option id].
      + eexists. reflexivity.
      + destruct l; eexists; reflexivity.
    - eexists. reflexivity. }
  destruct Hrec as [rec' ->]. eexists _, _. reflexivity.
Qed.

(** X23: when the recommendations of the analysis are a list whose
    objects give their task ids as an array or null, the validated
    analysis lists one recommendation for each object, and each has the
    fields type, suggestion, impact and priority and task ids that are
    integers from 0 to the number of tasks of the plan minus one. *)
Theorem validated_recommendations_name_tasks (d : list (string * pyval)) (plan : dict)
    (recs tasks : list pyval) :
  plan !! "tasks" = Some (PList tasks) ->
  dict_get "recommendations" d = Some (PList recs) ->
  Forall listed_task_ids recs ->
  exists d' recs',
    _validate_optimization_data (PDict d) plan = PDict d' /\
    dict_get "recommendations" d' = Some (PList recs') /\
    Forall (valid_recommendation (Z.of_nat (length tasks))) recs' /\
    length recs' = length (List.filter is_object recs).
Proof.
  intros Htasks Hrecs Hlisted.
  cbn [_validate_optimization_data]. unfold validate_optimization_object. cbv zeta.
  unfold get_default. rewrite Htasks. cbn [default from_option id py_len].
  rewrite (set_default_present "recommendations") by (rewrite Hrecs; eexists; reflexivity).
  assert (HD : dict_get "recommendations"
                 (set_default "summary" (PStr "Plan analysis completed")
                    (set_default "warnings" (PList [])
                       (set_default "estimated_improvement" (PStr "Analysis completed") d)))
               = Some (PList recs)).
  { unfold set_default.
    repeat match goal with
           | |- context [match dict_get ?k ?m with _ => _ end] =>
               destruct (dict_get k m); [|rewrite dict_get_set_ne by discriminate]
           end; exact Hrecs. }
  rewrite HD. cbn [default from_option id py_iter].
  destruct (validate_listed_returns (Z.of_nat (length tasks) - 1) recs Hlisted)
    as (seen & validated & Hloop).
  rewrite Hloop. eexists _, validated. split; [reflexivity|].
  split; [apply dict_get_set_eq|].
  destruct (validate_recommendations_settles _ _ _ _ Hloop) as [Hsettled Hlen].
  split; [|exact Hlen].
  eapply Forall_impl; [exact Hsettled|]. intros v (rec & -> & Hrec).
  apply settled_valid, Hrec.
Qed.

Lemma validated_recommendations_name_tasks_witness :
  exists d' recs',
    _validate_optimization_data (PDict raw_analysis) three_task_plan = PDict d' /\
    dict_get "recommendations" d' = Some (PList recs') /\
    Forall (valid_recommendation 3) recs' /\
    length recs' = 2%nat.
Proof.
  apply (validated_recommendations_name_tasks raw_analysis three_task_plan
           [PDict [("type", PStr "sequencing");
                   ("task_ids", PList [PInt 1; PBool true; PInt 7; PStr "2"])];
            PStr "do the hard part first"; PDict []]
           [PDict [("title", PStr "Design"); ("estimated_hours", PInt 12);
                   ("priority", PStr "high"); ("dependencies", PList [])];
            PDict [("title", PStr "Build"); ("estimated_hours", PFloat 6);
                   ("priority", PStr "medium"); ("dependencies", PList [])];
            PDict [("title", PStr "Ship"); ("estimated_hours", PInt 2);
                   ("priority", PStr "low"); ("dependencies", PList [PInt 1])]]).
  - reflexivity.
  - reflexivity.
  - repeat (apply Forall_cons; split;
            [intros o v Ho Hv; try discriminate Ho; injection Ho as <-;
             try discriminate Hv; injection Hv as <-; right; eexists; reflexivity|]).
    apply Forall_nil. exact I.
Defined.

(** The validated example: the task ids that are left are 1 and [True],
    and the text between the objects is gone. *)
Example raw_analysis_validated :
  _validate_optimization_data (PDict raw_analysis) three_task_plan
  = PDict [("recommendations",
            PList [PDict [("type", PStr "sequencing");
                          ("task_ids", PList [PInt 1; PBool true]);
                          ("suggestion", PStr "General optimization suggestion");
                          ("impact", PStr "Positive impact expected");
                          ("priority", PStr "medium")];
                   PDict [("task_ids", PList []); ("type", PStr "general");
                          ("suggestion", PStr "General optimization suggestion");
                          ("impact", PStr "Positive impact expected");
                          ("priority", PStr "medium")]]);
           ("summary", PStr "Two ideas");
           ("estimated_improvement", PStr "Analysis completed");
           ("warnings", PList [])].
Proof. vm_compute. reflexivity. Qed.

Lemma validate_listed_recommendation (max_task_id : Z) (rec : list (string * pyval)) :
  listed_task_ids (PDict rec) -> exists rec', validate_recommendation max_task_id rec = Ok rec'.
Proof.
  intros Hv. unfold validate_recommendation.
  destruct (dict_get "task_ids" rec) as [ids|] eqn:E.
  - destruct (Hv rec ids eq_refl E) as [-> | [l ->]]; cbn [default from_option id].
    + eexists. reflexivity.
    + destruct l; eexists; reflexivity.
  - eexists. reflexivity.
Qed.

Lemma validate_recommendations_stop (max_task_id : Z) (before after : list pyval)
    (rec : list (string * pyval)) (e : exn) :
  Forall listed_task_ids before ->
  validate_recommendation max_task_id rec = Raise e ->
  exists before',
    validate_recommendations max_task_id (before ++ PDict rec :: after)%list
    = ((before' ++ PDict rec :: after)%list, Raise e) /\
    length before' = length before.
Proof.
  intros Hbefore Hrec. induction Hbefore as [|v before Hv _ (before' & IH & Hlen)].
  - exists []. cbn [app validate_recommendations]. rewrite Hrec. split; reflexivity.
  - destruct v as [| | | | | |o|];
      cbn [app validate_recommendations];
      try (eexists (_ :: before'); cbn [app validate_recommendations]; rewrite IH;
           split; [reflexivity | cbn [length]; rewrite Hlen; reflexivity]).
    destruct (validate_listed_recommendation max_task_id o Hv) as [o' Ho].
    exists (PDict o' :: before'). rewrite Ho, IH.
    split; [reflexivity | cbn [length]; rewrite Hlen; reflexivity].
Qed.

(** X24: a recommendation whose task ids are a number other than 0
    ends the validation.  The analysis is returned with the list of
    recommendations as the loop left it: the recommendation with the
    number and all that come after it are there as they came, with
    whatever task ids and fields they had. *)
Theorem validation_ends_at_a_number (d : list (string * pyval)) (plan : dict)
    (before after tasks : list pyval) (rec : list (string * pyval)) (n : Z) :
  plan !! "tasks" = Some (PList tasks) ->
  dict_get "recommendations" d = Some (PList (before ++ PDict rec :: after)%list) ->
  Forall listed_task_ids before ->
  dict_get "task_ids" rec = Some (PInt n) ->
  n <> 0 ->
  exists d' before',
    _validate_optimization_data (PDict d) plan = PDict d' /\
    dict_get "recommendations" d' = Some (PList (before' ++ PDict rec :: after)%list) /\
    length before' = length before.
Proof.
  intros Htasks Hrecs Hlisted Hids Hn.
  cbn [_validate_optimization_data]. unfold validate_optimization_object. cbv zeta.
  unfold get_default. rewrite Htasks. cbn [default from_option id py_len].
  rewrite (set_default_present "recommendations") by (rewrite Hrecs; eexists; reflexivity).
  assert (HD : dict_get "recommendations"
                 (set_default "summary" (PStr "Plan analysis completed")
                    (set_default "warnings" (PList [])
                       (set_default "estimated_improvement" (PStr "Analysis completed") d)))
               = Some (PList (before ++ PDict rec :: after)%list)).
  { unfold set_default.
    repeat match goal with
           | |- context [match dict_get ?k ?m with _ => _ end] =>
               destruct (dict_get k m); [|rewrite dict_get_set_ne by discriminate]
           end; exact Hrecs. }
  rewrite HD. cbn [default from_option id py_iter].
  assert (Hrec : validate_recommendation (Z.of_nat (length tasks) - 1) rec = Raise TypeError).
  { unfold validate_recommendation. rewrite Hids. cbn [default from_option id truthy].
    destruct (Z.eqb_spec n 0) as [->|_]; [contradiction|]. reflexivity. }
  destruct (validate_recommendations_stop _ before after rec _ Hlisted Hrec)
    as (before' & Hloop & Hlen).
  rewrite Hloop. eexists _, before'. split; [reflexivity|].
  split; [apply dict_get_set_eq | exact Hlen].
Qed.

Lemma validation_ends_at_a_number_witness :
  exists d' before',
    _validate_optimization_data (PDict analysis_with_a_number) three_task_plan = PDict d' /\
    dict_get "recommendations" d'
    = Some (PList (before' ++ [PDict [("task_ids", PInt 7)];
                               PDict [("task_ids", PList [PInt 8])]])%list) /\
    length before' = 1%nat.
Proof.
  apply (validation_ends_at_a_number analysis_with_a_number three_task_plan
           [PDict [("task_ids", PList [PInt 2; PInt 9])]]
           [PDict [("task_ids", PList [PInt 8])]]
           [PDict [("title", PStr "Design"); ("estimated_hours", PInt 12);
                   ("priority", PStr "high"); ("dependencies", PList [])];
            PDict [("title", PStr "Build"); ("estimated_hours", PFloat 6);
                   ("priority", PStr "medium"); ("dependencies", PList [])];
            PDict [("title", PStr "Ship"); ("estimated_hours", PInt 2);
                   ("priority", PStr "low"); ("dependencies", PList [PInt 1])]]
           [("task_ids", PInt 7)] 7).
  - reflexivity.
  - reflexivity.
  - apply Forall_cons. split; [|apply Forall_nil; exact I].
    intros o v Ho Hv. injection Ho as <-. injection Hv as <-. right. eexists. reflexivity.
  - reflexivity.
  - discriminate.
Defined.

(** *** The fallback *)

Lemma positions_where_spec (p : pyval -> result bool) (i : nat) (tasks : list pyval)
    (l : list nat) :
  positions_where p i tasks = Ok l ->
  Forall (fun j => (i <= j)%nat /\
                   exists task, tasks !! (j - i)%nat = Some task /\ p task = Ok true) l /\
  NoDup l.
Proof.
  revert i l. induction tasks as [|task tasks IH]; intros i l H.
  - injection H as <-. split; constructor.
  - cbn [positions_where] in H. inv_bind_as H b Hb. inv_bind_as H l' Hl'.
    injection H as <-. destruct (IH _ _ Hl') as [Hall Hnd].
    assert (Hrest : Forall (fun j => (i <= j)%nat /\
              exists t, (task :: tasks) !! (j - i)%nat = Some t /\ p t = Ok true) l').
    { eapply Forall_impl; [exact Hall|]. intros j (Hj & t & Ht & Hp). split; [lia|].
      exists t. split; [|exact Hp].
      replace (j - i)%nat with (S (j - S i)) by lia. exact Ht. }
    destruct b; [|split; assumption]. split.
    + constructor; [|exact Hrest]. split; [lia|]. exists task.
      rewrite Nat.sub_diag. split; [reflexivity | exact Hb].
    + constructor; [|exact Hnd]. intros Hin.
      rewrite Forall_forall in Hall. destruct (Hall _ Hin) as [Hle _]. lia.
Qed.

Lemma chosen_is_object (p : pyval -> result bool) (task : pyval) :
  p = no_dependencies \/ p = is_large \/ p = is_high_priority ->
  p task = Ok true -> exists o, task = PDict o.
Proof.
  intros [-> | [-> | ->]]; destruct task; try discriminate; intros _; eexists; reflexivity.
Qed.

Lemma py_iter_object_is_list (v : pyval) (items : list pyval) (i : nat)
    (o : list (string * pyval)) :
  py_iter v = Ok items -> items !! i = Some (PDict o) -> v = PList items.
Proof.
  destruct v; try discriminate; cbn [py_iter]; intros [= <-] H;
    try reflexivity; rewrite list_lookup_fmap in H;
    match type of H with _ <$> ?x = _ => destruct x end; discriminate.
Qed.

(** The tasks at the positions found are tasks of the plan. *)
Lemma positions_in_plan (plan : dict) (p : pyval -> result bool) (items : list pyval)
    (l : list nat) :
  p = no_dependencies \/ p = is_large \/ p = is_high_priority ->
  py_iter (get_default plan "tasks" (PList [])) = Ok items ->
  positions_where p 0 items = Ok l ->
  l <> [] ->
  plan !! "tasks" = Some (PList items) /\ NoDup l /\
  forall i, i ∈ l -> exists task, items !! i = Some task /\ p task = Ok true.
Proof.
  intros Hp Hiter Hpos Hne. destruct (positions_where_spec _ _ _ _ Hpos) as [Hall Hnd].
  rewrite Forall_forall in Hall.
  assert (Hat : forall i, i ∈ l -> exists task, items !! i = Some task /\ p task = Ok true).
  { intros i Hi. destruct (Hall _ Hi) as (_ & task & Ht & Hpt).
    rewrite Nat.sub_0_r in Ht. exists task. split; assumption. }
  split; [|split; assumption].
  destruct l as [|i l]; [contradiction|].
  destruct (Hat i) as (task & Ht & Hpt); [left|].
  destruct (chosen_is_object p task Hp Hpt) as [o ->].
  pose proof (py_iter_object_is_list _ _ _ _ Hiter Ht) as Hv.
  unfold get_default in Hv. destruct (plan !! "tasks") as [v|]; cbn in Hv.
  - rewrite Hv. reflexivity.
  - injection Hv as <-. discriminate Ht.
Qed.

Lemma fallback_recommendations_chosen (plan : dict) (optimization_goal : string)
    (recs : list pyval) :
  fallback_recommendations plan optimization_goal = Ok recs ->
  (length recs <= 1)%nat /\ Forall (names_chosen_tasks plan optimization_goal) recs.
Proof.
  unfold fallback_recommendations. cbv zeta.
  destruct (String.eqb_spec optimization_goal "time") as [->|_].
  { intros H. inv_bind_as H l Hl. inv_bind_as Hl items Hitems.
    destruct l as [|first [|second l]];
      try solve [injection H as <-; split; [simpl; lia | apply Forall_nil; exact I]].
    injection H as <-. split; [simpl; lia|]. constructor; [|constructor].
    destruct (positions_in_plan plan no_dependencies items _ (or_introl eq_refl) Hitems Hl)
      as (Hplan & Hnd & Hat); [discriminate|].
    eexists _, [first; second], items. split; [reflexivity|].
    split; [reflexivity|]. split; [exact Hplan|].
    split; [|split; [discriminate|]].
    - apply NoDup_cons in Hnd as [Hnot Hnd]. apply NoDup_cons in Hnd as [Hnot' _].
      apply NoDup_cons. split.
      + intros Hin. apply Hnot. apply list_elem_of_singleton in Hin. subst. left.
      + apply NoDup_singleton.
    - intros i Hi. destruct (Hat i) as (task & Ht & Hp).
      + apply elem_of_cons in Hi as [->|Hi]; [left|].
        apply list_elem_of_singleton in Hi. subst. right. left.
      + exists task. split; [exact Ht|]. left. split; [reflexivity | exact Hp]. }
  destruct (String.eqb_spec optimization_goal "resources") as [->|_].
  { intros H. inv_bind_as H l Hl. inv_bind_as Hl items Hitems.
    destruct l as [|first l]; [injection H as <-; split; [simpl; lia|constructor]|].
    inv_bind_as H task Htask. inv_bind_as H hours Hhours.
    injection H as <-. split; [simpl; lia|]. constructor; [|constructor].
    destruct (positions_in_plan plan is_large items _ (or_intror (or_introl eq_refl)) Hitems Hl)
      as (Hplan & Hnd & Hat); [discriminate|].
    eexists _, [first], items. split; [reflexivity|].
    split; [reflexivity|]. split; [exact Hplan|].
    split; [apply NoDup_singleton | split; [discriminate|]].
    intros i Hi. apply list_elem_of_singleton in Hi. subst i.
    destruct (Hat first) as (t & Ht & Hp); [left|].
    exists t. split; [exact Ht|]. right. left. split; [reflexivity | exact Hp]. }
  destruct (String.eqb_spec optimization_goal "risk") as [->|_].
  { intros H. inv_bind_as H l Hl. inv_bind_as Hl items Hitems.
    destruct l as [|first l]; [injection H as <-; split; [simpl; lia|constructor]|].
    injection H as <-. split; [simpl; lia|]. constructor; [|constructor].
    destruct (positions_in_plan plan is_high_priority items _
                (or_intror (or_intror eq_refl)) Hitems Hl)
      as (Hplan & Hnd & Hat); [discriminate|].
    eexists _, [first], items. split; [reflexivity|].
    split; [reflexivity|]. split; [exact Hplan|].
    split; [apply NoDup_singleton | split; [discriminate|]].
    intros i Hi. apply list_elem_of_singleton in Hi. subst i.
    destruct (Hat first) as (t & Ht & Hp); [left|].
    exists t. split; [exact Ht|]. right. right. split; [reflexivity | exact Hp]. }
  intros [= <-]. split; [simpl; lia | constructor].
Qed.

(** X25: the fallback analysis has at most one recommendation, and the
    recommendation names different tasks of the plan by their positions,
    each a task that the goal looks for: without dependencies for time,
    of more than 8 hours for resources, of high priority for risk. *)
Theorem fallback_optimization_names_chosen_tasks (plan : dict) (optimization_goal : string) :
  exists d recs,
    _generate_fallback_optimization plan optimization_goal = PDict d /\
    dict_get "recommendations" d = Some (PList recs) /\
    (length recs <= 1)%nat /\
    Forall (names_chosen_tasks plan optimization_goal) recs.
Proof.
  unfold _generate_fallback_optimization.
  destruct (fallback_recommendations plan optimization_goal) as [recs|e] eqn:E.
  - destruct (fallback_recommendations_chosen _ _ _ E) as [Hlen Hall].
    eexists _, recs. split; [reflexivity|]. split; [reflexivity|]. split; assumption.
  - eexists _, []. split; [reflexivity|]. split; [reflexivity|]. split; [simpl; lia|constructor].
Qed.

Example fallback_optimization_for_time :
  _generate_fallback_optimization three_task_plan "time"
  = optimization
      [recommendation "parallelization" [0; 1]%nat
         "Tasks 1 and 2 have no dependencies and can be done in parallel"
         "Reduces total completion time" "high"]
      "Basic optimization suggestions provided"
      "AI analysis unavailable - using basic heuristics" "Fallback optimization completed".
Proof. vm_compute. reflexivity. Qed.

Example fallback_optimization_for_resources :
  _generate_fallback_optimization three_task_plan "resources"
  = optimization
      [recommendation "resource_optimization" [0]%nat
         "Task 1 is quite large (12h). Consider breaking it into smaller subtasks"
         "Better resource management and progress tracking" "medium"]
      "Basic optimization suggestions provided"
      "AI analysis unavailable - using basic heuristics" "Fallback optimization completed".
Proof. vm_compute. reflexivity. Qed.

(** *** [optimize_plan] *)

Lemma fallback_optimization_keys (plan : dict) (optimization_goal : string) :
  has_keys optimization_keys (_generate_fallback_optimization plan optimization_goal).
Proof.
  unfold _generate_fallback_optimization.
  destruct (fallback_recommendations plan optimization_goal); eexists;
    (split; [reflexivity|]);
    repeat (apply Forall_cons; split; [eexists; reflexivity|]); apply Forall_nil; exact I.
Qed.

Lemma response_json_is_object (response v : pyval) :
  response_json response = Ok v -> exists d, v = PDict d.
Proof.
  unfold response_json. intros H. inv_bind_as H content Hcontent.
  destruct (as_str content) as [s|]; [|discriminate].
  eapply extract_json_is_object, H.
Qed.

(** X26: whatever the call of the model returns or raises, and whatever
    the plan holds, [optimize_plan] returns an object with the keys
    recommendations, estimated_improvement, warnings and summary. *)
Theorem optimize_plan_returns_analysis (call_ollama : result pyval) (plan : dict)
    (optimization_goal : string) :
  has_keys optimization_keys (optimize_plan call_ollama plan optimization_goal).
Proof.
  unfold optimize_plan.
  destruct (optimization_from_response _ _ _) as [analysis|e] eqn:E;
    [|apply fallback_optimization_keys].
  unfold optimization_from_response in E.
  inv_bind_as E tasks Htasks. inv_bind_as E lines Hlines.
  inv_bind_as E tasks' Htasks'. inv_bind_as E total Htotal.
  inv_bind_as E response Hresponse. inv_bind_as E missing Hmissing.
  destruct missing.
  - injection E as <-. apply fallback_optimization_keys.
  - inv_bind_as E optimization_data Hdata.
    destruct (truthy optimization_data).
    + injection E as <-. destruct (response_json_is_object _ _ Hdata) as [d ->].
      exists (validate_optimization_object d plan). split; [reflexivity|].
      apply validate_optimization_object_keys.
    + injection E as <-. apply fallback_optimization_keys.
Qed.

(** A reply with an analysis is validated: of the task ids 0 and 5 of a
    plan of three tasks, 0 is left. *)
Example optimize_plan_validates_reply :
  optimize_plan
    (analysis_reply
       "Here: {'recommendations': [{'task_ids': [0, 5], 'type': 'sequencing'}], 'summary': 'ok'}")
    three_task_plan "time"
  = PDict [("recommendations",
            PList [PDict [("task_ids", PList [PInt 0]); ("type", PStr "sequencing");
                          ("suggestion", PStr "General optimization suggestion");
                          ("impact", PStr "Positive impact expected");
                          ("priority", PStr "medium")]]);
           ("summary", PStr "ok");
           ("estimated_improvement", PStr "Analysis completed");
           ("warnings", PList [])].
Proof. vm_compute. reflexivity. Qed.

(** A recommendation whose task ids are a number ends the validation:
    it is returned as it came, and so are those after it. *)
Example optimize_plan_keeps_unvalidated :
  optimize_plan
    (analysis_reply "{'recommendations': [{'task_ids': [2, 9]}, {'task_ids': 7}, {'task_ids': [8]}]}")
    three_task_plan "risk"
  = PDict [("recommendations",
            PList [PDict [("task_ids", PList [PInt 2]); ("type", PStr "general");
                          ("suggestion", PStr "General optimization suggestion");
                          ("impact", PStr "Positive impact expected");
                          ("priority", PStr "medium")];
                   PDict [("task_ids", PInt 7)];
                   PDict [("task_ids", PList [PInt 8])]]);
           ("estimated_improvement", PStr "Analysis completed");
           ("warnings", PList []);
           ("summary", PStr "Plan analysis completed")].
Proof. vm_compute. reflexivity. Qed.

(** ** Subtasks from the model *)









Lemma length_object_positions (i : nat) (entries : list pyval) :
  length (object_positions i entries) = length (List.filter is_object entries).
Proof.
  revert i. induction entries as [|v entries IH]; intros i; [reflexivity|].
  destruct v; cbn [object_positions List.filter is_object length]; rewrite ?IH; reflexivity.
Qed.




(** The subtasks of the example: the hours 1 and 3 of the reply are
    scaled to the 6 hours of the task, and the ids start at 1. *)
Example subtasks_of_six_hour_task :
  generate_subtasks (Ok subtasks_reply) six_hour_task
  = Ok [subtask 1 "Schema" (PStr "Complete subtask 2") (PFloat (3 # 2));
        subtask 2 "Subtask 3" (PStr "Complete subtask 3") (PFloat (9 # 2))].
Proof. vm_compute. reflexivity. Qed.

(** A reply that lists two numbers gives no subtasks at all, where every
    other unusable reply gives the three subtasks of the fallback. *)
Example subtasks_of_a_list_of_numbers :
  generate_subtasks (Ok (PDict [("response", PStr (quoted "{'subtasks': [1, 2]}"))]))
    six_hour_task = Ok [].
Proof. vm_compute. reflexivity. Qed.

(** ** Suggestions *)

(** *** The available tasks *)

Lemma in_strs_singleton (v : pyval) (w : string) : in_strs v [w] = true -> as_str v = Some w.
Proof.
  unfold in_strs. destruct (as_str v) as [s|]; [|discriminate]. cbn [existsb].
  rewrite orb_false_r. intros H. apply String.eqb_eq in H. subst. reflexivity.
Qed.

Lemma completed_ids_spec (tasks : list pyval) (ids : list pyval) :
  completed_ids tasks = Ok ids ->
  Forall (fun id => exists t status,
            t ∈ tasks /\ py_get t "status" PNone = Ok status /\
            as_str status = Some "completed" /\ item "id" t = Ok id) ids.
Proof.
  revert ids. induction tasks as [|t tasks IH]; intros ids H.
  - injection H as <-. constructor.
  - cbn [completed_ids] in H. inv_bind_as H status Hstatus.
    assert (Hrest : forall ids', completed_ids tasks = Ok ids' ->
              Forall (fun id => exists t' status',
                        t' ∈ t :: tasks /\ py_get t' "status" PNone = Ok status' /\
                        as_str status' = Some "completed" /\ item "id" t' = Ok id) ids').
    { intros ids' H'. eapply Forall_impl; [apply IH, H'|].
      intros id (t' & s' & Hin & Hrest). exists t', s'. split; [right; exact Hin | exact Hrest]. }
    destruct (in_strs status ["completed"]) eqn:E; [|apply Hrest, H].
    inv_bind_as H id Hid. inv_bind_as H ids' Hids'. injection H as <-.
    constructor; [|apply Hrest, Hids'].
    exists t, status. split; [left|]. split; [exact Hstatus|].
    split; [apply in_strs_singleton, E | exact Hid].
Qed.

Lemma available_spec (completed tasks : list pyval) (l : list dict) :
  available completed tasks = Ok l ->
  Forall (fun s => exists task dependencies deps,
            task ∈ tasks /\ open_status task /\
            suggestion task dependencies = Ok s /\
            py_get task "dependencies" (PList []) = Ok dependencies /\
            py_iter dependencies = Ok deps /\
            deps_completed completed deps = true) l.
Proof.
  revert l. induction tasks as [|task tasks IH]; intros l H.
  - injection H as <-. constructor.
  - cbn [available] in H. inv_bind_as H status Hstatus.
    assert (Hrest : forall l', available completed tasks = Ok l' ->
              Forall (fun s => exists task' dependencies deps,
                        task' ∈ task :: tasks /\ open_status task' /\
                        suggestion task' dependencies = Ok s /\
                        py_get task' "dependencies" (PList []) = Ok dependencies /\
                        py_iter dependencies = Ok deps /\
                        deps_completed completed deps = true) l').
    { intros l' H'. eapply Forall_impl; [apply IH, H'|].
      intros s (t' & ds & deps & Hin & Hrest). exists t', ds, deps.
      split; [right; exact Hin | exact Hrest]. }
    destruct (in_strs status ["completed"; "in_progress"]) eqn:E; [apply Hrest, H|].
    inv_bind_as H dependencies Hdependencies. inv_bind_as H deps Hdeps.
    destruct (deps_completed completed deps) eqn:Edeps; [|apply Hrest, H].
    inv_bind_as H entry Hentry. inv_bind_as H entries Hentries. injection H as <-.
    constructor; [|apply Hrest, Hentries].
    exists task, dependencies, deps. split; [left|].
    split; [exists status; split; assumption|].
    repeat split; assumption.
Qed.

Lemma deps_completed_ids (tasks completed deps : list pyval) :
  completed_ids tasks = Ok completed ->
  deps_completed completed deps = true ->
  Forall (completed_id tasks) deps.
Proof.
  intros Hids H. apply completed_ids_spec in Hids. rewrite Forall_forall in Hids.
  apply Forall_forall. intros dep Hdep.
  unfold deps_completed in H. rewrite forallb_forall in H.
  apply list_elem_of_In in Hdep. specialize (H dep Hdep).
  apply existsb_exists in H as (id & Hid & Heq).
  apply list_elem_of_In in Hid.
  destruct (Hids id Hid) as (t & status & Ht & Hs & Hc & Hi).
  exists t, status, id. repeat split; assumption.
Qed.

Lemma available_tasks_suggest (plan_data : dict) (l : list dict) :
  available_tasks plan_data = Ok l ->
  exists tasks, getitem plan_data "tasks" ≫= py_iter = Ok tasks /\ Forall (suggests tasks) l.
Proof.
  unfold available_tasks. intros H. inv_bind_as H tasks Htasks.
  inv_bind_as H completed Hcompleted. inv_bind_as H tasks' Htasks'.
  rewrite Htasks in Htasks'. injection Htasks' as <-.
  exists tasks. split; [exact Htasks|].
  eapply Forall_impl; [apply available_spec, H|].
  intros s (task & dependencies & deps & Hin & Hopen & Hs & Hd & Hi & Hc).
  exists task, dependencies, deps. repeat split; try assumption.
  eapply deps_completed_ids; eassumption.
Qed.

(** *** The sort *)

Lemma keyed_snd (l : list dict) (keys : list ((Z * pyval) * dict)) :
  keyed l = Ok keys -> map snd keys = l /\ Forall (fun p => sort_key (snd p) = Ok (fst p)) keys.
Proof.
  revert keys. induction l as [|x l IH]; intros keys H.
  - injection H as <-. split; [reflexivity | constructor].
  - cbn [keyed] in H. inv_bind_as H k Hk. inv_bind_as H ks Hks. injection H as <-.
    destruct (IH _ Hks) as [IH1 IH2]. split.
    + cbn [map snd]. rewrite IH1. reflexivity.
    + constructor; [exact Hk | exact IH2].
Qed.

Lemma insert_by_key_perm (x : (Z * pyval) * dict) (l : list ((Z * pyval) * dict)) :
  Permutation (insert_by_key x l) (x :: l).
Proof.
  induction l as [|y l IH]; [reflexivity|]. cbn [insert_by_key].
  destruct (ok_or false _); [|reflexivity].
  rewrite IH. apply perm_swap.
Qed.

Lemma insertion_perm (keys : list ((Z * pyval) * dict)) :
  Permutation (fold_right insert_by_key [] keys) keys.
Proof.
  induction keys as [|x keys IH]; [reflexivity|]. cbn [fold_right].
  rewrite insert_by_key_perm, IH. reflexivity.
Qed.

Lemma sort_by_key_perm (l sorted : list dict) :
  sort_by_key l = Ok sorted -> Permutation sorted l.
Proof.
  unfold sort_by_key. intros H. inv_bind_as H keys Hkeys.
  destruct (all_pairs _ keys); [|discriminate]. injection H as <-.
  destruct (keyed_snd _ _ Hkeys) as [Hl _]. rewrite <- Hl.
  apply Permutation_map, insertion_perm.
Qed.

(** X29: [suggest_next_tasks] returns at most five suggestions, and each
    is made from a task of the plan that is neither completed nor in
    progress, and whose dependencies are all equal to the id of some
    completed task of the plan. *)
Theorem suggestions_are_ready (plan_data current_progress : dict) :
  (length (suggest_next_tasks plan_data current_progress) <= 5)%nat /\
  Forall (fun s => exists tasks,
            getitem plan_data "tasks" ≫= py_iter = Ok tasks /\ suggests tasks s)
    (suggest_next_tasks plan_data current_progress).
Proof.
  unfold suggest_next_tasks, available_suggestions.
  destruct (available_tasks plan_data) as [l|e] eqn:E; [|split; [simpl; lia | constructor]].
  cbn [mbind result_bind].
  destruct (sort_by_key l) as [sorted|e] eqn:S; [|split; [simpl; lia | constructor]].
  cbn [mbind result_bind ok_or]. split.
  - rewrite length_take. lia.
  - destruct (available_tasks_suggest _ _ E) as (tasks & Htasks & Hall).
    apply Forall_forall. intros s Hs. exists tasks. split; [exact Htasks|].
    rewrite Forall_forall in Hall. apply Hall.
    apply subseteq_take in Hs. apply list_elem_of_In.
    eapply Permutation_in; [apply sort_by_key_perm, S|]. apply list_elem_of_In, Hs.
Qed.

(** *** The order of the suggestions *)

Lemma py_eq_numbers (a b : pyval) (x y : Q) :
  as_number a = Ok x -> as_number b = Ok y -> py_eq a b = Qeq_bool x y.
Proof.
  destruct a; try discriminate; destruct b; try discriminate;
    cbn [as_number]; intros [= <-] [= <-]; reflexivity.
Qed.

Lemma py_lt_numbers (a b : pyval) (x y : Q) :
  as_number a = Ok x -> as_number b = Ok y -> py_lt a b = Ok (Qltb x y).
Proof.
  destruct a; try discriminate; destruct b; try discriminate;
    cbn [as_number]; intros [= <-] [= <-]; reflexivity.
Qed.

Lemma Qltb_true (x y : Q) : Qltb x y = true -> (x < y)%Q.
Proof.
  unfold Qltb. intros H. apply negb_true_iff in H.
  apply Qnot_le_lt. intros Hle. apply Qle_bool_iff in Hle. congruence.
Qed.

Lemma Qltb_false (x y : Q) : Qltb x y = false -> (y <= x)%Q.
Proof. unfold Qltb. intros H. apply negb_false_iff in H. apply Qle_bool_iff, H. Qed.

(** The comparison of two keys with numbers of hours returns, and
    decides their order. *)
Lemma key_lt_numeric (a b : (Z * pyval) * dict) :
  numeric_key a -> numeric_key b ->
  exists lt, key_lt (fst a) (fst b) = Ok lt /\ if lt : bool then key_le a b else key_le b a.
Proof.
  intros [x Hx] [y Hy]. unfold key_lt.
  destruct (Z.eqb_spec (fst (fst a)) (fst (fst b))) as [Heq|Hne].
  - rewrite (py_eq_numbers _ _ _ _ Hx Hy).
    destruct (Qeq_bool x y) eqn:E.
    + exists false. split; [reflexivity|]. exists y, x. split; [exact Hy|]. split; [exact Hx|].
      right. split; [symmetry; exact Heq|]. apply Qeq_bool_iff in E. rewrite E. apply Qle_refl.
    + rewrite (py_lt_numbers _ _ _ _ Hx Hy). exists (Qltb x y). split; [reflexivity|].
      destruct (Qltb x y) eqn:L.
      * exists x, y. split; [exact Hx|]. split; [exact Hy|].
        right. split; [exact Heq|]. apply Qlt_le_weak, Qltb_true, L.
      * exists y, x. split; [exact Hy|]. split; [exact Hx|].
        right. split; [symmetry; exact Heq|]. apply Qltb_false, L.
  - exists (fst (fst a) <? fst (fst b)). split; [reflexivity|].
    destruct (Z.ltb_spec (fst (fst a)) (fst (fst b))).
    + exists x, y. split; [exact Hx|]. split; [exact Hy|]. left. assumption.
    + exists y, x. split; [exact Hy|]. split; [exact Hx|]. left. lia.
Qed.

Lemma key_le_trans (a b c : (Z * pyval) * dict) : key_le a b -> key_le b c -> key_le a c.
Proof.
  intros (x & y & Hx & Hy & Hab) (y' & z & Hy' & Hz & Hbc).
  rewrite Hy in Hy'. injection Hy' as <-.
  exists x, z. split; [exact Hx|]. split; [exact Hz|].
  destruct Hab as [Hab | [Hab Hxy]], Hbc as [Hbc | [Hbc Hyz]].
  - left. lia.
  - left. lia.
  - left. lia.
  - right. split; [lia|]. eapply Qle_trans; eassumption.
Qed.

Lemma insert_by_key_numeric (x : (Z * pyval) * dict) (l : list ((Z * pyval) * dict)) :
  numeric_key x -> Forall numeric_key l -> Forall numeric_key (insert_by_key x l).
Proof.
  intros Hx Hl. apply Forall_forall. intros y Hy. apply list_elem_of_In in Hy.
  apply (Permutation_in _ (insert_by_key_perm x l)) in Hy.
  destruct Hy as [<- | Hy]; [exact Hx|].
  rewrite Forall_forall in Hl. apply Hl, list_elem_of_In, Hy.
Qed.

Lemma insert_by_key_sorted (x : (Z * pyval) * dict) (l : list ((Z * pyval) * dict)) :
  numeric_key x -> Forall numeric_key l ->
  StronglySorted key_le l -> StronglySorted key_le (insert_by_key x l).
Proof.
  intros Hx Hl Hs. induction Hs as [|y l Hs IH Hy]; cbn [insert_by_key].
  - constructor; constructor.
  - apply Forall_cons in Hl as [Hny Hl].
    destruct (key_lt_numeric y x Hny Hx) as (lt & Hlt & Hord). rewrite Hlt. cbn [ok_or].
    destruct lt.
    + constructor; [apply IH, Hl|].
      apply Forall_forall. intros z Hz. apply list_elem_of_In in Hz.
      apply (Permutation_in _ (insert_by_key_perm x l)) in Hz.
      destruct Hz as [<- | Hz]; [exact Hord|].
      rewrite Forall_forall in Hy. apply Hy, list_elem_of_In, Hz.
    + constructor; [constructor; assumption|].
      constructor; [exact Hord|].
      eapply Forall_impl; [exact Hy|]. intros z Hz. eapply key_le_trans; eassumption.
Qed.

Lemma insertion_sorted (keys : list ((Z * pyval) * dict)) :
  Forall numeric_key keys ->
  Forall numeric_key (fold_right insert_by_key [] keys) /\
  StronglySorted key_le (fold_right insert_by_key [] keys).
Proof.
  induction 1 as [|x keys Hx _ [IH1 IH2]]; cbn [fold_right].
  - split; constructor.
  - split; [apply insert_by_key_numeric | apply insert_by_key_sorted]; assumption.
Qed.

Lemma all_pairs_numeric (keys : list ((Z * pyval) * dict)) :
  Forall numeric_key keys ->
  all_pairs (fun a b => is_ok (key_lt (fst a) (fst b))) keys = true.
Proof.
  induction 1 as [|x keys Hx Hkeys IH]; [reflexivity|].
  cbn [all_pairs]. rewrite IH, andb_true_r.
  apply forallb_forall. intros y Hy. apply list_elem_of_In in Hy.
  rewrite Forall_forall in Hkeys.
  destruct (key_lt_numeric x y Hx (Hkeys _ Hy)) as (lt & -> & _). reflexivity.
Qed.

Lemma keyed_sortable (l : list dict) :
  Forall sortable_entry l ->
  exists keys, keyed l = Ok keys /\ Forall numeric_key keys.
Proof.
  induction 1 as [|s l (rank & hours & x & Hkey & Hx) _ (keys & Hkeys & Hnum)].
  - exists []. split; [reflexivity | constructor].
  - exists ((rank, hours, s) :: keys). cbn [keyed]. rewrite Hkey, Hkeys.
    split; [reflexivity|]. constructor; [exists x; exact Hx | exact Hnum].
Qed.

Lemma key_le_in_order (a b : (Z * pyval) * dict) :
  sort_key (snd a) = Ok (fst a) -> sort_key (snd b) = Ok (fst b) ->
  key_le a b -> in_order (snd a) (snd b).
Proof.
  intros Ha Hb (x & y & Hx & Hy & Hord).
  exists (fst (fst a)), x, (fst (fst b)), y. unfold rank_and_hours.
  rewrite Ha, Hb. destruct a as [[ra ha] sa], b as [[rb hb] sb]. cbn [fst snd] in *.
  rewrite Hx, Hy. repeat split. exact Hord.
Qed.

Lemma sorted_map_snd (l : list ((Z * pyval) * dict)) :
  Forall (fun p => sort_key (snd p) = Ok (fst p)) l ->
  StronglySorted key_le l -> StronglySorted in_order (map snd l).
Proof.
  intros Hkeys Hs. induction Hs as [|a l Hs IH Ha]; [constructor|].
  apply Forall_cons in Hkeys as [Hka Hkeys]. cbn [map]. constructor; [apply IH, Hkeys|].
  apply Forall_forall. intros s Hs'. apply list_elem_of_In, in_map_iff in Hs'.
  destruct Hs' as (b & <- & Hb). apply list_elem_of_In in Hb.
  rewrite Forall_forall in Ha, Hkeys. apply key_le_in_order; auto.
Qed.

Lemma sort_by_key_sorted (l : list dict) :
  Forall sortable_entry l ->
  exists sorted, sort_by_key l = Ok sorted /\ StronglySorted in_order sorted.
Proof.
  intros Hl. destruct (keyed_sortable l Hl) as (keys & Hkeys & Hnum).
  unfold sort_by_key. rewrite Hkeys. cbn [mbind result_bind].
  rewrite (all_pairs_numeric keys Hnum). eexists. split; [reflexivity|].
  destruct (keyed_snd _ _ Hkeys) as [_ Hsnd].
  destruct (insertion_sorted keys Hnum) as [_ Hsorted].
  apply sorted_map_snd; [|exact Hsorted].
  apply Forall_forall. intros p Hp. apply list_elem_of_In in Hp.
  apply (Permutation_in _ (insertion_perm keys)) in Hp.
  rewrite Forall_forall in Hsnd. apply Hsnd, list_elem_of_In, Hp.
Qed.

Lemma suggestion_sortable (task dependencies : pyval) (s : dict) :
  sortable_task task -> suggestion task dependencies = Ok s -> sortable_entry s.
Proof.
  intros (priority & hours & x & Hp & Hh & Hx). unfold suggestion. intros H.
  inv_bind_as H id Hid. inv_bind_as H title Htitle. inv_bind_as H description Hdescription.
  inv_bind_as H priority' Hpriority. inv_bind_as H hours' Hhours. inv_bind_as H deadline Hdeadline.
  rewrite Hp in Hpriority. injection Hpriority as <-.
  rewrite Hh in Hhours. injection Hhours as <-. injection H as <-.
  eexists _, hours, x. split; [|exact Hx].
  unfold sort_key, getitem.
  repeat (rewrite lookup_insert_ne by discriminate || rewrite lookup_insert_eq).
  cbn [mbind result_bind priority_order].
  repeat (rewrite lookup_insert_ne by discriminate || rewrite lookup_insert_eq).
  reflexivity.
Qed.

(** X30: in a plan whose tasks all have a text as priority and a number
    of hours, the suggestions are the first five of the available tasks
    in the order of the sort: high priority first, low priority last, any
    other in between, and fewer hours first within one priority.  When
    the loop over the tasks raises, there are no suggestions. *)
Theorem suggestions_are_in_order (plan_data current_progress : dict) (tasks : list pyval) :
  plan_data !! "tasks" = Some (PList tasks) ->
  Forall sortable_task tasks ->
  match available_tasks plan_data with
  | Ok available =>
      exists rest,
        Permutation (suggest_next_tasks plan_data current_progress ++ rest) available /\
        StronglySorted in_order (suggest_next_tasks plan_data current_progress ++ rest) /\
        length (suggest_next_tasks plan_data current_progress) = Nat.min 5 (length available)
  | Raise _ => suggest_next_tasks plan_data current_progress = []
  end.
Proof.
  intros Hplan Htasks. unfold suggest_next_tasks, available_suggestions.
  destruct (available_tasks plan_data) as [l|e] eqn:E; [|reflexivity].
  cbn [mbind result_bind].
  destruct (available_tasks_suggest _ _ E) as (tasks' & Htasks' & Hall).
  unfold getitem in Htasks'. rewrite Hplan in Htasks'. injection Htasks' as <-.
  assert (Hl : Forall sortable_entry l).
  { eapply Forall_impl; [exact Hall|].
    intros s (task & dependencies & deps & Hin & _ & Hs & _).
    rewrite Forall_forall in Htasks. eapply suggestion_sortable; [apply Htasks, Hin | exact Hs]. }
  destruct (sort_by_key_sorted l Hl) as (sorted & Hsort & Hsorted).
  rewrite Hsort. cbn [mbind result_bind ok_or].
  pose proof (sort_by_key_perm _ _ Hsort) as Hperm.
  exists (drop 5 sorted). rewrite take_drop. split; [exact Hperm|]. split; [exact Hsorted|].
  rewrite length_take, (Permutation_length Hperm). reflexivity.
Qed.

Lemma suggestions_are_in_order_witness :
  match available_tasks plan_in_progress with
  | Ok available =>
      exists rest,
        Permutation (suggest_next_tasks plan_in_progress ∅ ++ rest) available /\
        StronglySorted in_order (suggest_next_tasks plan_in_progress ∅ ++ rest) /\
        length (suggest_next_tasks plan_in_progress ∅) = Nat.min 5 (length available)
  | Raise _ => suggest_next_tasks plan_in_progress ∅ = []
  end.
Proof.
  apply (suggestions_are_in_order plan_in_progress ∅ tasks_in_progress).
  - reflexivity.
  - repeat (apply Forall_cons; split;
            [eexists _, _, _; split; [reflexivity|]; split; reflexivity|]).
    apply Forall_nil. exact I.
Defined.

(** The suggestions of the example: of the tasks that wait only for the
    completed one, the one of high priority comes first, the one of an
    unknown priority next, the one of low priority last; the task that
    waits for the one in progress is not suggested. *)
Example suggestions_of_plan_in_progress :
  map id_of (suggest_next_tasks plan_in_progress ∅)
  = [Some (PInt 5); Some (PInt 4); Some (PInt 2)].
Proof. vm_compute. reflexivity. Qed.
